(** * ASID allocation and TLB shootdown (uvm/pmap/pmap_tlb.c)

    A shallow embedding of the machine-independent ASID manager of the
    NetBSD kernel: the per-TLB bitmap of ASIDs in use, the list of pmaps
    holding an ASID, allocation, reclamation, reinitialisation of the ASID
    space, and the shootdown requests merged per TLB.

    Kernel objects live in an explicit store and every routine is a state
    transformer that may stop (a failed KASSERT on a DIAGNOSTIC kernel, a
    dereference of something that is not an object).  The compile-time
    options of the file are the fields of [config]. *)

From stdpp Require Import gmap list.
From Stdlib Require Import ZArith Lia.

Local Open Scope Z_scope.

(** ** Build configuration *)

(** The preprocessor symbols pmap_tlb.c is compiled under.  [NBPW] is
    [NBBY * sizeof(u_long)], the width of one bitmap word. *)
Record config := {
  KERNEL_PID : Z;
  PMAP_TLB_FLUSH_ASID_ON_RESET : bool;
  MULTIPROCESSOR : bool;
  PMAP_TLB_NEED_SHOOTDOWN : bool;
  PMAP_TLB_MAX : nat;
  DIAGNOSTIC : bool;
  NBPW : Z
}.

(** A pmap is named by its address; [pmap_kernel ()] is a fixed one. *)
Definition pmap_t := nat.
Definition pmap_kernel : pmap_t := 0%nat.

(** ** enum tlb_invalidate_op *)

(** Modelled from the spec: the enumeration is declared in pmap_tlb.h, which
    is not part of the sources at hand; the five operations are numbered as
    the cases 0) to 4) of the head comment of pmap_tlb.c (nobody, one ASID,
    more than one ASID, the kernel, the kernel and one or more ASIDs). *)
Definition TLBINV_NOBODY : Z := 0.
Definition TLBINV_ONE : Z := 1.
Definition TLBINV_ALLUSER : Z := 2.
Definition TLBINV_ALLKERNEL : Z := 3.
Definition TLBINV_ALL : Z := 4.

(** The "table" packed in one integer, three bits per entry. *)
Definition TLBINV_MAP (op nobody one alluser allkernel all : Z) : Z :=
  Z.land
    (Z.shiftr
       (Z.lor (Z.lor (Z.lor (Z.lor
          (Z.shiftl nobody (3 * TLBINV_NOBODY))
          (Z.shiftl one (3 * TLBINV_ONE)))
          (Z.shiftl alluser (3 * TLBINV_ALLUSER)))
          (Z.shiftl allkernel (3 * TLBINV_ALLKERNEL)))
          (Z.shiftl all (3 * TLBINV_ALL)))
       (3 * op))
    7.

Definition TLBINV_USER_MAP (op : Z) : Z :=
  TLBINV_MAP op TLBINV_ONE TLBINV_ALLUSER TLBINV_ALLUSER TLBINV_ALL TLBINV_ALL.

Definition TLBINV_KERNEL_MAP (op : Z) : Z :=
  TLBINV_MAP op TLBINV_ALLKERNEL TLBINV_ALL TLBINV_ALL TLBINV_ALLKERNEL
    TLBINV_ALL.

(** ** Machine integers *)

(** [ti_asids_free] is a 32-bit unsigned counter. *)
Definition wrap32 (x : Z) : Z := x mod 2 ^ 32.

(** Number of trailing zero bits of a positive number. *)
Fixpoint ctz (p : positive) : Z :=
  match p with
  | xO q => 1 + ctz q
  | _ => 0
  end.

(** [__builtin_ffsl]: one plus the index of the least significant set bit,
    zero when no bit is set. *)
Definition ffsl (x : Z) : Z :=
  match x with
  | Zpos p => ctz p + 1
  | _ => 0
  end.

(** ** The kernel objects *)

(** [struct pmap_tlb_info].  The ASID bitmap is the array [_b] of words; the
    list [ti_pais] holds, head first, the pmaps whose [pmap_asid_info] for
    this TLB is linked; [ti_lock] tells whether the mutex is held. *)
Record pmap_tlb_info := {
  ti_asids_free : Z;
  ti_asid_hint : Z;
  ti_asid_max : Z;
  ti_asid_bitmap : list Z;
  ti_pais : list pmap_t;
  ti_victim : option pmap_t;
  ti_kcpuset : gset nat;
  ti_tlbinvop : Z;
  ti_lock : bool;
  ti_evcnt_asid_reinits : Z
}.

(** [struct pmap]: [pm_pai] gives [pm_pai[i].pai_asid] for the TLB of index
    [i] (zero where nothing was stored). *)
Record pmap := {
  pm_pai : gmap nat Z;
  pm_active : gset nat;
  pm_onproc : gset nat
}.

(** Modelled from the spec: the TLB of the executing CPU, reached through
    the machine-dependent primitives [tlb_set_asid], [tlb_invalidate_asids],
    [tlb_invalidate_globals], [tlb_invalidate_all] and [tlb_record_asids],
    which are not part of the sources at hand.  [hw_entries] lists the ASID
    tag of every resident entry that is not global, [hw_globals] counts the
    resident global entries, [hw_asid] is the current ASID register. *)
Record hardware := {
  hw_asid : Z;
  hw_entries : list Z;
  hw_globals : nat
}.

(** The store: the array [pmap_tlbs] (its length is [pmap_ntlbs]), the pmaps,
    [kcpuset_running], the executing CPU's [ci_pmap_asid_cur] and TLB, and
    the CPUs an IPI_SHOOTDOWN was sent to, oldest first. *)
Record kstate := {
  pmap_tlbs : list pmap_tlb_info;
  pmaps : gmap nat pmap;
  kcpuset_running : gset nat;
  ci_pmap_asid_cur : Z;
  hw : hardware;
  ipis : list nat
}.

(** [struct cpu_info], as far as this file reads it: [cpu_index (ci)] and
    the index of [cpu_tlb_info (ci)] in [pmap_tlbs]. *)
Record cpu_info := {
  ci_index : nat;
  ci_tlb : nat
}.

(** *** Field updates *)

Definition set_asids_free (v : Z) (ti : pmap_tlb_info) : pmap_tlb_info :=
  {| ti_asids_free := v; ti_asid_hint := ti_asid_hint ti;
     ti_asid_max := ti_asid_max ti; ti_asid_bitmap := ti_asid_bitmap ti;
     ti_pais := ti_pais ti; ti_victim := ti_victim ti;
     ti_kcpuset := ti_kcpuset ti; ti_tlbinvop := ti_tlbinvop ti;
     ti_lock := ti_lock ti;
     ti_evcnt_asid_reinits := ti_evcnt_asid_reinits ti |}.

Definition set_asid_hint (v : Z) (ti : pmap_tlb_info) : pmap_tlb_info :=
  {| ti_asids_free := ti_asids_free ti; ti_asid_hint := v;
     ti_asid_max := ti_asid_max ti; ti_asid_bitmap := ti_asid_bitmap ti;
     ti_pais := ti_pais ti; ti_victim := ti_victim ti;
     ti_kcpuset := ti_kcpuset ti; ti_tlbinvop := ti_tlbinvop ti;
     ti_lock := ti_lock ti;
     ti_evcnt_asid_reinits := ti_evcnt_asid_reinits ti |}.

Definition set_asid_max (v : Z) (ti : pmap_tlb_info) : pmap_tlb_info :=
  {| ti_asids_free := ti_asids_free ti; ti_asid_hint := ti_asid_hint ti;
     ti_asid_max := v; ti_asid_bitmap := ti_asid_bitmap ti;
     ti_pais := ti_pais ti; ti_victim := ti_victim ti;
     ti_kcpuset := ti_kcpuset ti; ti_tlbinvop := ti_tlbinvop ti;
     ti_lock := ti_lock ti;
     ti_evcnt_asid_reinits := ti_evcnt_asid_reinits ti |}.

Definition set_asid_bitmap (v : list Z) (ti : pmap_tlb_info)
  : pmap_tlb_info :=
  {| ti_asids_free := ti_asids_free ti; ti_asid_hint := ti_asid_hint ti;
     ti_asid_max := ti_asid_max ti; ti_asid_bitmap := v;
     ti_pais := ti_pais ti; ti_victim := ti_victim ti;
     ti_kcpuset := ti_kcpuset ti; ti_tlbinvop := ti_tlbinvop ti;
     ti_lock := ti_lock ti;
     ti_evcnt_asid_reinits := ti_evcnt_asid_reinits ti |}.

Definition set_pais (v : list pmap_t) (ti : pmap_tlb_info) : pmap_tlb_info :=
  {| ti_asids_free := ti_asids_free ti; ti_asid_hint := ti_asid_hint ti;
     ti_asid_max := ti_asid_max ti; ti_asid_bitmap := ti_asid_bitmap ti;
     ti_pais := v; ti_victim := ti_victim ti;
     ti_kcpuset := ti_kcpuset ti; ti_tlbinvop := ti_tlbinvop ti;
     ti_lock := ti_lock ti;
     ti_evcnt_asid_reinits := ti_evcnt_asid_reinits ti |}.

Definition set_victim (v : option pmap_t) (ti : pmap_tlb_info)
  : pmap_tlb_info :=
  {| ti_asids_free := ti_asids_free ti; ti_asid_hint := ti_asid_hint ti;
     ti_asid_max := ti_asid_max ti; ti_asid_bitmap := ti_asid_bitmap ti;
     ti_pais := ti_pais ti; ti_victim := v;
     ti_kcpuset := ti_kcpuset ti; ti_tlbinvop := ti_tlbinvop ti;
     ti_lock := ti_lock ti;
     ti_evcnt_asid_reinits := ti_evcnt_asid_reinits ti |}.

Definition set_tlbinvop (v : Z) (ti : pmap_tlb_info) : pmap_tlb_info :=
  {| ti_asids_free := ti_asids_free ti; ti_asid_hint := ti_asid_hint ti;
     ti_asid_max := ti_asid_max ti; ti_asid_bitmap := ti_asid_bitmap ti;
     ti_pais := ti_pais ti; ti_victim := ti_victim ti;
     ti_kcpuset := ti_kcpuset ti; ti_tlbinvop := v;
     ti_lock := ti_lock ti;
     ti_evcnt_asid_reinits := ti_evcnt_asid_reinits ti |}.

Definition set_lock (v : bool) (ti : pmap_tlb_info) : pmap_tlb_info :=
  {| ti_asids_free := ti_asids_free ti; ti_asid_hint := ti_asid_hint ti;
     ti_asid_max := ti_asid_max ti; ti_asid_bitmap := ti_asid_bitmap ti;
     ti_pais := ti_pais ti; ti_victim := ti_victim ti;
     ti_kcpuset := ti_kcpuset ti; ti_tlbinvop := ti_tlbinvop ti;
     ti_lock := v;
     ti_evcnt_asid_reinits := ti_evcnt_asid_reinits ti |}.

Definition set_evcnt_asid_reinits (v : Z) (ti : pmap_tlb_info)
  : pmap_tlb_info :=
  {| ti_asids_free := ti_asids_free ti; ti_asid_hint := ti_asid_hint ti;
     ti_asid_max := ti_asid_max ti; ti_asid_bitmap := ti_asid_bitmap ti;
     ti_pais := ti_pais ti; ti_victim := ti_victim ti;
     ti_kcpuset := ti_kcpuset ti; ti_tlbinvop := ti_tlbinvop ti;
     ti_lock := ti_lock ti;
     ti_evcnt_asid_reinits := v |}.

Definition pai_asid (pm : pmap) (i : nat) : Z := default 0 (pm_pai pm !! i).

Definition set_pai_asid (i : nat) (v : Z) (pm : pmap) : pmap :=
  {| pm_pai := <[i := v]> (pm_pai pm); pm_active := pm_active pm;
     pm_onproc := pm_onproc pm |}.

Definition set_active (v : gset nat) (pm : pmap) : pmap :=
  {| pm_pai := pm_pai pm; pm_active := v; pm_onproc := pm_onproc pm |}.

Definition set_onproc (v : gset nat) (pm : pmap) : pmap :=
  {| pm_pai := pm_pai pm; pm_active := pm_active pm; pm_onproc := v |}.

Definition set_pmap_tlbs (v : list pmap_tlb_info) (s : kstate) : kstate :=
  {| pmap_tlbs := v; pmaps := pmaps s;
     kcpuset_running := kcpuset_running s;
     ci_pmap_asid_cur := ci_pmap_asid_cur s; hw := hw s; ipis := ipis s |}.

Definition set_pmaps (v : gmap nat pmap) (s : kstate) : kstate :=
  {| pmap_tlbs := pmap_tlbs s; pmaps := v;
     kcpuset_running := kcpuset_running s;
     ci_pmap_asid_cur := ci_pmap_asid_cur s; hw := hw s; ipis := ipis s |}.

Definition set_asid_cur (v : Z) (s : kstate) : kstate :=
  {| pmap_tlbs := pmap_tlbs s; pmaps := pmaps s;
     kcpuset_running := kcpuset_running s;
     ci_pmap_asid_cur := v; hw := hw s; ipis := ipis s |}.

Definition set_hw (v : hardware) (s : kstate) : kstate :=
  {| pmap_tlbs := pmap_tlbs s; pmaps := pmaps s;
     kcpuset_running := kcpuset_running s;
     ci_pmap_asid_cur := ci_pmap_asid_cur s; hw := v; ipis := ipis s |}.

Definition set_ipis (v : list nat) (s : kstate) : kstate :=
  {| pmap_tlbs := pmap_tlbs s; pmaps := pmaps s;
     kcpuset_running := kcpuset_running s;
     ci_pmap_asid_cur := ci_pmap_asid_cur s; hw := hw s; ipis := v |}.

(** ** Routines as state transformers *)

(** A routine runs on the store and either returns a value and the new
    store, or stops. *)
Definition M (A : Type) : Type := kstate → option (A * kstate).

Definition ret {A : Type} (a : A) : M A := λ s, Some (a, s).

Definition bind {A B : Type} (m : M A) (k : A → M B) : M B :=
  λ s, match m s with
       | Some (a, s') => k a s'
       | None => None
       end.

Definition panic {A : Type} : M A := λ _, None.

Notation "'let!' x ':=' e 'in' k" := (bind e (λ x, k))
  (at level 10, x name, e at level 200, k at level 200, only parsing).
Notation "e '>>' k" := (bind e (λ _, k))
  (at level 100, k at level 200, right associativity, only parsing).

Definition when (b : bool) (m : M unit) : M unit := if b then m else ret tt.

Definition get_ti (i : nat) : M pmap_tlb_info :=
  λ s, match pmap_tlbs s !! i with
       | Some ti => Some (ti, s)
       | None => None
       end.

Definition modify_ti (i : nat) (f : pmap_tlb_info → pmap_tlb_info) : M unit :=
  λ s, match pmap_tlbs s !! i with
       | Some ti => Some (tt, set_pmap_tlbs (<[i := f ti]> (pmap_tlbs s)) s)
       | None => None
       end.

Definition get_pm (p : pmap_t) : M pmap :=
  λ s, match pmaps s !! p with
       | Some pm => Some (pm, s)
       | None => None
       end.

Definition modify_pm (p : pmap_t) (f : pmap → pmap) : M unit :=
  λ s, match pmaps s !! p with
       | Some pm => Some (tt, set_pmaps (<[p := f pm]> (pmaps s)) s)
       | None => None
       end.

Definition get_state : M kstate := λ s, Some (s, s).

Definition modify_hw (f : hardware → hardware) : M unit :=
  λ s, Some (tt, set_hw (f (hw s)) s).

(** ** kcpuset(9) *)

(** Modelled from the spec: the kcpuset routines are not part of the sources
    at hand; a CPU set is the finite set of the CPU indexes it holds. *)
Definition kcpuset_iszero (a : gset nat) : bool := bool_decide (a = ∅).

Definition kcpuset_intersecting_p (a b : gset nat) : bool :=
  bool_decide (a ∩ b ≠ ∅).

Definition kcpuset_isset (a : gset nat) (n : nat) : bool :=
  bool_decide (n ∈ a).

Definition kcpuset_isotherset (a : gset nat) (n : nat) : bool :=
  bool_decide (a ∖ {[n]} ≠ ∅).

(** One plus the lowest index held by both sets, zero when there is none. *)
Definition kcpuset_ffs_intersecting (a b : gset nat) : nat :=
  match elements (a ∩ b) with
  | [] => 0%nat
  | x :: l => S (foldr Nat.min x l)
  end.

(** ** The hardware primitives *)

Definition tlb_set_asid (asid : Z) : M unit :=
  modify_hw (λ h, {| hw_asid := asid; hw_entries := hw_entries h;
                     hw_globals := hw_globals h |}).

Definition tlb_invalidate_asids (lo hi : Z) : M unit :=
  modify_hw (λ h,
    {| hw_asid := hw_asid h;
       hw_entries :=
         filter (λ a, ¬ (lo ≤ a ∧ a ≤ hi)) (hw_entries h);
       hw_globals := hw_globals h |}).

Definition tlb_invalidate_globals : M unit :=
  modify_hw (λ h, {| hw_asid := hw_asid h; hw_entries := hw_entries h;
                     hw_globals := 0%nat |}).

Definition tlb_invalidate_all : M unit :=
  modify_hw (λ h, {| hw_asid := hw_asid h; hw_entries := [];
                     hw_globals := 0%nat |}).

Definition cpu_send_ipi (j : nat) : M unit :=
  λ s, Some (tt, set_ipis (ipis s ++ [j]) s).

Section Model.

Context (cfg : config).

(** [KASSERT] is compiled in on a DIAGNOSTIC kernel only; there a false
    condition stops the kernel. *)
Definition KASSERT (b : bool) : M unit :=
  if DIAGNOSTIC cfg && negb b then panic else ret tt.

(** ** The ASID bitmap *)

(** Modelled from the spec: the [__BITMAP_*] macros of sys/bitops.h are not
    part of the sources at hand; bit [n] of the bitmap is bit [n mod NBPW]
    of the word [n / NBPW] of the array. *)
Definition BITMAP_ISSET (n : Z) (b : list Z) : bool :=
  Z.testbit (default 0 (b !! Z.to_nat (n / NBPW cfg))) (n mod NBPW cfg).

Definition BITMAP_SET (n : Z) (b : list Z) : list Z :=
  let w := Z.to_nat (n / NBPW cfg) in
  <[w := Z.lor (default 0 (b !! w)) (Z.shiftl 1 (n mod NBPW cfg))]> b.

Definition BITMAP_CLR (n : Z) (b : list Z) : list Z :=
  let w := Z.to_nat (n / NBPW cfg) in
  <[w := Z.ldiff (default 0 (b !! w)) (Z.shiftl 1 (n mod NBPW cfg))]> b.

Definition BITMAP_ZERO (b : list Z) : list Z := (λ _, 0) <$> b.

Definition TLBINFO_ASID_MARK_UNUSED (asid : Z) (ti : pmap_tlb_info)
  : pmap_tlb_info :=
  set_asid_bitmap (BITMAP_CLR asid (ti_asid_bitmap ti)) ti.

Definition TLBINFO_ASID_MARK_USED (asid : Z) (ti : pmap_tlb_info)
  : pmap_tlb_info :=
  set_asid_bitmap (BITMAP_SET asid (ti_asid_bitmap ti)) ti.

Definition TLBINFO_ASID_INUSE_P (ti : pmap_tlb_info) (asid : Z) : bool :=
  BITMAP_ISSET asid (ti_asid_bitmap ti).

(** The bitmap is zeroed, then the ASIDs 0 to KERNEL_PID are marked. *)
Definition TLBINFO_ASID_RESET (ti : pmap_tlb_info) : pmap_tlb_info :=
  foldl (λ t asid, TLBINFO_ASID_MARK_USED asid t)
    (set_asid_bitmap (BITMAP_ZERO (ti_asid_bitmap ti)) ti)
    (seqZ 0 (KERNEL_PID cfg + 1)).

Definition TLBINFO_ASID_INITIAL_FREE (asid_max : Z) : Z :=
  wrap32 (asid_max + 1 - (1 + KERNEL_PID cfg)).

(** Modelled from the spec: [PMAP_PAI_ASIDVALID_P] and [tlbinfo_noasids_p]
    are macros of pmap_tlb.h, which is not part of the sources at hand; a
    binding is valid when its ASID is not 0 (0 means unassigned), and the
    namespace is exhausted when the free count is 0. *)
Definition PMAP_PAI_ASIDVALID_P (pm : pmap) (i : nat) : bool :=
  negb (pai_asid pm i =? 0).

Definition tlbinfo_noasids_p (ti : pmap_tlb_info) : bool :=
  ti_asids_free ti =? 0.

(** Complement of a bitmap word. *)
Definition not_ulong (w : Z) : Z := Z.land (Z.lnot w) (Z.ones (NBPW cfg)).

Definition wrap_ulong (x : Z) : Z := x mod 2 ^ NBPW cfg.

(** Modelled from the spec: [tlb_record_asids] sets in the bitmap the bit of
    every ASID, up to [asid_max], that tags a resident entry, and returns how
    many bits it has set. *)
Definition tlb_record_asids_step (asid_max : Z) (acc : Z * list Z) (a : Z)
  : Z * list Z :=
  if bool_decide (0 ≤ a ∧ a ≤ asid_max) && negb (BITMAP_ISSET a acc.2)
  then (acc.1 + 1, BITMAP_SET a acc.2)
  else acc.

Definition tlb_record_asids (entries : list Z) (b : list Z) (asid_max : Z)
  : Z * list Z :=
  foldl (tlb_record_asids_step asid_max) (0, b) entries.

(** ** Locking *)

(** Taking a mutex that is held never returns. *)
Definition TLBINFO_LOCK (i : nat) : M unit :=
  let! ti := get_ti i in
  if ti_lock ti then panic else modify_ti i (set_lock true).

Definition TLBINFO_UNLOCK (i : nat) : M unit := modify_ti i (set_lock false).

(** ** Which CPUs of a TLB a pmap is active or onproc on *)

Definition pmap_tlb_intersecting_active_p (pm : pmap) (ti : pmap_tlb_info)
  : bool :=
  if (PMAP_TLB_MAX cfg =? 1)%nat
  then negb (kcpuset_iszero (pm_active pm))
  else kcpuset_intersecting_p (pm_active pm) (ti_kcpuset ti).

Definition pmap_tlb_intersecting_onproc_p (pm : pmap) (ti : pmap_tlb_info)
  : bool :=
  if (PMAP_TLB_MAX cfg =? 1)%nat
  then negb (kcpuset_iszero (pm_onproc pm))
  else kcpuset_intersecting_p (pm_onproc pm) (ti_kcpuset ti).

(** ** pmap_tlb_pai_check *)

Definition pai_check_one (i : nat) (p : pmap_t) : M unit :=
  let! ti := get_ti i in
  let! pm := get_pm p in
  KASSERT (negb (bool_decide (p = pmap_kernel))) >>
  KASSERT (KERNEL_PID cfg <? pai_asid pm i) >>
  KASSERT (pai_asid pm i <=? ti_asid_max ti) >>
  KASSERT (TLBINFO_ASID_INUSE_P ti (pai_asid pm i)) >>
  when (MULTIPROCESSOR cfg)
    (KASSERT (pmap_tlb_intersecting_active_p pm ti)).

Fixpoint pai_check_list (i : nat) (l : list pmap_t) : M unit :=
  match l with
  | [] => ret tt
  | p :: l' => pai_check_one i p >> pai_check_list i l'
  end.

Definition pmap_tlb_pai_check (i : nat) (locked_p : bool) : M unit :=
  when (DIAGNOSTIC cfg)
    (when (negb locked_p) (TLBINFO_LOCK i) >>
     let! ti := get_ti i in
     pai_check_list i (ti_pais ti) >>
     when (negb locked_p) (TLBINFO_UNLOCK i)).

(** ** pmap_tlb_pai_reset *)

(** [LIST_REMOVE]: unlinking an entry that is not on the list follows a
    pointer that is not one. *)
Definition LIST_REMOVE (i : nat) (p : pmap_t) : M unit :=
  let! ti := get_ti i in
  if bool_decide (p ∈ ti_pais ti)
  then modify_ti i (set_pais (filter (λ q, q ≠ p) (ti_pais ti)))
  else panic.

Definition pmap_tlb_pai_reset (i : nat) (p : pmap_t) : M unit :=
  let! ti := get_ti i in
  let! pm := get_pm p in
  let asid := pai_asid pm i in
  KASSERT (KERNEL_PID cfg <? asid) >>
  KASSERT (asid <=? ti_asid_max ti) >>
  when (MULTIPROCESSOR cfg)
    (KASSERT (pmap_tlb_intersecting_active_p pm ti) >>
     KASSERT (negb (pmap_tlb_intersecting_onproc_p pm ti))) >>
  LIST_REMOVE i p >>
  when (PMAP_TLB_FLUSH_ASID_ON_RESET cfg)
    (when (negb (MULTIPROCESSOR cfg)) (tlb_invalidate_asids asid asid) >>
     when (TLBINFO_ASID_INUSE_P ti asid)
       (modify_ti i (λ t,
          set_asids_free (wrap32 (ti_asids_free t + 1))
            (TLBINFO_ASID_MARK_UNUSED asid t)))) >>
  modify_pm p (set_pai_asid i 0) >>
  when (MULTIPROCESSOR cfg)
    (modify_pm p (λ m,
       if (PMAP_TLB_MAX cfg =? 1)%nat
       then set_active ∅ m
       else set_active (pm_active m ∖ ti_kcpuset ti) m) >>
     let! pm' := get_pm p in
     KASSERT (negb (pmap_tlb_intersecting_active_p pm' ti))).

(** ** pmap_tlb_asid_count *)

Definition pmap_tlb_asid_count (ti : pmap_tlb_info) : Z :=
  Z.of_nat (length (filter (λ asid, TLBINFO_ASID_INUSE_P ti asid = true)
                      (seqZ 1 (ti_asid_max ti)))).

(** ** pmap_tlb_asid_reinitialize *)

(** The switch on [op]: what is flushed, and, for TLBINV_NOBODY where the
    TLB can be searched, which ASIDs are recorded from it. *)
Definition reinitialize_flush (i : nat) (op : Z) : M unit :=
  let shootdown :=
    MULTIPROCESSOR cfg && PMAP_TLB_NEED_SHOOTDOWN cfg in
  if shootdown && (op =? TLBINV_ALL) then tlb_invalidate_all
  else if shootdown && (op =? TLBINV_ALLUSER) then
    let! ti := get_ti i in
    tlb_invalidate_asids (KERNEL_PID cfg + 1) (ti_asid_max ti)
  else if op =? TLBINV_NOBODY then
    (if negb (MULTIPROCESSOR cfg) || PMAP_TLB_NEED_SHOOTDOWN cfg then
       let! ti := get_ti i in
       let! s := get_state in
       let r := tlb_record_asids (hw_entries (hw s)) (ti_asid_bitmap ti)
                  (ti_asid_max ti) in
       let asids_found := r.1 in
       modify_ti i (set_asid_bitmap r.2) >>
       let! ti := get_ti i in
       when (DIAGNOSTIC cfg)
         (KASSERT (asids_found =? pmap_tlb_asid_count ti)) >>
       if ti_asid_max ti / 2 <=? asids_found then
         tlb_invalidate_asids (KERNEL_PID cfg + 1) (ti_asid_max ti) >>
         modify_ti i (λ t,
           set_asids_free (TLBINFO_ASID_INITIAL_FREE (ti_asid_max t))
             (TLBINFO_ASID_RESET t))
       else
         modify_ti i (λ t,
           set_asids_free (wrap32 (ti_asids_free t - asids_found)) t)
     else
       tlb_invalidate_all >>
       modify_ti i (λ t,
         set_asids_free (TLBINFO_ASID_INITIAL_FREE (ti_asid_max t))
           (TLBINFO_ASID_RESET t))) >>
    let! ti := get_ti i in
    KASSERT (ti_asids_free ti <=? ti_asid_max ti)
  else panic.

(** The head of the routine: the check of the list, the event counter, the
    reset of the free count, the hint and the bitmap, then the switch. *)
Definition reinitialize_reset (i : nat) (op : Z) : M unit :=
  pmap_tlb_pai_check i true >>
  modify_ti i (λ t,
    set_evcnt_asid_reinits (ti_evcnt_asid_reinits t + 1) t) >>
  modify_ti i (λ t,
    TLBINFO_ASID_RESET
      (set_asid_hint (KERNEL_PID cfg + 1)
         (set_asids_free (TLBINFO_ASID_INITIAL_FREE (ti_asid_max t)) t))) >>
  reinitialize_flush i op.

(** One turn of the loop over the active ASIDs. *)
Definition reinitialize_pai (i : nat) (op : Z) (p : pmap_t) : M unit :=
  let! ti := get_ti i in
  let! pm := get_pm p in
  KASSERT (negb (bool_decide (p = pmap_kernel))) >>
  KASSERT (KERNEL_PID cfg <? pai_asid pm i) >>
  if MULTIPROCESSOR cfg && pmap_tlb_intersecting_onproc_p pm ti then
    when (negb (TLBINFO_ASID_INUSE_P ti (pai_asid pm i)))
      (modify_ti i (λ t,
         set_asids_free (wrap32 (ti_asids_free t - 1))
           (TLBINFO_ASID_MARK_USED (pai_asid pm i) t)))
  else if TLBINFO_ASID_INUSE_P ti (pai_asid pm i) then
    KASSERT (op =? TLBINV_NOBODY)
  else pmap_tlb_pai_reset i p.

(** The loop keeps the successor before it visits an entry, so it goes
    through the list as it was on entry. *)
Fixpoint reinitialize_walk (i : nat) (op : Z) (l : list pmap_t) : M unit :=
  match l with
  | [] => ret tt
  | p :: l' => reinitialize_pai i op p >> reinitialize_walk i op l'
  end.

Definition pmap_tlb_asid_reinitialize (i : nat) (op : Z) : M unit :=
  reinitialize_reset i op >>
  let! ti := get_ti i in
  reinitialize_walk i op (ti_pais ti) >>
  when (DIAGNOSTIC cfg)
    (let! ti := get_ti i in
     KASSERT (ti_asid_max ti - pmap_tlb_asid_count ti =? ti_asids_free ti)).

(** ** pmap_tlb_shootdown_process *)

Definition pmap_tlb_shootdown_process (ci : cpu_info) : M unit :=
  let i := ci_tlb ci in
  TLBINFO_LOCK i >>
  let! ti := get_ti i in
  (if ti_tlbinvop ti =? TLBINV_ONE then
     match ti_victim ti with
     | None => panic
     | Some v =>
       let! pm := get_pm v in
       KASSERT (negb (bool_decide (v = pmap_kernel))) >>
       if pmap_tlb_intersecting_onproc_p pm ti then
         KASSERT (KERNEL_PID cfg <? pai_asid pm i) >>
         tlb_invalidate_asids (pai_asid pm i) (pai_asid pm i)
       else if negb (pai_asid pm i =? 0) then pmap_tlb_pai_reset i v
       else ret tt
     end
   else if ti_tlbinvop ti =? TLBINV_ALLUSER then
     pmap_tlb_asid_reinitialize i TLBINV_ALLUSER
   else if ti_tlbinvop ti =? TLBINV_ALLKERNEL then
     tlb_invalidate_globals
   else if ti_tlbinvop ti =? TLBINV_ALL then
     pmap_tlb_asid_reinitialize i TLBINV_ALL
   else ret tt) >>
  modify_ti i (set_victim None) >>
  modify_ti i (set_tlbinvop TLBINV_NOBODY) >>
  TLBINFO_UNLOCK i.

(** ** pmap_tlb_shootdown_bystanders *)

(** The update of the pending operation of a TLB some CPU of which has the
    pmap onproc. *)
Definition shootdown_merge (i : nat) (p : pmap_t) : M unit :=
  let! ti := get_ti i in
  let! pm := get_pm p in
  if bool_decide (p = pmap_kernel) then
    modify_ti i (set_tlbinvop (TLBINV_KERNEL_MAP (ti_tlbinvop ti))) >>
    modify_ti i (set_victim None)
  else
    KASSERT (negb (pai_asid pm i =? 0)) >>
    if bool_decide (ti_victim ti = Some p) then
      KASSERT (ti_tlbinvop ti =? TLBINV_ONE)
    else
      modify_ti i (set_tlbinvop (TLBINV_USER_MAP (ti_tlbinvop ti))) >>
      let! ti' := get_ti i in
      if ti_tlbinvop ti' =? TLBINV_ONE
      then modify_ti i (set_victim (Some p))
      else modify_ti i (set_victim None).

(** One turn of the loop over the TLBs: [act] is the local copy of
    [pm_active] the loop consumes; the turn returns what is left of it and
    whether it sent an IPI. *)
Definition shootdown_bystanders_tlb (p : pmap_t) (i : nat) (act : gset nat)
  : M (gset nat * bool) :=
  let! ti := get_ti i in
  if negb (kcpuset_intersecting_p act (ti_kcpuset ti)) then ret (act, false)
  else
    let act' := act ∖ ti_kcpuset ti in
    TLBINFO_LOCK i >>
    let! pm := get_pm p in
    let j := kcpuset_ffs_intersecting (pm_onproc pm) (ti_kcpuset ti) in
    if (0 <? j)%nat then
      shootdown_merge i p >>
      TLBINFO_UNLOCK i >>
      cpu_send_ipi (j - 1)%nat >>
      ret (act', true)
    else
      when (negb (pmap_tlb_intersecting_active_p pm ti))
        (KASSERT (negb (bool_decide (p = pmap_kernel))) >>
         pmap_tlb_pai_reset i p) >>
      TLBINFO_UNLOCK i >>
      ret (act', false).

(** The loop runs while the copy is not empty; [idx] are the indexes of
    [pmap_tlbs] still ahead, and past the last of them there is no TLB. *)
Fixpoint shootdown_bystanders_loop (p : pmap_t) (idx : list nat)
    (act : gset nat) (ipi_sent : bool) : M bool :=
  if kcpuset_iszero act then ret ipi_sent
  else
    match idx with
    | [] => panic
    | i :: idx' =>
      let! r := shootdown_bystanders_tlb p i act in
      shootdown_bystanders_loop p idx' r.1 (ipi_sent || r.2)
    end.

Definition pmap_tlb_shootdown_bystanders (ci : cpu_info) (p : pmap_t)
  : M bool :=
  let! pm := get_pm p in
  let! lti := get_ti (ci_tlb ci) in
  let! s := get_state in
  shootdown_bystanders_loop p (seq 0 (length (pmap_tlbs s)))
    (pm_active pm ∖ ti_kcpuset lti) false.

(** ** pmap_tlb_info_init *)


(** ** pmap_tlb_asid_alloc *)

(** The scan of the bitmap a word at a time: the index of the first word
    with a bit cleared, and the complement of that word.  Running past the
    last word of the array finds nothing. *)
Fixpoint alloc_scan (b : list Z) (i : Z) : option (Z * Z) :=
  match b with
  | [] => None
  | w :: b' =>
    let bits := not_ulong w in
    if bits =? 0 then alloc_scan b' (i + 1) else Some (i, bits)
  end.

Definition pmap_tlb_asid_alloc (i : nat) (p : pmap_t) : M unit :=
  let! ti := get_ti i in
  let! pm := get_pm p in
  KASSERT (negb (bool_decide (p = pmap_kernel))) >>
  KASSERT (pai_asid pm i =? 0) >>
  KASSERT (negb (bool_decide (p ∈ ti_pais ti))) >>
  when (MULTIPROCESSOR cfg)
    (KASSERT (negb (pmap_tlb_intersecting_onproc_p pm ti)) >>
     KASSERT (negb (pmap_tlb_intersecting_active_p pm ti))) >>
  KASSERT (0 <? ti_asids_free ti) >>
  KASSERT (KERNEL_PID cfg <? ti_asid_hint ti) >>
  when (PMAP_TLB_FLUSH_ASID_ON_RESET cfg
        && (ti_asid_max ti <? ti_asid_hint ti))
    (modify_ti i (set_asid_hint (KERNEL_PID cfg + 1))) >>
  let! ti := get_ti i in
  KASSERT (ti_asid_hint ti <=? ti_asid_max ti) >>
  when (TLBINFO_ASID_INUSE_P ti (ti_asid_hint ti))
    (match alloc_scan (ti_asid_bitmap ti) 0 with
     | None => panic
     | Some (w, bits) =>
       let n := ffsl bits - 1 in
       KASSERT (wrap_ulong (Z.shiftl bits (NBPW cfg - (n + 1)))
                =? Z.shiftl 1 (NBPW cfg - 1)) >>
       KASSERT (n <? NBPW cfg) >>
       modify_ti i (set_asid_hint (n + w * NBPW cfg))
     end) >>
  let! ti := get_ti i in
  KASSERT (KERNEL_PID cfg <? ti_asid_hint ti) >>
  KASSERT (ti_asid_hint ti <=? ti_asid_max ti) >>
  KASSERT (PMAP_TLB_FLUSH_ASID_ON_RESET cfg
           || TLBINFO_ASID_INUSE_P ti (ti_asid_hint ti - 1)) >>
  KASSERT (negb (TLBINFO_ASID_INUSE_P ti (ti_asid_hint ti))) >>
  let asid := ti_asid_hint ti in
  modify_pm p (set_pai_asid i asid) >>
  modify_ti i (set_asid_hint (asid + 1)) >>
  when (MULTIPROCESSOR cfg && PMAP_TLB_FLUSH_ASID_ON_RESET cfg)
    (tlb_invalidate_asids asid asid) >>
  modify_ti i (TLBINFO_ASID_MARK_USED asid) >>
  modify_ti i (λ t, set_pais (p :: ti_pais t) t) >>
  modify_ti i (λ t, set_asids_free (wrap32 (ti_asids_free t - 1)) t) >>
  when (MULTIPROCESSOR cfg)
    (let! s := get_state in
     modify_pm p (λ m,
       if (PMAP_TLB_MAX cfg =? 1)%nat
       then set_active (kcpuset_running s) m
       else set_active (pm_active m ∪ ti_kcpuset ti) m)).

(** ** pmap_tlb_asid_acquire *)

(** [ci] is [l->l_cpu] and [curlwp_p] tells whether [l] is [curlwp]. *)
Definition pmap_tlb_asid_acquire (p : pmap_t) (ci : cpu_info)
    (curlwp_p : bool) : M unit :=
  let i := ci_tlb ci in
  if bool_decide (p = pmap_kernel) then ret tt
  else
    TLBINFO_LOCK i >>
    let! ti := get_ti i in
    let! pm := get_pm p in
    KASSERT ((pai_asid pm i <=? KERNEL_PID cfg)
             || bool_decide (p ∈ ti_pais ti)) >>
    KASSERT ((KERNEL_PID cfg <? pai_asid pm i)
             || negb (bool_decide (p ∈ ti_pais ti))) >>
    pmap_tlb_pai_check i true >>
    when (negb (PMAP_PAI_ASIDVALID_P pm i))
      (when (tlbinfo_noasids_p ti)
         (KASSERT curlwp_p >>
          pmap_tlb_asid_reinitialize i TLBINV_NOBODY >>
          let! ti' := get_ti i in
          KASSERT (negb (tlbinfo_noasids_p ti'))) >>
       pmap_tlb_asid_alloc i p) >>
    pmap_tlb_pai_check i true >>
    let! pm := get_pm p in
    when (MULTIPROCESSOR cfg)
      (KASSERT (kcpuset_isset (pm_active pm) (ci_index ci))) >>
    when curlwp_p
      (when (MULTIPROCESSOR cfg)
         (KASSERT (negb (bool_decide (p = pmap_kernel))) >>
          modify_pm p (λ m,
            set_onproc (pm_onproc m ∪ {[ci_index ci]}) m)) >>
       (λ s, Some (tt, set_asid_cur (pai_asid pm i) s)) >>
       tlb_set_asid (pai_asid pm i)) >>
    TLBINFO_UNLOCK i.

(** ** pmap_tlb_asid_deactivate *)

Definition pmap_tlb_asid_deactivate (ci : cpu_info) (p : pmap_t) : M unit :=
  when (MULTIPROCESSOR cfg)
    (let! pm := get_pm p in
     when (negb (bool_decide (p = pmap_kernel))
           && negb (kcpuset_iszero (pm_onproc pm)))
       (KASSERT (kcpuset_isset (pm_onproc pm) (ci_index ci)) >>
        modify_pm p (λ m,
          set_onproc (pm_onproc m ∖ {[ci_index ci]}) m))) >>
  (λ s, Some (tt, set_asid_cur (KERNEL_PID cfg) s)) >>
  tlb_set_asid (KERNEL_PID cfg) >>
  pmap_tlb_pai_check (ci_tlb ci) false.

(** ** pmap_tlb_asid_release_all *)

(** What is done under the lock of one TLB on a multiprocessor kernel. *)
Definition release_all_tlb (p : pmap_t) (i : nat) : M unit :=
  TLBINFO_LOCK i >>
  let! ti := get_ti i in
  let! pm := get_pm p in
  when (PMAP_PAI_ASIDVALID_P pm i)
    (when (bool_decide (ti_victim ti = Some p))
       (modify_ti i (set_victim None)) >>
     pmap_tlb_pai_reset i p) >>
  let! ti := get_ti i in
  KASSERT (negb (bool_decide (p ∈ ti_pais ti))) >>
  TLBINFO_UNLOCK i.

(** The loop over the TLBs runs while [pm_active] is not empty. *)
Fixpoint release_all_loop (p : pmap_t) (idx : list nat) : M unit :=
  let! pm := get_pm p in
  if kcpuset_iszero (pm_active pm) then ret tt
  else
    match idx with
    | [] => panic
    | i :: idx' => release_all_tlb p i >> release_all_loop p idx'
    end.

Fixpoint release_all_check (p : pmap_t) (idx : list nat) : M unit :=
  match idx with
  | [] => ret tt
  | i :: idx' =>
    let! pm := get_pm p in
    KASSERT (pai_asid pm i =? 0) >> release_all_check p idx'
  end.

Definition pmap_tlb_asid_release_all (ci : cpu_info) (p : pmap_t) : M unit :=
  KASSERT (negb (bool_decide (p = pmap_kernel))) >>
  if MULTIPROCESSOR cfg then
    let! pm := get_pm p in
    KASSERT (negb (kcpuset_isotherset (pm_onproc pm) (ci_index ci))) >>
    let! s := get_state in
    (if (1 <? PMAP_TLB_MAX cfg)%nat
     then release_all_loop p (seq 0 (length (pmap_tlbs s)))
     else release_all_tlb p 0) >>
    when (DIAGNOSTIC cfg)
      (release_all_check p
         (seq 0 (if (1 <? PMAP_TLB_MAX cfg)%nat
                 then length (pmap_tlbs s) else 1%nat)))
  else
    TLBINFO_LOCK 0 >>
    let! pm := get_pm p in
    let! s := get_state in
    when (KERNEL_PID cfg <? pai_asid pm 0%nat)
      (if ci_pmap_asid_cur s =? pai_asid pm 0%nat
       then tlb_invalidate_asids (pai_asid pm 0%nat) (pai_asid pm 0%nat)
       else pmap_tlb_pai_reset 0 p) >>
    TLBINFO_UNLOCK 0.

(** ** pmap_tlb_asid_check *)

(** [debug] tells whether the kernel is a DEBUG one.  There the ASID
    register is read ([tlb_get_asid]) and compared with
    [ci_pmap_asid_cur]; KDASSERTMSG stops a DEBUG kernel, DIAGNOSTIC or
    not. *)
Definition pmap_tlb_asid_check (debug : bool) : M unit :=
  when debug
    (let! s := get_state in
     if hw_asid (hw s) =? ci_pmap_asid_cur s then ret tt else panic).

(** ** pmap_tlb_info_init and pmap_tlb_info_attach as routines *)

Definition set_kcpuset (v : gset nat) (ti : pmap_tlb_info) : pmap_tlb_info :=
  {| ti_asids_free := ti_asids_free ti; ti_asid_hint := ti_asid_hint ti;
     ti_asid_max := ti_asid_max ti; ti_asid_bitmap := ti_asid_bitmap ti;
     ti_pais := ti_pais ti; ti_victim := ti_victim ti;
     ti_kcpuset := v; ti_tlbinvop := ti_tlbinvop ti;
     ti_lock := ti_lock ti;
     ti_evcnt_asid_reinits := ti_evcnt_asid_reinits ti |}.

(** Modelled from the spec: [PMAP_TLB_NUM_PIDS], [PMAP_TLB_BITMAP_LENGTH],
    the type [tlb_asid_t], [__type_fit], [__BITS] and
    [pmap_md_tlb_asid_max ()] are declared outside the sources at hand.
    They are arguments here: [num_pids] is PMAP_TLB_NUM_PIDS where it is
    defined as a constant, [bitmap_length] is PMAP_TLB_BITMAP_LENGTH,
    [asid_t_max] is the largest value a [tlb_asid_t] holds and [md_max] is
    what [pmap_md_tlb_asid_max ()] returns; [__BITS (0, KERNEL_PID)] is the
    word with the bits 0 to KERNEL_PID set. *)

(** The static initialiser of [pmap_tlb0_info], with a bitmap of [nwords]
    words; the fields it does not name are zero. *)
Definition pmap_tlb0_info (nwords : nat) (num_pids : option Z)
  : pmap_tlb_info :=
  {| ti_asids_free :=
       match num_pids with
       | Some n => TLBINFO_ASID_INITIAL_FREE (n - 1)
       | None => 0
       end;
     ti_asid_hint := KERNEL_PID cfg + 1;
     ti_asid_max := match num_pids with Some n => n - 1 | None => 0 end;
     ti_asid_bitmap :=
       <[0%nat := Z.ones (KERNEL_PID cfg + 1)]> (replicate nwords 0);
     ti_pais := []; ti_victim := None; ti_kcpuset := ∅;
     ti_tlbinvop := TLBINV_NOBODY; ti_lock := false;
     ti_evcnt_asid_reinits := 0 |}.

(** The branch for a structure [t0] that is not [pmap_tlb0_info], on a
    multiprocessor kernel with more than one TLB: the structure is filled
    in and stored in [pmap_tlbs] at the index [pmap_ntlbs], which is then
    incremented.  The elements of the array from [pmap_ntlbs] on are NULL;
    a store past the last of the PMAP_TLB_MAX elements is not a store to
    the array, and the routine stops there. *)
Definition info_init_secondary (bitmap_length : Z) (t0 : pmap_tlb_info)
  : M unit :=
  let! s := get_state in
  let pmap_ntlbs := length (pmap_tlbs s) in
  KASSERT (pmap_ntlbs <? PMAP_TLB_MAX cfg)%nat >>
  let! tlb0 := get_ti 0 in
  let ti := set_lock false t0 in
  let ti := TLBINFO_ASID_RESET ti in
  let ti := set_asid_hint (KERNEL_PID cfg + 1) ti in
  let ti := set_asid_max (ti_asid_max tlb0) ti in
  let ti := set_asids_free (TLBINFO_ASID_INITIAL_FREE (ti_asid_max ti)) ti in
  let ti := set_tlbinvop TLBINV_NOBODY ti in
  let ti := set_victim None ti in
  let ti := set_kcpuset ∅ ti in
  if (pmap_ntlbs <? PMAP_TLB_MAX cfg)%nat then
    (λ s, Some (tt, set_pmap_tlbs (pmap_tlbs s ++ [ti]) s)) >>
    KASSERT (ti_asid_max ti <? bitmap_length)
  else panic.

(** The branch for [pmap_tlb0_info], which is [pmap_tlbs[0]]; [cpu] is
    [cpu_index (curcpu ())]. *)
Definition info_init_primary (md_max asid_t_max bitmap_length : Z)
    (cpu : nat) : M unit :=
  (modify_ti 0 (set_lock false) >>
   when (MULTIPROCESSOR cfg && (1 <? PMAP_TLB_MAX cfg)%nat)
     (modify_ti 0 (set_kcpuset ∅) >>
      modify_ti 0 (λ t, set_kcpuset (ti_kcpuset t ∪ {[cpu]}) t)) >>
   let asid_max := md_max in
   let! ti := get_ti 0 in
   when ((ti_asid_max ti =? 0) || (asid_max <? ti_asid_max ti))
     (modify_ti 0 (set_asid_max asid_max) >>
      modify_ti 0 (λ t,
        set_asids_free (TLBINFO_ASID_INITIAL_FREE (ti_asid_max t)) t))) >>
  let! ti := get_ti 0 in
  KASSERT (ti_asid_max ti + 1 <=? asid_t_max) >>
  KASSERT (ti_asid_max ti <? bitmap_length).

(** [other] is the structure the routine is called for when it is not
    [pmap_tlb0_info].  Where there is one TLB only, a call for another
    structure is stopped by the KASSERT of a DIAGNOSTIC kernel; without it
    the routine works on that structure, which is no element of
    [pmap_tlbs]. *)
Definition pmap_tlb_info_init_at (md_max asid_t_max bitmap_length : Z)
    (cpu : nat) (other : option pmap_tlb_info) : M unit :=
  match other with
  | Some t0 =>
    if MULTIPROCESSOR cfg && negb (PMAP_TLB_MAX cfg =? 1)%nat
    then info_init_secondary bitmap_length t0
    else KASSERT false
  | None => info_init_primary md_max asid_t_max bitmap_length cpu
  end.

(** ** pmap_tlb_info_attach *)

(** Modelled from the spec: [CPU_IS_PRIMARY], [cold], the idle lwp of a
    CPU and [pmap_md_tlb_info_attach] are declared outside the sources at
    hand; the three conditions are the arguments [primary_p], [idle_p] and
    [cold], and [md_attach] is what the machine-dependent routine does to
    the store.  The routine is compiled on a multiprocessor kernel only;
    it returns the [cpu_info], whose TLB [cpu_set_tlb_info] has set. *)
Definition pmap_tlb_info_attach (md_attach : M unit) (i : nat)
    (ci : cpu_info) (primary_p idle_p cold : bool) : M cpu_info :=
  KASSERT (negb primary_p) >>
  KASSERT idle_p >>
  KASSERT cold >>
  TLBINFO_LOCK i >>
  let! ci' :=
    (if (1 <? PMAP_TLB_MAX cfg)%nat then
       modify_ti i (λ t, set_kcpuset (ti_kcpuset t ∪ {[ci_index ci]}) t) >>
       ret {| ci_index := ci_index ci; ci_tlb := i |}
     else ret ci) in
  md_attach >>
  TLBINFO_UNLOCK i >>
  ret ci'.

End Model.

(** * Specification vocabulary *)

(** ** The order on pending shootdowns *)

(** The pending shootdown of a TLB: the operation and the victim. *)
Definition pending (ti : pmap_tlb_info) : Z * option pmap_t :=
  (ti_tlbinvop ti, ti_victim ti).

(** What a call of [pmap_tlb_shootdown_bystanders] for [p] asks of a TLB. *)
Definition request (p : pmap_t) : Z * option pmap_t :=
  if bool_decide (p = pmap_kernel) then (TLBINV_ALLKERNEL, None)
  else (TLBINV_ONE, Some p).

(** The order the merge table implements: nobody is below everything, all
    is above everything, one ASID is below all user ASIDs, and all user
    ASIDs and the kernel are not comparable. *)
Definition op_le (a b : Z) : Prop :=
  a = b ∨ a = TLBINV_NOBODY ∨ b = TLBINV_ALL
  ∨ (a = TLBINV_ONE ∧ b = TLBINV_ALLUSER).

(** Two single-ASID states are comparable only when they name the same
    victim. *)
Definition scope_le (s t : Z * option pmap_t) : Prop :=
  op_le s.1 t.1 ∧ (s.1 = TLBINV_ONE → t.1 = TLBINV_ONE → s.2 = t.2).

(** A pending state holds one of the five operations, and a victim only
    with TLBINV_ONE. *)
Definition scope_wf (s : Z * option pmap_t) : Prop :=
  TLBINV_NOBODY ≤ s.1 ≤ TLBINV_ALL ∧ (s.1 ≠ TLBINV_ONE → s.2 = None).

Definition is_lub {A : Type} (le : A → A → Prop) (dom : A → Prop)
    (a b c : A) : Prop :=
  le a c ∧ le b c ∧ ∀ u, dom u → le a u → le b u → le c u.

(** The order as the specification words it: the chain
    none < one < all-non-kernel < all-kernel < all. *)
Definition spec_chain_le (a b : Z) : Prop := a ≤ b.

Definition valid_op (a : Z) : Prop := TLBINV_NOBODY ≤ a ≤ TLBINV_ALL.

(** ** The invariant of a TLB *)

Section Invariant.

Context (cfg : config).

(** Number of ASIDs marked in the bitmap among [lo], ..., [lo + n - 1]. *)
Definition count_inuse (b : list Z) (lo n : Z) : Z :=
  Z.of_nat (length (filter (λ a, BITMAP_ISSET cfg a b = true) (seqZ lo n))).

(** The bits set beyond the reserved ASIDs 0, ..., KERNEL_PID. *)
Definition asids_beyond (ti : pmap_tlb_info) : Z :=
  count_inuse (ti_asid_bitmap ti) (KERNEL_PID cfg + 1)
    (ti_asid_max ti - KERNEL_PID cfg).

(** Conservation of the ASIDs, in the two forms it is stated in. *)
Definition conservation (ti : pmap_tlb_info) : Prop :=
  ti_asids_free ti + asids_beyond ti = ti_asid_max ti - KERNEL_PID cfg.

Definition free_count_ok (ti : pmap_tlb_info) : Prop :=
  ti_asids_free ti = ti_asid_max ti - pmap_tlb_asid_count cfg ti.

Definition cfg_ok : Prop := 0 ≤ KERNEL_PID cfg ∧ 0 < NBPW cfg.

(** The state of TLB [i], which is [ti], is consistent, but for the pmaps
    of [X], whose ASID need not be marked in the bitmap (the
    reinitialisation goes through such states). *)
Record tlb_inv (X : list pmap_t) (s : kstate) (i : nat)
    (ti : pmap_tlb_info) : Prop := {
  inv_lookup : pmap_tlbs s !! i = Some ti;
  inv_max :
    KERNEL_PID cfg ≤ ti_asid_max ti ∧ ti_asid_max ti + 1 < 2 ^ 32
    ∧ ti_asid_max ti < NBPW cfg * Z.of_nat (length (ti_asid_bitmap ti));
  inv_reserved :
    ∀ a, 0 ≤ a ≤ KERNEL_PID cfg → TLBINFO_ASID_INUSE_P cfg ti a = true;
  inv_free : conservation ti;
  inv_hint : KERNEL_PID cfg < ti_asid_hint ti ≤ ti_asid_max ti + 1;
  inv_below :
    PMAP_TLB_FLUSH_ASID_ON_RESET cfg = false →
    ∀ a, 0 ≤ a < ti_asid_hint ti → TLBINFO_ASID_INUSE_P cfg ti a = true;
  inv_nodup : NoDup (ti_pais ti);
  inv_linked :
    ∀ p, p ∈ ti_pais ti →
      p ≠ pmap_kernel ∧
      ∃ pm, pmaps s !! p = Some pm
        ∧ KERNEL_PID cfg < pai_asid pm i ≤ ti_asid_max ti
        ∧ (p ∉ X → TLBINFO_ASID_INUSE_P cfg ti (pai_asid pm i) = true)
        ∧ (MULTIPROCESSOR cfg = true →
           pmap_tlb_intersecting_active_p cfg pm ti = true);
  inv_distinct :
    ∀ p q pm qm, p ∈ ti_pais ti → q ∈ ti_pais ti →
      pmaps s !! p = Some pm → pmaps s !! q = Some qm →
      pai_asid pm i = pai_asid qm i → p = q;
  inv_unlinked :
    ∀ p pm, p ≠ pmap_kernel → pmaps s !! p = Some pm → p ∉ ti_pais ti →
      pai_asid pm i = 0
      ∧ (MULTIPROCESSOR cfg = true →
         pmap_tlb_intersecting_active_p cfg pm ti = false
         ∧ pmap_tlb_intersecting_onproc_p cfg pm ti = false)
}.

End Invariant.

(** ** Total correctness of a routine *)

(** From the store [s] the routine [m] returns, with a value and a store
    that satisfy [Q]. *)
Definition wp {A : Type} (m : M A) (s : kstate) (Q : A → kstate → Prop)
  : Prop :=
  ∃ a s', m s = Some (a, s') ∧ Q a s'.

(** The store with TLB [i], or pmap [p], replaced. *)
Definition upd_ti (i : nat) (ti : pmap_tlb_info) (s : kstate) : kstate :=
  set_pmap_tlbs (<[i := ti]> (pmap_tlbs s)) s.

Definition upd_pm (p : pmap_t) (pm : pmap) (s : kstate) : kstate :=
  set_pmaps (<[p := pm]> (pmaps s)) s.

(** ** The stores the routines of the allocator end in *)

Section Results.

Context (cfg : config).

(** The TLB, the pmap and the store after [pmap_tlb_pai_reset]. *)
Definition pai_reset_ti (p : pmap_t) (asid : Z) (ti : pmap_tlb_info)
  : pmap_tlb_info :=
  let ti1 := set_pais (filter (λ q, q ≠ p) (ti_pais ti)) ti in
  if PMAP_TLB_FLUSH_ASID_ON_RESET cfg && TLBINFO_ASID_INUSE_P cfg ti asid
  then set_asids_free (wrap32 (ti_asids_free ti1 + 1))
         (TLBINFO_ASID_MARK_UNUSED cfg asid ti1)
  else ti1.

Definition pai_reset_pm (i : nat) (ti : pmap_tlb_info) (pm : pmap) : pmap :=
  let pm1 := set_pai_asid i 0 pm in
  if MULTIPROCESSOR cfg then
    if (PMAP_TLB_MAX cfg =? 1)%nat then set_active ∅ pm1
    else set_active (pm_active pm1 ∖ ti_kcpuset ti) pm1
  else pm1.

Definition pai_reset_hw (asid : Z) (h : hardware) : hardware :=
  if PMAP_TLB_FLUSH_ASID_ON_RESET cfg && negb (MULTIPROCESSOR cfg)
  then {| hw_asid := hw_asid h;
          hw_entries :=
            filter (λ a, ¬ (asid ≤ a ∧ a ≤ asid)) (hw_entries h);
          hw_globals := hw_globals h |}
  else h.

Definition pai_reset_store (i : nat) (p : pmap_t) (ti : pmap_tlb_info)
    (pm : pmap) (s : kstate) : kstate :=
  upd_pm p (pai_reset_pm i ti pm)
    (upd_ti i (pai_reset_ti p (pai_asid pm i) ti)
       (set_hw (pai_reset_hw (pai_asid pm i) (hw s)) s)).

(** The hint [pmap_tlb_asid_alloc] starts from, and the ASID it takes. *)
Definition alloc_hint (ti : pmap_tlb_info) : Z :=
  if PMAP_TLB_FLUSH_ASID_ON_RESET cfg && (ti_asid_max ti <? ti_asid_hint ti)
  then KERNEL_PID cfg + 1 else ti_asid_hint ti.

Definition alloc_asid (ti : pmap_tlb_info) : option Z :=
  if TLBINFO_ASID_INUSE_P cfg ti (alloc_hint ti) then
    match alloc_scan cfg (ti_asid_bitmap ti) 0 with
    | Some (w, bits) => Some (ffsl bits - 1 + w * NBPW cfg)
    | None => None
    end
  else Some (alloc_hint ti).

(** The TLB, the pmap and the store after [pmap_tlb_asid_alloc] has taken
    [asid]. *)
Definition alloc_ti (p : pmap_t) (asid : Z) (ti : pmap_tlb_info)
  : pmap_tlb_info :=
  set_asids_free (wrap32 (ti_asids_free ti - 1))
    (set_pais (p :: ti_pais ti)
       (TLBINFO_ASID_MARK_USED cfg asid (set_asid_hint (asid + 1) ti))).

Definition alloc_pm (i : nat) (asid : Z) (ti : pmap_tlb_info) (s : kstate)
    (pm : pmap) : pmap :=
  let pm1 := set_pai_asid i asid pm in
  if MULTIPROCESSOR cfg then
    if (PMAP_TLB_MAX cfg =? 1)%nat then set_active (kcpuset_running s) pm1
    else set_active (pm_active pm1 ∪ ti_kcpuset ti) pm1
  else pm1.

Definition alloc_hw (asid : Z) (h : hardware) : hardware :=
  if MULTIPROCESSOR cfg && PMAP_TLB_FLUSH_ASID_ON_RESET cfg
  then {| hw_asid := hw_asid h;
          hw_entries :=
            filter (λ a, ¬ (asid ≤ a ∧ a ≤ asid)) (hw_entries h);
          hw_globals := hw_globals h |}
  else h.

Definition alloc_store (i : nat) (p : pmap_t) (asid : Z)
    (ti : pmap_tlb_info) (pm : pmap) (s : kstate) : kstate :=
  upd_pm p (alloc_pm i asid ti s pm)
    (upd_ti i (alloc_ti p asid ti) (set_hw (alloc_hw asid (hw s)) s)).

(** Whether the TLB can be searched for the ASIDs resident in it, and
    whether shootdowns are compiled in. *)
Definition can_record : bool :=
  negb (MULTIPROCESSOR cfg) || PMAP_TLB_NEED_SHOOTDOWN cfg.

Definition has_shootdown : bool :=
  MULTIPROCESSOR cfg && PMAP_TLB_NEED_SHOOTDOWN cfg.

(** The TLB after the head of [pmap_tlb_asid_reinitialize]: the free count,
    the hint and the bitmap are reset. *)
Definition reinitialize_reset_ti (ti : pmap_tlb_info) : pmap_tlb_info :=
  TLBINFO_ASID_RESET cfg
    (set_asid_hint (KERNEL_PID cfg + 1)
       (set_asids_free (TLBINFO_ASID_INITIAL_FREE cfg (ti_asid_max ti))
          (set_evcnt_asid_reinits (ti_evcnt_asid_reinits ti + 1) ti))).

(** The number of ASIDs found in the TLB, from the reset bitmap [t1]. *)
Definition reinitialize_found (entries : list Z) (t1 : pmap_tlb_info) : Z :=
  (tlb_record_asids cfg entries (ti_asid_bitmap t1) (ti_asid_max t1)).1.

(** The TLB and the hardware after the switch on [op]. *)
Definition reinitialize_flush_ti (op : Z) (entries : list Z)
    (t1 : pmap_tlb_info) : pmap_tlb_info :=
  if op =? TLBINV_NOBODY then
    if can_record then
      let r := tlb_record_asids cfg entries (ti_asid_bitmap t1)
                 (ti_asid_max t1) in
      let t := set_asid_bitmap r.2 t1 in
      if ti_asid_max t1 / 2 <=? r.1
      then set_asids_free (TLBINFO_ASID_INITIAL_FREE cfg (ti_asid_max t))
             (TLBINFO_ASID_RESET cfg t)
      else set_asids_free (wrap32 (ti_asids_free t - r.1)) t
    else
      set_asids_free (TLBINFO_ASID_INITIAL_FREE cfg (ti_asid_max t1))
        (TLBINFO_ASID_RESET cfg t1)
  else t1.

Definition hw_invalidate_asids (lo hi : Z) (h : hardware) : hardware :=
  {| hw_asid := hw_asid h;
     hw_entries := filter (λ a, ¬ (lo ≤ a ∧ a ≤ hi)) (hw_entries h);
     hw_globals := hw_globals h |}.

Definition hw_invalidate_all (h : hardware) : hardware :=
  {| hw_asid := hw_asid h; hw_entries := []; hw_globals := 0%nat |}.

Definition reinitialize_flush_hw (op : Z) (t1 : pmap_tlb_info)
    (h : hardware) : hardware :=
  if has_shootdown && (op =? TLBINV_ALL) then hw_invalidate_all h
  else if has_shootdown && (op =? TLBINV_ALLUSER) then
    hw_invalidate_asids (KERNEL_PID cfg + 1) (ti_asid_max t1) h
  else if op =? TLBINV_NOBODY then
    if can_record then
      if ti_asid_max t1 / 2 <=? reinitialize_found (hw_entries h) t1
      then hw_invalidate_asids (KERNEL_PID cfg + 1) (ti_asid_max t1) h
      else h
    else hw_invalidate_all h
  else h.

(** Whether the ASIDs found in the TLB stay marked. *)
Definition keeps_resident (op : Z) (entries : list Z) (ti : pmap_tlb_info)
  : bool :=
  (op =? TLBINV_NOBODY) && can_record
  && negb (ti_asid_max ti / 2
           <=? reinitialize_found entries (reinitialize_reset_ti ti)).

Definition reinitialize_reset_store (i : nat) (op : Z)
    (ti : pmap_tlb_info) (s : kstate) : kstate :=
  upd_ti i
    (reinitialize_flush_ti op (hw_entries (hw s)) (reinitialize_reset_ti ti))
    (set_hw (reinitialize_flush_hw op (reinitialize_reset_ti ti) (hw s)) s).

(** The operations [pmap_tlb_asid_reinitialize] takes on this kernel. *)
Definition reinitialize_op_ok (op : Z) : Prop :=
  op = TLBINV_NOBODY
  ∨ (has_shootdown = true ∧ (op = TLBINV_ALL ∨ op = TLBINV_ALLUSER)).

(** On a DIAGNOSTIC kernel the number of ASIDs found is compared with the
    number of bits set from ASID 1 on, which counts the reserved ASIDs
    above 0 as well. *)
Definition diagnostic_ok : Prop :=
  DIAGNOSTIC cfg = true → can_record = true → KERNEL_PID cfg = 0.

(** The CPUs a pmap is marked active on when it gets an ASID are not an
    empty set. *)
Definition cpus_ok (s : kstate) (ti : pmap_tlb_info) : Prop :=
  if (PMAP_TLB_MAX cfg =? 1)%nat then kcpuset_running s ≠ ∅
  else ti_kcpuset ti ≠ ∅.

(** The ASID the specification has an allocation take: the lowest free
    ASID at or after the hint and not past [ti_asid_max]. *)
Definition spec_alloc_asid (ti : pmap_tlb_info) : option Z :=
  head (filter (λ a, TLBINFO_ASID_INUSE_P cfg ti a = false)
          (seqZ (ti_asid_hint ti) (ti_asid_max ti + 1 - ti_asid_hint ti))).

(** The CPU [ci] is one of the CPUs a pmap is marked active on when it gets
    an ASID of the TLB. *)
Definition cpu_served (s : kstate) (ci : cpu_info) (ti : pmap_tlb_info)
  : Prop :=
  if (PMAP_TLB_MAX cfg =? 1)%nat then ci_index ci ∈ kcpuset_running s
  else ci_index ci ∈ ti_kcpuset ti.

(** ASID [a] is the ASID of a pmap linked to the TLB that is onproc on one
    of its CPUs. *)
Definition held_by_current (s : kstate) (i : nat) (ti : pmap_tlb_info)
    (a : Z) : Prop :=
  ∃ q qm, q ∈ ti_pais ti ∧ pmaps s !! q = Some qm
    ∧ pmap_tlb_intersecting_onproc_p cfg qm ti = true ∧ pai_asid qm i = a.

(** The ASIDs that are marked after a reinitialisation for TLBINV_NOBODY:
    the reserved ones, those found in the TLB when they are kept, and, on
    a multiprocessor, those of the pmaps that are onproc. *)
Definition stays_marked (s : kstate) (i : nat) (ti : pmap_tlb_info)
    (a : Z) : Prop :=
  a ≤ KERNEL_PID cfg
  ∨ (keeps_resident TLBINV_NOBODY (hw_entries (hw s)) ti = true
     ∧ a ∈ hw_entries (hw s) ∧ a ≤ ti_asid_max ti)
  ∨ (MULTIPROCESSOR cfg = true ∧ held_by_current s i ti a).


(** The TLB after [shootdown_merge] for pmap [p]. *)
Definition merge_ti (p : pmap_t) (ti : pmap_tlb_info) : pmap_tlb_info :=
  if bool_decide (p = pmap_kernel) then
    set_victim None (set_tlbinvop (TLBINV_KERNEL_MAP (ti_tlbinvop ti)) ti)
  else if bool_decide (ti_victim ti = Some p) then ti
  else
    set_victim
      (if TLBINV_USER_MAP (ti_tlbinvop ti) =? TLBINV_ONE
       then Some p else None)
      (set_tlbinvop (TLBINV_USER_MAP (ti_tlbinvop ti)) ti).

(** The CPU of the TLB [ti] that [pmap_tlb_shootdown_bystanders] sends an
    IPI to, when it sends one: [act] is what is left of its copy of
    [pm_active] when it gets to the TLB. *)
Definition ipi_target (pm : pmap) (act : gset nat) (ti : pmap_tlb_info)
  : option nat :=
  if kcpuset_intersecting_p act (ti_kcpuset ti) then
    let j := kcpuset_ffs_intersecting (pm_onproc pm) (ti_kcpuset ti) in
    if (0 <? j)%nat then Some (j - 1)%nat else None
  else None.

(** The TLBs of the store serve CPUs of their own. *)
Definition tlbs_disjoint (s : kstate) : Prop :=
  ∀ i j ti tj, i ≠ j → pmap_tlbs s !! i = Some ti →
    pmap_tlbs s !! j = Some tj → ti_kcpuset ti ## ti_kcpuset tj.

(** What [pmap_tlb_shootdown_bystanders] relies on for pmap [p]: no TLB is
    locked, a TLB whose victim is [p] has TLBINV_ONE pending, and [p] has an
    ASID of every TLB it is onproc on. *)
Definition shootdown_ready (s : kstate) (p : pmap_t) (pm : pmap) : Prop :=
  ∀ i ti, pmap_tlbs s !! i = Some ti →
    ti_lock ti = false
    ∧ (ti_victim ti = Some p → ti_tlbinvop ti = TLBINV_ONE)
    ∧ (p ≠ pmap_kernel →
       pm_onproc pm ∩ ti_kcpuset ti ≠ ∅ → pai_asid pm i ≠ 0).

(** What [pmap_tlb_pai_check] asserts of a pmap [p] on the list of the TLB
    [i], which is [ti]. *)
Definition pai_ok (s : kstate) (i : nat) (ti : pmap_tlb_info) (p : pmap_t)
  : Prop :=
  p ≠ pmap_kernel
  ∧ ∃ pm, pmaps s !! p = Some pm
      ∧ KERNEL_PID cfg < pai_asid pm i ≤ ti_asid_max ti
      ∧ TLBINFO_ASID_INUSE_P cfg ti (pai_asid pm i) = true
      ∧ (MULTIPROCESSOR cfg = true →
         pmap_tlb_intersecting_active_p cfg pm ti = true).

(** The pmap and the store after [pmap_tlb_asid_deactivate]. *)
Definition deactivate_pm (ci : cpu_info) (p : pmap_t) (pm : pmap) : pmap :=
  if MULTIPROCESSOR cfg && negb (bool_decide (p = pmap_kernel))
     && negb (kcpuset_iszero (pm_onproc pm))
  then set_onproc (pm_onproc pm ∖ {[ci_index ci]}) pm else pm.

Definition deactivate_store (ci : cpu_info) (p : pmap_t) (pm : pmap)
    (s : kstate) : kstate :=
  set_hw {| hw_asid := KERNEL_PID cfg;
            hw_entries := hw_entries (hw s);
            hw_globals := hw_globals (hw s) |}
    (set_asid_cur (KERNEL_PID cfg) (upd_pm p (deactivate_pm ci p pm) s)).

(** The structure the branch for another TLB stores in [pmap_tlbs]. *)
Definition secondary_ti (tlb0 t0 : pmap_tlb_info) : pmap_tlb_info :=
  set_kcpuset ∅
    (set_victim None
       (set_tlbinvop TLBINV_NOBODY
          (set_asids_free
             (TLBINFO_ASID_INITIAL_FREE cfg (ti_asid_max tlb0))
             (set_asid_max (ti_asid_max tlb0)
                (set_asid_hint (KERNEL_PID cfg + 1)
                   (TLBINFO_ASID_RESET cfg (set_lock false t0))))))).

(** TLB 0 after the branch of [pmap_tlb_info_init] for [pmap_tlb0_info],
    from what it was. *)
Definition primary_ti (md_max : Z) (cpu : nat) (t : pmap_tlb_info)
  : pmap_tlb_info :=
  let t1 := set_lock false t in
  let t2 :=
    if MULTIPROCESSOR cfg && (1 <? PMAP_TLB_MAX cfg)%nat
    then set_kcpuset (∅ ∪ {[cpu]}) t1 else t1 in
  if (ti_asid_max t2 =? 0) || (md_max <? ti_asid_max t2)
  then set_asids_free (TLBINFO_ASID_INITIAL_FREE cfg md_max)
         (set_asid_max md_max t2)
  else t2.

(** The TLBs [pmap_tlb_asid_release_all] visits: all of them on a
    multiprocessor with more than one TLB, the first one otherwise. *)
Definition release_visits (j : nat) : Prop :=
  (MULTIPROCESSOR cfg = true ∧ (1 <? PMAP_TLB_MAX cfg)%nat = true)
  ∨ j = 0%nat.

End Results.

(** ** What the loop of the reinitialisation does *)

Section Walk.

Context (cfg : config).

(** The loop over the pmaps [l] of TLB [i] takes the store [s], where the
    TLB is [ti], to [s'], where it is [ti']: it marks the ASIDs of the pmaps
    that are onproc, unlinks pmaps of [l] only, and leaves everything else
    of the TLB and every other pmap alone. *)
Record walk_post (i : nat) (l : list pmap_t) (s : kstate)
    (ti : pmap_tlb_info) (s' : kstate) (ti' : pmap_tlb_info) : Prop := {
  wk_hint : ti_asid_hint ti' = ti_asid_hint ti;
  wk_max : ti_asid_max ti' = ti_asid_max ti;
  wk_victim : ti_victim ti' = ti_victim ti;
  wk_kcpuset : ti_kcpuset ti' = ti_kcpuset ti;
  wk_tlbinvop : ti_tlbinvop ti' = ti_tlbinvop ti;
  wk_lock : ti_lock ti' = ti_lock ti;
  wk_pais : ∀ q, q ∈ ti_pais ti' → q ∈ ti_pais ti;
  wk_pais_keep : ∀ q, q ∈ ti_pais ti → q ∉ l → q ∈ ti_pais ti';
  wk_bits :
    ∀ a, 0 ≤ a →
      TLBINFO_ASID_INUSE_P cfg ti' a = true ↔
      (TLBINFO_ASID_INUSE_P cfg ti a = true
       ∨ (MULTIPROCESSOR cfg = true
          ∧ ∃ p pm, p ∈ l ∧ pmaps s !! p = Some pm
              ∧ pmap_tlb_intersecting_onproc_p cfg pm ti = true
              ∧ pai_asid pm i = a));
  wk_pmaps : ∀ q, q ∉ l → pmaps s' !! q = pmaps s !! q;
  wk_running : kcpuset_running s' = kcpuset_running s;
  wk_evcnt : ti_evcnt_asid_reinits ti' = ti_evcnt_asid_reinits ti
}.

(** Every ASID marked beyond the reserved ones is the ASID of a pmap of the
    list that the loop has gone past. *)
Definition marked_by_list (i : nat) (l : list pmap_t) (s : kstate)
    (ti : pmap_tlb_info) : Prop :=
  ∀ a, KERNEL_PID cfg < a → TLBINFO_ASID_INUSE_P cfg ti a = true →
    ∃ q qm, q ∈ ti_pais ti ∧ (q ∉ l) ∧ pmaps s !! q = Some qm
            ∧ pai_asid qm i = a.

End Walk.

(** ** The calls of the routines, and what none of them undoes *)

(** A call of one of the routines that run once the TLBs are set up;
    [pmap_tlb_info_init] and [pmap_tlb_info_attach] run while the system
    is cold. *)
Inductive call : Type :=
| call_acquire (p : pmap_t) (ci : cpu_info) (curlwp_p : bool)
| call_deactivate (ci : cpu_info) (p : pmap_t)
| call_release_all (ci : cpu_info) (p : pmap_t)
| call_shootdown_bystanders (ci : cpu_info) (p : pmap_t)
| call_shootdown_process (ci : cpu_info)
| call_asid_alloc (i : nat) (p : pmap_t)
| call_pai_reset (i : nat) (p : pmap_t)
| call_asid_reinitialize (i : nat) (op : Z)
| call_pai_check (i : nat) (locked_p : bool).

Section Calls.

Context (cfg : config).

Definition run_call (c : call) : M unit :=
  match c with
  | call_acquire p ci curlwp_p => pmap_tlb_asid_acquire cfg p ci curlwp_p
  | call_deactivate ci p => pmap_tlb_asid_deactivate cfg ci p
  | call_release_all ci p => pmap_tlb_asid_release_all cfg ci p
  | call_shootdown_bystanders ci p =>
    pmap_tlb_shootdown_bystanders cfg ci p >> ret tt
  | call_shootdown_process ci => pmap_tlb_shootdown_process cfg ci
  | call_asid_alloc i p => pmap_tlb_asid_alloc cfg i p
  | call_pai_reset i p => pmap_tlb_pai_reset cfg i p
  | call_asid_reinitialize i op => pmap_tlb_asid_reinitialize cfg i op
  | call_pai_check i locked_p => pmap_tlb_pai_check cfg i locked_p
  end.

(** The calls of a list, one after the other. *)
Fixpoint run_calls (l : list call) : M unit :=
  match l with
  | [] => ret tt
  | c :: l' => run_call c >> run_calls l'
  end.

(** The pmap [q], which is [qm'] now, has no ASID of TLB [i], or the ASID
    of TLB [i] it had in the store [s]. *)
Definition held_before (i : nat) (s : kstate) (q : pmap_t) (qm' : pmap)
  : Prop :=
  pai_asid qm' i = 0
  ∨ ∃ qm, pmaps s !! q = Some qm ∧ pai_asid qm i = pai_asid qm' i.

(** What a run from [s] to [s'] has not undone for TLB [i].  No entry has
    come into the TLB of the CPU; the TLB is still there and its count of
    reinitialisations has not gone down.  Where ASIDs are freed on reset,
    on a multiprocessor the TLB holds no entry of an ASID that a pmap has
    got since [s].  Where freed ASIDs stay marked and [strict] is set, as
    long as the count of reinitialisations is the same every bit marked
    in [s] is still marked, and an ASID that a pmap has got since [s] was
    not marked in [s].  The steps of a reinitialisation that follow the
    step that takes the count up are related with [strict] cleared. *)
Definition quiet (strict : bool) (i : nat) (s s' : kstate) : Prop :=
  (∀ x, x ∈ hw_entries (hw s') → x ∈ hw_entries (hw s))
  ∧ ∀ ti, pmap_tlbs s !! i = Some ti →
      ∃ ti', pmap_tlbs s' !! i = Some ti'
        ∧ ti_evcnt_asid_reinits ti ≤ ti_evcnt_asid_reinits ti'
        ∧ (PMAP_TLB_FLUSH_ASID_ON_RESET cfg = true →
           ∀ q qm', pmaps s' !! q = Some qm' →
             held_before i s q qm'
             ∨ (MULTIPROCESSOR cfg = true →
                pai_asid qm' i ∉ hw_entries (hw s')))
        ∧ (strict = true → PMAP_TLB_FLUSH_ASID_ON_RESET cfg = false →
           ti_evcnt_asid_reinits ti' = ti_evcnt_asid_reinits ti →
           (∀ a, TLBINFO_ASID_INUSE_P cfg ti a = true →
                 TLBINFO_ASID_INUSE_P cfg ti' a = true)
           ∧ ∀ q qm', pmaps s' !! q = Some qm' →
               held_before i s q qm'
               ∨ TLBINFO_ASID_INUSE_P cfg ti (pai_asid qm' i) = false).

(** An update of a TLB that [quiet] allows. *)
Definition ti_quiet (strict : bool) (f : pmap_tlb_info → pmap_tlb_info)
  : Prop :=
  ∀ t,
    ti_evcnt_asid_reinits t ≤ ti_evcnt_asid_reinits (f t)
    ∧ (strict = true → PMAP_TLB_FLUSH_ASID_ON_RESET cfg = false →
       ti_evcnt_asid_reinits (f t) = ti_evcnt_asid_reinits t →
       ∀ a, TLBINFO_ASID_INUSE_P cfg t a = true →
            TLBINFO_ASID_INUSE_P cfg (f t) a = true).

End Calls.

(** ** What a routine leaves alone *)

(** Every run of the routine [m] that returns takes the store to one that
    [R] relates it to. *)
Definition keeps {A : Type} (R : kstate → kstate → Prop) (m : M A) : Prop :=
  ∀ s a s', m s = Some (a, s') → R s s'.

(** Every run of [m] that returns ends in a store where [P] holds. *)
Definition ends {A : Type} (P : kstate → Prop) (m : M A) : Prop :=
  ∀ s a s', m s = Some (a, s') → P s'.

(** What is settled for a TLB when it is set up: the last ASID, the CPUs it
    serves and the size of the bitmap. *)
Definition ti_fixed (t : pmap_tlb_info) : Z * gset nat * nat :=
  (ti_asid_max t, ti_kcpuset t, length (ti_asid_bitmap t)).

(** The updates of a TLB the routines make under its lock touch neither
    that nor the lock. *)
Definition ti_update_ok (f : pmap_tlb_info → pmap_tlb_info) : Prop :=
  ∀ t, ti_fixed (f t) = ti_fixed t ∧ ti_lock (f t) = ti_lock t.

(** The shape of the store: the TLBs there are and what is settled for
    each, the running CPUs, the pmaps there are; and the IPIs sent so far
    stay sent. *)
Record same_shape (s s' : kstate) : Prop := {
  sh_tlbs :
    ∀ j, ti_fixed <$> (pmap_tlbs s' !! j) = ti_fixed <$> (pmap_tlbs s !! j);
  sh_running : kcpuset_running s' = kcpuset_running s;
  sh_pmaps : dom (pmaps s') = dom (pmaps s);
  sh_ipis : ipis s `prefix_of` ipis s'
}.

(** The routine works for the TLB [i] and the CPU [c] only: the other TLBs
    are left as they are, and so are the ASIDs the pmaps have of them, and
    no pmap starts or stops being onproc on another CPU. *)
Record local_to (i c : nat) (s s' : kstate) : Prop := {
  lo_tlbs : ∀ j, j ≠ i → pmap_tlbs s' !! j = pmap_tlbs s !! j;
  lo_pai :
    ∀ p j, j ≠ i →
      ((λ pm, pai_asid pm j) <$> (pmaps s' !! p))
      = ((λ pm, pai_asid pm j) <$> (pmaps s !! p));
  lo_onproc :
    ∀ p, ((λ pm, pm_onproc pm ∖ {[c]}) <$> (pmaps s' !! p))
         = ((λ pm, pm_onproc pm ∖ {[c]}) <$> (pmaps s !! p))
}.

(** The ASID register of the TLB holds the ASID the CPU takes as current:
    what [pmap_tlb_asid_check] asserts. *)
Definition asid_synced (s : kstate) : Prop :=
  hw_asid (hw s) = ci_pmap_asid_cur s.

(** The state of the lock of the TLB [j], when there is such a TLB. *)
Definition lock_of (s : kstate) (j : nat) : option bool :=
  ti_lock <$> (pmap_tlbs s !! j).

(** The locks of the TLBs are in the same state. *)
Definition same_locks (s s' : kstate) : Prop :=
  ∀ j, lock_of s' j = lock_of s j.

(** A routine that holds the lock of the TLB [h], or no lock, in the
    store [s] takes it to [s'], where it holds the lock of [h']: a lock it
    takes was free, a lock it gives back is free, and the other locks are
    in the same state. *)
Definition holds (h : option nat) (s : kstate) : Prop :=
  ∀ j, h = Some j → lock_of s j = Some true.

Definition lock_step (h h' : option nat) (s s' : kstate) : Prop :=
  holds h s →
  holds h' s'
  ∧ ∀ j, (h ≠ Some j → h' ≠ Some j → lock_of s' j = lock_of s j)
       ∧ (h = Some j → h' ≠ Some j → lock_of s' j = Some false)
       ∧ (h ≠ Some j → h' = Some j → lock_of s j = Some false).

(** The shape is the same and no IPI was sent. *)
Definition same_shape_no_ipi (s s' : kstate) : Prop :=
  same_shape s s' ∧ ipis s' = ipis s.

(** A store in which the ASID register and [ci_pmap_asid_cur] agree is
    taken to one in which they agree. *)
Definition stays_synced (s s' : kstate) : Prop :=
  asid_synced s → asid_synced s'.


(** The TLB when [pmap_tlb_shootdown_process] is done with it: nothing is
    pending and the lock is free. *)
Definition process_done (ti : pmap_tlb_info) : pmap_tlb_info :=
  set_lock false (set_tlbinvop TLBINV_NOBODY (set_victim None ti)).

(** * Configurations and stores used as examples *)

(** A multiprocessor kernel with shootdowns and two TLBs, and a
    uniprocessor kernel; ASIDs are not freed when a binding is reset. *)
Definition cfg_mp : config :=
  {| KERNEL_PID := 0; PMAP_TLB_FLUSH_ASID_ON_RESET := false;
     MULTIPROCESSOR := true; PMAP_TLB_NEED_SHOOTDOWN := true;
     PMAP_TLB_MAX := 2; DIAGNOSTIC := true; NBPW := 32 |}.

Definition cfg_up : config :=
  {| KERNEL_PID := 0; PMAP_TLB_FLUSH_ASID_ON_RESET := false;
     MULTIPROCESSOR := false; PMAP_TLB_NEED_SHOOTDOWN := false;
     PMAP_TLB_MAX := 1; DIAGNOSTIC := true; NBPW := 32 |}.

(** The same kernels on a platform that frees the ASID of a binding when
    the binding is reset. *)
Definition cfg_mp_flush : config :=
  {| KERNEL_PID := 0; PMAP_TLB_FLUSH_ASID_ON_RESET := true;
     MULTIPROCESSOR := true; PMAP_TLB_NEED_SHOOTDOWN := true;
     PMAP_TLB_MAX := 2; DIAGNOSTIC := true; NBPW := 32 |}.

Definition cfg_up_flush : config :=
  {| KERNEL_PID := 0; PMAP_TLB_FLUSH_ASID_ON_RESET := true;
     MULTIPROCESSOR := false; PMAP_TLB_NEED_SHOOTDOWN := false;
     PMAP_TLB_MAX := 1; DIAGNOSTIC := true; NBPW := 32 |}.


(** A TLB with ASIDs 0 to 7 and a bitmap of two words. *)
Definition ex_tlb (free hint : Z) (b : list Z) (pais : list pmap_t)
    (victim : option pmap_t) (kc : gset nat) (op : Z) : pmap_tlb_info :=
  {| ti_asids_free := free; ti_asid_hint := hint; ti_asid_max := 7;
     ti_asid_bitmap := b; ti_pais := pais; ti_victim := victim;
     ti_kcpuset := kc; ti_tlbinvop := op; ti_lock := false;
     ti_evcnt_asid_reinits := 0 |}.

Definition ex_pmap (asids : list (nat * Z)) (active onproc : gset nat)
  : pmap :=
  {| pm_pai := list_to_map asids; pm_active := active;
     pm_onproc := onproc |}.

Definition ex_store (tlbs : list pmap_tlb_info) (pms : list (nat * pmap))
    (entries : list Z) : kstate :=
  {| pmap_tlbs := tlbs; pmaps := list_to_map pms;
     kcpuset_running := {[0%nat; 1%nat; 2%nat; 3%nat]};
     ci_pmap_asid_cur := 0;
     hw := {| hw_asid := 0; hw_entries := entries; hw_globals := 0 |};
     ipis := [] |}.

Definition ex_kernel : pmap :=
  ex_pmap [] {[0%nat; 1%nat; 2%nat; 3%nat]} {[0%nat; 1%nat; 2%nat; 3%nat]}.

Definition cpu0 : cpu_info := {| ci_index := 0; ci_tlb := 0 |}.
Definition cpu2 : cpu_info := {| ci_index := 2; ci_tlb := 1 |}.

(** CPUs 0 and 1 share TLB 0, CPUs 2 and 3 share TLB 1.  Pmap 1 runs on
    CPU 2 with ASID 1, pmap 2 has ASID 2 but runs nowhere, pmap 3 has no
    ASID;
    the free count, the hint, the bitmap and the pending shootdown of TLB 1
    are left open. *)
Definition ex_mp_tlb (free hint : Z) (b : list Z) (op : Z)
    (victim : option pmap_t) : pmap_tlb_info :=
  ex_tlb free hint b [2%nat; 1%nat] victim {[2%nat; 3%nat]} op.

Definition ex_mp_store (free hint : Z) (b : list Z) (op : Z)
    (victim : option pmap_t) : kstate :=
  ex_store
    [ex_tlb 7 1 [1; 0] [] None {[0%nat; 1%nat]} TLBINV_NOBODY;
     ex_mp_tlb free hint b op victim]
    [(0%nat, ex_kernel);
     (1%nat, ex_pmap [(1%nat, 1)] {[2%nat; 3%nat]} {[2%nat]});
     (2%nat, ex_pmap [(1%nat, 2)] {[2%nat; 3%nat]} ∅);
     (3%nat, ex_pmap [] ∅ ∅)]
    [].

(** ASIDs 0 to 2 are marked and nothing is pending. *)
Definition ex_mp : kstate := ex_mp_store 5 3 [7; 0] TLBINV_NOBODY None.

(** All the ASIDs are marked: the ASID space of TLB 1 is exhausted. *)
Definition ex_mp_full : kstate :=
  ex_mp_store 0 8 [255; 0] TLBINV_NOBODY None.

(** TLB 1 has a shootdown of pmap 1 pending. *)
Definition ex_shoot_one : kstate :=
  ex_mp_store 5 3 [7; 0] TLBINV_ONE (Some 1%nat).

(** TLB 1 has a shootdown of all user ASIDs pending. *)
Definition ex_shoot_alluser : kstate :=
  ex_mp_store 5 3 [7; 0] TLBINV_ALLUSER None.

(** One CPU and one TLB: pmap 1 has ASID 1 and pmap 2 has ASID 2, pmap 3
    has no ASID; entries of ASIDs 1 and 5 are resident in the TLB. *)
Definition ex_up_tlb (free hint : Z) (b : list Z) : pmap_tlb_info :=
  ex_tlb free hint b [2%nat; 1%nat] None ∅ TLBINV_NOBODY.

Definition ex_up_store (free hint : Z) (b : list Z) : kstate :=
  ex_store [ex_up_tlb free hint b]
    [(0%nat, ex_kernel);
     (1%nat, ex_pmap [(0%nat, 1)] ∅ ∅);
     (2%nat, ex_pmap [(0%nat, 2)] ∅ ∅);
     (3%nat, ex_pmap [] ∅ ∅)]
    [1; 5].

Definition ex_up : kstate := ex_up_store 5 3 [7; 0].

Definition ex_up_full : kstate := ex_up_store 0 8 [255; 0].

(** On a kernel that frees the ASID of a binding when it is reset: pmap 1
    has ASID 1 and pmap 2 has ASID 3; ASID 2 was taken last, so that the
    hint is 3, and has been freed since. *)
Definition ex_up_gap_tlb : pmap_tlb_info := ex_up_tlb 5 3 [11; 0].

Definition ex_up_gap : kstate :=
  ex_store [ex_up_gap_tlb]
    [(0%nat, ex_kernel);
     (1%nat, ex_pmap [(0%nat, 1)] ∅ ∅);
     (2%nat, ex_pmap [(0%nat, 3)] ∅ ∅);
     (3%nat, ex_pmap [] ∅ ∅)]
    [].

(** CPU 0 has TLB 0 and CPUs 1, 2 and 3 share TLB 1, whose ASIDs are all
    marked.  Pmap 1 runs on CPU 2 with ASID 1 and pmap 2 on CPU 3 with
    ASID 3; pmap 3 has no ASID and is about to run on CPU 1. *)
Definition cpu1 : cpu_info := {| ci_index := 1; ci_tlb := 1 |}.

Definition ex_busy_tlb : pmap_tlb_info :=
  ex_tlb 0 8 [255; 0] [2%nat; 1%nat] None {[1%nat; 2%nat; 3%nat]}
    TLBINV_NOBODY.

Definition ex_busy : kstate :=
  ex_store
    [ex_tlb 7 1 [1; 0] [] None {[0%nat]} TLBINV_NOBODY; ex_busy_tlb]
    [(0%nat, ex_kernel);
     (1%nat, ex_pmap [(1%nat, 1)] {[1%nat; 2%nat; 3%nat]} {[2%nat]});
     (2%nat, ex_pmap [(1%nat, 3)] {[1%nat; 2%nat; 3%nat]} {[3%nat]});
     (3%nat, ex_pmap [] ∅ ∅)]
    [].


(** The store of [ex_mp] with pmap 2 running on CPU 3. *)
Definition cpu3 : cpu_info := {| ci_index := 3; ci_tlb := 1 |}.

Definition ex_two_running : kstate :=
  ex_store
    [ex_tlb 7 1 [1; 0] [] None {[0%nat; 1%nat]} TLBINV_NOBODY;
     ex_mp_tlb 5 3 [7; 0] TLBINV_NOBODY None]
    [(0%nat, ex_kernel);
     (1%nat, ex_pmap [(1%nat, 1)] {[2%nat; 3%nat]} {[2%nat]});
     (2%nat, ex_pmap [(1%nat, 2)] {[2%nat; 3%nat]} {[3%nat]});
     (3%nat, ex_pmap [] ∅ ∅)]
    [].

(** The store of [ex_up] when ASID 2, the ASID of pmap 2, is the current
    one of the CPU. *)
Definition ex_up_current : kstate := set_asid_cur 2 ex_up.

(** A store at boot, with the kernel pmap and TLB 0 only, which serves
    CPU 0, and the zeroed structure of a TLB with a bitmap of two words. *)
Definition ex_boot : kstate :=
  ex_store [ex_tlb 7 1 [1; 0] [] None {[0%nat]} TLBINV_NOBODY]
    [(0%nat, ex_kernel); (3%nat, ex_pmap [] ∅ ∅)] [].

Definition ex_zero_tlb : pmap_tlb_info :=
  {| ti_asids_free := 0; ti_asid_hint := 0; ti_asid_max := 0;
     ti_asid_bitmap := replicate 2 0; ti_pais := [];
     ti_victim := None; ti_kcpuset := ∅; ti_tlbinvop := 0;
     ti_lock := false; ti_evcnt_asid_reinits := 0 |}.

(** The store before [pmap_tlb_info_init] is called for [pmap_tlb0_info]
    on a kernel that does not define PMAP_TLB_NUM_PIDS. *)
Definition ex_static : kstate :=
  ex_store [pmap_tlb0_info cfg_mp 2 None]
    [(0%nat, ex_kernel); (3%nat, ex_pmap [] ∅ ∅)] [].

(** * Properties *)

Arguments BITMAP_ISSET : simpl never.
Arguments BITMAP_SET : simpl never.
Arguments BITMAP_CLR : simpl never.
Arguments BITMAP_ZERO : simpl never.
Arguments TLBINFO_ASID_RESET : simpl never.
Arguments TLBINFO_ASID_INITIAL_FREE : simpl never.
Arguments wrap32 : simpl never.
Arguments not_ulong : simpl never.
Arguments wrap_ulong : simpl never.
Arguments ffsl : simpl never.
Arguments count_inuse : simpl never.
Arguments pmap_tlb_asid_count : simpl never.
Arguments tlb_record_asids : simpl never.
Arguments kcpuset_intersecting_p : simpl never.
Arguments kcpuset_iszero : simpl never.
Arguments kcpuset_ffs_intersecting : simpl never.
Arguments TLBINV_USER_MAP : simpl never.
Arguments TLBINV_KERNEL_MAP : simpl never.

(** ** The merge table *)

Lemma TLBINV_USER_MAP_table :
  TLBINV_USER_MAP TLBINV_NOBODY = TLBINV_ONE
  ∧ TLBINV_USER_MAP TLBINV_ONE = TLBINV_ALLUSER
  ∧ TLBINV_USER_MAP TLBINV_ALLUSER = TLBINV_ALLUSER
  ∧ TLBINV_USER_MAP TLBINV_ALLKERNEL = TLBINV_ALL
  ∧ TLBINV_USER_MAP TLBINV_ALL = TLBINV_ALL.
Proof. repeat split; reflexivity. Qed.

Lemma TLBINV_KERNEL_MAP_table :
  TLBINV_KERNEL_MAP TLBINV_NOBODY = TLBINV_ALLKERNEL
  ∧ TLBINV_KERNEL_MAP TLBINV_ONE = TLBINV_ALL
  ∧ TLBINV_KERNEL_MAP TLBINV_ALLUSER = TLBINV_ALL
  ∧ TLBINV_KERNEL_MAP TLBINV_ALLKERNEL = TLBINV_ALLKERNEL
  ∧ TLBINV_KERNEL_MAP TLBINV_ALL = TLBINV_ALL.
Proof. repeat split; reflexivity. Qed.

Lemma valid_op_cases (a : Z) :
  valid_op a →
  a = TLBINV_NOBODY ∨ a = TLBINV_ONE ∨ a = TLBINV_ALLUSER
  ∨ a = TLBINV_ALLKERNEL ∨ a = TLBINV_ALL.
Proof.
  unfold valid_op, TLBINV_NOBODY, TLBINV_ONE, TLBINV_ALLUSER,
    TLBINV_ALLKERNEL, TLBINV_ALL.
  lia.
Qed.

(** ** The bitmap *)

Section Bitmap.

Context (cfg : config) (Hcfg : cfg_ok cfg).

Lemma bit_index_eq (a n : Z) :
  a `div` NBPW cfg = n `div` NBPW cfg → a `mod` NBPW cfg = n `mod` NBPW cfg → a = n.
Proof.
  destruct Hcfg as [_ HN]. intros Hd Hm.
  rewrite (Z.div_mod a (NBPW cfg)), (Z.div_mod n (NBPW cfg)) by lia.
  congruence.
Qed.

Lemma testbit_bit (k m : Z) :
  0 ≤ k → Z.testbit (Z.shiftl 1 k) m = bool_decide (m = k).
Proof.
  intros Hk. rewrite Z.shiftl_1_l, Z.pow2_bits_eqb by done.
  case_bool_decide; [apply Z.eqb_eq|apply Z.eqb_neq]; congruence.
Qed.

Lemma BITMAP_ISSET_SET (n a : Z) (b : list Z) :
  0 ≤ n → 0 ≤ a → n < NBPW cfg * Z.of_nat (length b) →
  BITMAP_ISSET cfg a (BITMAP_SET cfg n b)
  = bool_decide (a = n) || BITMAP_ISSET cfg a b.
Proof.
  destruct Hcfg as [_ HN]. intros Hn Ha Hlen. unfold BITMAP_ISSET, BITMAP_SET.
  assert (Hw : (Z.to_nat (n `div` NBPW cfg) < length b)%nat).
  { apply Nat2Z.inj_lt. rewrite Z2Nat.id by (apply Z.div_pos; lia).
    apply Z.div_lt_upper_bound; lia. }
  destruct (decide (a `div` NBPW cfg = n `div` NBPW cfg)) as [Hd|Hd].
  - rewrite Hd, list_lookup_insert_eq by done. simpl.
    rewrite Z.lor_spec, testbit_bit by (apply Z.mod_pos_bound; lia).
    rewrite orb_comm. f_equal.
    apply bool_decide_ext. split; [intros Hm; by apply bit_index_eq|by intros ->].
  - rewrite list_lookup_insert_ne.
    2:{ intros Heq. apply Hd. apply Z2Nat.inj in Heq; [done| |]; apply Z.div_pos; lia. }
    rewrite bool_decide_eq_false_2; [done|congruence].
Qed.

Lemma BITMAP_ISSET_CLR (n a : Z) (b : list Z) :
  0 ≤ n → 0 ≤ a → n < NBPW cfg * Z.of_nat (length b) →
  BITMAP_ISSET cfg a (BITMAP_CLR cfg n b)
  = negb (bool_decide (a = n)) && BITMAP_ISSET cfg a b.
Proof.
  destruct Hcfg as [_ HN]. intros Hn Ha Hlen. unfold BITMAP_ISSET, BITMAP_CLR.
  assert (Hw : (Z.to_nat (n `div` NBPW cfg) < length b)%nat).
  { apply Nat2Z.inj_lt. rewrite Z2Nat.id by (apply Z.div_pos; lia).
    apply Z.div_lt_upper_bound; lia. }
  destruct (decide (a `div` NBPW cfg = n `div` NBPW cfg)) as [Hd|Hd].
  - rewrite Hd, list_lookup_insert_eq by done. simpl.
    rewrite Z.ldiff_spec, testbit_bit by (apply Z.mod_pos_bound; lia).
    rewrite andb_comm. f_equal. f_equal.
    apply bool_decide_ext. split; [intros Hm; by apply bit_index_eq|by intros ->].
  - rewrite list_lookup_insert_ne.
    2:{ intros Heq. apply Hd. apply Z2Nat.inj in Heq; [done| |]; apply Z.div_pos; lia. }
    rewrite bool_decide_eq_false_2; [done|congruence].
Qed.

Lemma length_BITMAP_SET n b : length (BITMAP_SET cfg n b) = length b.
Proof. apply length_insert. Qed.

Lemma length_BITMAP_CLR n b : length (BITMAP_CLR cfg n b) = length b.
Proof. apply length_insert. Qed.

Lemma length_BITMAP_ZERO b : length (BITMAP_ZERO b) = length b.
Proof. apply length_fmap. Qed.

Lemma BITMAP_ISSET_ZERO a b : BITMAP_ISSET cfg a (BITMAP_ZERO b) = false.
Proof.
  unfold BITMAP_ISSET, BITMAP_ZERO. rewrite list_lookup_fmap.
  destruct (b !! _); simpl; apply Z.bits_0.
Qed.

End Bitmap.

(** ** Marking and counting ASIDs *)

Section Counting.

Context (cfg : config) (Hcfg : cfg_ok cfg).

(** marking a list of ASIDs *)
Lemma foldl_MARK_USED_fields (l : list Z) (ti : pmap_tlb_info) :
  let t := foldl (λ t asid, TLBINFO_ASID_MARK_USED cfg asid t) ti l in
  ti_asids_free t = ti_asids_free ti ∧ ti_asid_hint t = ti_asid_hint ti
  ∧ ti_asid_max t = ti_asid_max ti ∧ ti_pais t = ti_pais ti
  ∧ ti_victim t = ti_victim ti ∧ ti_kcpuset t = ti_kcpuset ti
  ∧ ti_tlbinvop t = ti_tlbinvop ti ∧ ti_lock t = ti_lock ti
  ∧ ti_evcnt_asid_reinits t = ti_evcnt_asid_reinits ti
  ∧ length (ti_asid_bitmap t) = length (ti_asid_bitmap ti).
Proof.
  revert ti. induction l as [|a l IH]; intros ti; simpl; [done|].
  specialize (IH (TLBINFO_ASID_MARK_USED cfg a ti)). simpl in IH.
  rewrite length_BITMAP_SET in IH. exact IH.
Qed.

Lemma foldl_MARK_USED_isset (l : list Z) (ti : pmap_tlb_info) (a : Z) :
  0 ≤ a →
  (∀ n, n ∈ l → 0 ≤ n < NBPW cfg * Z.of_nat (length (ti_asid_bitmap ti))) →
  TLBINFO_ASID_INUSE_P cfg
    (foldl (λ t asid, TLBINFO_ASID_MARK_USED cfg asid t) ti l) a
  = bool_decide (a ∈ l) || TLBINFO_ASID_INUSE_P cfg ti a.
Proof.
  intros Ha. revert ti. induction l as [|n l IH]; intros ti Hl; cbn [foldl].
  - rewrite (bool_decide_eq_false_2 (a ∈ [])); [done|]. apply not_elem_of_nil.
  - rewrite IH.
    2:{ intros m Hm. simpl. rewrite length_BITMAP_SET. apply Hl. by right. }
    unfold TLBINFO_ASID_INUSE_P, TLBINFO_ASID_MARK_USED. simpl.
    rewrite BITMAP_ISSET_SET; [|done|apply Hl; by left|done|apply Hl; by left].
    destruct (decide (a = n)) as [->|Hne].
    + rewrite !(bool_decide_eq_true_2 (n = n)) by done.
      rewrite (bool_decide_eq_true_2 (n ∈ n :: l)) by (by left).
      by rewrite orb_true_r.
    + rewrite (bool_decide_eq_false_2 (a = n)) by done. simpl.
      f_equal. apply bool_decide_ext. rewrite elem_of_cons. tauto.
Qed.

Lemma TLBINFO_ASID_RESET_fields (ti : pmap_tlb_info) :
  let t := TLBINFO_ASID_RESET cfg ti in
  ti_asids_free t = ti_asids_free ti ∧ ti_asid_hint t = ti_asid_hint ti
  ∧ ti_asid_max t = ti_asid_max ti ∧ ti_pais t = ti_pais ti
  ∧ ti_victim t = ti_victim ti ∧ ti_kcpuset t = ti_kcpuset ti
  ∧ ti_tlbinvop t = ti_tlbinvop ti ∧ ti_lock t = ti_lock ti
  ∧ ti_evcnt_asid_reinits t = ti_evcnt_asid_reinits ti
  ∧ length (ti_asid_bitmap t) = length (ti_asid_bitmap ti).
Proof.
  unfold TLBINFO_ASID_RESET.
  pose proof (foldl_MARK_USED_fields (seqZ 0 (KERNEL_PID cfg + 1))
    (set_asid_bitmap (BITMAP_ZERO (ti_asid_bitmap ti)) ti)) as H.
  simpl in H. rewrite length_BITMAP_ZERO in H. exact H.
Qed.

Lemma TLBINFO_ASID_RESET_isset (ti : pmap_tlb_info) (a : Z) :
  0 ≤ a →
  KERNEL_PID cfg < NBPW cfg * Z.of_nat (length (ti_asid_bitmap ti)) →
  TLBINFO_ASID_INUSE_P cfg (TLBINFO_ASID_RESET cfg ti) a
  = bool_decide (a ≤ KERNEL_PID cfg).
Proof.
  intros Ha Hlen. unfold TLBINFO_ASID_RESET.
  rewrite foldl_MARK_USED_isset; [|done|].
  - unfold TLBINFO_ASID_INUSE_P. simpl. rewrite BITMAP_ISSET_ZERO, orb_false_r.
    apply bool_decide_ext. rewrite elem_of_seqZ. lia.
  - intros n. rewrite elem_of_seqZ. simpl. rewrite length_BITMAP_ZERO. lia.
Qed.

(** counting *)
Lemma filter_length_ext_in {A} (P Q : A → Prop) `{∀ x, Decision (P x)}
    `{∀ x, Decision (Q x)} (l : list A) :
  (∀ y, y ∈ l → (P y ↔ Q y)) → length (filter P l) = length (filter Q l).
Proof.
  induction l as [|y l IH]; intros Hext; [done|].
  rewrite !filter_cons.
  assert (HPQ : P y ↔ Q y) by (apply Hext; by left).
  assert (IH' : length (filter P l) = length (filter Q l)).
  { apply IH. intros z Hz. apply Hext. by right. }
  destruct (decide (P y)), (decide (Q y)); simpl; try tauto; by rewrite IH'.
Qed.

Lemma filter_length_flip {A} `{EqDecision A} (P Q : A → Prop)
    `{∀ x, Decision (P x)} `{∀ x, Decision (Q x)} (l : list A) (x : A) :
  NoDup l → x ∈ l → ¬ P x → Q x → (∀ y, y ∈ l → y ≠ x → (P y ↔ Q y)) →
  length (filter Q l) = S (length (filter P l)).
Proof.
  intros Hnd Hx HP HQ. induction l as [|y l IH]; intros Hext;
    [by apply elem_of_nil in Hx|].
  apply NoDup_cons in Hnd as [Hy Hnd].
  rewrite !filter_cons. destruct (decide (y = x)) as [->|Hne].
  - rewrite decide_True by done. rewrite decide_False by done. simpl. f_equal.
    apply filter_length_ext_in. intros z Hz. symmetry. apply Hext; [by right|].
    intros ->. done.
  - apply elem_of_cons in Hx as [->|Hx]; [done|].
    assert (HPQ : P y ↔ Q y) by (apply Hext; [by left|done]).
    assert (IH' : length (filter Q l) = S (length (filter P l))).
    { apply IH; [done|done|]. intros z Hz. apply Hext. by right. }
    destruct (decide (P y)), (decide (Q y)); simpl; try tauto; by rewrite IH'.
Qed.

Lemma filter_length_lt {A} (P : A → Prop) `{∀ x, Decision (P x)}
    (l : list A) (x : A) :
  x ∈ l → ¬ P x → (length (filter P l) < length l)%nat.
Proof.
  induction l as [|y l IH]; intros Hx HP; [by apply elem_of_nil in Hx|].
  rewrite filter_cons. pose proof (length_filter P l) as Hle.
  apply elem_of_cons in Hx as [->|Hx].
  - rewrite decide_False by done. simpl. lia.
  - specialize (IH Hx HP). destruct (decide (P y)); simpl; lia.
Qed.

Lemma filter_length_pos {A} (P : A → Prop) `{∀ x, Decision (P x)}
    (l : list A) (x : A) :
  x ∈ l → P x → (0 < length (filter P l))%nat.
Proof.
  intros Hx HP. assert (Hin : x ∈ filter P l) by (by apply list_elem_of_filter).
  destruct (filter P l); [by apply elem_of_nil in Hin|simpl; lia].
Qed.

Lemma filter_length_all {A} (P : A → Prop) `{∀ x, Decision (P x)}
    (l : list A) :
  (∀ x, x ∈ l → P x) → length (filter P l) = length l.
Proof.
  induction l as [|y l IH]; intros Hall; [done|].
  rewrite filter_cons, decide_True by (apply Hall; by left). simpl.
  rewrite IH; [done|]. intros x Hx. apply Hall. by right.
Qed.

Lemma filter_length_none {A} (P : A → Prop) `{∀ x, Decision (P x)}
    (l : list A) :
  (∀ x, x ∈ l → ¬ P x) → length (filter P l) = 0%nat.
Proof.
  induction l as [|y l IH]; intros Hall; [done|].
  rewrite filter_cons, decide_False by (apply Hall; by left).
  apply IH. intros x Hx. apply Hall. by right.
Qed.

Lemma count_inuse_ext (b b' : list Z) (lo n : Z) :
  (∀ a, lo ≤ a < lo + n → BITMAP_ISSET cfg a b = BITMAP_ISSET cfg a b') →
  count_inuse cfg b lo n = count_inuse cfg b' lo n.
Proof.
  intros Hext. unfold count_inuse. f_equal. apply filter_length_ext_in.
  intros a Ha. apply elem_of_seqZ in Ha. by rewrite Hext.
Qed.

Lemma count_inuse_bounds (b : list Z) (lo n : Z) :
  0 ≤ n → 0 ≤ count_inuse cfg b lo n ≤ n.
Proof.
  intros Hn. unfold count_inuse.
  pose proof (length_filter (λ a, BITMAP_ISSET cfg a b = true) (seqZ lo n)) as H.
  rewrite length_seqZ in H. lia.
Qed.

Lemma count_inuse_set (b b' : list Z) (lo n x : Z) :
  lo ≤ x < lo + n →
  BITMAP_ISSET cfg x b = false → BITMAP_ISSET cfg x b' = true →
  (∀ a, lo ≤ a < lo + n → a ≠ x →
        BITMAP_ISSET cfg a b' = BITMAP_ISSET cfg a b) →
  count_inuse cfg b' lo n = count_inuse cfg b lo n + 1.
Proof.
  intros Hx Hb Hb' Hext. unfold count_inuse.
  rewrite (filter_length_flip (λ a, BITMAP_ISSET cfg a b = true)
             (λ a, BITMAP_ISSET cfg a b' = true) (seqZ lo n) x).
  - lia.
  - apply NoDup_seqZ.
  - by apply elem_of_seqZ.
  - congruence.
  - done.
  - intros y Hy%elem_of_seqZ Hne. by rewrite Hext.
Qed.

Lemma count_inuse_lt (b : list Z) (lo n x : Z) :
  lo ≤ x < lo + n → BITMAP_ISSET cfg x b = false →
  count_inuse cfg b lo n < n.
Proof.
  intros Hx Hb. unfold count_inuse.
  pose proof (filter_length_lt (λ a, BITMAP_ISSET cfg a b = true)
                (seqZ lo n) x) as H.
  rewrite length_seqZ in H. rewrite elem_of_seqZ in H.
  specialize (H Hx). lapply H; [lia|congruence].
Qed.

Lemma count_inuse_pos (b : list Z) (lo n x : Z) :
  lo ≤ x < lo + n → BITMAP_ISSET cfg x b = true →
  0 < count_inuse cfg b lo n.
Proof.
  intros Hx Hb. unfold count_inuse.
  pose proof (filter_length_pos (λ a, BITMAP_ISSET cfg a b = true)
                (seqZ lo n) x) as H.
  rewrite elem_of_seqZ in H. specialize (H Hx Hb). lia.
Qed.

Lemma count_inuse_full (b : list Z) (lo n : Z) :
  0 ≤ n → (∀ a, lo ≤ a < lo + n → BITMAP_ISSET cfg a b = true) →
  count_inuse cfg b lo n = n.
Proof.
  intros Hn Hall. unfold count_inuse.
  rewrite filter_length_all, length_seqZ; [lia|].
  intros a Ha. apply elem_of_seqZ in Ha. by apply Hall.
Qed.

Lemma count_inuse_none (b : list Z) (lo n : Z) :
  (∀ a, lo ≤ a < lo + n → BITMAP_ISSET cfg a b = false) →
  count_inuse cfg b lo n = 0.
Proof.
  intros Hall. unfold count_inuse.
  rewrite filter_length_none; [done|].
  intros a Ha. apply elem_of_seqZ in Ha. rewrite Hall by done. done.
Qed.

Lemma count_inuse_split (b : list Z) (lo n1 n2 : Z) :
  0 ≤ n1 → 0 ≤ n2 →
  count_inuse cfg b lo (n1 + n2)
  = count_inuse cfg b lo n1 + count_inuse cfg b (lo + n1) n2.
Proof.
  intros H1 H2. unfold count_inuse.
  rewrite seqZ_app, filter_app, length_app by done. lia.
Qed.

End Counting.

(** ** Bitmap words and the scan of the allocator *)

Section Words.

Context (cfg : config) (Hcfg : cfg_ok cfg).

Lemma ctz_nonneg (p : positive) : 0 ≤ ctz p.
Proof. induction p; simpl; lia. Qed.

Lemma ctz_spec (p : positive) :
  ∃ q, 0 ≤ q ∧ Z.pos p = 2 ^ ctz p * (2 * q + 1).
Proof.
  induction p as [p IH|p IH|].
  - exists (Z.pos p). simpl. lia.
  - destruct IH as (q & Hq & IH). exists q. split; [done|].
    cbn [ctz]. rewrite Z.pow_add_r by (pose proof (ctz_nonneg p); lia).
    rewrite Pos2Z.inj_xO, IH. lia.
  - exists 0. simpl. lia.
Qed.

Lemma ffsl_spec (x : Z) :
  0 < x →
  0 ≤ ffsl x - 1
  ∧ Z.testbit x (ffsl x - 1) = true
  ∧ (∀ k, 0 ≤ k < ffsl x - 1 → Z.testbit x k = false)
  ∧ ∃ q, 0 ≤ q ∧ x = 2 ^ (ffsl x - 1) * (2 * q + 1).
Proof.
  intros Hx. destruct x as [|p|p]; try lia. unfold ffsl.
  replace (ctz p + 1 - 1) with (ctz p) by lia.
  pose proof (ctz_nonneg p) as Hn. destruct (ctz_spec p) as (q & Hq & Hp).
  split; [done|]. split; [|split].
  - rewrite Hp, Z.mul_comm, Z.mul_pow2_bits by done.
    rewrite Z.sub_diag. apply Z.testbit_odd_0.
  - intros k Hk. rewrite Hp, Z.mul_comm. apply Z.mul_pow2_bits_low. lia.
  - by exists q.
Qed.

(** The check that [n] is the lowest bit set of [bits]. *)
Lemma ffsl_shift_check (x : Z) :
  0 < x → ffsl x - 1 < NBPW cfg →
  wrap_ulong cfg (Z.shiftl x (NBPW cfg - (ffsl x - 1 + 1)))
  = Z.shiftl 1 (NBPW cfg - 1).
Proof.
  intros Hx Hlt. destruct (ffsl_spec x Hx) as (Hn & _ & _ & q & Hq & Hxq).
  unfold wrap_ulong. set (n := ffsl x - 1) in *.
  rewrite !Z.shiftl_mul_pow2 by lia. rewrite Hxq at 1.
  replace (2 ^ n * (2 * q + 1) * 2 ^ (NBPW cfg - (n + 1)))
    with (q * (2 ^ (n + 1) * 2 ^ (NBPW cfg - (n + 1)))
          + 2 ^ n * 2 ^ (NBPW cfg - (n + 1))).
  2:{ rewrite (Z.pow_add_r 2 n 1) by lia. lia. }
  rewrite <- !Z.pow_add_r by lia.
  replace (n + 1 + (NBPW cfg - (n + 1))) with (NBPW cfg) by lia.
  replace (n + (NBPW cfg - (n + 1))) with (NBPW cfg - 1) by lia.
  rewrite Z.add_comm, Z.mod_add by lia.
  rewrite Z.mod_small; [lia|]. split; [lia|].
  apply Z.pow_lt_mono_r; lia.
Qed.

Lemma not_ulong_testbit (w k : Z) :
  0 ≤ k →
  Z.testbit (not_ulong cfg w) k = (k <? NBPW cfg) && negb (Z.testbit w k).
Proof.
  destruct Hcfg as [_ HN]. intros Hk. unfold not_ulong.
  rewrite Z.land_spec, Z.lnot_spec, Z.testbit_ones_nonneg by lia.
  apply andb_comm.
Qed.

Lemma not_ulong_nonneg (w : Z) : 0 ≤ not_ulong cfg w.
Proof.
  destruct Hcfg as [_ HN]. unfold not_ulong. apply Z.land_nonneg. right.
  rewrite Z.ones_equiv. pose proof (Z.pow_pos_nonneg 2 (NBPW cfg)). lia.
Qed.

Lemma not_ulong_zero (w k : Z) :
  not_ulong cfg w = 0 → 0 ≤ k < NBPW cfg → Z.testbit w k = true.
Proof.
  intros H0 Hk. pose proof (not_ulong_testbit w k (proj1 Hk)) as Hb.
  rewrite H0, Z.bits_0 in Hb.
  destruct (Z.ltb_spec k (NBPW cfg)); [|lia].
  destruct (Z.testbit w k); [done|discriminate].
Qed.

(** What the scan finds, in terms of the words. *)
Lemma alloc_scan_words (b : list Z) (i0 w bits : Z) :
  alloc_scan cfg b i0 = Some (w, bits) →
  ∃ j : nat, w = i0 + Z.of_nat j ∧ bits ≠ 0
    ∧ (∃ word, b !! j = Some word ∧ bits = not_ulong cfg word)
    ∧ ∀ j' : nat, (j' < j)%nat →
        ∃ word, b !! j' = Some word ∧ not_ulong cfg word = 0.
Proof.
  revert i0. induction b as [|x b IH]; intros i0; simpl; [done|].
  destruct (Z.eqb_spec (not_ulong cfg x) 0) as [H0|H0].
  - intros Hs. destruct (IH _ Hs) as (j & Hw & Hb & Hword & Hfull).
    exists (S j). split; [lia|]. split; [done|]. split; [done|].
    intros [|j'] Hj'; [by exists x|]. apply Hfull. lia.
  - intros [= <- <-]. exists 0%nat. split; [lia|]. split; [done|].
    split; [by exists x|]. intros j' Hj'. lia.
Qed.

(** What the scan finds, in terms of the ASIDs: the lowest ASID whose bit
    is cleared. *)
Lemma alloc_scan_spec (b : list Z) (w bits : Z) :
  alloc_scan cfg b 0 = Some (w, bits) →
  let n := ffsl bits - 1 in
  let asid := n + w * NBPW cfg in
  0 < bits ∧ 0 ≤ n < NBPW cfg ∧ 0 ≤ asid
  ∧ asid < NBPW cfg * Z.of_nat (length b)
  ∧ BITMAP_ISSET cfg asid b = false
  ∧ ∀ a, 0 ≤ a < asid → BITMAP_ISSET cfg a b = true.
Proof.
  destruct Hcfg as [_ HN].
  intros Hs n asid.
  destruct (alloc_scan_words _ _ _ _ Hs) as (j & Hw & Hb & (word & Hj & Hbits) & Hfull).
  assert (Hpos : 0 < bits).
  { pose proof (not_ulong_nonneg word). lia. }
  destruct (ffsl_spec bits Hpos) as (Hn0 & Hset & Hlow & _).
  fold n in Hn0, Hset, Hlow.
  assert (HnN : n < NBPW cfg).
  { rewrite Hbits, not_ulong_testbit in Hset by done.
    destruct (Z.ltb_spec n (NBPW cfg)); [done|discriminate]. }
  assert (Hdiv : asid `div` NBPW cfg = w).
  { unfold asid. rewrite Z.div_add by lia. rewrite Z.div_small; lia. }
  assert (Hmod : asid `mod` NBPW cfg = n).
  { unfold asid. rewrite Z.mod_add by lia. apply Z.mod_small; lia. }
  split; [done|]. split; [done|]. split; [unfold asid; nia|].
  apply lookup_lt_Some in Hj as Hjlen.
  split; [unfold asid; nia|]. split.
  - unfold BITMAP_ISSET. rewrite Hdiv, Hmod, Hw.
    replace (Z.to_nat (0 + Z.of_nat j)) with j by lia. rewrite Hj. simpl.
    rewrite Hbits, not_ulong_testbit in Hset by done.
    apply andb_true_iff in Hset as [_ Hset]. by destruct (Z.testbit word n).
  - intros a Ha. unfold BITMAP_ISSET.
    assert (Hak : 0 ≤ a `mod` NBPW cfg < NBPW cfg) by (apply Z.mod_pos_bound; lia).
    assert (Had : 0 ≤ a `div` NBPW cfg) by (apply Z.div_pos; lia).
    pose proof (Z.div_mod a (NBPW cfg) ltac:(lia)) as Hdm.
    destruct (decide (a `div` NBPW cfg = w)) as [Hd|Hd].
    + rewrite Hd, Hw. replace (Z.to_nat (0 + Z.of_nat j)) with j by lia.
      rewrite Hj. simpl.
      assert (Hlt : a `mod` NBPW cfg < n) by (unfold asid in Ha; nia).
      specialize (Hlow (a `mod` NBPW cfg) ltac:(lia)).
      rewrite Hbits, not_ulong_testbit in Hlow by lia.
      destruct (Z.ltb_spec (a `mod` NBPW cfg) (NBPW cfg)); [|lia].
      simpl in Hlow. by destruct (Z.testbit word _).
    + assert (Hlt : (Z.to_nat (a `div` NBPW cfg) < j)%nat) by (unfold asid in Ha; nia).
      destruct (Hfull _ Hlt) as (word' & Hj' & H0). rewrite Hj'. simpl.
      by apply not_ulong_zero.
Qed.

(** The scan finds something as soon as some bit of the array is cleared. *)
Lemma alloc_scan_some (b : list Z) (a : Z) :
  0 ≤ a < NBPW cfg * Z.of_nat (length b) → BITMAP_ISSET cfg a b = false →
  ∃ w bits, alloc_scan cfg b 0 = Some (w, bits).
Proof.
  destruct Hcfg as [_ HN]. intros Ha Hclr.
  assert (Hw : ∃ (j : nat) word, b !! j = Some word ∧ not_ulong cfg word ≠ 0).
  { unfold BITMAP_ISSET in Hclr.
    assert (Hj : (Z.to_nat (a `div` NBPW cfg) < length b)%nat).
    { apply Nat2Z.inj_lt. rewrite Z2Nat.id by (apply Z.div_pos; lia).
      apply Z.div_lt_upper_bound; lia. }
    apply lookup_lt_is_Some in Hj as [word Hword]. rewrite Hword in Hclr.
    simpl in Hclr. exists (Z.to_nat (a `div` NBPW cfg)), word. split; [done|].
    intros H0. rewrite (not_ulong_zero _ _ H0) in Hclr; [done|].
    apply Z.mod_pos_bound; lia. }
  destruct Hw as (j & word & Hj & Hne). clear Ha Hclr.
  generalize 0 as i0. revert j Hj. induction b as [|x b IH]; intros j Hj i0;
    [done|]. simpl.
  destruct (Z.eqb_spec (not_ulong cfg x) 0) as [H0|H0]; [|eauto].
  destruct j as [|j]; simpl in Hj; [congruence|]. eauto.
Qed.

End Words.

(** ** Recording the ASIDs of the TLB *)

Section Record.

Context (cfg : config) (Hcfg : cfg_ok cfg).

Lemma tlb_record_asids_foldl (entries : list Z) (asid_max c0 : Z)
    (b0 : list Z) :
  0 ≤ asid_max < NBPW cfg * Z.of_nat (length b0) →
  let r := foldl (tlb_record_asids_step cfg asid_max) (c0, b0) entries in
  length r.2 = length b0
  ∧ (∀ a, 0 ≤ a →
       BITMAP_ISSET cfg a r.2
       = BITMAP_ISSET cfg a b0
         || bool_decide (a ∈ entries ∧ a ≤ asid_max))
  ∧ (∀ lo n, 0 ≤ lo →
       (∀ a, 0 ≤ a ≤ asid_max → BITMAP_ISSET cfg a b0 = false →
             lo ≤ a < lo + n) →
       r.1 - c0 = count_inuse cfg r.2 lo n - count_inuse cfg b0 lo n).
Proof.
  revert c0 b0.
  induction entries as [|e entries IH]; intros c0 b0 Hmax; cbn [foldl];
    cbv zeta.
  - cbn [fst snd]. split; [done|]. split.
    + intros a Ha. rewrite (bool_decide_eq_false_2 (_ ∧ _)), orb_false_r; [done|].
      intros [H%elem_of_nil _]. done.
    + intros. lia.
  - assert (Hs : tlb_record_asids_step cfg asid_max (c0, b0) e
                 = if bool_decide (0 ≤ e ∧ e ≤ asid_max)
                      && negb (BITMAP_ISSET cfg e b0)
                   then (c0 + 1, BITMAP_SET cfg e b0) else (c0, b0)) by done.
    rewrite Hs. clear Hs.
    destruct (bool_decide (0 ≤ e ∧ e ≤ asid_max)
              && negb (BITMAP_ISSET cfg e b0)) eqn:Hstep.
    + apply andb_true_iff in Hstep as [He Hclr].
      apply bool_decide_eq_true in He. apply negb_true_iff in Hclr.
      specialize (IH (c0 + 1) (BITMAP_SET cfg e b0)).
      rewrite length_BITMAP_SET in IH. cbv zeta in IH.
      destruct (IH Hmax) as (Hlen & Hbits & Hcnt).
      split; [done|]. split.
      * intros a Ha. rewrite Hbits, BITMAP_ISSET_SET by (done || lia).
        destruct (decide (a = e)) as [->|Hne].
        -- rewrite (bool_decide_eq_true_2 (e = e)) by done.
           rewrite (bool_decide_eq_true_2 (e ∈ e :: entries ∧ _)).
           ++ by rewrite orb_true_r.
           ++ split; [by left|lia].
        -- rewrite (bool_decide_eq_false_2 (a = e)) by done. cbn [orb]. f_equal.
           apply bool_decide_ext. rewrite elem_of_cons. tauto.
      * intros lo n Hlo Hrange.
        specialize (Hcnt lo n Hlo).
        rewrite (count_inuse_set cfg (b0) (BITMAP_SET cfg e b0) lo n e) in Hcnt.
        -- lapply Hcnt; [lia|]. intros a Ha. rewrite BITMAP_ISSET_SET by (done||lia).
           intros [_ H]%orb_false_iff. by apply Hrange.
        -- by apply Hrange.
        -- done.
        -- rewrite BITMAP_ISSET_SET by (done||lia).
           by rewrite bool_decide_eq_true_2.
        -- intros a Ha Hne. rewrite BITMAP_ISSET_SET by (done||lia).
           by rewrite bool_decide_eq_false_2.
    + destruct (IH c0 b0 Hmax) as (Hlen & Hbits & Hcnt).
      split; [done|]. split; [|done].
      intros a Ha. rewrite Hbits by done.
      destruct (decide (a = e)) as [->|Hne].
      * destruct (BITMAP_ISSET cfg e b0) eqn:Hb; [done|]. cbn [orb].
        rewrite andb_true_r in Hstep. apply bool_decide_eq_false in Hstep.
        rewrite !bool_decide_eq_false_2; [done| |]; intros [_ ?]; apply Hstep; lia.
      * f_equal. apply bool_decide_ext. rewrite elem_of_cons. tauto.
Qed.

Lemma tlb_record_asids_spec (entries : list Z) (asid_max : Z) (b0 : list Z) :
  0 ≤ asid_max < NBPW cfg * Z.of_nat (length b0) →
  let r := tlb_record_asids cfg entries b0 asid_max in
  length r.2 = length b0
  ∧ (∀ a, 0 ≤ a →
       BITMAP_ISSET cfg a r.2
       = BITMAP_ISSET cfg a b0
         || bool_decide (a ∈ entries ∧ a ≤ asid_max))
  ∧ (∀ lo n, 0 ≤ lo →
       (∀ a, 0 ≤ a ≤ asid_max → BITMAP_ISSET cfg a b0 = false →
             lo ≤ a < lo + n) →
       r.1 = count_inuse cfg r.2 lo n - count_inuse cfg b0 lo n).
Proof.
  intros Hmax r.
  destruct (tlb_record_asids_foldl entries asid_max 0 b0 Hmax) as (H1 & H2 & H3).
  split; [done|]. split; [done|]. intros lo n Hlo Hr.
  specialize (H3 lo n Hlo Hr). unfold r, tlb_record_asids. lia.
Qed.

End Record.

(** ** Rules for routines *)

Section Wp.

Context (cfg : config).

Lemma wp_ret {A} (a : A) s (Q : A → kstate → Prop) : Q a s → wp (ret a) s Q.
Proof. intros HQ. by exists a, s. Qed.

Lemma wp_bind {A B} (m : M A) (k : A → M B) s (Q : B → kstate → Prop) :
  wp m s (λ a s', wp (k a) s' Q) → wp (bind m k) s Q.
Proof.
  intros (a & s' & Hm & b & s'' & Hk & HQ). exists b, s''.
  unfold bind. by rewrite Hm.
Qed.

Lemma wp_bind_inv {A B} (m : M A) (k : A → M B) s (Q : B → kstate → Prop) :
  wp (bind m k) s Q → wp m s (λ a s', wp (k a) s' Q).
Proof.
  intros (b & s'' & Hm & HQ). unfold bind in Hm.
  destruct (m s) as [[a s']|] eqn:Hms; [|done].
  exists a, s'. split; [done|]. by exists b, s''.
Qed.

Lemma wp_mono {A} (m : M A) s (Q Q' : A → kstate → Prop) :
  wp m s Q → (∀ a s', Q a s' → Q' a s') → wp m s Q'.
Proof. intros (a & s' & Hm & HQ) HQQ. exists a, s'. auto. Qed.

Lemma wp_eq {A} (m : M A) s a s' (Q : A → kstate → Prop) :
  m s = Some (a, s') → Q a s' → wp m s Q.
Proof. intros Hm HQ. by exists a, s'. Qed.

Lemma wp_run {A} (m : M A) s (Q : A → kstate → Prop) :
  wp m s Q → ∃ a s', m s = Some (a, s') ∧ Q a s'.
Proof. done. Qed.

Lemma wp_KASSERT (b : bool) s (Q : unit → kstate → Prop) :
  b = true → Q tt s → wp (KASSERT cfg b) s Q.
Proof.
  intros -> HQ. exists tt, s. split; [|done].
  unfold KASSERT. by rewrite andb_false_r.
Qed.

Lemma wp_KASSERT_nodiag (b : bool) s (Q : unit → kstate → Prop) :
  DIAGNOSTIC cfg = false → Q tt s → wp (KASSERT cfg b) s Q.
Proof.
  intros Hd HQ. exists tt, s. split; [|done]. unfold KASSERT. by rewrite Hd.
Qed.

Lemma wp_when (b : bool) (m : M unit) s (Q : unit → kstate → Prop) :
  (b = true → wp m s Q) → (b = false → Q tt s) → wp (when b m) s Q.
Proof. destruct b; simpl; intros H1 H2; [by apply H1|by apply wp_ret, H2]. Qed.

Lemma wp_get_ti i ti s (Q : pmap_tlb_info → kstate → Prop) :
  pmap_tlbs s !! i = Some ti → Q ti s → wp (get_ti i) s Q.
Proof. intros Hi HQ. exists ti, s. unfold get_ti. by rewrite Hi. Qed.

Lemma wp_modify_ti i ti f s (Q : unit → kstate → Prop) :
  pmap_tlbs s !! i = Some ti → Q tt (upd_ti i (f ti) s) →
  wp (modify_ti i f) s Q.
Proof.
  intros Hi HQ. exists tt, (upd_ti i (f ti) s). unfold modify_ti.
  by rewrite Hi.
Qed.

Lemma wp_get_pm p pm s (Q : pmap → kstate → Prop) :
  pmaps s !! p = Some pm → Q pm s → wp (get_pm p) s Q.
Proof. intros Hp HQ. exists pm, s. unfold get_pm. by rewrite Hp. Qed.

Lemma wp_modify_pm p pm f s (Q : unit → kstate → Prop) :
  pmaps s !! p = Some pm → Q tt (upd_pm p (f pm) s) →
  wp (modify_pm p f) s Q.
Proof.
  intros Hp HQ. exists tt, (upd_pm p (f pm) s). unfold modify_pm.
  by rewrite Hp.
Qed.

Lemma wp_get_state s (Q : kstate → kstate → Prop) :
  Q s s → wp get_state s Q.
Proof. intros HQ. by exists s, s. Qed.

Lemma wp_modify_hw f s (Q : unit → kstate → Prop) :
  Q tt (set_hw (f (hw s)) s) → wp (modify_hw f) s Q.
Proof. intros HQ. by exists tt, (set_hw (f (hw s)) s). Qed.

Lemma wp_cpu_send_ipi j s (Q : unit → kstate → Prop) :
  Q tt (set_ipis (ipis s ++ [j]) s) → wp (cpu_send_ipi j) s Q.
Proof. intros HQ. by exists tt, (set_ipis (ipis s ++ [j]) s). Qed.

(** Lookups in an updated store. *)
Lemma lookup_upd_ti_eq i ti t s :
  pmap_tlbs s !! i = Some t → pmap_tlbs (upd_ti i ti s) !! i = Some ti.
Proof.
  intros Hi. simpl. apply list_lookup_insert_eq. by eapply lookup_lt_Some.
Qed.

Lemma lookup_upd_ti_ne i j ti s :
  i ≠ j → pmap_tlbs (upd_ti i ti s) !! j = pmap_tlbs s !! j.
Proof. intros Hne. simpl. by apply list_lookup_insert_ne. Qed.

Lemma upd_ti_upd_ti i t1 t2 s : upd_ti i t2 (upd_ti i t1 s) = upd_ti i t2 s.
Proof.
  unfold upd_ti, set_pmap_tlbs. simpl. by rewrite list_insert_insert_eq.
Qed.

Lemma upd_ti_id i ti s : pmap_tlbs s !! i = Some ti → upd_ti i ti s = s.
Proof.
  intros Hi. unfold upd_ti, set_pmap_tlbs. rewrite list_insert_id by done.
  by destruct s.
Qed.

Lemma length_upd_ti i ti s :
  length (pmap_tlbs (upd_ti i ti s)) = length (pmap_tlbs s).
Proof. simpl. apply length_insert. Qed.

Lemma lookup_upd_pm_eq p pm s : pmaps (upd_pm p pm s) !! p = Some pm.
Proof. simpl. apply lookup_insert_eq. Qed.

Lemma lookup_upd_pm_ne p q pm s :
  p ≠ q → pmaps (upd_pm p pm s) !! q = pmaps s !! q.
Proof. intros Hne. simpl. by apply lookup_insert_ne. Qed.

Lemma upd_pm_upd_pm p m1 m2 s : upd_pm p m2 (upd_pm p m1 s) = upd_pm p m2 s.
Proof. unfold upd_pm, set_pmaps. simpl. by rewrite insert_insert_eq. Qed.

Lemma upd_pm_id p pm s : pmaps s !! p = Some pm → upd_pm p pm s = s.
Proof.
  intros Hp. unfold upd_pm, set_pmaps. rewrite insert_id by done.
  by destruct s.
Qed.

Lemma upd_pm_upd_ti p pm i ti s :
  upd_pm p pm (upd_ti i ti s) = upd_ti i ti (upd_pm p pm s).
Proof. done. Qed.

Lemma wp_TLBINFO_LOCK i ti s (Q : unit → kstate → Prop) :
  pmap_tlbs s !! i = Some ti → ti_lock ti = false →
  Q tt (upd_ti i (set_lock true ti) s) → wp (TLBINFO_LOCK i) s Q.
Proof.
  intros Hi Hl HQ. unfold TLBINFO_LOCK. apply wp_bind.
  eapply wp_get_ti; [done|]. rewrite Hl. by eapply wp_modify_ti.
Qed.

Lemma wp_TLBINFO_UNLOCK i ti s (Q : unit → kstate → Prop) :
  pmap_tlbs s !! i = Some ti →
  Q tt (upd_ti i (set_lock false ti) s) → wp (TLBINFO_UNLOCK i) s Q.
Proof. intros Hi HQ. by eapply wp_modify_ti. Qed.

End Wp.

(** Symbolic execution of a routine, one step at a time. *)

Ltac st_simpl :=
  cbn [upd_ti upd_pm set_pmap_tlbs set_pmaps set_hw set_ipis set_asid_cur
       pmap_tlbs pmaps kcpuset_running ci_pmap_asid_cur hw ipis] in *.

Ltac solve_lookup :=
  st_simpl;
  rewrite ?list_insert_insert_eq, ?insert_insert_eq;
  first
    [ eassumption
    | apply lookup_insert_eq
    | (apply list_lookup_insert_eq; eapply lookup_lt_Some; eassumption)
    | (rewrite lookup_insert_ne by congruence; eassumption)
    | (rewrite list_lookup_insert_ne by congruence; eassumption) ].

Ltac wp_step :=
  cbv beta;
  lazymatch goal with
  | |- wp (bind _ _) _ _ => apply wp_bind
  | |- wp (ret _) _ _ => apply wp_ret
  | |- wp (get_ti _) _ _ => eapply wp_get_ti; [solve_lookup|]
  | |- wp (modify_ti _ _) _ _ => eapply wp_modify_ti; [solve_lookup|]
  | |- wp (get_pm _) _ _ => eapply wp_get_pm; [solve_lookup|]
  | |- wp (modify_pm _ _) _ _ => eapply wp_modify_pm; [solve_lookup|]
  | |- wp get_state _ _ => apply wp_get_state
  | |- wp (modify_hw _) _ _ => apply wp_modify_hw
  | |- wp (cpu_send_ipi _) _ _ => apply wp_cpu_send_ipi
  | |- wp (tlb_invalidate_asids _ _) _ _ => apply wp_modify_hw
  | |- wp tlb_invalidate_all _ _ => apply wp_modify_hw
  | |- wp tlb_invalidate_globals _ _ => apply wp_modify_hw
  | |- wp (tlb_set_asid _) _ _ => apply wp_modify_hw
  | |- wp (TLBINFO_LOCK _) _ _ => eapply wp_TLBINFO_LOCK; [solve_lookup|try done|]
  | |- wp (TLBINFO_UNLOCK _) _ _ => eapply wp_TLBINFO_UNLOCK; [solve_lookup|]
  end.

Ltac wp_steps := repeat wp_step.

Ltac st_done :=
  unfold upd_ti, upd_pm; st_simpl;
  rewrite ?list_insert_insert_eq, ?insert_insert_eq; reflexivity.

(** ** The merge of a shootdown request *)

Section Merge.

Context (cfg : config).

Lemma op_le_refl a : op_le a a.
Proof. by left. Qed.

Lemma scope_le_refl s : scope_le s s.
Proof. split; [apply op_le_refl|done]. Qed.

Ltac ops := unfold TLBINV_NOBODY, TLBINV_ONE, TLBINV_ALLUSER,
    TLBINV_ALLKERNEL, TLBINV_ALL in *.

Lemma shootdown_merge_spec (i : nat) (p : pmap_t) (s : kstate)
    (ti : pmap_tlb_info) (pm : pmap) :
  pmap_tlbs s !! i = Some ti → pmaps s !! p = Some pm →
  (p ≠ pmap_kernel → pai_asid pm i ≠ 0) →
  (ti_victim ti = Some p → ti_tlbinvop ti = TLBINV_ONE) →
  wp (shootdown_merge cfg i p) s (λ _ s',
    s' = upd_ti i
           (if bool_decide (p = pmap_kernel) then
              set_victim None
                (set_tlbinvop (TLBINV_KERNEL_MAP (ti_tlbinvop ti)) ti)
            else if bool_decide (ti_victim ti = Some p) then ti
            else
              set_victim
                (if TLBINV_USER_MAP (ti_tlbinvop ti) =? TLBINV_ONE
                 then Some p else None)
                (set_tlbinvop (TLBINV_USER_MAP (ti_tlbinvop ti)) ti)) s).
Proof.
  intros Hti Hpm Hasid Hvic. unfold shootdown_merge. wp_steps.
  case_bool_decide as Hk.
  - wp_steps. st_done.
  - wp_step. apply wp_KASSERT.
    { apply negb_true_iff, Z.eqb_neq. by apply Hasid. }
    case_bool_decide as Hv.
    + apply wp_KASSERT; [apply Z.eqb_eq; by apply Hvic|].
      by rewrite upd_ti_id.
    + wp_steps. cbn [ti_tlbinvop set_tlbinvop].
      destruct (TLBINV_USER_MAP (ti_tlbinvop ti) =? TLBINV_ONE); wp_steps;
        st_done.
Qed.

End Merge.

(** ** The merge is a least upper bound *)

Section MergeOrder.

Context (cfg : config).

Lemma scope_wf_victim (ti : pmap_tlb_info) (p : pmap_t) :
  scope_wf (pending ti) → ti_victim ti = Some p → ti_tlbinvop ti = TLBINV_ONE.
Proof.
  intros [_ Hv] Hp. destruct (decide (ti_tlbinvop ti = TLBINV_ONE)); [done|].
  simpl in Hv. rewrite Hv in Hp; done.
Qed.

Lemma TLBINV_KERNEL_MAP_cases (op : Z) :
  valid_op op →
  TLBINV_KERNEL_MAP op
  = if (op =? TLBINV_NOBODY) || (op =? TLBINV_ALLKERNEL)
    then TLBINV_ALLKERNEL else TLBINV_ALL.
Proof.
  intros H. apply valid_op_cases in H.
  destruct H as [->|[->|[->|[->| ->]]]]; reflexivity.
Qed.

Lemma TLBINV_USER_MAP_cases (op : Z) :
  valid_op op →
  TLBINV_USER_MAP op
  = if op =? TLBINV_NOBODY then TLBINV_ONE
    else if op <=? TLBINV_ALLUSER then TLBINV_ALLUSER else TLBINV_ALL.
Proof.
  intros H. apply valid_op_cases in H.
  destruct H as [->|[->|[->|[->| ->]]]]; reflexivity.
Qed.

(** C1, as the code has it: merging a request into the pending operation of
    a TLB yields the least upper bound of the two in the order where "all
    user ASIDs" and "the kernel" are not comparable and two single ASIDs are
    comparable only when they name the same victim; in particular a request
    for one pmap merged into a pending shootdown of another pmap yields
    "all user ASIDs" with no victim. *)
Theorem shootdown_merge_lub (i : nat) (p : pmap_t) (s : kstate)
    (ti : pmap_tlb_info) (pm : pmap) :
  pmap_tlbs s !! i = Some ti → pmaps s !! p = Some pm →
  scope_wf (pending ti) →
  (p ≠ pmap_kernel → pai_asid pm i ≠ 0) →
  wp (shootdown_merge cfg i p) s (λ _ s',
    ∃ ti', pmap_tlbs s' !! i = Some ti'
      ∧ scope_wf (pending ti')
      ∧ is_lub scope_le scope_wf (pending ti) (request p) (pending ti')
      ∧ (p ≠ pmap_kernel → ti_tlbinvop ti = TLBINV_ONE →
         ti_victim ti ≠ Some p →
         pending ti' = (TLBINV_ALLUSER, None))).
Proof.
  intros Hti Hpm Hwf Hasid.
  eapply wp_mono.
  { apply (shootdown_merge_spec cfg i p s ti pm); [done|done|done|].
    by apply scope_wf_victim. }
  intros _ s' ->. eexists. split; [by eapply lookup_upd_ti_eq|].
  pose proof (scope_wf_victim ti p Hwf) as Hvic.
  destruct Hwf as [Hop Hnone]. change (valid_op (ti_tlbinvop ti)) in Hop.
  rewrite (TLBINV_KERNEL_MAP_cases _ Hop), (TLBINV_USER_MAP_cases _ Hop).
  apply valid_op_cases in Hop.
  unfold request, pending, is_lub, scope_le, scope_wf, op_le in *.
  cbn [fst snd] in *.
  assert (Hu : ∀ u : Z * option pmap_t,
             TLBINV_NOBODY ≤ u.1 ≤ TLBINV_ALL →
             u.1 = TLBINV_NOBODY ∨ u.1 = TLBINV_ONE ∨ u.1 = TLBINV_ALLUSER
             ∨ u.1 = TLBINV_ALLKERNEL ∨ u.1 = TLBINV_ALL).
  { intros u. apply valid_op_cases. }
  case_bool_decide as Hk; [|case_bool_decide as Hvp];
    cbn [fst snd ti_tlbinvop ti_victim set_victim set_tlbinvop].
  - destruct Hop as [Ho|[Ho|[Ho|[Ho|Ho]]]]; rewrite Ho in *;
      cbv [TLBINV_NOBODY TLBINV_ONE
           TLBINV_ALLUSER TLBINV_ALLKERNEL TLBINV_ALL] in *; cbn in *;
      (split; [split; [lia|done]|]);
      (split; [|intros; congruence]);
      (split; [split; [lia|intros; lia]|]);
      (split; [split; [lia|intros; lia]|]);
      intros [uo uv] [Hb Hn] [H1 H2] [H3 H4]; cbn [fst snd] in *;
      (split; [lia|intros; lia]).
  - specialize (Hvic Hvp). rewrite Hvic in *.
    cbv [TLBINV_NOBODY TLBINV_ONE TLBINV_ALLUSER TLBINV_ALLKERNEL
         TLBINV_ALL] in *.
    split; [split; [lia|done]|].
    split; [|intros; congruence].
    split; [split; [lia|done]|].
    split; [split; [lia|intros; congruence]|].
    intros [uo uv] [Hb Hn] [H1 H2] [H3 H4]; cbn [fst snd] in *.
    split; [lia|done].
  - destruct Hop as [Ho|[Ho|[Ho|[Ho|Ho]]]]; rewrite Ho in *;
      cbv [TLBINV_NOBODY TLBINV_ONE
           TLBINV_ALLUSER TLBINV_ALLKERNEL TLBINV_ALL] in *; cbn in *;
      (split; [split; [lia|intros; (done || lia)]|]);
      (split; [|intros; (done || lia)]);
      (split; [split; [lia|intros; (done || lia)]|]);
      (split; [split; [lia|intros; (done || lia)]|]);
      intros [uo uv] [Hb Hn] [H1 H2] [H3 H4]; cbn [fst snd] in *.
    + split; [lia|]. intros _ Huo. by apply H4.
    + split; [|intros; lia].
      destruct (decide (uo = 1)) as [->|]; [|lia].
      specialize (H2 eq_refl eq_refl). specialize (H4 eq_refl eq_refl).
      congruence.
    + split; [lia|intros; lia].
    + split; [lia|intros; lia].
    + split; [lia|intros; lia].
Qed.

End MergeOrder.

Lemma shootdown_merge_lub_witness :
  wp (shootdown_merge cfg_mp 1 2%nat) ex_shoot_one (λ _ s',
    ∃ ti', pmap_tlbs s' !! 1%nat = Some ti'
      ∧ scope_wf (pending ti')
      ∧ is_lub scope_le scope_wf (TLBINV_ONE, Some 1%nat) (request 2%nat)
          (pending ti')
      ∧ ((2%nat : pmap_t) ≠ pmap_kernel → TLBINV_ONE = TLBINV_ONE →
         Some 1%nat ≠ Some 2%nat →
         pending ti' = (TLBINV_ALLUSER, None))).
Proof.
  apply (shootdown_merge_lub cfg_mp 1 2%nat ex_shoot_one
           (ex_mp_tlb 5 3 [7; 0] TLBINV_ONE (Some 1%nat))
           (ex_pmap [(1%nat, 2)] {[2%nat; 3%nat]} ∅)).
  - reflexivity.
  - reflexivity.
  - split; [vm_compute; split; discriminate|]. intros H. by destruct H.
  - intros _. vm_compute. discriminate.
Defined.

(** C1, as it is worded: in the chain none < one < all-non-kernel <
    all-kernel < all the least upper bound of a pending "all user ASIDs" and
    a request for the kernel is "all-kernel", but the code moves to "all". *)
Lemma shootdown_merge_not_chain_lub :
  ∃ ti s' ti',
    pmap_tlbs ex_shoot_alluser !! 1%nat = Some ti
    ∧ shootdown_merge cfg_mp 1 pmap_kernel ex_shoot_alluser = Some (tt, s')
    ∧ pmap_tlbs s' !! 1%nat = Some ti'
    ∧ ¬ is_lub spec_chain_le valid_op (pending ti).1 (request pmap_kernel).1
          (pending ti').1.
Proof.
  eexists _, _, _. split; [reflexivity|]. split; [vm_compute; reflexivity|].
  split; [reflexivity|]. intros (_ & _ & Hleast).
  specialize (Hleast TLBINV_ALLKERNEL). vm_compute in Hleast.
  apply Hleast; (split; discriminate) || discriminate.
Qed.

(** ** pmap_tlb_pai_reset *)

Section PaiReset.

Context (cfg : config) (Hcfg : cfg_ok cfg).

Lemma wp_KASSERT_diag (b : bool) s (Q : unit → kstate → Prop) :
  (DIAGNOSTIC cfg = true → b = true) → Q tt s → wp (KASSERT cfg b) s Q.
Proof.
  intros Hb HQ. destruct (DIAGNOSTIC cfg) eqn:Hd.
  - apply wp_KASSERT; auto.
  - by apply wp_KASSERT_nodiag.
Qed.

Lemma pai_reset_active_p (i : nat) (ti : pmap_tlb_info) (pm : pmap) :
  MULTIPROCESSOR cfg = true →
  pmap_tlb_intersecting_active_p cfg (pai_reset_pm cfg i ti pm) ti = false.
Proof.
  intros Hmp. unfold pai_reset_pm, pmap_tlb_intersecting_active_p. rewrite Hmp.
  destruct (PMAP_TLB_MAX cfg =? 1)%nat; simpl.
  - unfold kcpuset_iszero. by rewrite bool_decide_eq_true_2.
  - unfold kcpuset_intersecting_p. apply bool_decide_eq_false.
    intros Hne. apply Hne. apply set_eq. intros x.
    rewrite elem_of_intersection, elem_of_difference, elem_of_empty. tauto.
Qed.

Lemma wp_LIST_REMOVE (i : nat) (p : pmap_t) (s : kstate)
    (ti : pmap_tlb_info) (Q : unit → kstate → Prop) :
  pmap_tlbs s !! i = Some ti → p ∈ ti_pais ti →
  Q tt (upd_ti i (set_pais (filter (λ q, q ≠ p) (ti_pais ti)) ti) s) →
  wp (LIST_REMOVE i p) s Q.
Proof.
  intros Hti Hin HQ. unfold LIST_REMOVE. wp_steps.
  rewrite bool_decide_eq_true_2 by done. by wp_step.
Qed.

Lemma pai_reset_exec (i : nat) (p : pmap_t) (s : kstate)
    (ti : pmap_tlb_info) (pm : pmap) :
  pmap_tlbs s !! i = Some ti → pmaps s !! p = Some pm →
  p ∈ ti_pais ti →
  (DIAGNOSTIC cfg = true →
   KERNEL_PID cfg < pai_asid pm i ≤ ti_asid_max ti
   ∧ (MULTIPROCESSOR cfg = true →
      pmap_tlb_intersecting_active_p cfg pm ti = true
      ∧ pmap_tlb_intersecting_onproc_p cfg pm ti = false)) →
  wp (pmap_tlb_pai_reset cfg i p) s (λ _ s',
    s' = pai_reset_store cfg i p ti pm s).
Proof.
  intros Hti Hpm Hin Hdiag. unfold pmap_tlb_pai_reset.
  wp_steps.
  apply wp_KASSERT_diag; [intros Hd; apply Z.ltb_lt; destruct (Hdiag Hd); lia|].
  wp_step.
  apply wp_KASSERT_diag; [intros Hd; apply Z.leb_le; destruct (Hdiag Hd); lia|].
  wp_step.
  pose proof (pai_reset_active_p i ti pm) as Hact.
  unfold pai_reset_store, pai_reset_ti, pai_reset_pm, pai_reset_hw in *.
  destruct (MULTIPROCESSOR cfg) eqn:Hmp; cbn [when negb andb].
  - wp_step.
    apply wp_KASSERT_diag; [intros Hd; by destruct (Hdiag Hd) as [_ [? ?]]|].
    cbv beta. apply wp_KASSERT_diag.
    { intros Hd. destruct (Hdiag Hd) as [_ [? Hon]]; [done|]. by rewrite Hon. }
    wp_step. eapply wp_LIST_REMOVE; [solve_lookup|done|].
    wp_step.
    destruct (PMAP_TLB_FLUSH_ASID_ON_RESET cfg); cbn [when negb andb].
    + wp_steps. destruct (TLBINFO_ASID_INUSE_P cfg ti (pai_asid pm i));
        cbn [when]; wp_steps.
      * apply wp_KASSERT; [by rewrite Hact|]. st_done.
      * apply wp_KASSERT; [by rewrite Hact|]. st_done.
    + wp_steps. apply wp_KASSERT; [by rewrite Hact|]. st_done.
  - wp_step. wp_step. eapply wp_LIST_REMOVE; [solve_lookup|done|].
    wp_step.
    destruct (PMAP_TLB_FLUSH_ASID_ON_RESET cfg); cbn [when negb andb].
    + wp_steps. destruct (TLBINFO_ASID_INUSE_P cfg ti (pai_asid pm i));
        cbn [when]; wp_steps; st_done.
    + wp_steps. st_done.
Qed.

End PaiReset.

(** ** A reset keeps the TLB consistent *)

Section PaiResetInv.

Context (cfg : config) (Hcfg : cfg_ok cfg).

Lemma wrap32_small (x : Z) : 0 ≤ x < 2 ^ 32 → wrap32 x = x.
Proof. intros H. unfold wrap32. by apply Z.mod_small. Qed.

Lemma active_p_kcpuset (pm : pmap) (ti ti' : pmap_tlb_info) :
  ti_kcpuset ti' = ti_kcpuset ti →
  pmap_tlb_intersecting_active_p cfg pm ti'
  = pmap_tlb_intersecting_active_p cfg pm ti.
Proof. intros H. unfold pmap_tlb_intersecting_active_p. by rewrite H. Qed.

Lemma onproc_p_kcpuset (pm : pmap) (ti ti' : pmap_tlb_info) :
  ti_kcpuset ti' = ti_kcpuset ti →
  pmap_tlb_intersecting_onproc_p cfg pm ti'
  = pmap_tlb_intersecting_onproc_p cfg pm ti.
Proof. intros H. unfold pmap_tlb_intersecting_onproc_p. by rewrite H. Qed.

Lemma pai_reset_ti_fields (p : pmap_t) (asid : Z) (ti : pmap_tlb_info) :
  let t := pai_reset_ti cfg p asid ti in
  ti_asid_hint t = ti_asid_hint ti ∧ ti_asid_max t = ti_asid_max ti
  ∧ ti_pais t = filter (λ q, q ≠ p) (ti_pais ti)
  ∧ ti_victim t = ti_victim ti ∧ ti_kcpuset t = ti_kcpuset ti
  ∧ ti_tlbinvop t = ti_tlbinvop ti ∧ ti_lock t = ti_lock ti
  ∧ ti_evcnt_asid_reinits t = ti_evcnt_asid_reinits ti
  ∧ length (ti_asid_bitmap t) = length (ti_asid_bitmap ti).
Proof.
  unfold pai_reset_ti.
  destruct (PMAP_TLB_FLUSH_ASID_ON_RESET cfg && TLBINFO_ASID_INUSE_P cfg ti asid);
    simpl; rewrite ?length_BITMAP_CLR; done.
Qed.

Lemma pai_reset_ti_inuse (p : pmap_t) (asid a : Z) (ti : pmap_tlb_info) :
  0 ≤ a → 0 ≤ asid →
  asid < NBPW cfg * Z.of_nat (length (ti_asid_bitmap ti)) →
  TLBINFO_ASID_INUSE_P cfg (pai_reset_ti cfg p asid ti) a
  = (negb (PMAP_TLB_FLUSH_ASID_ON_RESET cfg) || negb (bool_decide (a = asid)))
    && TLBINFO_ASID_INUSE_P cfg ti a.
Proof.
  intros Ha Hasid Hlen. unfold pai_reset_ti, TLBINFO_ASID_INUSE_P.
  destruct (PMAP_TLB_FLUSH_ASID_ON_RESET cfg); cbn [andb negb orb]; [|done].
  destruct (BITMAP_ISSET cfg asid (ti_asid_bitmap ti)) eqn:Hb; simpl.
  - by rewrite BITMAP_ISSET_CLR.
  - case_bool_decide as He; [|done]. subst a. by rewrite Hb.
Qed.

Lemma pai_reset_ti_free (p : pmap_t) (asid : Z) (ti : pmap_tlb_info) :
  KERNEL_PID cfg < asid ≤ ti_asid_max ti →
  ti_asid_max ti + 1 < 2 ^ 32 →
  ti_asid_max ti < NBPW cfg * Z.of_nat (length (ti_asid_bitmap ti)) →
  conservation cfg ti →
  conservation cfg (pai_reset_ti cfg p asid ti)
  ∧ ti_asids_free (pai_reset_ti cfg p asid ti)
    = if PMAP_TLB_FLUSH_ASID_ON_RESET cfg && TLBINFO_ASID_INUSE_P cfg ti asid
      then ti_asids_free ti + 1 else ti_asids_free ti.
Proof.
  destruct Hcfg as [HK HN]. intros Hasid H32 Hlen Hcons.
  unfold pai_reset_ti.
  destruct (PMAP_TLB_FLUSH_ASID_ON_RESET cfg && TLBINFO_ASID_INUSE_P cfg ti asid)
    eqn:Hc; [|done].
  apply andb_true_iff in Hc as [_ Hb].
  unfold conservation, asids_beyond in *. cbn.
  assert (Hcount :
    count_inuse cfg (ti_asid_bitmap ti) (KERNEL_PID cfg + 1)
      (ti_asid_max ti - KERNEL_PID cfg)
    = count_inuse cfg (BITMAP_CLR cfg asid (ti_asid_bitmap ti))
        (KERNEL_PID cfg + 1) (ti_asid_max ti - KERNEL_PID cfg) + 1).
  { apply (count_inuse_set cfg _ _ _ _ asid); [lia| |done|].
    - rewrite BITMAP_ISSET_CLR by (done || lia).
      by rewrite bool_decide_eq_true_2.
    - intros a Ha Hne. rewrite BITMAP_ISSET_CLR by (done || lia).
      by rewrite bool_decide_eq_false_2. }
  pose proof (count_inuse_bounds cfg (BITMAP_CLR cfg asid (ti_asid_bitmap ti))
                (KERNEL_PID cfg + 1) (ti_asid_max ti - KERNEL_PID cfg)
                ltac:(lia)) as Hbd.
  rewrite wrap32_small by lia. lia.
Qed.

Lemma pai_asid_set (i : nat) (v : Z) (pm : pmap) :
  pai_asid (set_pai_asid i v pm) i = v.
Proof. unfold pai_asid. simpl. by rewrite lookup_insert_eq. Qed.

Lemma pai_asid_set_ne (i j : nat) (v : Z) (pm : pmap) :
  i ≠ j → pai_asid (set_pai_asid i v pm) j = pai_asid pm j.
Proof. intros Hne. unfold pai_asid. simpl. by rewrite lookup_insert_ne. Qed.

Lemma pai_reset_pm_asid (i : nat) (ti : pmap_tlb_info) (pm : pmap) :
  pai_asid (pai_reset_pm cfg i ti pm) i = 0.
Proof.
  unfold pai_reset_pm.
  destruct (MULTIPROCESSOR cfg), (PMAP_TLB_MAX cfg =? 1)%nat;
    apply pai_asid_set.
Qed.

Lemma pai_reset_pm_onproc (i : nat) (ti : pmap_tlb_info) (pm : pmap) :
  pm_onproc (pai_reset_pm cfg i ti pm) = pm_onproc pm.
Proof.
  unfold pai_reset_pm.
  by destruct (MULTIPROCESSOR cfg), (PMAP_TLB_MAX cfg =? 1)%nat.
Qed.

(** A reset keeps the TLB consistent. *)
Lemma pai_reset_inv (X : list pmap_t) (s : kstate) (i : nat)
    (ti : pmap_tlb_info) (p : pmap_t) (pm : pmap) :
  tlb_inv cfg X s i ti → p ∈ ti_pais ti → pmaps s !! p = Some pm →
  (MULTIPROCESSOR cfg = true →
   pmap_tlb_intersecting_onproc_p cfg pm ti = false) →
  tlb_inv cfg X (pai_reset_store cfg i p ti pm s) i
    (pai_reset_ti cfg p (pai_asid pm i) ti).
Proof.
  destruct Hcfg as [HK HN]. intros Hinv Hin Hpm Honproc.
  destruct Hinv as [Hlk Hmax Hres Hfree Hhint Hbelow Hnd Hlinked Hdist Hunl].
  destruct (Hlinked p Hin) as (Hpk & pm0 & Hpm0 & Hasid & Hinuse & Hact).
  rewrite Hpm in Hpm0. injection Hpm0 as <-.
  pose proof (pai_reset_ti_fields p (pai_asid pm i) ti) as
    (Fhint & Fmax & Fpais & Fvic & Fkc & Fop & Flock & Fev & Flen).
  assert (Hbit : ∀ a, 0 ≤ a →
    TLBINFO_ASID_INUSE_P cfg (pai_reset_ti cfg p (pai_asid pm i) ti) a
    = (negb (PMAP_TLB_FLUSH_ASID_ON_RESET cfg)
       || negb (bool_decide (a = pai_asid pm i)))
      && TLBINFO_ASID_INUSE_P cfg ti a).
  { intros a Ha. apply pai_reset_ti_inuse; lia. }
  split.
  - unfold pai_reset_store. by eapply lookup_upd_ti_eq.
  - rewrite Fmax, Flen. done.
  - intros a Ha. rewrite Hbit by lia. rewrite Hres by done.
    rewrite (bool_decide_eq_false_2 (a = _)) by lia. by rewrite orb_true_r.
  - apply pai_reset_ti_free; lia || done.
  - by rewrite Fhint, Fmax.
  - intros Hfl a Ha. rewrite Fhint in Ha. rewrite Hbit by lia.
    rewrite Hfl. simpl. by apply Hbelow.
  - rewrite Fpais. by apply NoDup_filter.
  - intros q Hq. rewrite Fpais in Hq. apply list_elem_of_filter in Hq as [Hqp Hq].
    destruct (Hlinked q Hq) as (Hqk & qm & Hqm & Hqa & Hqu & Hqact).
    split; [done|]. exists qm. split.
    { unfold pai_reset_store. st_simpl. by rewrite lookup_insert_ne. }
    rewrite Fmax. split; [done|]. split.
    + intros HqX. rewrite Hbit by lia. rewrite (Hqu HqX), andb_true_r.
      rewrite (bool_decide_eq_false_2 (pai_asid qm i = _)); [by rewrite orb_true_r|].
      intros Heq. apply Hqp. by eapply Hdist.
    + intros Hmp. rewrite (active_p_kcpuset _ ti) by done. by apply Hqact.
  - intros q r qm rm Hq Hr Hqm Hrm Heq. rewrite Fpais in Hq, Hr.
    apply list_elem_of_filter in Hq as [Hqp Hq].
    apply list_elem_of_filter in Hr as [Hrp Hr].
    unfold pai_reset_store in Hqm, Hrm. st_simpl.
    rewrite lookup_insert_ne in Hqm, Hrm by done. by eapply Hdist.
  - intros q qm Hqk Hqm Hq. rewrite Fpais in Hq.
    unfold pai_reset_store in Hqm. st_simpl.
    destruct (decide (q = p)) as [->|Hne].
    + rewrite lookup_insert_eq in Hqm. injection Hqm as <-.
      split; [apply pai_reset_pm_asid|]. intros Hmp.
      rewrite (active_p_kcpuset _ ti), (onproc_p_kcpuset _ ti) by done.
      split; [by apply pai_reset_active_p|].
      unfold pmap_tlb_intersecting_onproc_p. rewrite pai_reset_pm_onproc.
      by apply Honproc.
    + rewrite lookup_insert_ne in Hqm by done.
      assert (Hq' : q ∉ ti_pais ti).
      { intros Hq'. apply Hq. by apply list_elem_of_filter. }
      destruct (Hunl q qm Hqk Hqm Hq') as [H0 Hmpq]. split; [done|].
      intros Hmp. rewrite (active_p_kcpuset _ ti), (onproc_p_kcpuset _ ti) by done.
      by apply Hmpq.
Qed.

Lemma tlb_inv_weaken (X X' : list pmap_t) (s : kstate) (i : nat)
    (ti : pmap_tlb_info) :
  (∀ q, q ∈ ti_pais ti → q ∉ X' → q ∉ X) →
  tlb_inv cfg X s i ti → tlb_inv cfg X' s i ti.
Proof.
  intros HX [Hlk Hmax Hres Hfree Hhint Hbelow Hnd Hlinked Hdist Hunl].
  split; try done.
  intros q Hq. destruct (Hlinked q Hq) as (Hqk & qm & Hqm & Hqa & Hqu & Hqact).
  split; [done|]. exists qm. repeat split; try done; try lia.
  intros HqX. apply Hqu. by apply HX.
Qed.

End PaiResetInv.

(** ** The ASID the allocator takes *)

Section AllocAsid.

Context (cfg : config) (Hcfg : cfg_ok cfg).

Lemma count_inuse_exists_unset (b : list Z) (lo n : Z) :
  0 ≤ n → count_inuse cfg b lo n < n →
  ∃ a, lo ≤ a < lo + n ∧ BITMAP_ISSET cfg a b = false.
Proof.
  intros Hn Hlt.
  destruct (decide (Forall (λ a, BITMAP_ISSET cfg a b = true) (seqZ lo n)))
    as [Hall|Hex].
  - rewrite Forall_seqZ in Hall. rewrite count_inuse_full in Hlt by done. lia.
  - apply (not_Forall_Exists _) in Hex.
    apply Exists_exists in Hex as (a & Ha%elem_of_seqZ & Hb). simpl in Hb.
    exists a. split; [done|]. by destruct (BITMAP_ISSET cfg a b).
Qed.

(** Some ASID beyond the reserved ones is free when the free count is not
    zero. *)
Lemma inv_free_exists (X : list pmap_t) (s : kstate) (i : nat)
    (ti : pmap_tlb_info) :
  tlb_inv cfg X s i ti → 0 < ti_asids_free ti →
  ∃ a, KERNEL_PID cfg < a ≤ ti_asid_max ti
       ∧ TLBINFO_ASID_INUSE_P cfg ti a = false.
Proof.
  intros Hinv Hfree. destruct Hinv as [_ Hmax _ Hcons _ _ _ _ _ _].
  unfold conservation, asids_beyond in Hcons.
  destruct (count_inuse_exists_unset (ti_asid_bitmap ti) (KERNEL_PID cfg + 1)
              (ti_asid_max ti - KERNEL_PID cfg)) as (a & Ha & Hb); [lia|lia|].
  exists a. split; [lia|done].
Qed.

Lemma alloc_asid_spec (X : list pmap_t) (s : kstate) (i : nat)
    (ti : pmap_tlb_info) :
  tlb_inv cfg X s i ti → 0 < ti_asids_free ti →
  ∃ asid, alloc_asid cfg ti = Some asid
    ∧ KERNEL_PID cfg < asid ≤ ti_asid_max ti
    ∧ TLBINFO_ASID_INUSE_P cfg ti asid = false
    ∧ KERNEL_PID cfg < alloc_hint cfg ti ≤ ti_asid_max ti
    ∧ (TLBINFO_ASID_INUSE_P cfg ti (alloc_hint cfg ti) = false →
       asid = alloc_hint cfg ti)
    ∧ (TLBINFO_ASID_INUSE_P cfg ti (alloc_hint cfg ti) = true →
       (∀ a, 0 ≤ a < asid → TLBINFO_ASID_INUSE_P cfg ti a = true)
       ∧ ∃ w bits, alloc_scan cfg (ti_asid_bitmap ti) 0 = Some (w, bits)
           ∧ asid = ffsl bits - 1 + w * NBPW cfg
           ∧ 0 < bits ∧ ffsl bits - 1 < NBPW cfg)
    ∧ (PMAP_TLB_FLUSH_ASID_ON_RESET cfg = false →
       alloc_hint cfg ti = ti_asid_hint ti ∧ ti_asid_hint ti ≤ asid
       ∧ ∀ a, 0 ≤ a < asid → TLBINFO_ASID_INUSE_P cfg ti a = true).
Proof.
  destruct Hcfg as [HK HN]. intros Hinv Hfree.
  destruct (inv_free_exists X s i ti Hinv Hfree) as (f & Hf & Hfclr).
  destruct Hinv as [_ Hmax Hres Hcons Hhint Hbelow _ _ _ _].
  assert (Hh : KERNEL_PID cfg < alloc_hint cfg ti ≤ ti_asid_max ti).
  { unfold alloc_hint.
    destruct (PMAP_TLB_FLUSH_ASID_ON_RESET cfg) eqn:Hfl; cbn [andb].
    - destruct (Z.ltb_spec (ti_asid_max ti) (ti_asid_hint ti)); lia.
    - split; [lia|]. destruct (decide (ti_asid_hint ti ≤ ti_asid_max ti)); [done|].
      rewrite (Hbelow eq_refl f) in Hfclr; [done|lia]. }
  assert (Hh' : PMAP_TLB_FLUSH_ASID_ON_RESET cfg = false →
                alloc_hint cfg ti = ti_asid_hint ti).
  { intros Hfl. unfold alloc_hint. by rewrite Hfl. }
  unfold alloc_asid.
  destruct (TLBINFO_ASID_INUSE_P cfg ti (alloc_hint cfg ti)) eqn:Hin.
  - destruct (alloc_scan_some cfg Hcfg (ti_asid_bitmap ti) f) as (w & bits & Hscan);
      [lia|done|].
    rewrite Hscan.
    destruct (alloc_scan_spec cfg Hcfg _ _ _ Hscan)
      as (Hbits & Hn & Ha0 & Halen & Hclr & Hlow).
    set (asid := ffsl bits - 1 + w * NBPW cfg) in *.
    assert (Hale : asid ≤ f).
    { destruct (decide (asid ≤ f)); [done|].
      unfold TLBINFO_ASID_INUSE_P in Hfclr. rewrite Hlow in Hfclr; [done|lia]. }
    assert (Hagt : KERNEL_PID cfg < asid).
    { destruct (decide (KERNEL_PID cfg < asid)); [done|].
      unfold TLBINFO_ASID_INUSE_P in Hres. rewrite Hres in Hclr; [done|lia]. }
    exists asid. split; [done|]. split; [lia|]. split; [done|]. split; [done|].
    split; [done|]. split.
    + intros _. split; [done|]. exists w, bits. repeat split; (done || lia).
    + intros Hfl. split; [by apply Hh'|]. split; [|done].
      destruct (decide (ti_asid_hint ti ≤ asid)); [done|].
      unfold TLBINFO_ASID_INUSE_P in Hbelow.
      rewrite (Hbelow Hfl asid) in Hclr; [done|lia].
  - exists (alloc_hint cfg ti). split; [done|]. split; [done|]. split; [done|].
    split; [done|]. split; [done|]. split; [done|].
    intros Hfl. rewrite (Hh' Hfl). split; [done|]. split; [lia|].
    by apply Hbelow.
Qed.

End AllocAsid.

(** ** pmap_tlb_asid_alloc *)

Section AllocExec.

Context (cfg : config) (Hcfg : cfg_ok cfg).

Lemma wp_when_same (b : bool) (m : M unit) s (Q : unit → kstate → Prop) :
  (b = true → wp m s (λ _ s', s' = s)) → Q tt s → wp (when b m) s Q.
Proof.
  intros Hm HQ. apply wp_when; [|done].
  intros Hb. eapply wp_mono; [by apply Hm|]. intros [] s' Hs. by subst s'.
Qed.

(** A routine followed to a known store. *)
Lemma wp_to {A} (m : M A) s (a : A) (s1 : kstate)
    (Q : A → kstate → Prop) :
  wp m s (λ a' s', a' = a ∧ s' = s1) → Q a s1 → wp m s Q.
Proof.
  intros Hm HQ. eapply wp_mono; [done|]. intros a' s' [Ha Hs]. by subst.
Qed.

Lemma set_asid_hint_id (ti : pmap_tlb_info) :
  set_asid_hint (ti_asid_hint ti) ti = ti.
Proof. by destruct ti. Qed.

Lemma alloc_exec (s : kstate) (i : nat) (ti : pmap_tlb_info) (p : pmap_t)
    (pm : pmap) :
  tlb_inv cfg [] s i ti → p ≠ pmap_kernel → pmaps s !! p = Some pm →
  p ∉ ti_pais ti → 0 < ti_asids_free ti →
  ∃ asid, alloc_asid cfg ti = Some asid ∧
    wp (pmap_tlb_asid_alloc cfg i p) s (λ _ s',
      s' = alloc_store cfg i p asid ti pm s).
Proof.
  destruct Hcfg as [HK HN]. intros Hinv Hpk Hpm Hnin Hfree.
  destruct (alloc_asid_spec cfg Hcfg [] s i ti Hinv Hfree)
    as (asid & Hasid & Hrange & Hclr & Hh & Hfreehint & Hscan & Hnofl).
  exists asid. split; [done|].
  pose proof (inv_lookup _ _ _ _ _ Hinv) as Hti.
  destruct (inv_unlinked _ _ _ _ _ Hinv p pm Hpk Hpm Hnin) as [Hzero Hmpun].
  pose proof (inv_hint _ _ _ _ _ Hinv) as Hhint.
  pose proof (inv_below _ _ _ _ _ Hinv) as Hbelow.
  unfold pmap_tlb_asid_alloc. wp_steps.
  apply wp_KASSERT; [by rewrite bool_decide_eq_false_2|]. wp_step.
  apply wp_KASSERT; [by apply Z.eqb_eq|]. wp_step.
  apply wp_KASSERT; [by rewrite bool_decide_eq_false_2|]. wp_step.
  apply wp_when_same.
  { intros Hmp. destruct (Hmpun Hmp) as [Ha Ho]. wp_step.
    apply wp_KASSERT; [by rewrite Ho|]. cbv beta.
    by apply wp_KASSERT; [by rewrite Ha|]. }
  wp_step. apply wp_KASSERT; [by apply Z.ltb_lt|]. wp_step.
  apply wp_KASSERT; [apply Z.ltb_lt; lia|]. wp_step.
  (* the hint is brought back into range *)
  apply (wp_to _ _ tt (upd_ti i (set_asid_hint (alloc_hint cfg ti) ti) s)).
  { unfold alloc_hint.
    destruct (PMAP_TLB_FLUSH_ASID_ON_RESET cfg && (ti_asid_max ti <? ti_asid_hint ti));
      cbn [when].
    - by wp_step.
    - wp_step. by rewrite set_asid_hint_id, upd_ti_id. }
  wp_steps. cbn [ti_asid_hint ti_asid_max set_asid_hint].
  apply wp_KASSERT; [apply Z.leb_le; lia|]. wp_step.
  (* the hinted ASID, or the first one found free *)
  apply (wp_to _ _ tt (upd_ti i (set_asid_hint asid ti) s)).
  { change (TLBINFO_ASID_INUSE_P cfg
              (set_asid_hint (alloc_hint cfg ti) ti) (alloc_hint cfg ti))
      with (TLBINFO_ASID_INUSE_P cfg ti (alloc_hint cfg ti)).
    destruct (TLBINFO_ASID_INUSE_P cfg ti (alloc_hint cfg ti)) eqn:Hin;
      cbn [when].
    - destruct (Hscan eq_refl) as (_ & w & bits & Hsc & -> & Hbits & Hn).
      cbn [ti_asid_bitmap set_asid_hint]. rewrite Hsc. wp_step.
      apply wp_KASSERT.
      { apply Z.eqb_eq. by apply ffsl_shift_check. }
      wp_step. apply wp_KASSERT; [by apply Z.ltb_lt|]. wp_step.
      split; [done|]. st_done.
    - wp_step. by rewrite (Hfreehint eq_refl). }
  wp_steps. cbn [ti_asid_hint ti_asid_max set_asid_hint].
  apply wp_KASSERT; [apply Z.ltb_lt; lia|]. wp_step.
  apply wp_KASSERT; [apply Z.leb_le; lia|]. wp_step.
  apply wp_KASSERT.
  { destruct (PMAP_TLB_FLUSH_ASID_ON_RESET cfg) eqn:Hfl; [done|]. cbn [orb].
    destruct (Hnofl eq_refl) as (_ & _ & Hlow).
    change (TLBINFO_ASID_INUSE_P cfg ti (asid - 1) = true). apply Hlow. lia. }
  wp_step. apply wp_KASSERT.
  { change (negb (TLBINFO_ASID_INUSE_P cfg ti asid) = true). by rewrite Hclr. }
  wp_steps. unfold alloc_store, alloc_ti, alloc_pm, alloc_hw.
  destruct (MULTIPROCESSOR cfg), (PMAP_TLB_FLUSH_ASID_ON_RESET cfg);
    cbn [when andb]; wp_steps; st_done.
Qed.

Lemma alloc_pm_active_p (i : nat) (asid : Z) (ti ti' : pmap_tlb_info)
    (s : kstate) (pm : pmap) :
  MULTIPROCESSOR cfg = true → cpus_ok cfg s ti →
  ti_kcpuset ti' = ti_kcpuset ti →
  pmap_tlb_intersecting_active_p cfg (alloc_pm cfg i asid ti s pm) ti' = true.
Proof.
  intros Hmp Hok Hkc. unfold alloc_pm, pmap_tlb_intersecting_active_p, cpus_ok in *.
  rewrite Hmp, Hkc. destruct (PMAP_TLB_MAX cfg =? 1)%nat; simpl.
  - unfold kcpuset_iszero. by rewrite bool_decide_eq_false_2.
  - unfold kcpuset_intersecting_p. apply bool_decide_eq_true.
    intros He. apply Hok. apply set_eq. intros x. rewrite elem_of_empty.
    split; [|done]. intros Hx.
    assert (Hin : x ∈ (pm_active pm ∪ ti_kcpuset ti) ∩ ti_kcpuset ti).
    { apply elem_of_intersection. split; [|done]. apply elem_of_union. by right. }
    rewrite He in Hin. by apply elem_of_empty in Hin.
Qed.

Lemma alloc_pm_asid (i : nat) (asid : Z) (ti : pmap_tlb_info) (s : kstate)
    (pm : pmap) :
  pai_asid (alloc_pm cfg i asid ti s pm) i = asid.
Proof.
  unfold alloc_pm.
  destruct (MULTIPROCESSOR cfg), (PMAP_TLB_MAX cfg =? 1)%nat;
    apply pai_asid_set.
Qed.

(** An allocation keeps the TLB consistent. *)
Lemma alloc_inv (s : kstate) (i : nat) (ti : pmap_tlb_info) (p : pmap_t)
    (pm : pmap) (asid : Z) :
  tlb_inv cfg [] s i ti → p ≠ pmap_kernel → pmaps s !! p = Some pm →
  p ∉ ti_pais ti → 0 < ti_asids_free ti →
  alloc_asid cfg ti = Some asid →
  (MULTIPROCESSOR cfg = true → cpus_ok cfg s ti) →
  tlb_inv cfg [] (alloc_store cfg i p asid ti pm s) i
    (alloc_ti cfg p asid ti).
Proof.
  destruct Hcfg as [HK HN]. intros Hinv Hpk Hpm Hnin Hfree Hasid Hcpus.
  destruct (alloc_asid_spec cfg Hcfg [] s i ti Hinv Hfree)
    as (asid' & Hasid' & Hrange & Hclr & Hh & Hfreehint & Hscan & Hnofl).
  rewrite Hasid in Hasid'. injection Hasid' as <-.
  destruct Hinv as [Hlk Hmax Hres Hcons Hhint Hbelow Hnd Hlinked Hdist Hunl].
  assert (Hbit : ∀ a, 0 ≤ a →
    TLBINFO_ASID_INUSE_P cfg (alloc_ti cfg p asid ti) a
    = bool_decide (a = asid) || TLBINFO_ASID_INUSE_P cfg ti a).
  { intros a Ha. unfold alloc_ti, TLBINFO_ASID_INUSE_P. cbn.
    apply BITMAP_ISSET_SET; (done || lia). }
  split.
  - unfold alloc_store. by eapply lookup_upd_ti_eq.
  - cbn. rewrite length_BITMAP_SET. done.
  - intros a Ha. rewrite Hbit by lia. rewrite Hres by done. apply orb_true_r.
  - unfold conservation, asids_beyond in *. cbn.
    rewrite (count_inuse_set cfg (ti_asid_bitmap ti) _ _ _ asid).
    + pose proof (count_inuse_bounds cfg (ti_asid_bitmap ti) (KERNEL_PID cfg + 1)
                    (ti_asid_max ti - KERNEL_PID cfg) ltac:(lia)).
      rewrite wrap32_small by lia. lia.
    + lia.
    + done.
    + rewrite BITMAP_ISSET_SET by (done || lia). by rewrite bool_decide_eq_true_2.
    + intros a Ha Hne. rewrite BITMAP_ISSET_SET by (done || lia).
      by rewrite bool_decide_eq_false_2.
  - cbn. lia.
  - intros Hfl a Ha. cbn in Ha. rewrite Hbit by lia.
    destruct (decide (a = asid)) as [->|Hne].
    + by rewrite bool_decide_eq_true_2.
    + rewrite bool_decide_eq_false_2 by done.
      destruct (Hnofl Hfl) as (_ & _ & Hlow). apply Hlow. lia.
  - cbn. by apply NoDup_cons.
  - intros q Hq. cbn in Hq. apply elem_of_cons in Hq as [->|Hq].
    + split; [done|]. eexists. split.
      { unfold alloc_store. apply lookup_upd_pm_eq. }
      rewrite alloc_pm_asid. split; [cbn; lia|]. split.
      * intros _. rewrite Hbit by lia. by rewrite bool_decide_eq_true_2.
      * intros Hmp. apply alloc_pm_active_p; [done|by apply Hcpus|done].
    + destruct (Hlinked q Hq) as (Hqk & qm & Hqm & Hqa & Hqu & Hqact).
      assert (Hqp : q ≠ p) by (intros ->; done).
      split; [done|]. exists qm. split.
      { unfold alloc_store. st_simpl. by rewrite lookup_insert_ne. }
      split; [done|]. split.
      * intros HqX. rewrite Hbit by lia. rewrite (Hqu HqX). apply orb_true_r.
      * intros Hmp. rewrite (active_p_kcpuset _ _ ti) by done. by apply Hqact.
  - assert (Hnew : ∀ q qm, q ∈ ti_pais ti → pmaps s !! q = Some qm →
                     pai_asid qm i ≠ asid).
    { intros q qm Hq Hqm Heq.
      destruct (Hlinked q Hq) as (_ & qm' & Hqm' & _ & Hqu & _).
      rewrite Hqm in Hqm'. injection Hqm' as <-.
      rewrite Heq, Hclr in Hqu. by specialize (Hqu ltac:(apply not_elem_of_nil)). }
    intros q r qm rm Hq Hr Hqm Hrm Heq. cbn in Hq, Hr.
    unfold alloc_store in Hqm, Hrm. st_simpl.
    apply elem_of_cons in Hq as [->|Hq]; apply elem_of_cons in Hr as [->|Hr];
      [done| | |].
    + assert (Hrp : r ≠ p) by (intros ->; done).
      rewrite lookup_insert_eq in Hqm. injection Hqm as <-.
      rewrite lookup_insert_ne in Hrm by done.
      rewrite alloc_pm_asid in Heq. by destruct (Hnew r rm Hr Hrm).
    + assert (Hqp : q ≠ p) by (intros ->; done).
      rewrite lookup_insert_eq in Hrm. injection Hrm as <-.
      rewrite lookup_insert_ne in Hqm by done.
      rewrite alloc_pm_asid in Heq. by destruct (Hnew q qm Hq Hqm).
    + assert (Hqp : q ≠ p) by (intros ->; done).
      assert (Hrp : r ≠ p) by (intros ->; done).
      rewrite lookup_insert_ne in Hqm, Hrm by done. by eapply Hdist.
  - intros q qm Hqk Hqm Hq. cbn in Hq. apply not_elem_of_cons in Hq as [Hqp Hq].
    unfold alloc_store in Hqm. st_simpl. rewrite lookup_insert_ne in Hqm by done.
    destruct (Hunl q qm Hqk Hqm Hq) as [H0 Hmpq]. split; [done|].
    intros Hmp. rewrite (active_p_kcpuset _ _ ti), (onproc_p_kcpuset _ _ ti) by done.
    by apply Hmpq.
Qed.

End AllocExec.

Ltac wp_assert :=
  cbv beta;
  lazymatch goal with
  | |- wp (bind (KASSERT _ _) _) _ _ => apply wp_bind; apply wp_KASSERT
  | |- wp (KASSERT _ _) _ _ => apply wp_KASSERT
  end.

(** ** pmap_tlb_pai_check *)

Section PaiCheck.

Context (cfg : config) (Hcfg : cfg_ok cfg).

Lemma wp_pai_check_list (s : kstate) (i : nat) (ti : pmap_tlb_info)
    (l : list pmap_t) :
  tlb_inv cfg [] s i ti → (∀ p, p ∈ l → p ∈ ti_pais ti) →
  wp (pai_check_list cfg i l) s (λ _ s', s' = s).
Proof.
  intros Hinv. pose proof (inv_lookup _ _ _ _ _ Hinv) as Hti.
  induction l as [|p l IH]; intros Hl; cbn [pai_check_list].
  - by apply wp_ret.
  - destruct (inv_linked _ _ _ _ _ Hinv p) as (Hpk & pm & Hpm & Ha & Hu & Hact).
    { apply Hl. by left. }
    wp_step. apply (wp_to _ _ tt s).
    + unfold pai_check_one. wp_steps.
      wp_assert; [by rewrite bool_decide_eq_false_2|].
      wp_assert; [apply Z.ltb_lt; lia|].
      wp_assert; [apply Z.leb_le; lia|].
      wp_assert; [apply Hu, not_elem_of_nil|].
      apply wp_when_same; [|done]. intros Hmp.
      by wp_assert; [by apply Hact|].
    + apply IH. intros q Hq. apply Hl. by right.
Qed.

Lemma wp_pai_check (s : kstate) (i : nat) (ti : pmap_tlb_info) :
  tlb_inv cfg [] s i ti →
  wp (pmap_tlb_pai_check cfg i true) s (λ _ s', s' = s).
Proof.
  intros Hinv. pose proof (inv_lookup _ _ _ _ _ Hinv) as Hti.
  unfold pmap_tlb_pai_check. apply wp_when_same; [|done]. intros _.
  cbn [negb when]. wp_steps.
  eapply wp_mono; [by eapply wp_pai_check_list|].
  intros [] s' ->. by wp_step.
Qed.

End PaiCheck.

(** ** The head of pmap_tlb_asid_reinitialize *)

Section ReinitReset.

Context (cfg : config) (Hcfg : cfg_ok cfg).

Lemma INITIAL_FREE_eq (asid_max : Z) :
  KERNEL_PID cfg ≤ asid_max → asid_max + 1 < 2 ^ 32 →
  TLBINFO_ASID_INITIAL_FREE cfg asid_max = asid_max - KERNEL_PID cfg.
Proof.
  destruct Hcfg as [HK HN]. intros H1 H2. unfold TLBINFO_ASID_INITIAL_FREE.
  rewrite wrap32_small; lia.
Qed.

Lemma reinitialize_reset_ti_fields (ti : pmap_tlb_info) :
  let t := reinitialize_reset_ti cfg ti in
  ti_asids_free t = TLBINFO_ASID_INITIAL_FREE cfg (ti_asid_max ti)
  ∧ ti_asid_hint t = KERNEL_PID cfg + 1
  ∧ ti_asid_max t = ti_asid_max ti ∧ ti_pais t = ti_pais ti
  ∧ ti_victim t = ti_victim ti ∧ ti_kcpuset t = ti_kcpuset ti
  ∧ ti_tlbinvop t = ti_tlbinvop ti ∧ ti_lock t = ti_lock ti
  ∧ ti_evcnt_asid_reinits t = ti_evcnt_asid_reinits ti + 1
  ∧ length (ti_asid_bitmap t) = length (ti_asid_bitmap ti).
Proof.
  unfold reinitialize_reset_ti.
  pose proof (TLBINFO_ASID_RESET_fields cfg
    (set_asid_hint (KERNEL_PID cfg + 1)
       (set_asids_free (TLBINFO_ASID_INITIAL_FREE cfg (ti_asid_max ti))
          (set_evcnt_asid_reinits (ti_evcnt_asid_reinits ti + 1) ti)))) as H.
  exact H.
Qed.

Lemma reinitialize_reset_ti_inuse (ti : pmap_tlb_info) (a : Z) :
  0 ≤ a →
  KERNEL_PID cfg < NBPW cfg * Z.of_nat (length (ti_asid_bitmap ti)) →
  TLBINFO_ASID_INUSE_P cfg (reinitialize_reset_ti cfg ti) a
  = bool_decide (a ≤ KERNEL_PID cfg).
Proof.
  intros Ha Hlen. unfold reinitialize_reset_ti.
  by apply TLBINFO_ASID_RESET_isset.
Qed.

Lemma reinitialize_found_spec (entries : list Z) (ti : pmap_tlb_info) :
  KERNEL_PID cfg ≤ ti_asid_max ti →
  ti_asid_max ti < NBPW cfg * Z.of_nat (length (ti_asid_bitmap ti)) →
  let t1 := reinitialize_reset_ti cfg ti in
  let r := tlb_record_asids cfg entries (ti_asid_bitmap t1) (ti_asid_max t1) in
  reinitialize_found cfg entries t1 = r.1
  ∧ length r.2 = length (ti_asid_bitmap ti)
  ∧ (∀ a, 0 ≤ a →
       BITMAP_ISSET cfg a r.2
       = bool_decide (a ≤ KERNEL_PID cfg)
         || bool_decide (a ∈ entries ∧ a ≤ ti_asid_max ti))
  ∧ r.1 = count_inuse cfg r.2 (KERNEL_PID cfg + 1)
            (ti_asid_max ti - KERNEL_PID cfg)
  ∧ 0 ≤ r.1 ≤ ti_asid_max ti - KERNEL_PID cfg.
Proof.
  destruct Hcfg as [HK HN]. intros Hmax Hlen t1 r.
  pose proof (reinitialize_reset_ti_fields ti) as
    (F1 & F2 & F3 & F4 & F5 & F6 & F7 & F8 & F9 & F10).
  fold t1 in F1, F2, F3, F4, F5, F6, F7, F8, F9, F10.
  assert (Hb1 : ∀ a, 0 ≤ a →
            BITMAP_ISSET cfg a (ti_asid_bitmap t1)
            = bool_decide (a ≤ KERNEL_PID cfg)).
  { intros a Ha. apply (reinitialize_reset_ti_inuse ti a Ha). lia. }
  destruct (tlb_record_asids_spec cfg Hcfg entries (ti_asid_max t1)
              (ti_asid_bitmap t1)) as (R1 & R2 & R3).
  { rewrite F3, F10. lia. }
  fold r in R1, R2, R3. rewrite F3 in *. rewrite F10 in R1.
  split; [done|]. split; [done|]. split.
  { intros a Ha. rewrite R2, Hb1 by done. done. }
  assert (Hc : r.1 = count_inuse cfg r.2 (KERNEL_PID cfg + 1)
                       (ti_asid_max ti - KERNEL_PID cfg)).
  { rewrite (R3 (KERNEL_PID cfg + 1) (ti_asid_max ti - KERNEL_PID cfg)).
    - rewrite (count_inuse_none cfg (ti_asid_bitmap t1)); [lia|].
      intros a Ha. rewrite Hb1 by lia. apply bool_decide_eq_false. lia.
    - lia.
    - intros a Ha Hclr. rewrite Hb1 in Hclr by lia.
      apply bool_decide_eq_false in Hclr. lia. }
  split; [done|]. rewrite Hc. apply count_inuse_bounds. lia.
Qed.

Lemma reinitialize_flush_ti_spec (op : Z) (entries : list Z)
    (ti : pmap_tlb_info) :
  KERNEL_PID cfg ≤ ti_asid_max ti → ti_asid_max ti + 1 < 2 ^ 32 →
  ti_asid_max ti < NBPW cfg * Z.of_nat (length (ti_asid_bitmap ti)) →
  let t2 := reinitialize_flush_ti cfg op entries (reinitialize_reset_ti cfg ti)
  in
  let found := reinitialize_found cfg entries (reinitialize_reset_ti cfg ti) in
  (ti_asid_hint t2 = KERNEL_PID cfg + 1
   ∧ ti_asid_max t2 = ti_asid_max ti ∧ ti_pais t2 = ti_pais ti
   ∧ ti_victim t2 = ti_victim ti ∧ ti_kcpuset t2 = ti_kcpuset ti
   ∧ ti_tlbinvop t2 = ti_tlbinvop ti ∧ ti_lock t2 = ti_lock ti
   ∧ ti_evcnt_asid_reinits t2 = ti_evcnt_asid_reinits ti + 1
   ∧ length (ti_asid_bitmap t2) = length (ti_asid_bitmap ti))
  ∧ (∀ a, 0 ≤ a →
       TLBINFO_ASID_INUSE_P cfg t2 a
       = bool_decide (a ≤ KERNEL_PID cfg)
         || (keeps_resident cfg op entries ti
             && bool_decide (a ∈ entries ∧ a ≤ ti_asid_max ti)))
  ∧ ti_asids_free t2
    = (if keeps_resident cfg op entries ti
       then ti_asid_max ti - KERNEL_PID cfg - found
       else ti_asid_max ti - KERNEL_PID cfg)
  ∧ conservation cfg t2
  ∧ 0 ≤ found ≤ ti_asid_max ti - KERNEL_PID cfg.
Proof.
  destruct Hcfg as [HK HN]. intros Hmax H32 Hlen t2 found.
  pose proof (reinitialize_reset_ti_fields ti) as
    (F1 & F2 & F3 & F4 & F5 & F6 & F7 & F8 & F9 & F10).
  destruct (reinitialize_found_spec entries ti Hmax Hlen)
    as (Rf & Rlen & Rbits & Rcount & Rbound).
  fold found in Rf, Rbound.
  set (t1 := reinitialize_reset_ti cfg ti) in *.
  set (r := tlb_record_asids cfg entries (ti_asid_bitmap t1) (ti_asid_max t1)) in *.
  assert (Hb1 : ∀ a, 0 ≤ a →
            TLBINFO_ASID_INUSE_P cfg t1 a = bool_decide (a ≤ KERNEL_PID cfg)).
  { intros a Ha. apply (reinitialize_reset_ti_inuse ti a Ha). lia. }
  assert (Hinit : TLBINFO_ASID_INITIAL_FREE cfg (ti_asid_max ti)
                  = ti_asid_max ti - KERNEL_PID cfg)
    by (by apply INITIAL_FREE_eq).
  assert (Hcons0 : ∀ t, ti_asid_max t = ti_asid_max ti →
     ti_asids_free t = ti_asid_max ti - KERNEL_PID cfg →
     (∀ a, 0 ≤ a → TLBINFO_ASID_INUSE_P cfg t a
                   = bool_decide (a ≤ KERNEL_PID cfg)) →
     conservation cfg t).
  { intros t Hm Hf Hb. unfold conservation, asids_beyond. rewrite Hm, Hf.
    rewrite count_inuse_none; [lia|]. intros a Ha.
    unfold TLBINFO_ASID_INUSE_P in Hb. rewrite Hb by lia.
    apply bool_decide_eq_false. lia. }
  unfold t2, reinitialize_flush_ti, keeps_resident.
  destruct (op =? TLBINV_NOBODY); cbn [andb].
  2:{ fold t1. split; [by rewrite F2, F3, F4, F5, F6, F7, F8, F9, F10|].
      split; [intros a Ha; by rewrite Hb1, orb_false_r|].
      split; [by rewrite F1|]. split; [|done].
      apply Hcons0; [done|by rewrite F1|done]. }
  destruct (can_record cfg); cbn [andb].
  2:{ fold t1.
      pose proof (TLBINFO_ASID_RESET_fields cfg t1) as
        (G1 & G2 & G3 & G4 & G5 & G6 & G7 & G8 & G9 & G10).
      assert (Hb2 : ∀ a, 0 ≤ a →
         TLBINFO_ASID_INUSE_P cfg
           (set_asids_free (TLBINFO_ASID_INITIAL_FREE cfg (ti_asid_max t1))
              (TLBINFO_ASID_RESET cfg t1)) a
         = bool_decide (a ≤ KERNEL_PID cfg)).
      { intros a Ha.
        change (TLBINFO_ASID_INUSE_P cfg (TLBINFO_ASID_RESET cfg t1) a
                = bool_decide (a ≤ KERNEL_PID cfg)).
        apply TLBINFO_ASID_RESET_isset; [done|done|]. rewrite F10. lia. }
      split; [cbn; by rewrite G2, G3, G4, G5, G6, G7, G8, G9, G10, F2, F3, F4,
                F5, F6, F7, F8, F9, F10|].
      split; [intros a Ha; by rewrite Hb2, orb_false_r|].
      split; [cbn; by rewrite F3|]. split; [|done].
      apply Hcons0; [cbn; by rewrite G3, F3|cbn; by rewrite F3|done]. }
  fold t1. fold r. cbv zeta. rewrite <- Rf. fold found. rewrite F3.
  destruct (ti_asid_max ti / 2 <=? found) eqn:Hhalf; cbn [negb andb].
  - pose proof (TLBINFO_ASID_RESET_fields cfg (set_asid_bitmap r.2 t1)) as
        (G1 & G2 & G3 & G4 & G5 & G6 & G7 & G8 & G9 & G10).
    cbn in G1, G2, G3, G4, G5, G6, G7, G8, G9, G10.
    assert (Hb2 : ∀ a, 0 ≤ a →
         TLBINFO_ASID_INUSE_P cfg
           (set_asids_free (TLBINFO_ASID_INITIAL_FREE cfg
                              (ti_asid_max (set_asid_bitmap r.2 t1)))
              (TLBINFO_ASID_RESET cfg (set_asid_bitmap r.2 t1))) a
         = bool_decide (a ≤ KERNEL_PID cfg)).
    { intros a Ha.
      change (TLBINFO_ASID_INUSE_P cfg
                (TLBINFO_ASID_RESET cfg (set_asid_bitmap r.2 t1)) a
              = bool_decide (a ≤ KERNEL_PID cfg)).
      apply TLBINFO_ASID_RESET_isset; [done|done|]. cbn. rewrite Rlen. lia. }
    split; [cbn; by rewrite G2, G3, G4, G5, G6, G7, G8, G9, G10, F2, F3, F4,
              F5, F6, F7, F8, F9, Rlen|].
    split; [intros a Ha; by rewrite Hb2, orb_false_r|].
    split; [cbn; by rewrite F3|]. split; [|done].
    apply Hcons0; [cbn; by rewrite G3, F3|cbn; by rewrite F3|done].
  - split; [cbn; by rewrite F2, F3, F4, F5, F6, F7, F8, F9, Rlen|].
    split; [intros a Ha; unfold TLBINFO_ASID_INUSE_P; cbn; by apply Rbits|].
    assert (Hfree : wrap32 (ti_asids_free t1 - found)
                    = ti_asid_max ti - KERNEL_PID cfg - found).
    { rewrite F1, Hinit. apply wrap32_small. lia. }
    split; [exact Hfree|]. split; [|done].
    rewrite <- Rf in Rcount.
    unfold conservation, asids_beyond. cbn. rewrite F3, Hfree, <- Rcount. lia.
Qed.

Lemma pmap_tlb_asid_count_eq (ti : pmap_tlb_info) :
  pmap_tlb_asid_count cfg ti
  = count_inuse cfg (ti_asid_bitmap ti) 1 (ti_asid_max ti).
Proof. done. Qed.

Lemma reinitialize_reset_exec (s : kstate) (i : nat) (ti : pmap_tlb_info)
    (op : Z) :
  tlb_inv cfg [] s i ti → reinitialize_op_ok cfg op → diagnostic_ok cfg →
  wp (reinitialize_reset cfg i op) s (λ _ s',
    s' = reinitialize_reset_store cfg i op ti s).
Proof.
  destruct Hcfg as [HK HN]. intros Hinv Hop Hdiag.
  pose proof (inv_lookup _ _ _ _ _ Hinv) as Hti.
  destruct (inv_max _ _ _ _ _ Hinv) as (Hmax & H32 & Hlen).
  unfold reinitialize_reset. wp_step.
  apply (wp_to _ _ tt s); [eapply wp_mono; [by eapply wp_pai_check|]; by intros [] ? ->|].
  pose proof (reinitialize_reset_ti_fields ti) as
    (F1 & F2 & F3 & F4 & F5 & F6 & F7 & F8 & F9 & F10).
  destruct (reinitialize_found_spec (hw_entries (hw s)) ti Hmax Hlen)
    as (Rf & Rlen & Rbits & Rcount & Rbound).
  set (t1 := reinitialize_reset_ti cfg ti) in *.
  wp_steps.
  match goal with
  | |- wp _ ?S _ => replace S with (upd_ti i t1 s) by (symmetry; st_done)
  end.
  unfold reinitialize_flush, reinitialize_reset_store, reinitialize_flush_ti,
    reinitialize_flush_hw, has_shootdown, can_record.
  fold t1.
  assert (Hinit : TLBINFO_ASID_INITIAL_FREE cfg (ti_asid_max ti)
                  = ti_asid_max ti - KERNEL_PID cfg)
    by (by apply INITIAL_FREE_eq).
  destruct Hop as [->|[Hsd [-> | ->]]].
  - change (TLBINV_NOBODY =? TLBINV_ALL) with false.
    change (TLBINV_NOBODY =? TLBINV_ALLUSER) with false.
    change (TLBINV_NOBODY =? TLBINV_NOBODY) with true.
    rewrite !andb_false_r. cbv iota.
    destruct (negb (MULTIPROCESSOR cfg) || PMAP_TLB_NEED_SHOOTDOWN cfg) eqn:Hrec.
    + wp_steps. st_simpl.
      set (r := tlb_record_asids cfg (hw_entries (hw s)) (ti_asid_bitmap t1)
                  (ti_asid_max t1)) in *.
      apply wp_when_same.
      { intros Hd. wp_assert; [|done]. apply Z.eqb_eq.
        rewrite pmap_tlb_asid_count_eq. cbn. rewrite F3.
        rewrite Rcount. unfold diagnostic_ok, can_record in Hdiag.
        rewrite (Hdiag Hd Hrec). f_equal. lia. }
      cbv beta. cbn [ti_asid_max set_asid_bitmap].
      destruct (ti_asid_max t1 / 2 <=? r.1) eqn:Hhalf.
      * unfold reinitialize_found. fold r. rewrite Hhalf. wp_steps.
        cbn [ti_asids_free ti_asid_max set_asids_free].
        pose proof (TLBINFO_ASID_RESET_fields cfg (set_asid_bitmap r.2 t1)) as
          (G1 & G2 & G3 & G4 & G5 & G6 & G7 & G8 & G9 & G10).
        wp_assert; [|st_done].
        apply Z.leb_le. rewrite G3. cbn. rewrite F3, Hinit. lia.
      * unfold reinitialize_found. fold r. rewrite Hhalf. wp_steps.
        cbn [ti_asids_free ti_asid_max set_asids_free set_asid_bitmap].
        wp_assert; [|st_done].
        apply Z.leb_le. rewrite F1, F3, Hinit. rewrite wrap32_small; lia.
    + wp_steps. cbn [ti_asids_free ti_asid_max set_asids_free].
      pose proof (TLBINFO_ASID_RESET_fields cfg t1) as
          (G1 & G2 & G3 & G4 & G5 & G6 & G7 & G8 & G9 & G10).
      wp_assert; [|st_done].
      apply Z.leb_le. rewrite G3, F3, Hinit. lia.
  - unfold has_shootdown in Hsd. rewrite Hsd.
    change (TLBINV_ALL =? TLBINV_ALL) with true. cbn [andb].
    wp_steps. change (TLBINV_ALL =? TLBINV_NOBODY) with false. cbv iota.
    st_done.
  - unfold has_shootdown in Hsd. rewrite Hsd.
    change (TLBINV_ALLUSER =? TLBINV_ALL) with false.
    change (TLBINV_ALLUSER =? TLBINV_ALLUSER) with true. cbn [andb].
    wp_steps. change (TLBINV_ALLUSER =? TLBINV_NOBODY) with false. cbv iota.
    rewrite F3. st_done.
Qed.

(** After the head of the routine the TLB is consistent, but no pmap on
    the list has its ASID marked for sure. *)
Lemma reinitialize_reset_inv (s : kstate) (i : nat) (ti : pmap_tlb_info)
    (op : Z) :
  tlb_inv cfg [] s i ti →
  tlb_inv cfg (ti_pais ti) (reinitialize_reset_store cfg i op ti s) i
    (reinitialize_flush_ti cfg op (hw_entries (hw s))
       (reinitialize_reset_ti cfg ti)).
Proof.
  destruct Hcfg as [HK HN]. intros Hinv.
  destruct Hinv as [Hlk Hmax Hres Hcons Hhint Hbelow Hnd Hlinked Hdist Hunl].
  destruct Hmax as (Hmax & H32 & Hlen).
  destruct (reinitialize_flush_ti_spec op (hw_entries (hw s)) ti Hmax H32 Hlen)
    as ((F2 & F3 & F4 & F5 & F6 & F7 & F8 & F9 & F10) & Fbits & Ffree & Fcons
        & Fbound).
  set (t2 := reinitialize_flush_ti cfg op (hw_entries (hw s))
               (reinitialize_reset_ti cfg ti)) in *.
  split.
  - unfold reinitialize_reset_store. by eapply lookup_upd_ti_eq.
  - rewrite F3, F10. done.
  - intros a Ha. rewrite Fbits by lia. by rewrite bool_decide_eq_true_2 by lia.
  - done.
  - rewrite F2, F3. lia.
  - intros _ a Ha. rewrite F2 in Ha. rewrite Fbits by lia.
    by rewrite bool_decide_eq_true_2 by lia.
  - by rewrite F4.
  - intros q Hq. rewrite F4 in Hq.
    destruct (Hlinked q Hq) as (Hqk & qm & Hqm & Hqa & Hqu & Hqact).
    split; [done|]. exists qm. split; [done|]. rewrite F3. split; [done|].
    split; [intros HqX; by destruct HqX|].
    intros Hmp. rewrite (active_p_kcpuset _ _ ti) by done. by apply Hqact.
  - intros q r qm rm Hq Hr. rewrite F4 in Hq, Hr. by apply Hdist.
  - intros q qm Hqk Hqm Hq. rewrite F4 in Hq.
    destruct (Hunl q qm Hqk Hqm Hq) as [H0 Hmpq]. split; [done|].
    intros Hmp. rewrite (active_p_kcpuset _ _ ti), (onproc_p_kcpuset _ _ ti) by done.
    by apply Hmpq.
Qed.

End ReinitReset.

(** ** One turn of the loop of the reinitialisation *)

Section WalkStep.

Context (cfg : config) (Hcfg : cfg_ok cfg).

Lemma tlb_inv_drop (p : pmap_t) (l : list pmap_t) (s : kstate) (i : nat)
    (ti : pmap_tlb_info) (pm : pmap) :
  tlb_inv cfg (p :: l) s i ti → pmaps s !! p = Some pm →
  TLBINFO_ASID_INUSE_P cfg ti (pai_asid pm i) = true →
  tlb_inv cfg l s i ti.
Proof.
  intros [Hlk Hmax Hres Hfree Hhint Hbelow Hnd Hlinked Hdist Hunl] Hpm Hb.
  split; try done.
  intros q Hq. destruct (Hlinked q Hq) as (Hqk & qm & Hqm & Hqa & Hqu & Hqact).
  split; [done|]. exists qm. repeat split; try done; try lia.
  intros HqX. destruct (decide (q = p)) as [->|Hne].
  - rewrite Hpm in Hqm. by injection Hqm as <-.
  - apply Hqu. by apply not_elem_of_cons.
Qed.

Lemma walk_post_refl (i : nat) (l : list pmap_t) (s : kstate)
    (ti : pmap_tlb_info) :
  (MULTIPROCESSOR cfg = true →
   ∀ p pm, p ∈ l → pmaps s !! p = Some pm →
     pmap_tlb_intersecting_onproc_p cfg pm ti = true →
     TLBINFO_ASID_INUSE_P cfg ti (pai_asid pm i) = true) →
  walk_post cfg i l s ti s ti.
Proof.
  intros Hon. split; try done.
  intros a Ha. split; [by left|].
  intros [Hb|(Hmp & p & pm & Hp & Hpm & Honp & <-)]; [done|].
  by eapply Hon.
Qed.

(** One turn of the loop, for the pmap at the head of what is left. *)
Lemma reinitialize_pai_spec (i : nat) (op : Z) (p : pmap_t)
    (l : list pmap_t) (s : kstate) (ti : pmap_tlb_info) :
  tlb_inv cfg (p :: l) s i ti → p ∈ ti_pais ti → p ∉ l →
  (op ≠ TLBINV_NOBODY → marked_by_list cfg i (p :: l) s ti) →
  wp (reinitialize_pai cfg i op p) s (λ _ s1,
    ∃ ti1, tlb_inv cfg l s1 i ti1
      ∧ (op ≠ TLBINV_NOBODY → marked_by_list cfg i l s1 ti1)
      ∧ walk_post cfg i [p] s ti s1 ti1).
Proof.
  destruct Hcfg as [HK HN]. intros Hinv Hin Hnl HJ.
  pose proof (inv_lookup _ _ _ _ _ Hinv) as Hti.
  destruct (inv_linked _ _ _ _ _ Hinv p Hin) as (Hpk & pm & Hpm & Ha & _ & Hact).
  destruct (inv_max _ _ _ _ _ Hinv) as (Hmax & H32 & Hlen).
  assert (Hsame : TLBINFO_ASID_INUSE_P cfg ti (pai_asid pm i) = true →
    ∃ ti1, tlb_inv cfg l s i ti1
      ∧ (op ≠ TLBINV_NOBODY → marked_by_list cfg i l s ti1)
      ∧ walk_post cfg i [p] s ti s ti1).
  { intros Hb. exists ti. split; [by eapply tlb_inv_drop|]. split.
    - intros Hop a Ha1 Ha2.
      destruct (HJ Hop a Ha1 Ha2) as (q & qm & Hq & HqX & Hqm & Hqa).
      exists q, qm. split; [done|]. split; [|done].
      intros Hql. apply HqX. by right.
    - apply walk_post_refl. intros _ p' pm' Hp' Hpm' _.
      apply list_elem_of_singleton in Hp' as ->. rewrite Hpm in Hpm'.
      by injection Hpm' as <-. }
  unfold reinitialize_pai. wp_steps.
  wp_assert; [by rewrite bool_decide_eq_false_2|].
  wp_assert; [apply Z.ltb_lt; lia|].
  destruct (MULTIPROCESSOR cfg && pmap_tlb_intersecting_onproc_p cfg pm ti)
    eqn:Hon.
  - (* onproc: the ASID is kept and marked *)
    apply andb_true_iff in Hon as [Hmp Honp].
    destruct (TLBINFO_ASID_INUSE_P cfg ti (pai_asid pm i)) eqn:Hb; cbn [negb when].
    + wp_step. by apply Hsame.
    + wp_step.
      set (ti1 := set_asids_free (wrap32 (ti_asids_free ti - 1))
                    (TLBINFO_ASID_MARK_USED cfg (pai_asid pm i) ti)).
      exists ti1.
      destruct Hinv as [Hlk _ Hres Hcons Hhint Hbelow Hnd Hlinked Hdist Hunl].
      assert (Hbit : ∀ a, 0 ≤ a →
        TLBINFO_ASID_INUSE_P cfg ti1 a
        = bool_decide (a = pai_asid pm i) || TLBINFO_ASID_INUSE_P cfg ti a).
      { intros a Ha0. unfold ti1, TLBINFO_ASID_INUSE_P. cbn.
        apply BITMAP_ISSET_SET; (done || lia). }
      split; [|split].
      * split.
        -- by eapply lookup_upd_ti_eq.
        -- cbn. rewrite length_BITMAP_SET. done.
        -- intros a Ha0. rewrite Hbit by lia. rewrite Hres by done.
           apply orb_true_r.
        -- unfold conservation, asids_beyond in *. cbn.
           rewrite (count_inuse_set cfg (ti_asid_bitmap ti) _ _ _ (pai_asid pm i)).
           ++ pose proof (count_inuse_bounds cfg (ti_asid_bitmap ti)
                            (KERNEL_PID cfg + 1)
                            (ti_asid_max ti - KERNEL_PID cfg) ltac:(lia)).
              pose proof (count_inuse_lt cfg (ti_asid_bitmap ti)
                            (KERNEL_PID cfg + 1)
                            (ti_asid_max ti - KERNEL_PID cfg) (pai_asid pm i)
                            ltac:(lia) Hb).
              rewrite wrap32_small by lia. lia.
           ++ lia.
           ++ done.
           ++ rewrite BITMAP_ISSET_SET by (done || lia).
              by rewrite bool_decide_eq_true_2.
           ++ intros a Ha0 Hne. rewrite BITMAP_ISSET_SET by (done || lia).
              by rewrite bool_decide_eq_false_2.
        -- done.
        -- intros Hfl a Ha0. cbn in Ha0. rewrite Hbit by lia.
           rewrite (Hbelow Hfl a Ha0). apply orb_true_r.
        -- done.
        -- intros q Hq. cbn in Hq.
           destruct (Hlinked q Hq) as (Hqk & qm & Hqm & Hqa & Hqu & Hqact).
           split; [done|]. exists qm. split; [done|]. split; [done|]. split.
           ++ intros HqX. rewrite Hbit by lia.
              destruct (decide (q = p)) as [->|Hne].
              ** rewrite Hpm in Hqm. injection Hqm as <-.
                 by rewrite bool_decide_eq_true_2.
              ** rewrite Hqu; [apply orb_true_r|]. by apply not_elem_of_cons.
           ++ intros Hmp'. rewrite (active_p_kcpuset _ _ ti) by done.
              by apply Hqact.
        -- done.
        -- intros q qm Hqk Hqm Hq. cbn in Hq.
           destruct (Hunl q qm Hqk Hqm Hq) as [H0 Hmpq]. split; [done|].
           intros Hmp'.
           rewrite (active_p_kcpuset _ _ ti), (onproc_p_kcpuset _ _ ti) by done.
           by apply Hmpq.
      * intros Hop a Ha1 Ha2. rewrite Hbit in Ha2 by lia.
        apply orb_true_iff in Ha2 as [Ha2|Ha2].
        -- apply bool_decide_eq_true in Ha2 as ->.
           exists p, pm. split; [done|]. split; [done|]. done.
        -- destruct (HJ Hop a Ha1 Ha2) as (q & qm & Hq & HqX & Hqm & Hqa).
           exists q, qm. split; [done|]. split; [|done].
           intros Hql. apply HqX. by right.
      * split; try done.
        -- intros a Ha0. rewrite Hbit by lia. rewrite orb_true_iff. split.
           ++ intros [He|Hb']; [|by left]. apply bool_decide_eq_true in He as ->.
              right. split; [done|]. exists p, pm.
              split; [by apply list_elem_of_singleton|]. done.
           ++ intros [Hb'|(_ & p' & pm' & Hp' & Hpm' & _ & <-)]; [by right|].
              apply list_elem_of_singleton in Hp' as ->. rewrite Hpm in Hpm'.
              injection Hpm' as <-. left. by apply bool_decide_eq_true.
  - (* not onproc *)
    destruct (TLBINFO_ASID_INUSE_P cfg ti (pai_asid pm i)) eqn:Hb.
    + apply wp_KASSERT_diag; [|by apply Hsame].
      intros _. apply Z.eqb_eq.
      destruct (decide (op = TLBINV_NOBODY)) as [|Hop]; [done|].
      assert (Hgt : KERNEL_PID cfg < pai_asid pm i) by lia.
      destruct (HJ Hop (pai_asid pm i) Hgt Hb)
        as (q & qm & Hq & HqX & Hqm & Hqa).
      destruct HqX. apply elem_of_cons. left.
      by eapply (inv_distinct _ _ _ _ _ Hinv q p qm pm).
    + assert (Honp : MULTIPROCESSOR cfg = true →
                     pmap_tlb_intersecting_onproc_p cfg pm ti = false).
      { intros Hmp. by rewrite Hmp in Hon. }
      eapply wp_mono.
      { apply (pai_reset_exec cfg i p s ti pm); [done|done|done|].
        intros _. split; [done|]. intros Hmp. split; [by apply Hact|by apply Honp]. }
      intros [] s1 ->.
      pose proof (pai_reset_inv cfg Hcfg (p :: l) s i ti p pm Hinv Hin Hpm Honp)
        as Hinv1.
      pose proof (pai_reset_ti_fields cfg p (pai_asid pm i) ti) as
        (Fhint & Fmax & Fpais & Fvic & Fkc & Fop & Flock & Fev & Flen).
      assert (Hbit : ∀ a, 0 ≤ a →
        TLBINFO_ASID_INUSE_P cfg (pai_reset_ti cfg p (pai_asid pm i) ti) a
        = TLBINFO_ASID_INUSE_P cfg ti a).
      { intros a Ha0. rewrite pai_reset_ti_inuse by (done || lia).
        destruct (decide (a = pai_asid pm i)) as [->|Hne].
        - rewrite Hb. apply andb_false_r.
        - rewrite (bool_decide_eq_false_2 (a = _)) by done.
          by rewrite orb_true_r. }
      exists (pai_reset_ti cfg p (pai_asid pm i) ti). split; [|split].
      * eapply tlb_inv_weaken; [|exact Hinv1]. intros q Hq HqX.
        rewrite Fpais in Hq. apply list_elem_of_filter in Hq as [Hqp _].
        by apply not_elem_of_cons.
      * intros Hop a Ha1 Ha2. rewrite Hbit in Ha2 by lia.
        destruct (HJ Hop a Ha1 Ha2) as (q & qm & Hq & HqX & Hqm & Hqa).
        apply not_elem_of_cons in HqX as [Hqp HqX].
        exists q, qm. split; [rewrite Fpais; by apply list_elem_of_filter|].
        split; [done|]. split; [|done].
        unfold pai_reset_store. st_simpl. by rewrite lookup_insert_ne.
      * split; try done.
        -- intros q Hq. rewrite Fpais in Hq. by apply list_elem_of_filter in Hq as [_ ?].
        -- intros q Hq Hqp. rewrite Fpais. apply list_elem_of_filter.
           split; [|done]. intros ->. apply Hqp. by apply list_elem_of_singleton.
        -- intros a Ha0. rewrite Hbit by done. split; [by left|].
           intros [Hb'|(Hmp & p' & pm' & Hp' & Hpm' & Honp' & <-)]; [done|].
           apply list_elem_of_singleton in Hp' as ->. rewrite Hpm in Hpm'.
           injection Hpm' as <-. by rewrite Honp in Honp'.
        -- intros q Hq. unfold pai_reset_store. st_simpl.
           rewrite lookup_insert_ne; [done|]. intros ->. apply Hq.
           by apply list_elem_of_singleton.
Qed.

End WalkStep.

(** ** pmap_tlb_asid_reinitialize *)

Section Walk.

Context (cfg : config) (Hcfg : cfg_ok cfg).

Lemma walk_post_trans (i : nat) (p : pmap_t) (l : list pmap_t)
    (s s1 s' : kstate) (ti ti1 ti' : pmap_tlb_info) :
  p ∉ l → walk_post cfg i [p] s ti s1 ti1 → walk_post cfg i l s1 ti1 s' ti' →
  walk_post cfg i (p :: l) s ti s' ti'.
Proof.
  intros Hpl [A1 A2 A3 A4 A5 A6 A7 A8 A9 A10 A11 A12]
    [B1 B2 B3 B4 B5 B6 B7 B8 B9 B10 B11 B12].
  split; try congruence.
  - intros q Hq. by apply A7, B7.
  - intros q Hq Hql. apply not_elem_of_cons in Hql as [Hqp Hql].
    apply B8; [|done]. apply A8; [done|]. by intros ->%list_elem_of_singleton.
  - intros a Ha. rewrite (B9 a Ha), (A9 a Ha). split.
    + intros [[Hb|(Hmp & q & qm & Hq & Hqm & Hon & Hqa)]
             |(Hmp & q & qm & Hq & Hqm & Hon & Hqa)].
      * by left.
      * right. split; [done|]. exists q, qm.
        apply list_elem_of_singleton in Hq as ->. split; [by left|]. done.
      * right. split; [done|]. exists q, qm. split; [by right|].
        rewrite A10 in Hqm by (intros ->%list_elem_of_singleton; done).
        split; [done|]. split; [|done].
        by rewrite (onproc_p_kcpuset cfg qm ti ti1) in Hon.
    + intros [Hb|(Hmp & q & qm & Hq & Hqm & Hon & Hqa)]; [by left; left|].
      apply elem_of_cons in Hq as [->|Hq].
      * left. right. split; [done|]. exists p, qm.
        split; [by apply list_elem_of_singleton|]. done.
      * right. split; [done|]. exists q, qm. split; [done|].
        rewrite A10 by (intros ->%list_elem_of_singleton; done).
        split; [done|]. split; [|done].
        by rewrite (onproc_p_kcpuset cfg qm ti ti1).
  - intros q Hq. apply not_elem_of_cons in Hq as [Hqp Hql].
    rewrite B10 by done. apply A10. by intros ->%list_elem_of_singleton.
Qed.

Lemma reinitialize_walk_spec (i : nat) (op : Z) (l : list pmap_t) :
  ∀ (s : kstate) (ti : pmap_tlb_info),
    tlb_inv cfg l s i ti → NoDup l → (∀ p, p ∈ l → p ∈ ti_pais ti) →
    (op ≠ TLBINV_NOBODY → marked_by_list cfg i l s ti) →
    wp (reinitialize_walk cfg i op l) s (λ _ s',
      ∃ ti', tlb_inv cfg [] s' i ti' ∧ walk_post cfg i l s ti s' ti').
Proof.
  induction l as [|p l IH]; intros s ti Hinv Hnd Hsub HJ; cbn [reinitialize_walk].
  - apply wp_ret. exists ti. split; [done|]. apply walk_post_refl.
    intros _ p pm Hp. by apply elem_of_nil in Hp.
  - apply NoDup_cons in Hnd as [Hpl Hnd]. wp_step.
    eapply wp_mono.
    { apply (reinitialize_pai_spec cfg Hcfg i op p l s ti); [done| |done|done].
      apply Hsub. by left. }
    intros [] s1 (ti1 & Hinv1 & HJ1 & Hpost1).
    eapply wp_mono.
    { apply (IH s1 ti1); [done|done| |done].
      intros q Hq. apply (wk_pais_keep _ _ _ _ _ _ _ Hpost1).
      - apply Hsub. by right.
      - intros ->%list_elem_of_singleton. done. }
    intros [] s' (ti' & Hinv' & Hpost'). exists ti'. split; [done|].
    by eapply walk_post_trans.
Qed.

(** The check of the free count at the end of the routine holds in a
    consistent TLB. *)
Lemma tlb_inv_free_count (X : list pmap_t) (s : kstate) (i : nat)
    (ti : pmap_tlb_info) :
  tlb_inv cfg X s i ti → free_count_ok cfg ti.
Proof.
  destruct Hcfg as [HK HN].
  intros [_ (Hmax & _ & _) Hres Hcons _ _ _ _ _ _].
  unfold free_count_ok, conservation, asids_beyond in *.
  rewrite pmap_tlb_asid_count_eq.
  replace (ti_asid_max ti) with
    (KERNEL_PID cfg + (ti_asid_max ti - KERNEL_PID cfg)) at 2 by lia.
  rewrite count_inuse_split by lia.
  rewrite (count_inuse_full cfg _ 1 (KERNEL_PID cfg)); [|done|].
  - replace (1 + KERNEL_PID cfg) with (KERNEL_PID cfg + 1) by lia. lia.
  - intros a Ha. apply Hres. lia.
Qed.

Lemma reinitialize_spec (s : kstate) (i : nat) (ti : pmap_tlb_info)
    (op : Z) :
  tlb_inv cfg [] s i ti → reinitialize_op_ok cfg op → diagnostic_ok cfg →
  wp (pmap_tlb_asid_reinitialize cfg i op) s (λ _ s',
    ∃ ti', tlb_inv cfg [] s' i ti'
      ∧ walk_post cfg i (ti_pais ti)
          (reinitialize_reset_store cfg i op ti s)
          (reinitialize_flush_ti cfg op (hw_entries (hw s))
             (reinitialize_reset_ti cfg ti))
          s' ti').
Proof.
  destruct Hcfg as [HK HN]. intros Hinv Hop Hdiag.
  pose proof (reinitialize_reset_inv cfg Hcfg s i ti op Hinv) as Hinv1.
  destruct (inv_max _ _ _ _ _ Hinv) as (Hmax & H32 & Hlen).
  destruct (reinitialize_flush_ti_spec cfg Hcfg op (hw_entries (hw s)) ti
              Hmax H32 Hlen)
    as ((F2 & F3 & F4 & F5 & F6 & F7 & F8 & F9 & F10) & Fbits & Ffree & Fcons
        & Fbound).
  unfold pmap_tlb_asid_reinitialize. wp_step.
  eapply wp_mono; [by apply reinitialize_reset_exec|].
  intros [] s1 ->.
  set (s1 := reinitialize_reset_store cfg i op ti s) in *.
  set (t2 := reinitialize_flush_ti cfg op (hw_entries (hw s))
               (reinitialize_reset_ti cfg ti)) in *.
  pose proof (inv_lookup _ _ _ _ _ Hinv1) as Hti1.
  wp_steps. rewrite F4.
  eapply wp_mono.
  { apply (reinitialize_walk_spec i op (ti_pais ti) s1 t2); [done| | |].
    - apply (inv_nodup _ _ _ _ _ Hinv).
    - intros q Hq. by rewrite F4.
    - intros Hne a Ha Hb. rewrite Fbits in Hb by lia.
      rewrite (bool_decide_eq_false_2 (a ≤ _)) in Hb by lia.
      unfold keeps_resident in Hb.
      rewrite (proj2 (Z.eqb_neq op TLBINV_NOBODY) Hne) in Hb. done. }
  intros [] s' (ti' & Hinv' & Hpost').
  apply wp_when_same.
  - intros Hd. pose proof (inv_lookup _ _ _ _ _ Hinv') as Hti'. wp_steps.
    wp_assert; [|done]. apply Z.eqb_eq.
    pose proof (tlb_inv_free_count _ _ _ _ Hinv') as Hfc.
    unfold free_count_ok in Hfc. lia.
  - by exists ti'.
Qed.

End Walk.

(** ** The example stores are consistent *)

Ltac ex_pmap_cases H :=
  apply elem_of_list_to_map_2 in H;
  repeat (apply elem_of_cons in H as [H|H]; [injection H as -> ->|]);
  [..|by apply elem_of_nil in H].

Ltac ex_not_in :=
  let H := fresh in
  intros H;
  repeat (apply elem_of_cons in H as [H|H]; [discriminate|]);
  by apply elem_of_nil in H.

(** [below] proves that the ASIDs under the hint are marked. *)
Ltac ex_tlb_inv below :=
  split;
  [ reflexivity
  | vm_compute; repeat split; discriminate || reflexivity
  | let a := fresh "a" in
    let Ha := fresh "Ha" in
    intros a Ha; assert (a = 0) as -> by (cbn in Ha; lia); reflexivity
  | reflexivity
  | vm_compute; split; discriminate || reflexivity
  | below
  | repeat (apply NoDup_cons; split; [ex_not_in|]); apply NoDup_nil_2
  | let p := fresh "p" in
    let Hp := fresh "Hp" in
    intros p Hp;
    repeat (apply elem_of_cons in Hp as [->|Hp]);
    [..|by apply elem_of_nil in Hp];
    (split; [discriminate|]); eexists; (split; [reflexivity|]);
    (split; [vm_compute; split; discriminate || reflexivity|]);
    (split; [reflexivity|]);
    first [reflexivity | (let H := fresh in intros H; discriminate H)]
  | let p := fresh "p" in
    let q := fresh "q" in
    let pm := fresh "pm" in
    let qm := fresh "qm" in
    let Hp := fresh "Hp" in
    let Hq := fresh "Hq" in
    let Hpm := fresh "Hpm" in
    let Hqm := fresh "Hqm" in
    intros p q pm qm Hp Hq Hpm Hqm;
    repeat (apply elem_of_cons in Hp as [->|Hp]);
    [..|by apply elem_of_nil in Hp];
    repeat (apply elem_of_cons in Hq as [->|Hq]);
    try (by apply elem_of_nil in Hq);
    vm_compute in Hpm, Hqm; injection Hpm as <-; injection Hqm as <-;
    vm_compute; congruence
  | let p := fresh "p" in
    let pm := fresh "pm" in
    let Hk := fresh "Hk" in
    let Hpm := fresh "Hpm" in
    let Hnin := fresh "Hnin" in
    intros p pm Hk Hpm Hnin; ex_pmap_cases Hpm;
    try (exfalso; apply Hk; reflexivity);
    try (exfalso; apply Hnin;
         solve [repeat first [apply list_elem_of_here
                             | apply list_elem_of_further]]);
    (split; [reflexivity|]);
    first [ (intros _; split; reflexivity)
          | (let H := fresh in intros H; discriminate H) ] ].

Ltac ex_below3 :=
  let a := fresh "a" in
  let Ha := fresh "Ha" in
  intros _ a Ha; cbn in Ha;
  assert (a = 0 ∨ a = 1 ∨ a = 2) as [->|[->| ->]] by lia; reflexivity.

Ltac ex_below8 :=
  let a := fresh "a" in
  let Ha := fresh "Ha" in
  intros _ a Ha; cbn in Ha;
  assert (a = 0 ∨ a = 1 ∨ a = 2 ∨ a = 3 ∨ a = 4 ∨ a = 5 ∨ a = 6 ∨ a = 7)
    as [->|[->|[->|[->|[->|[->|[->| ->]]]]]]] by lia;
  reflexivity.

Lemma ex_mp_inv (op : Z) (victim : option pmap_t) :
  tlb_inv cfg_mp [] (ex_mp_store 5 3 [7; 0] op victim) 1
    (ex_mp_tlb 5 3 [7; 0] op victim).
Proof. ex_tlb_inv ex_below3. Qed.

Lemma ex_mp_full_inv (op : Z) (victim : option pmap_t) :
  tlb_inv cfg_mp [] (ex_mp_store 0 8 [255; 0] op victim) 1
    (ex_mp_tlb 0 8 [255; 0] op victim).
Proof. ex_tlb_inv ex_below8. Qed.

Lemma ex_mp_flush_inv (op : Z) (victim : option pmap_t) :
  tlb_inv cfg_mp_flush [] (ex_mp_store 5 3 [7; 0] op victim) 1
    (ex_mp_tlb 5 3 [7; 0] op victim).
Proof. ex_tlb_inv ltac:(intros H; discriminate H). Qed.

Lemma ex_up_inv :
  tlb_inv cfg_up [] ex_up 0 (ex_up_tlb 5 3 [7; 0]).
Proof. ex_tlb_inv ex_below3. Qed.

Lemma ex_up_full_inv :
  tlb_inv cfg_up [] ex_up_full 0 (ex_up_tlb 0 8 [255; 0]).
Proof. ex_tlb_inv ex_below8. Qed.

Lemma ex_up_flush_inv :
  tlb_inv cfg_up_flush [] ex_up 0 (ex_up_tlb 5 3 [7; 0]).
Proof. ex_tlb_inv ltac:(intros H; discriminate H). Qed.

Lemma cfg_mp_ok : cfg_ok cfg_mp.
Proof. split; [reflexivity|reflexivity]. Qed.

Lemma cfg_up_ok : cfg_ok cfg_up.
Proof. split; [reflexivity|reflexivity]. Qed.

Lemma cfg_mp_flush_ok : cfg_ok cfg_mp_flush.
Proof. split; [reflexivity|reflexivity]. Qed.

Lemma cfg_up_flush_ok : cfg_ok cfg_up_flush.
Proof. split; [reflexivity|reflexivity]. Qed.

(** ** Conservation of the ASIDs *)

Section Conservation.

Context (cfg : config) (Hcfg : cfg_ok cfg).



End Conservation.



(** ** The ASID an allocation takes *)

Section AllocSpec.

Context (cfg : config) (Hcfg : cfg_ok cfg).

Lemma head_filter_seqZ (P : Z → Prop) `{∀ a, Decision (P a)} (lo n x : Z) :
  lo ≤ x < lo + n → P x → (∀ a, lo ≤ a < x → ¬ P a) →
  head (filter P (seqZ lo n)) = Some x.
Proof.
  intros Hx HP Hlow.
  replace n with ((x - lo) + n - (x - lo)) by lia.
  replace ((x - lo) + n - (x - lo)) with ((x - lo) + (n - (x - lo))) by lia.
  rewrite seqZ_app, filter_app by lia.
  assert (Hnil : filter P (seqZ lo (x - lo)) = []).
  { apply length_zero_iff_nil. apply filter_length_none.
    intros a Ha. apply elem_of_seqZ in Ha. apply Hlow. lia. }
  rewrite Hnil. cbn [app].
  rewrite seqZ_cons by lia.
  replace (lo + (x - lo)) with x by lia.
  rewrite filter_cons, decide_True by done. done.
Qed.

(** Where freed ASIDs stay marked, the ASID taken is the one the
    specification names. *)
Lemma alloc_asid_refines (X : list pmap_t) (s : kstate) (i : nat)
    (ti : pmap_tlb_info) (asid : Z) :
  tlb_inv cfg X s i ti → 0 < ti_asids_free ti →
  PMAP_TLB_FLUSH_ASID_ON_RESET cfg = false →
  alloc_asid cfg ti = Some asid →
  spec_alloc_asid cfg ti = Some asid.
Proof.
  intros Hinv Hfree Hfl Hasid.
  destruct (alloc_asid_spec cfg Hcfg X s i ti Hinv Hfree)
    as (asid' & Hasid' & Hrange & Hclr & _ & _ & _ & Hnofl).
  rewrite Hasid in Hasid'. injection Hasid' as <-.
  destruct (Hnofl Hfl) as (_ & Hle & Hlow).
  pose proof (inv_hint _ _ _ _ _ Hinv) as Hhint.
  destruct Hcfg as [HK HN].
  unfold spec_alloc_asid. apply head_filter_seqZ; [lia|done|].
  intros a Ha. rewrite Hlow by lia. done.
Qed.

(** C4, amended: an allocation for a pmap that is not the kernel's and is
    not linked, in a consistent TLB with a free ASID, returns; the ASID it
    takes was free and lies beyond the reserved ASIDs and not past
    [ti_asid_max]; it is the hint (taken back to the first ASID after the
    reserved ones when it is past [ti_asid_max] and ASIDs are freed on
    reset) when the hint is free, and the lowest free ASID of the whole
    bitmap otherwise; where freed ASIDs stay marked this is the lowest free
    ASID at or after the hint.  The ASID is marked and no other bit
    changes, the pmap heads the list of the TLB, the free count goes down
    by one, the hint is the ASID after the one taken, and on a
    multiprocessor the pmap is active on the CPUs of the TLB (on all the
    running CPUs when there is one TLB only). *)
Theorem alloc_takes_free_asid (s : kstate) (i : nat) (ti : pmap_tlb_info)
    (p : pmap_t) (pm : pmap) :
  tlb_inv cfg [] s i ti → p ≠ pmap_kernel → pmaps s !! p = Some pm →
  p ∉ ti_pais ti → 0 < ti_asids_free ti →
  ∃ asid,
    alloc_asid cfg ti = Some asid
    ∧ KERNEL_PID cfg < asid ≤ ti_asid_max ti
    ∧ TLBINFO_ASID_INUSE_P cfg ti asid = false
    ∧ (if TLBINFO_ASID_INUSE_P cfg ti (alloc_hint cfg ti)
       then ∀ a, 0 ≤ a < asid → TLBINFO_ASID_INUSE_P cfg ti a = true
       else asid = alloc_hint cfg ti)
    ∧ (PMAP_TLB_FLUSH_ASID_ON_RESET cfg = false →
       spec_alloc_asid cfg ti = Some asid)
    ∧ wp (pmap_tlb_asid_alloc cfg i p) s (λ _ s',
        ∃ ti' pm',
          pmap_tlbs s' !! i = Some ti' ∧ pmaps s' !! p = Some pm'
          ∧ pai_asid pm' i = asid
          ∧ (∀ a, 0 ≤ a →
               TLBINFO_ASID_INUSE_P cfg ti' a
               = bool_decide (a = asid) || TLBINFO_ASID_INUSE_P cfg ti a)
          ∧ ti_pais ti' = p :: ti_pais ti
          ∧ ti_asids_free ti' = ti_asids_free ti - 1
          ∧ ti_asid_hint ti' = asid + 1
          ∧ ti_asid_max ti' = ti_asid_max ti
          ∧ (MULTIPROCESSOR cfg = true →
             if (PMAP_TLB_MAX cfg =? 1)%nat
             then pm_active pm' = kcpuset_running s
             else ti_kcpuset ti ⊆ pm_active pm')).
Proof.
  intros Hinv Hpk Hpm Hnin Hfree.
  destruct (alloc_exec cfg Hcfg s i ti p pm Hinv Hpk Hpm Hnin Hfree)
    as (asid & Hasid & Hwp).
  destruct (alloc_asid_spec cfg Hcfg [] s i ti Hinv Hfree)
    as (asid' & Hasid' & Hrange & Hclr & Hh & Hfreehint & Hscan & Hnofl).
  rewrite Hasid in Hasid'. injection Hasid' as <-.
  pose proof (inv_max _ _ _ _ _ Hinv) as (Hm1 & Hm2 & Hm3).
  pose proof (inv_free _ _ _ _ _ Hinv) as Hcons.
  pose proof (inv_lookup _ _ _ _ _ Hinv) as Hlk.
  destruct Hcfg as [HK HN].
  exists asid. split; [done|]. split; [done|]. split; [done|]. split.
  { destruct (TLBINFO_ASID_INUSE_P cfg ti (alloc_hint cfg ti)) eqn:Hu.
    - by apply Hscan.
    - by apply Hfreehint. }
  split; [intros Hfl; by eapply alloc_asid_refines|].
  eapply wp_mono; [exact Hwp|]. intros [] s' ->.
  exists (alloc_ti cfg p asid ti), (alloc_pm cfg i asid ti s pm).
  split; [unfold alloc_store; by eapply lookup_upd_ti_eq|].
  split; [unfold alloc_store; apply lookup_upd_pm_eq|].
  split; [apply alloc_pm_asid|].
  split.
  { intros a Ha. unfold alloc_ti, TLBINFO_ASID_INUSE_P. cbn.
    apply BITMAP_ISSET_SET; (done || lia). }
  split; [done|]. split.
  { cbn. unfold conservation, asids_beyond in Hcons.
    pose proof (count_inuse_bounds cfg (ti_asid_bitmap ti) (KERNEL_PID cfg + 1)
                  (ti_asid_max ti - KERNEL_PID cfg) ltac:(lia)).
    rewrite wrap32_small by lia. done. }
  split; [done|]. split; [done|].
  intros Hmp. unfold alloc_pm. rewrite Hmp.
  destruct (PMAP_TLB_MAX cfg =? 1)%nat; cbn; [done|].
  apply union_subseteq_r.
Qed.

End AllocSpec.

Lemma alloc_takes_free_asid_witness :
  ∃ asid,
    alloc_asid cfg_mp (ex_mp_tlb 5 3 [7; 0] TLBINV_NOBODY None) = Some asid
    ∧ asid = 3
    ∧ wp (pmap_tlb_asid_alloc cfg_mp 1 3%nat) ex_mp (λ _ s',
        ∃ ti' pm',
          pmap_tlbs s' !! 1%nat = Some ti' ∧ pmaps s' !! 3%nat = Some pm'
          ∧ pai_asid pm' 1 = asid ∧ ti_asid_hint ti' = asid + 1).
Proof.
  destruct (alloc_takes_free_asid cfg_mp cfg_mp_ok ex_mp 1%nat
              (ex_mp_tlb 5 3 [7; 0] TLBINV_NOBODY None) 3%nat
              (ex_pmap [] ∅ ∅) (ex_mp_inv TLBINV_NOBODY None))
    as (asid & Hasid & _ & _ & _ & _ & Hwp).
  - discriminate.
  - reflexivity.
  - ex_not_in.
  - reflexivity.
  - exists asid. split; [exact Hasid|]. split.
    + vm_compute in Hasid. injection Hasid as <-. reflexivity.
    + destruct Hwp as (a & s' & Hrun & ti' & pm' & H1 & H2 & H3 & _ & _ & _ & H4 & _).
      exists a, s'. split; [exact Hrun|]. exists ti', pm'. done.
Defined.

(** On a kernel that frees ASIDs on reset, an allocation from a consistent
    TLB whose hint, 3, is in use takes ASID 2, which is below the hint,
    where the lowest free ASID at or after the hint is 4. *)
Lemma alloc_below_hint :
  tlb_inv cfg_up_flush [] ex_up_gap 0 ex_up_gap_tlb
  ∧ pmaps ex_up_gap !! 3%nat = Some (ex_pmap [] ∅ ∅)
  ∧ (3%nat ∉ ti_pais ex_up_gap_tlb)
  ∧ 0 < ti_asids_free ex_up_gap_tlb
  ∧ ti_asid_hint ex_up_gap_tlb = 3
  ∧ spec_alloc_asid cfg_up_flush ex_up_gap_tlb = Some 4
  ∧ wp (pmap_tlb_asid_alloc cfg_up_flush 0 3%nat) ex_up_gap (λ _ s',
      ((λ pm, pai_asid pm 0) <$> (pmaps s' !! 3%nat)) = Some 2
      ∧ (ti_asid_hint <$> (pmap_tlbs s' !! 0%nat)) = Some 3).
Proof.
  split; [ex_tlb_inv ltac:(intros H; discriminate H)|].
  split; [reflexivity|]. split; [ex_not_in|]. split; [reflexivity|].
  split; [reflexivity|]. split; [reflexivity|].
  eexists _, _. split; [vm_compute; reflexivity|].
  split; reflexivity.
Qed.

(** ** A reset of a binding *)

Section Reuse.

Context (cfg : config) (Hcfg : cfg_ok cfg).

(** A reset of a linked pmap that is not onproc returns. *)
Lemma pai_reset_total (s : kstate) (i : nat) (ti : pmap_tlb_info)
    (p : pmap_t) (pm : pmap) :
  tlb_inv cfg [] s i ti → p ∈ ti_pais ti → pmaps s !! p = Some pm →
  (MULTIPROCESSOR cfg = true →
   pmap_tlb_intersecting_onproc_p cfg pm ti = false) →
  wp (pmap_tlb_pai_reset cfg i p) s (λ _ s',
    s' = pai_reset_store cfg i p ti pm s).
Proof.
  intros Hinv Hin Hpm Hon.
  destruct (inv_linked _ _ _ _ _ Hinv p Hin)
    as (Hpk & pm' & Hpm' & Ha & _ & Hact).
  rewrite Hpm in Hpm'. injection Hpm' as <-.
  apply (pai_reset_exec cfg i p s ti pm);
    [apply (inv_lookup _ _ _ _ _ Hinv)|done|done|].
  intros _. split; [done|]. intros Hmp. split; [by apply Hact|by apply Hon].
Qed.

End Reuse.

(** On a uniprocessor that frees ASIDs on reset, the reset of pmap 2,
    which has ASID 2, clears bit 2 of the bitmap and takes the free count
    from 5 to 6. *)
Lemma reclaim_clears_bit :
  tlb_inv cfg_up_flush [] ex_up 0 (ex_up_tlb 5 3 [7; 0])
  ∧ TLBINFO_ASID_INUSE_P cfg_up_flush (ex_up_tlb 5 3 [7; 0]) 2 = true
  ∧ wp (pmap_tlb_pai_reset cfg_up_flush 0 2%nat) ex_up (λ _ s',
      ∃ ti', pmap_tlbs s' !! 0%nat = Some ti'
        ∧ TLBINFO_ASID_INUSE_P cfg_up_flush ti' 2 = false
        ∧ ti_asid_bitmap ti' = [3; 0]
        ∧ ti_asids_free ti' = 6).
Proof.
  split; [apply ex_up_flush_inv|]. split; [reflexivity|].
  eexists _, _. split; [vm_compute; reflexivity|].
  eexists. split; [reflexivity|]. repeat split.
Qed.

(** ** pmap_tlb_asid_acquire *)

Section Acquire.

Context (cfg : config) (Hcfg : cfg_ok cfg).

(** The consistency of a TLB does not depend on its lock, its pending
    shootdown or its counters, nor on anything but the pmaps in the
    store. *)
Lemma tlb_inv_ext (X : list pmap_t) (s s' : kstate) (i : nat)
    (ti ti' : pmap_tlb_info) :
  tlb_inv cfg X s i ti → pmap_tlbs s' !! i = Some ti' →
  pmaps s' = pmaps s →
  ti_asids_free ti' = ti_asids_free ti → ti_asid_hint ti' = ti_asid_hint ti →
  ti_asid_max ti' = ti_asid_max ti →
  ti_asid_bitmap ti' = ti_asid_bitmap ti → ti_pais ti' = ti_pais ti →
  ti_kcpuset ti' = ti_kcpuset ti →
  tlb_inv cfg X s' i ti'.
Proof.
  intros [Hlk Hmax Hres Hcons Hhint Hbelow Hnd Hlinked Hdist Hunl]
    Hlk' Hpm Ffree Fhint Fmax Fb Fpais Fkc.
  assert (Hact : ∀ pm, pmap_tlb_intersecting_active_p cfg pm ti'
                       = pmap_tlb_intersecting_active_p cfg pm ti)
    by (intros; by apply active_p_kcpuset).
  assert (Hon : ∀ pm, pmap_tlb_intersecting_onproc_p cfg pm ti'
                      = pmap_tlb_intersecting_onproc_p cfg pm ti)
    by (intros; by apply onproc_p_kcpuset).
  split.
  - done.
  - by rewrite Fmax, Fb.
  - unfold TLBINFO_ASID_INUSE_P. rewrite Fb. apply Hres.
  - unfold conservation, asids_beyond in *. by rewrite Ffree, Fmax, Fb.
  - by rewrite Fhint, Fmax.
  - unfold TLBINFO_ASID_INUSE_P. rewrite Fb, Fhint. apply Hbelow.
  - by rewrite Fpais.
  - intros p Hp. rewrite Fpais in Hp.
    destruct (Hlinked p Hp) as (Hpk & pm & Hp1 & Hp2 & Hp3 & Hp4).
    split; [done|]. exists pm. rewrite Hpm, Fmax, Hact.
    unfold TLBINFO_ASID_INUSE_P in *. by rewrite Fb.
  - intros p q pm qm. rewrite Fpais, Hpm. apply Hdist.
  - intros p pm. rewrite Fpais, Hpm, Hact, Hon. apply Hunl.
Qed.

Lemma tlb_inv_lock (X : list pmap_t) (s : kstate) (i : nat)
    (ti : pmap_tlb_info) (b : bool) :
  tlb_inv cfg X s i ti →
  tlb_inv cfg X (upd_ti i (set_lock b ti) s) i (set_lock b ti).
Proof.
  intros Hinv. pose proof (inv_lookup _ _ _ _ _ Hinv) as Hlk.
  eapply tlb_inv_ext; [exact Hinv|by eapply lookup_upd_ti_eq|done..].
Qed.

Lemma set_lock_set_lock (b : bool) (ti : pmap_tlb_info) :
  ti_lock ti = b → set_lock b (set_lock (negb b) ti) = ti.
Proof. destruct ti. cbn. by intros <-. Qed.


(** The end of [pmap_tlb_asid_acquire], from the second check of the
    list on. *)
Lemma acquire_tail (s2 : kstate) (ci : cpu_info) (curlwp_p : bool)
    (p : pmap_t) (ti2 : pmap_tlb_info) (pm2 : pmap) (user_p : bool) :
  tlb_inv cfg [] s2 (ci_tlb ci) ti2 → user_p = true →
  pmaps s2 !! p = Some pm2 →
  (MULTIPROCESSOR cfg = true → ci_index ci ∈ pm_active pm2) →
  wp (pmap_tlb_pai_check cfg (ci_tlb ci) true >>
      let! pm := get_pm p in
      when (MULTIPROCESSOR cfg)
        (KASSERT cfg (kcpuset_isset (pm_active pm) (ci_index ci))) >>
      when curlwp_p
        (when (MULTIPROCESSOR cfg)
           (KASSERT cfg user_p >>
            modify_pm p (λ m,
              set_onproc (pm_onproc m ∪ {[ci_index ci]}) m)) >>
         (λ s, Some (tt, set_asid_cur (pai_asid pm (ci_tlb ci)) s)) >>
         tlb_set_asid (pai_asid pm (ci_tlb ci))) >>
      TLBINFO_UNLOCK (ci_tlb ci)) s2
    (λ _ s',
       ∃ pm', pmap_tlbs s' !! ci_tlb ci = Some (set_lock false ti2)
         ∧ pmaps s' !! p = Some pm'
         ∧ pai_asid pm' (ci_tlb ci) = pai_asid pm2 (ci_tlb ci)
         ∧ pm_active pm' = pm_active pm2
         ∧ (curlwp_p = true →
            ci_pmap_asid_cur s' = pai_asid pm2 (ci_tlb ci)
            ∧ hw_asid (hw s') = pai_asid pm2 (ci_tlb ci)
            ∧ (MULTIPROCESSOR cfg = true → ci_index ci ∈ pm_onproc pm'))).
Proof.
  intros Hinv Hpk Hpm Hact.
  pose proof (inv_lookup _ _ _ _ _ Hinv) as Hti.
  apply wp_bind. eapply wp_mono; [by eapply wp_pai_check|].
  intros [] s' ->. wp_steps.
  apply wp_when_same.
  { intros Hmp. apply wp_KASSERT; [|done].
    apply bool_decide_eq_true. by apply Hact. }
  wp_step. destruct curlwp_p; cbn [when].
  - wp_step. destruct (MULTIPROCESSOR cfg) eqn:Hmp; cbn [when].
    + wp_assert; [done|].
      wp_steps.
      eexists tt, _. split; [reflexivity|]. wp_steps.
      eexists. split; [solve_lookup|]. split; [solve_lookup|].
      split; [done|]. split; [done|]. intros _. split; [done|]. split; [done|].
      intros _. cbn. set_solver.
    + wp_steps.
      eexists tt, _. split; [reflexivity|]. wp_steps.
      eexists. split; [solve_lookup|]. split; [solve_lookup|].
      split; [done|]. split; [done|]. intros _. split; [done|]. split; [done|].
      done.
  - wp_steps. eexists. split; [solve_lookup|]. split; [solve_lookup|].
    split; [done|]. split; [done|]. done.
Qed.


(** What a reinitialisation for TLBINV_NOBODY leaves. *)
Lemma reinitialize_nobody_marks (s : kstate) (i : nat)
    (ti : pmap_tlb_info) :
  tlb_inv cfg [] s i ti → diagnostic_ok cfg →
  wp (pmap_tlb_asid_reinitialize cfg i TLBINV_NOBODY) s (λ _ s1,
    ∃ ti1, tlb_inv cfg [] s1 i ti1
      ∧ ti_asid_hint ti1 = KERNEL_PID cfg + 1
      ∧ ti_asid_max ti1 = ti_asid_max ti
      ∧ ti_kcpuset ti1 = ti_kcpuset ti
      ∧ ti_lock ti1 = ti_lock ti
      ∧ ti_evcnt_asid_reinits ti1 = ti_evcnt_asid_reinits ti + 1
      ∧ (∀ q, q ∈ ti_pais ti1 → q ∈ ti_pais ti)
      ∧ (∀ q, q ∉ ti_pais ti → pmaps s1 !! q = pmaps s !! q)
      ∧ kcpuset_running s1 = kcpuset_running s
      ∧ (∀ a, 0 ≤ a →
           TLBINFO_ASID_INUSE_P cfg ti1 a = true ↔ stays_marked cfg s i ti a)).
Proof.
  intros Hinv Hdiag.
  pose proof (inv_max _ _ _ _ _ Hinv) as (Hm1 & Hm2 & Hm3).
  eapply wp_mono.
  { apply (reinitialize_spec cfg Hcfg s i ti TLBINV_NOBODY Hinv);
      [by left|done]. }
  intros [] s1 (ti1 & Hinv1 & Hw).
  destruct (reinitialize_flush_ti_spec cfg Hcfg TLBINV_NOBODY
              (hw_entries (hw s)) ti Hm1 Hm2 Hm3)
    as ((F1 & F2 & F3 & F4 & F5 & F6 & F7 & F8 & F9) & Fbits & _).
  pose proof (wk_bits _ _ _ _ _ _ _ Hw) as Hb.
  exists ti1. split; [done|].
  split; [by rewrite (wk_hint _ _ _ _ _ _ _ Hw)|].
  split; [by rewrite (wk_max _ _ _ _ _ _ _ Hw)|].
  split; [by rewrite (wk_kcpuset _ _ _ _ _ _ _ Hw)|].
  split; [by rewrite (wk_lock _ _ _ _ _ _ _ Hw)|].
  split; [by rewrite (wk_evcnt _ _ _ _ _ _ _ Hw)|].
  split.
  { intros q Hq. apply (wk_pais _ _ _ _ _ _ _ Hw) in Hq. by rewrite F3 in Hq. }
  split; [intros q Hq; by rewrite (wk_pmaps _ _ _ _ _ _ _ Hw)|].
  split; [by rewrite (wk_running _ _ _ _ _ _ _ Hw)|].
  intros a Ha. rewrite (Hb a Ha), (Fbits a Ha). unfold stays_marked.
  rewrite orb_true_iff, andb_true_iff, !bool_decide_eq_true.
  assert (Hheld :
    (∃ (p : pmap_t) (pm : pmap),
        p ∈ ti_pais ti
        ∧ pmaps (reinitialize_reset_store cfg i TLBINV_NOBODY ti s) !! p
          = Some pm
        ∧ pmap_tlb_intersecting_onproc_p cfg pm
            (reinitialize_flush_ti cfg TLBINV_NOBODY (hw_entries (hw s))
               (reinitialize_reset_ti cfg ti)) = true
        ∧ pai_asid pm i = a)
    ↔ held_by_current cfg s i ti a).
  { unfold held_by_current.
    split; intros (q & qm & Hq & Hqm & Hon & Hqa); exists q, qm;
      (split; [done|]); (split; [exact Hqm|]); (split; [|done]).
    - by rewrite (onproc_p_kcpuset cfg qm ti) in Hon.
    - by rewrite (onproc_p_kcpuset cfg qm ti). }
  rewrite Hheld. tauto.
Qed.



Lemma foldl_MARK_USED_bitmap (l : list Z) (ti : pmap_tlb_info) :
  ti_asid_bitmap (foldl (λ t asid, TLBINFO_ASID_MARK_USED cfg asid t) ti l)
  = foldl (λ b asid, BITMAP_SET cfg asid b) (ti_asid_bitmap ti) l.
Proof. revert ti. induction l as [|a l IH]; intros ti; [done|]. apply IH. Qed.

Lemma keeps_resident_lock (op : Z) (entries : list Z) (ti : pmap_tlb_info)
    (b : bool) :
  keeps_resident cfg op entries (set_lock b ti)
  = keeps_resident cfg op entries ti.
Proof.
  unfold keeps_resident, reinitialize_found.
  pose proof (reinitialize_reset_ti_fields cfg ti) as (_ & _ & F & _).
  pose proof (reinitialize_reset_ti_fields cfg (set_lock b ti))
    as (_ & _ & F' & _).
  rewrite F, F'.
  unfold reinitialize_reset_ti, TLBINFO_ASID_RESET.
  by rewrite !foldl_MARK_USED_bitmap.
Qed.

Lemma stays_marked_lock (s : kstate) (i : nat) (ti : pmap_tlb_info)
    (b : bool) (a : Z) :
  stays_marked cfg (upd_ti i (set_lock b ti) s) i (set_lock b ti) a
  ↔ stays_marked cfg s i ti a.
Proof.
  unfold stays_marked, held_by_current.
  cbn [hw upd_ti set_pmap_tlbs pmaps ti_pais ti_asid_max set_lock].
  by rewrite keeps_resident_lock.
Qed.

(** [pmap_tlb_asid_acquire] around the allocation. *)
Lemma acquire_frame (s : kstate) (ci : cpu_info) (curlwp_p : bool)
    (p : pmap_t) (ti : pmap_tlb_info) (pm : pmap)
    (R : pmap_tlb_info → pmap → Prop) :
  tlb_inv cfg [] s (ci_tlb ci) ti → ti_lock ti = false →
  p ≠ pmap_kernel → pmaps s !! p = Some pm →
  wp (when (negb (PMAP_PAI_ASIDVALID_P pm (ci_tlb ci)))
        (when (tlbinfo_noasids_p (set_lock true ti))
           (KASSERT cfg curlwp_p >>
            pmap_tlb_asid_reinitialize cfg (ci_tlb ci) TLBINV_NOBODY >>
            let! ti' := get_ti (ci_tlb ci) in
            KASSERT cfg (negb (tlbinfo_noasids_p ti'))) >>
         pmap_tlb_asid_alloc cfg (ci_tlb ci) p))
     (upd_ti (ci_tlb ci) (set_lock true ti) s)
     (λ _ s2, ∃ ti2 pm2,
        tlb_inv cfg [] s2 (ci_tlb ci) ti2 ∧ pmaps s2 !! p = Some pm2
        ∧ (MULTIPROCESSOR cfg = true → ci_index ci ∈ pm_active pm2)
        ∧ R ti2 pm2) →
  wp (pmap_tlb_asid_acquire cfg p ci curlwp_p) s (λ _ s',
    ∃ ti2 pm2 pm',
      R ti2 pm2
      ∧ pmap_tlbs s' !! ci_tlb ci = Some (set_lock false ti2)
      ∧ pmaps s' !! p = Some pm'
      ∧ pai_asid pm' (ci_tlb ci) = pai_asid pm2 (ci_tlb ci)
      ∧ (curlwp_p = true →
         ci_pmap_asid_cur s' = pai_asid pm2 (ci_tlb ci)
         ∧ hw_asid (hw s') = pai_asid pm2 (ci_tlb ci)
         ∧ (MULTIPROCESSOR cfg = true → ci_index ci ∈ pm_onproc pm'))).
Proof.
  destruct Hcfg as [HK HN].
  intros Hinv Hl Hpk Hpm Hmid.
  pose proof (inv_lookup _ _ _ _ _ Hinv) as Hti.
  pose proof (tlb_inv_lock [] s (ci_tlb ci) ti true Hinv) as Hinv0.
  unfold pmap_tlb_asid_acquire. rewrite bool_decide_eq_false_2 by done.
  cbv zeta. wp_steps.
  assert (Hcase : (p ∈ ti_pais ti ∧ KERNEL_PID cfg < pai_asid pm (ci_tlb ci))
                  ∨ ((p ∉ ti_pais ti) ∧ pai_asid pm (ci_tlb ci) = 0)).
  { destruct (decide (p ∈ ti_pais ti)) as [Hin|Hnin].
    - left. split; [done|].
      destruct (inv_linked _ _ _ _ _ Hinv p Hin) as (_ & pm' & Hpm' & Ha & _).
      rewrite Hpm in Hpm'. injection Hpm' as <-. lia.
    - right. split; [done|].
      by destruct (inv_unlinked _ _ _ _ _ Hinv p pm Hpk Hpm Hnin). }
  wp_assert.
  { cbn. destruct Hcase as [[Hin _]|[_ H0]].
    - rewrite (bool_decide_eq_true_2 _ Hin). apply orb_true_r.
    - rewrite H0. apply orb_true_iff. left. apply Z.leb_le. lia. }
  wp_assert.
  { cbn. destruct Hcase as [[_ Ha]|[Hnin _]].
    - apply orb_true_iff. left. by apply Z.ltb_lt.
    - rewrite (bool_decide_eq_false_2 _ Hnin). apply orb_true_r. }
  apply wp_bind. eapply wp_mono; [by eapply wp_pai_check|].
  intros [] s' ->. apply wp_bind. eapply wp_mono; [exact Hmid|].
  intros [] s2 (ti2 & pm2 & Hinv2 & Hpm2 & Hact2 & HR).
  eapply wp_mono.
  { apply (acquire_tail s2 ci curlwp_p p ti2 pm2 _ Hinv2 eq_refl Hpm2
             Hact2). }
  intros [] s3 (pm' & H1 & H2 & H3 & H4 & H5).
  exists ti2, pm2, pm'. done.
Qed.


Lemma cpu_served_cpus_ok (s : kstate) (ci : cpu_info)
    (ti : pmap_tlb_info) :
  cpu_served cfg s ci ti → cpus_ok cfg s ti.
Proof.
  unfold cpu_served, cpus_ok.
  destruct (PMAP_TLB_MAX cfg =? 1)%nat; intros Hin He; rewrite He in Hin;
    by apply elem_of_empty in Hin.
Qed.

Lemma alloc_pm_served (s : kstate) (ci : cpu_info) (i : nat) (asid : Z)
    (ti : pmap_tlb_info) (pm : pmap) :
  MULTIPROCESSOR cfg = true → cpu_served cfg s ci ti →
  ci_index ci ∈ pm_active (alloc_pm cfg i asid ti s pm).
Proof.
  intros Hmp. unfold cpu_served, alloc_pm. rewrite Hmp.
  destruct (PMAP_TLB_MAX cfg =? 1)%nat; cbn; [done|].
  intros Hin. apply elem_of_union. by right.
Qed.

(** The binding is valid: it is kept. *)
Lemma acquire_reuse (s : kstate) (ci : cpu_info) (curlwp_p : bool)
    (p : pmap_t) (ti : pmap_tlb_info) (pm : pmap) :
  tlb_inv cfg [] s (ci_tlb ci) ti → ti_lock ti = false →
  p ≠ pmap_kernel → pmaps s !! p = Some pm →
  p ∈ ti_pais ti →
  (MULTIPROCESSOR cfg = true → ci_index ci ∈ pm_active pm) →
  wp (pmap_tlb_asid_acquire cfg p ci curlwp_p) s (λ _ s',
    ∃ pm',
      pmap_tlbs s' !! ci_tlb ci = Some ti ∧ pmaps s' !! p = Some pm'
      ∧ pai_asid pm' (ci_tlb ci) = pai_asid pm (ci_tlb ci)
      ∧ KERNEL_PID cfg < pai_asid pm (ci_tlb ci) ≤ ti_asid_max ti
      ∧ (curlwp_p = true →
         ci_pmap_asid_cur s' = pai_asid pm (ci_tlb ci)
         ∧ hw_asid (hw s') = pai_asid pm (ci_tlb ci)
         ∧ (MULTIPROCESSOR cfg = true → ci_index ci ∈ pm_onproc pm'))).
Proof.
  intros Hinv Hl Hpk Hpm Hin Hact.
  destruct (inv_linked _ _ _ _ _ Hinv p Hin) as (_ & pm0 & Hpm0 & Ha & _).
  rewrite Hpm in Hpm0. injection Hpm0 as <-.
  destruct Hcfg as [HK HN].
  eapply wp_mono.
  { apply (acquire_frame s ci curlwp_p p ti pm
             (λ ti2 pm2, ti2 = set_lock true ti ∧ pm2 = pm) Hinv Hl Hpk Hpm).
    unfold PMAP_PAI_ASIDVALID_P.
    rewrite (proj2 (Z.eqb_neq _ 0)) by lia. cbn [negb when]. apply wp_ret.
    exists (set_lock true ti), pm. split; [by apply tlb_inv_lock|]. done. }
  intros [] s' (ti2 & pm2 & pm' & [-> ->] & H1 & H2 & H3 & H4).
  exists pm'. pose proof (set_lock_set_lock false ti Hl) as E.
  cbn [negb] in E. rewrite E in H1. done.
Qed.

(** The binding is not valid and an ASID is free: one is allocated. *)
Lemma acquire_alloc (s : kstate) (ci : cpu_info) (curlwp_p : bool)
    (p : pmap_t) (ti : pmap_tlb_info) (pm : pmap) :
  tlb_inv cfg [] s (ci_tlb ci) ti → ti_lock ti = false →
  p ≠ pmap_kernel → pmaps s !! p = Some pm →
  p ∉ ti_pais ti → 0 < ti_asids_free ti →
  (MULTIPROCESSOR cfg = true → cpu_served cfg s ci ti) →
  wp (pmap_tlb_asid_acquire cfg p ci curlwp_p) s (λ _ s',
    ∃ ti' pm' asid,
      pmap_tlbs s' !! ci_tlb ci = Some ti' ∧ pmaps s' !! p = Some pm'
      ∧ alloc_asid cfg ti = Some asid
      ∧ pai_asid pm' (ci_tlb ci) = asid
      ∧ KERNEL_PID cfg < asid ≤ ti_asid_max ti
      ∧ TLBINFO_ASID_INUSE_P cfg ti' asid = true
      ∧ p ∈ ti_pais ti'
      ∧ ti_asid_hint ti' = asid + 1
      ∧ ti_evcnt_asid_reinits ti' = ti_evcnt_asid_reinits ti
      ∧ (curlwp_p = true →
         ci_pmap_asid_cur s' = asid ∧ hw_asid (hw s') = asid
         ∧ (MULTIPROCESSOR cfg = true → ci_index ci ∈ pm_onproc pm'))).
Proof.
  intros Hinv Hl Hpk Hpm Hnin Hfree Hcpu.
  destruct (inv_unlinked _ _ _ _ _ Hinv p pm Hpk Hpm Hnin) as [H0 _].
  pose proof (inv_max _ _ _ _ _ Hinv) as (Hm1 & Hm2 & Hm3).
  pose proof (tlb_inv_lock [] s (ci_tlb ci) ti true Hinv) as Hinv0.
  destruct (alloc_exec cfg Hcfg _ _ _ p pm Hinv0 Hpk Hpm Hnin Hfree)
    as (asid & Hasid & Hwp).
  destruct (alloc_asid_spec cfg Hcfg [] _ _ _ Hinv0 Hfree)
    as (asid' & Hasid' & Hrange & Hclr & _).
  rewrite Hasid in Hasid'. injection Hasid' as <-.
  cbn [set_lock ti_asid_max] in Hrange.
  destruct Hcfg as [HK HN].
  eapply wp_mono.
  { apply (acquire_frame s ci curlwp_p p ti pm
             (λ ti2 pm2, ti2 = alloc_ti cfg p asid (set_lock true ti)
                         ∧ pai_asid pm2 (ci_tlb ci) = asid)
             Hinv Hl Hpk Hpm).
    unfold PMAP_PAI_ASIDVALID_P, tlbinfo_noasids_p. rewrite H0.
    change (0 =? 0) with true. cbn [negb when set_lock ti_asids_free].
    assert (Hne : ti_asids_free ti ≠ 0) by lia.
    rewrite (proj2 (Z.eqb_neq (ti_asids_free ti) 0) Hne). cbn [when].
    apply wp_bind, wp_ret. eapply wp_mono; [exact Hwp|].
    intros [] s2 ->. eexists _, _.
    split; [apply alloc_inv; try done; intros Hmp;
            eapply cpu_served_cpus_ok; by apply Hcpu|].
    split; [unfold alloc_store; apply lookup_upd_pm_eq|].
    split; [intros Hmp; apply alloc_pm_served; [done|by apply Hcpu]|].
    split; [done|]. apply alloc_pm_asid. }
  intros [] s' (ti2 & pm2 & pm' & [-> Hpa] & H1 & H2 & H3 & H4).
  eexists _, pm', asid. split; [exact H1|]. split; [done|].
  split; [done|]. split; [by rewrite H3|]. split; [done|].
  split.
  { unfold TLBINFO_ASID_INUSE_P. cbn.
    rewrite BITMAP_ISSET_SET by (done || lia).
    by rewrite bool_decide_eq_true_2. }
  split; [cbn; by left|]. split; [done|]. split; [done|].
  by rewrite <- Hpa.
Qed.


Lemma tlb_inv_free_pos (X : list pmap_t) (s : kstate) (i : nat)
    (ti : pmap_tlb_info) (a : Z) :
  tlb_inv cfg X s i ti → KERNEL_PID cfg < a ≤ ti_asid_max ti →
  TLBINFO_ASID_INUSE_P cfg ti a = false → 0 < ti_asids_free ti.
Proof.
  intros Hinv Ha Hclr. pose proof (inv_free _ _ _ _ _ Hinv) as Hcons.
  unfold conservation, asids_beyond in Hcons.
  pose proof (count_inuse_lt cfg (ti_asid_bitmap ti) (KERNEL_PID cfg + 1)
                (ti_asid_max ti - KERNEL_PID cfg) a ltac:(lia) Hclr).
  lia.
Qed.

(** The binding is not valid and no ASID is free: the ASIDs are
    reinitialised, then one is allocated. *)
Lemma acquire_exhausted (s : kstate) (ci : cpu_info) (curlwp_p : bool)
    (p : pmap_t) (ti : pmap_tlb_info) (pm : pmap) :
  tlb_inv cfg [] s (ci_tlb ci) ti → ti_lock ti = false →
  p ≠ pmap_kernel → pmaps s !! p = Some pm →
  p ∉ ti_pais ti → ti_asids_free ti = 0 →
  (DIAGNOSTIC cfg = true → curlwp_p = true) → diagnostic_ok cfg →
  (MULTIPROCESSOR cfg = true → cpu_served cfg s ci ti) →
  (∃ a, KERNEL_PID cfg < a ≤ ti_asid_max ti
        ∧ ¬ stays_marked cfg s (ci_tlb ci) ti a) →
  wp (pmap_tlb_asid_acquire cfg p ci curlwp_p) s (λ _ s',
    ∃ ti' pm' asid,
      pmap_tlbs s' !! ci_tlb ci = Some ti' ∧ pmaps s' !! p = Some pm'
      ∧ pai_asid pm' (ci_tlb ci) = asid
      ∧ KERNEL_PID cfg < asid ≤ ti_asid_max ti
      ∧ ¬ stays_marked cfg s (ci_tlb ci) ti asid
      ∧ (∀ a, 0 ≤ a < asid → stays_marked cfg s (ci_tlb ci) ti a)
      ∧ TLBINFO_ASID_INUSE_P cfg ti' asid = true
      ∧ p ∈ ti_pais ti'
      ∧ ti_asid_hint ti' = asid + 1
      ∧ ti_evcnt_asid_reinits ti' = ti_evcnt_asid_reinits ti + 1
      ∧ (curlwp_p = true →
         ci_pmap_asid_cur s' = asid ∧ hw_asid (hw s') = asid
         ∧ (MULTIPROCESSOR cfg = true → ci_index ci ∈ pm_onproc pm'))).
Proof.
  intros Hinv Hl Hpk Hpm Hnin Hfree Hcur Hdiag Hcpu (f & Hf & Hfm).
  destruct (inv_unlinked _ _ _ _ _ Hinv p pm Hpk Hpm Hnin) as [H0 _].
  pose proof (inv_max _ _ _ _ _ Hinv) as (Hm1 & Hm2 & Hm3).
  pose proof (tlb_inv_lock [] s (ci_tlb ci) ti true Hinv) as Hinv0.
  pose proof Hcfg as [HK HN].
  eapply wp_mono.
  { apply (acquire_frame s ci curlwp_p p ti pm
             (λ ti2 pm2,
                KERNEL_PID cfg < pai_asid pm2 (ci_tlb ci) ≤ ti_asid_max ti
                ∧ ¬ stays_marked cfg s (ci_tlb ci) ti (pai_asid pm2 (ci_tlb ci))
                ∧ (∀ a, 0 ≤ a < pai_asid pm2 (ci_tlb ci) →
                     stays_marked cfg s (ci_tlb ci) ti a)
                ∧ TLBINFO_ASID_INUSE_P cfg ti2 (pai_asid pm2 (ci_tlb ci)) = true
                ∧ p ∈ ti_pais ti2
                ∧ ti_asid_hint ti2 = pai_asid pm2 (ci_tlb ci) + 1
                ∧ ti_evcnt_asid_reinits ti2 = ti_evcnt_asid_reinits ti + 1)
             Hinv Hl Hpk Hpm).
    unfold PMAP_PAI_ASIDVALID_P, tlbinfo_noasids_p. rewrite H0.
    change (0 =? 0) with true. cbn [negb when set_lock ti_asids_free].
    rewrite Hfree. change (0 =? 0) with true. cbn [when].
    apply wp_bind. apply wp_bind.
    apply wp_KASSERT_diag; [done|].
    apply wp_bind. eapply wp_mono.
    { by apply (reinitialize_nobody_marks _ _ _ Hinv0). }
    intros [] s1 (ti1 & Hinv1 & Fhint & Fmax & Fkc & Flock & Fev & Fpais
                  & Fpm & Frun & Fbits).
    cbn [set_lock ti_asid_max ti_kcpuset ti_lock ti_evcnt_asid_reinits
         ti_pais] in Fmax, Fkc, Flock, Fev, Fpais, Fpm.
    cbn [upd_ti set_pmap_tlbs pmaps kcpuset_running] in Fpm, Frun.
    assert (Fbits' : ∀ a, 0 ≤ a →
              TLBINFO_ASID_INUSE_P cfg ti1 a = true
              ↔ stays_marked cfg s (ci_tlb ci) ti a).
    { intros a Ha. rewrite (Fbits a Ha). apply stays_marked_lock. }
    assert (Hfclr : TLBINFO_ASID_INUSE_P cfg ti1 f = false).
    { destruct (TLBINFO_ASID_INUSE_P cfg ti1 f) eqn:E; [|done].
      destruct Hfm. apply Fbits'; [lia|done]. }
    assert (Hfree1 : 0 < ti_asids_free ti1).
    { eapply (tlb_inv_free_pos _ _ _ _ f Hinv1); [lia|done]. }
    pose proof (inv_lookup _ _ _ _ _ Hinv1) as Hti1.
    wp_steps. apply wp_KASSERT; [|].
    { apply negb_true_iff, Z.eqb_neq. lia. }
    assert (Hpm1 : pmaps s1 !! p = Some pm) by (by rewrite Fpm).
    assert (Hnin1 : p ∉ ti_pais ti1) by (intros Hin; by apply Hnin, Fpais).
    destruct (alloc_exec cfg Hcfg _ _ _ p pm Hinv1 Hpk Hpm1 Hnin1 Hfree1)
      as (asid & Hasid & Hwp).
    destruct (alloc_asid_spec cfg Hcfg [] _ _ _ Hinv1 Hfree1)
      as (asid' & Hasid' & Hrange & Hclr & Hh & Hfreehint & Hscan & _).
    rewrite Hasid in Hasid'. injection Hasid' as <-.
    assert (Hah : alloc_hint cfg ti1 = KERNEL_PID cfg + 1).
    { unfold alloc_hint. rewrite Fhint.
      by destruct (PMAP_TLB_FLUSH_ASID_ON_RESET cfg
                   && (ti_asid_max ti1 <? KERNEL_PID cfg + 1)). }
    assert (Hserved : MULTIPROCESSOR cfg = true → cpu_served cfg s1 ci ti1).
    { intros Hmp. specialize (Hcpu Hmp). unfold cpu_served in *.
      by rewrite Frun, Fkc. }
    eapply wp_mono; [exact Hwp|]. intros [] s2 ->. eexists _, _.
    split; [apply alloc_inv; try done; intros Hmp;
            eapply cpu_served_cpus_ok; by apply Hserved|].
    split; [unfold alloc_store; apply lookup_upd_pm_eq|].
    split; [intros Hmp; apply alloc_pm_served; [done|by apply Hserved]|].
    rewrite alloc_pm_asid.
    split; [lia|]. split.
    { intros Hst. apply Fbits' in Hst; [|lia]. by rewrite Hclr in Hst. }
    split.
    { intros a Ha. apply Fbits'; [lia|].
      destruct (TLBINFO_ASID_INUSE_P cfg ti1 (alloc_hint cfg ti1)) eqn:Hu.
      - destruct (Hscan eq_refl) as [Hlow _]. by apply Hlow.
      - rewrite (Hfreehint eq_refl), Hah in Ha.
        apply (inv_reserved _ _ _ _ _ Hinv1). lia. }
    split.
    { unfold TLBINFO_ASID_INUSE_P. cbn.
      pose proof (inv_max _ _ _ _ _ Hinv1) as (? & ? & ?).
      rewrite BITMAP_ISSET_SET by (done || lia).
      by rewrite bool_decide_eq_true_2. }
    split; [cbn; by left|]. split; [done|]. exact Fev. }
  intros [] s' (ti2 & pm2 & pm' & (R1 & R2 & R3 & R4 & R5 & R6 & R7)
                & H1 & H2 & H3 & H4).
  eexists _, pm', (pai_asid pm2 (ci_tlb ci)). split; [exact H1|].
  split; [done|]. split; [done|]. split; [done|]. split; [done|].
  split; [done|]. split; [done|]. split; [done|]. split; [done|].
  split; [done|]. done.
Qed.

(** C5, amended: [pmap_tlb_asid_acquire] does nothing for the kernel pmap.
    For another pmap, from a consistent TLB whose lock is free, it returns
    and the pmap ends with an ASID beyond the reserved ones and not past
    [ti_asid_max]: the ASID it had when it was linked; the ASID
    [pmap_tlb_asid_alloc] takes, with no reinitialisation, when the pmap
    is not linked and an ASID is free; and, when no ASID is free, the
    ASIDs are reinitialised for TLBINV_NOBODY first, provided that some
    ASID is neither reserved, nor kept because it is resident in the TLB,
    nor held by a pmap that is onproc: the ASID taken is then the lowest
    such ASID, and the hint is left at the ASID after it.  When the call
    is for the running lwp the ASID is made the current one of the CPU
    and of the TLB, and the pmap is marked onproc on the CPU. *)
Theorem acquire_binds_valid_asid (s : kstate) (ci : cpu_info)
    (curlwp_p : bool) :
  pmap_tlb_asid_acquire cfg pmap_kernel ci curlwp_p s = Some (tt, s)
  ∧ ∀ (ti : pmap_tlb_info) (p : pmap_t) (pm : pmap),
      tlb_inv cfg [] s (ci_tlb ci) ti → ti_lock ti = false →
      p ≠ pmap_kernel → pmaps s !! p = Some pm →
      (p ∈ ti_pais ti →
       (MULTIPROCESSOR cfg = true → ci_index ci ∈ pm_active pm) →
       wp (pmap_tlb_asid_acquire cfg p ci curlwp_p) s (λ _ s',
         ∃ pm',
           pmap_tlbs s' !! ci_tlb ci = Some ti ∧ pmaps s' !! p = Some pm'
           ∧ pai_asid pm' (ci_tlb ci) = pai_asid pm (ci_tlb ci)
           ∧ KERNEL_PID cfg < pai_asid pm (ci_tlb ci) ≤ ti_asid_max ti
           ∧ (curlwp_p = true →
              ci_pmap_asid_cur s' = pai_asid pm (ci_tlb ci)
              ∧ hw_asid (hw s') = pai_asid pm (ci_tlb ci)
              ∧ (MULTIPROCESSOR cfg = true →
                 ci_index ci ∈ pm_onproc pm'))))
      ∧ (p ∉ ti_pais ti → 0 < ti_asids_free ti →
         (MULTIPROCESSOR cfg = true → cpu_served cfg s ci ti) →
         wp (pmap_tlb_asid_acquire cfg p ci curlwp_p) s (λ _ s',
           ∃ ti' pm' asid,
             pmap_tlbs s' !! ci_tlb ci = Some ti'
             ∧ pmaps s' !! p = Some pm'
             ∧ alloc_asid cfg ti = Some asid
             ∧ pai_asid pm' (ci_tlb ci) = asid
             ∧ KERNEL_PID cfg < asid ≤ ti_asid_max ti
             ∧ TLBINFO_ASID_INUSE_P cfg ti' asid = true
             ∧ p ∈ ti_pais ti'
             ∧ ti_asid_hint ti' = asid + 1
             ∧ ti_evcnt_asid_reinits ti' = ti_evcnt_asid_reinits ti
             ∧ (curlwp_p = true →
                ci_pmap_asid_cur s' = asid ∧ hw_asid (hw s') = asid
                ∧ (MULTIPROCESSOR cfg = true →
                   ci_index ci ∈ pm_onproc pm'))))
      ∧ (p ∉ ti_pais ti → ti_asids_free ti = 0 →
         (DIAGNOSTIC cfg = true → curlwp_p = true) → diagnostic_ok cfg →
         (MULTIPROCESSOR cfg = true → cpu_served cfg s ci ti) →
         (∃ a, KERNEL_PID cfg < a ≤ ti_asid_max ti
               ∧ ¬ stays_marked cfg s (ci_tlb ci) ti a) →
         wp (pmap_tlb_asid_acquire cfg p ci curlwp_p) s (λ _ s',
           ∃ ti' pm' asid,
             pmap_tlbs s' !! ci_tlb ci = Some ti'
             ∧ pmaps s' !! p = Some pm'
             ∧ pai_asid pm' (ci_tlb ci) = asid
             ∧ KERNEL_PID cfg < asid ≤ ti_asid_max ti
             ∧ ¬ stays_marked cfg s (ci_tlb ci) ti asid
             ∧ (∀ a, 0 ≤ a < asid → stays_marked cfg s (ci_tlb ci) ti a)
             ∧ TLBINFO_ASID_INUSE_P cfg ti' asid = true
             ∧ p ∈ ti_pais ti'
             ∧ ti_asid_hint ti' = asid + 1
             ∧ ti_evcnt_asid_reinits ti' = ti_evcnt_asid_reinits ti + 1
             ∧ (curlwp_p = true →
                ci_pmap_asid_cur s' = asid ∧ hw_asid (hw s') = asid
                ∧ (MULTIPROCESSOR cfg = true →
                   ci_index ci ∈ pm_onproc pm')))).
Proof.
  split.
  { unfold pmap_tlb_asid_acquire. by rewrite bool_decide_eq_true_2. }
  intros ti p pm Hinv Hl Hpk Hpm. split; [|split].
  - intros Hin Hact. by apply acquire_reuse.
  - intros Hnin Hfree Hcpu. by apply (acquire_alloc s ci curlwp_p p ti pm).
  - intros Hnin Hfree Hcur Hdiag Hcpu Hex.
    by apply (acquire_exhausted s ci curlwp_p p ti pm).
Qed.

End Acquire.

Lemma ex_busy_inv : tlb_inv cfg_mp [] ex_busy 1 ex_busy_tlb.
Proof. ex_tlb_inv ex_below8. Qed.

Lemma acquire_binds_valid_asid_witness :
  wp (pmap_tlb_asid_acquire cfg_mp 1%nat cpu2 true) ex_mp (λ _ s',
    ∃ pm', pmaps s' !! 1%nat = Some pm' ∧ pai_asid pm' 1 = 1
      ∧ ci_pmap_asid_cur s' = 1)
  ∧ wp (pmap_tlb_asid_acquire cfg_mp 3%nat cpu2 true) ex_mp (λ _ s',
      ∃ ti' pm' asid,
        pmap_tlbs s' !! 1%nat = Some ti' ∧ pmaps s' !! 3%nat = Some pm'
        ∧ pai_asid pm' 1 = asid ∧ 0 < asid ≤ 7
        ∧ ti_evcnt_asid_reinits ti' = 0)
  ∧ wp (pmap_tlb_asid_acquire cfg_mp 3%nat cpu1 true) ex_busy (λ _ s',
      ∃ ti' pm' asid,
        pmap_tlbs s' !! 1%nat = Some ti' ∧ pmaps s' !! 3%nat = Some pm'
        ∧ pai_asid pm' 1 = asid ∧ 0 < asid ≤ 7
        ∧ ti_asid_hint ti' = asid + 1
        ∧ ti_evcnt_asid_reinits ti' = 1).
Proof.
  split; [|split].
  - destruct (acquire_binds_valid_asid cfg_mp cfg_mp_ok ex_mp cpu2 true)
      as [_ H].
    destruct (H (ex_mp_tlb 5 3 [7; 0] TLBINV_NOBODY None) 1%nat
                (ex_pmap [(1%nat, 1)] {[2%nat; 3%nat]} {[2%nat]})
                (ex_mp_inv TLBINV_NOBODY None))
      as [Hreuse _].
    + reflexivity.
    + discriminate.
    + reflexivity.
    + destruct Hreuse as (u & s' & Hrun & pm' & _ & H2 & H3 & _ & H5).
      * apply list_elem_of_further, list_elem_of_here.
      * intros _. by vm_compute.
      * exists u, s'. split; [exact Hrun|]. exists pm'.
        split; [exact H2|]. split; [exact H3|]. exact (proj1 (H5 eq_refl)).
  - destruct (acquire_binds_valid_asid cfg_mp cfg_mp_ok ex_mp cpu2 true)
      as [_ H].
    destruct (H (ex_mp_tlb 5 3 [7; 0] TLBINV_NOBODY None) 3%nat
                (ex_pmap [] ∅ ∅) (ex_mp_inv TLBINV_NOBODY None))
      as (_ & Halloc & _).
    + reflexivity.
    + discriminate.
    + reflexivity.
    + destruct Halloc
        as (u & s' & Hrun & ti' & pm' & asid & H1 & H2 & _ & H4 & H5 & _ & _
            & _ & H9 & _).
      * ex_not_in.
      * reflexivity.
      * intros _. by vm_compute.
      * exists u, s'. split; [exact Hrun|]. exists ti', pm', asid.
        split; [exact H1|]. split; [exact H2|]. split; [exact H4|].
        split; [exact H5|]. exact H9.
  - destruct (acquire_binds_valid_asid cfg_mp cfg_mp_ok ex_busy cpu1 true)
      as [_ H].
    destruct (H ex_busy_tlb 3%nat (ex_pmap [] ∅ ∅) ex_busy_inv)
      as (_ & _ & Hex).
    + reflexivity.
    + discriminate.
    + reflexivity.
    + destruct Hex
        as (u & s' & Hrun & ti' & pm' & asid & H1 & H2 & H3 & H4 & _ & _ & _
            & _ & H9 & H10 & _).
      * ex_not_in.
      * reflexivity.
      * intros _. reflexivity.
      * intros _ _. reflexivity.
      * intros _. by vm_compute.
      * exists 2. split; [split; [reflexivity|discriminate]|].
        intros [Hr|[(_ & Hin & _)|(_ & q & qm & Hq & Hqm & _ & Ha)]].
        -- apply Hr. reflexivity.
        -- by apply elem_of_nil in Hin.
        -- apply elem_of_cons in Hq as [->|Hq];
             [|apply elem_of_cons in Hq as [->|Hq];
               [|by apply elem_of_nil in Hq]];
             vm_compute in Hqm; injection Hqm as <-; discriminate Ha.
      * exists u, s'. split; [exact Hrun|]. exists ti', pm', asid.
        split; [exact H1|]. split; [exact H2|]. split; [exact H3|].
        split; [exact H4|]. split; [exact H9|]. exact H10.
Defined.

(** All the ASIDs of TLB 1 are marked, pmap 1 runs on CPU 2 with ASID 1
    and pmap 2 on CPU 3 with ASID 3.  The reinitialisation leaves the hint
    at ASID 1, which pmap 1 holds; [pmap_tlb_asid_acquire] for pmap 3 on
    CPU 1 reinitialises the ASIDs, takes ASID 2 and leaves the hint at
    ASID 3, which pmap 2 holds. *)
Lemma acquire_hint_held_by_current :
  tlb_inv cfg_mp [] ex_busy 1 ex_busy_tlb
  ∧ ti_asids_free ex_busy_tlb = 0
  ∧ wp (pmap_tlb_asid_reinitialize cfg_mp 1 TLBINV_NOBODY) ex_busy
      (λ _ s',
         ∃ ti', pmap_tlbs s' !! 1%nat = Some ti'
           ∧ ti_asid_hint ti' = 1
           ∧ held_by_current cfg_mp s' 1 ti' 1)
  ∧ wp (pmap_tlb_asid_acquire cfg_mp 3%nat cpu1 true) ex_busy
      (λ _ s',
         ∃ ti' pm', pmap_tlbs s' !! 1%nat = Some ti'
           ∧ pmaps s' !! 3%nat = Some pm'
           ∧ ti_evcnt_asid_reinits ti' = 1
           ∧ pai_asid pm' 1 = 2
           ∧ ti_asid_hint ti' = 3
           ∧ held_by_current cfg_mp s' 1 ti' 3).
Proof.
  split; [apply ex_busy_inv|]. split; [reflexivity|]. split.
  - eexists _, _. split; [vm_compute; reflexivity|].
    eexists. split; [reflexivity|]. split; [reflexivity|].
    exists 1%nat. eexists. split; [|split; [reflexivity|split; reflexivity]].
    apply list_elem_of_further, list_elem_of_here.
  - eexists _, _. split; [vm_compute; reflexivity|].
    eexists _, _. split; [reflexivity|]. split; [reflexivity|].
    split; [reflexivity|]. split; [reflexivity|]. split; [reflexivity|].
    exists 2%nat. eexists. split; [|split; [reflexivity|split; reflexivity]].
    apply list_elem_of_further, list_elem_of_here.
Qed.

(** ** The reinitialisation for TLBINV_NOBODY *)

Section ReinitNobody.

Context (cfg : config) (Hcfg : cfg_ok cfg).



End ReinitNobody.



(** ** pmap_tlb_shootdown_bystanders *)

Section Bystanders.

Context (cfg : config).

Lemma foldr_min_spec (l : list nat) (x : nat) :
  foldr Nat.min x l ∈ x :: l
  ∧ ∀ y, y ∈ x :: l → (foldr Nat.min x l ≤ y)%nat.
Proof.
  induction l as [|z l [IH1 IH2]]; cbn [foldr].
  - split; [by left|]. intros y Hy. apply list_elem_of_singleton in Hy. lia.
  - split.
    + destruct (Nat.min_spec z (foldr Nat.min x l)) as [[_ ->]|[_ ->]].
      * right. by left.
      * apply elem_of_cons in IH1 as [->|Hin]; [by left|]. right. by right.
    + intros y Hy.
      apply elem_of_cons in Hy as [->|Hy].
      * etrans; [apply Nat.le_min_r|]. apply IH2. by left.
      * apply elem_of_cons in Hy as [->|Hy]; [apply Nat.le_min_l|].
        etrans; [apply Nat.le_min_r|]. apply IH2. by right.
Qed.

(** [kcpuset_ffs_intersecting] is one plus the lowest CPU of both sets, and
    zero when they have no CPU in common. *)
Lemma kcpuset_ffs_intersecting_spec (a b : gset nat) :
  (a ∩ b = ∅ → kcpuset_ffs_intersecting a b = 0%nat)
  ∧ (a ∩ b ≠ ∅ →
     ∃ c, kcpuset_ffs_intersecting a b = S c ∧ c ∈ a ∧ c ∈ b
       ∧ ∀ k, k ∈ a → k ∈ b → (c ≤ k)%nat).
Proof.
  unfold kcpuset_ffs_intersecting. split.
  - intros ->. by rewrite elements_empty.
  - intros Hne. destruct (elements (a ∩ b)) as [|x l] eqn:He.
    + apply elements_empty_inv in He. by apply leibniz_equiv in He.
    + destruct (foldr_min_spec l x) as [Hin Hmin].
      exists (foldr Nat.min x l). split; [done|].
      rewrite <- He in Hin, Hmin. apply elem_of_elements in Hin.
      apply elem_of_intersection in Hin as [Ha Hb].
      split; [done|]. split; [done|]. intros k Hka Hkb. apply Hmin.
      apply elem_of_elements. by apply elem_of_intersection.
Qed.

Lemma merge_ti_lock (p : pmap_t) (ti : pmap_tlb_info) :
  ti_lock ti = false →
  set_lock false (merge_ti p (set_lock true ti)) = merge_ti p ti.
Proof.
  intros Hl. unfold merge_ti. cbn [ti_victim ti_tlbinvop set_lock].
  destruct ti. cbn in *. subst.
  repeat case_bool_decide; reflexivity.
Qed.

Lemma merge_ti_fields (p : pmap_t) (ti : pmap_tlb_info) :
  ti_kcpuset (merge_ti p ti) = ti_kcpuset ti
  ∧ ti_lock (merge_ti p ti) = ti_lock ti
  ∧ ti_pais (merge_ti p ti) = ti_pais ti
  ∧ ti_asids_free (merge_ti p ti) = ti_asids_free ti
  ∧ ti_asid_hint (merge_ti p ti) = ti_asid_hint ti
  ∧ ti_asid_max (merge_ti p ti) = ti_asid_max ti
  ∧ ti_asid_bitmap (merge_ti p ti) = ti_asid_bitmap ti.
Proof. unfold merge_ti. repeat case_bool_decide; done. Qed.

(** One turn of the loop. *)
Lemma bystanders_tlb_spec (p : pmap_t) (pm : pmap) (i : nat)
    (act : gset nat) (s : kstate) (ti : pmap_tlb_info) :
  pmap_tlbs s !! i = Some ti → pmaps s !! p = Some pm →
  act ⊆ pm_active pm → ti_lock ti = false →
  (ti_victim ti = Some p → ti_tlbinvop ti = TLBINV_ONE) →
  (p ≠ pmap_kernel → pm_onproc pm ∩ ti_kcpuset ti ≠ ∅ → pai_asid pm i ≠ 0) →
  wp (shootdown_bystanders_tlb cfg p i act) s (λ r s',
    r.1 = (if kcpuset_intersecting_p act (ti_kcpuset ti)
           then act ∖ ti_kcpuset ti else act)
    ∧ r.2 = bool_decide (is_Some (ipi_target pm act ti))
    ∧ s' = match ipi_target pm act ti with
           | Some c => set_ipis (ipis s ++ [c]) (upd_ti i (merge_ti p ti) s)
           | None => s
           end).
Proof.
  intros Hti Hpm Hact Hl Hvic Hasid.
  unfold shootdown_bystanders_tlb, ipi_target. wp_steps.
  destruct (kcpuset_intersecting_p act (ti_kcpuset ti)) eqn:Hint;
    cbn [negb].
  2:{ wp_step. split; [done|]. split; [|done].
      rewrite bool_decide_eq_false_2; [done|]. by apply is_Some_None. }
  wp_steps. cbv zeta.
  destruct (kcpuset_ffs_intersecting_spec (pm_onproc pm) (ti_kcpuset ti))
    as [Hz Hnz].
  destruct (decide (pm_onproc pm ∩ ti_kcpuset ti = ∅)) as [He|Hne].
  - rewrite (Hz He). cbn [Nat.ltb Nat.leb].
    wp_step. apply wp_when_same.
    { intros Hn. exfalso. apply negb_true_iff in Hn.
      unfold kcpuset_intersecting_p in Hint.
      apply bool_decide_eq_true in Hint.
      unfold pmap_tlb_intersecting_active_p in Hn.
      cbn [ti_kcpuset set_lock] in Hn.
      destruct (PMAP_TLB_MAX cfg =? 1)%nat.
      - apply negb_false_iff in Hn. unfold kcpuset_iszero in Hn.
        apply bool_decide_eq_true in Hn. apply Hint.
        apply elem_of_equiv_empty_L. intros x Hx.
        apply elem_of_intersection in Hx as [Hx _]. apply Hact in Hx.
        rewrite Hn in Hx. by apply elem_of_empty in Hx.
      - unfold kcpuset_intersecting_p in Hn.
        apply bool_decide_eq_false in Hn. apply Hn. intros He'.
        apply Hint. apply elem_of_equiv_empty_L. intros x Hx.
        apply elem_of_intersection in Hx as [Hx1 Hx2].
        assert (Hx : x ∈ pm_active pm ∩ ti_kcpuset ti)
          by (apply elem_of_intersection; split; [by apply Hact|done]).
        rewrite He' in Hx. by apply elem_of_empty in Hx. }
    wp_steps. split; [done|]. split.
    { rewrite bool_decide_eq_false_2; [done|]. by apply is_Some_None. }
    rewrite upd_ti_upd_ti.
    pose proof (set_lock_set_lock false ti Hl) as E. cbn [negb] in E.
    rewrite E. by apply upd_ti_id.
  - destruct (Hnz Hne) as (c & Hc & _). rewrite Hc.
    cbn [Nat.ltb Nat.leb]. wp_step.
    eapply wp_mono.
    { eapply (shootdown_merge_spec cfg i p _ (set_lock true ti) pm).
      - by eapply lookup_upd_ti_eq.
      - done.
      - intros Hpk. by apply Hasid.
      - exact Hvic. }
    intros [] s1 ->. wp_steps. split; [done|]. split.
    { rewrite bool_decide_eq_true_2; [done|]. by eexists. }
    rewrite !upd_ti_upd_ti.
    replace (S c - 1)%nat with c by lia.
    f_equal. f_equal. by apply merge_ti_lock.
Qed.


Lemma ipi_target_empty (pm : pmap) (ti : pmap_tlb_info) :
  ipi_target pm ∅ ti = None.
Proof.
  unfold ipi_target, kcpuset_intersecting_p.
  rewrite bool_decide_eq_false_2; [done|]. intros H. apply H.
  apply elem_of_equiv_empty_L. intros x Hx.
  apply elem_of_intersection in Hx as [Hx _]. by apply elem_of_empty in Hx.
Qed.

Lemma ipi_target_remove (pm : pmap) (act kc : gset nat)
    (tj : pmap_tlb_info) :
  kc ## ti_kcpuset tj →
  ipi_target pm (act ∖ kc) tj = ipi_target pm act tj.
Proof.
  intros Hd. unfold ipi_target, kcpuset_intersecting_p.
  assert (E : (act ∖ kc) ∩ ti_kcpuset tj = act ∩ ti_kcpuset tj).
  { apply set_eq. intros x. rewrite !elem_of_intersection, elem_of_difference.
    split; [tauto|]. intros [Hx Hj]. split; [|done]. split; [done|].
    intros Hk. by apply (Hd x). }
  by rewrite E.
Qed.

Lemma omap_ext_in {A B} (f g : A → option B) (l : list A) :
  (∀ x, x ∈ l → f x = g x) → omap f l = omap g l.
Proof.
  induction l as [|x l IH]; intros H; [done|]. cbn.
  rewrite (H x) by (by left). rewrite IH; [done|].
  intros y Hy. apply H. by right.
Qed.

Lemma omap_all_none {A B} (f : A → option B) (l : list A) :
  (∀ x, x ∈ l → f x = None) → omap f l = [].
Proof.
  induction l as [|x l IH]; intros H; [done|]. cbn.
  rewrite (H x) by (by left). apply IH. intros y Hy. apply H. by right.
Qed.

(** The loop over the TLBs from index [k] on. *)
Lemma bystanders_loop_spec (p : pmap_t) (pm : pmap) (m : nat) :
  ∀ (k : nat) (act : gset nat) (sent : bool) (s : kstate),
    (k + m = length (pmap_tlbs s))%nat →
    pmaps s !! p = Some pm → act ⊆ pm_active pm →
    (∀ c, c ∈ act →
       ∃ j tj, (k ≤ j)%nat ∧ pmap_tlbs s !! j = Some tj
               ∧ c ∈ ti_kcpuset tj) →
    tlbs_disjoint s → shootdown_ready s p pm →
    wp (shootdown_bystanders_loop cfg p (seq k m) act sent) s (λ r s',
      pmaps s' = pmaps s ∧ hw s' = hw s
      ∧ length (pmap_tlbs s') = length (pmap_tlbs s)
      ∧ (∀ j tj, pmap_tlbs s !! j = Some tj →
           pmap_tlbs s' !! j
           = Some (if bool_decide ((k ≤ j)%nat
                                   ∧ is_Some (ipi_target pm act tj))
                   then merge_ti p tj else tj))
      ∧ ipis s' = ipis s ++ omap (ipi_target pm act) (drop k (pmap_tlbs s))
      ∧ r = sent
            || bool_decide
                 (omap (ipi_target pm act) (drop k (pmap_tlbs s)) ≠ [])).
Proof.
  induction m as [|m IH]; intros k act sent s Hlen Hpm Hact Hcov Hdis Hready.
  - assert (He : act = ∅).
    { apply elem_of_equiv_empty_L. intros c Hc.
      destruct (Hcov c Hc) as (j & tj & Hj & Hlk & _).
      apply lookup_lt_Some in Hlk. lia. }
    subst act. cbn [seq shootdown_bystanders_loop].
    unfold kcpuset_iszero. rewrite bool_decide_eq_true_2 by done.
    apply wp_ret. split; [done|]. split; [done|]. split; [done|].
    rewrite drop_ge by lia. cbn [omap list_omap]. split.
    { intros j tj Hlk. rewrite ipi_target_empty.
      rewrite bool_decide_eq_false_2; [done|]. intros [_ H].
      by apply is_Some_None in H. }
    split; [by rewrite app_nil_r|].
    rewrite bool_decide_eq_false_2 by (intros H; by apply H).
    by rewrite orb_false_r.
  - cbn [seq shootdown_bystanders_loop].
    destruct (kcpuset_iszero act) eqn:Hz.
    + unfold kcpuset_iszero in Hz. apply bool_decide_eq_true in Hz. subst act.
      apply wp_ret. split; [done|]. split; [done|]. split; [done|].
      rewrite (omap_all_none (ipi_target pm ∅))
        by (intros; apply ipi_target_empty).
      split.
      { intros j tj Hlk. rewrite ipi_target_empty.
        rewrite bool_decide_eq_false_2; [done|]. intros [_ H].
        by apply is_Some_None in H. }
      split; [by rewrite app_nil_r|].
      rewrite bool_decide_eq_false_2 by (intros H; by apply H).
      by rewrite orb_false_r.
    + destruct (lookup_lt_is_Some_2 (pmap_tlbs s) k ltac:(lia)) as [tk Htk].
      destruct (Hready k tk Htk) as (Hl & Hvic & Hasid).
      apply wp_bind. eapply wp_mono.
      { by apply (bystanders_tlb_spec p pm k act s tk). }
      intros [act1 sent1] s1 (Hr1 & Hr2 & Hs1). cbn [fst snd] in *.
      set (tk' := if bool_decide (is_Some (ipi_target pm act tk))
                  then merge_ti p tk else tk).
      assert (Htlbs1 : pmap_tlbs s1 = <[k := tk']> (pmap_tlbs s)).
      { subst s1 tk'. destruct (ipi_target pm act tk) as [c|].
        - rewrite bool_decide_eq_true_2 by (by eexists). done.
        - rewrite bool_decide_eq_false_2 by (by apply is_Some_None).
          by rewrite list_insert_id. }
      assert (Hpm1 : pmaps s1 = pmaps s).
      { subst s1. by destruct (ipi_target pm act tk). }
      assert (Hhw1 : hw s1 = hw s).
      { subst s1. by destruct (ipi_target pm act tk). }
      assert (Hipis1 : ipis s1 = ipis s ++ omap (ipi_target pm act) [tk]).
      { subst s1. cbn. destruct (ipi_target pm act tk); cbn; [done|].
        by rewrite app_nil_r. }
      assert (Hkc' : ti_kcpuset tk' = ti_kcpuset tk).
      { subst tk'. case_bool_decide; [|done].
        by destruct (merge_ti_fields p tk) as (? & _). }
      assert (Hlk1 : ∀ j, j ≠ k → pmap_tlbs s1 !! j = pmap_tlbs s !! j).
      { intros j Hj. rewrite Htlbs1. by apply list_lookup_insert_ne. }
      assert (Hlkk : pmap_tlbs s1 !! k = Some tk').
      { rewrite Htlbs1. apply list_lookup_insert_eq.
        by eapply lookup_lt_Some. }
      assert (Hact1 : act1 = act
                      ∨ (act1 = act ∖ ti_kcpuset tk
                         ∧ act ∩ ti_kcpuset tk ≠ ∅)).
      { subst act1. unfold kcpuset_intersecting_p.
        destruct (bool_decide (act ∩ ti_kcpuset tk ≠ ∅)) eqn:Hi.
        - right. split; [done|]. by apply bool_decide_eq_true in Hi.
        - by left. }
      assert (Hnok : ∀ c, c ∈ act1 → c ∉ ti_kcpuset tk).
      { intros c Hc Hk. subst act1. unfold kcpuset_intersecting_p in Hc.
        destruct (bool_decide (act ∩ ti_kcpuset tk ≠ ∅)) eqn:Hi.
        - apply elem_of_difference in Hc as [_ Hc]. done.
        - apply bool_decide_eq_false in Hi. apply Hi. intros He.
          assert (Hx : c ∈ act ∩ ti_kcpuset tk)
            by (by apply elem_of_intersection).
          rewrite He in Hx. by apply elem_of_empty in Hx. }
      assert (Hsub1 : act1 ⊆ act).
      { destruct Hact1 as [->|[-> _]]; [done|]. apply subseteq_difference_l.
        done. }
      assert (Htgt : ∀ j tj, j ≠ k → pmap_tlbs s !! j = Some tj →
                ipi_target pm act1 tj = ipi_target pm act tj).
      { intros j tj Hj Hlk. destruct Hact1 as [->|[-> _]]; [done|].
        apply ipi_target_remove. by apply (Hdis k j tk tj). }
      eapply wp_mono.
      { apply (IH (S k) act1 (sent || sent1) s1).
        - rewrite Htlbs1, length_insert. lia.
        - by rewrite Hpm1.
        - by etrans.
        - intros c Hc. destruct (Hcov c (Hsub1 c Hc)) as (j & tj & Hj & Hlk & Hin).
          destruct (decide (j = k)) as [->|Hne].
          + rewrite Htk in Hlk. injection Hlk as <-. by destruct (Hnok c Hc).
          + exists j, tj. split; [lia|]. split; [by rewrite Hlk1|done].
        - intros i j ti tj Hij Hi Hj.
          assert (Hkci : ∃ ti0, pmap_tlbs s !! i = Some ti0
                           ∧ ti_kcpuset ti = ti_kcpuset ti0).
          { destruct (decide (i = k)) as [->|Hne].
            - rewrite Hlkk in Hi. injection Hi as <-. by exists tk.
            - rewrite Hlk1 in Hi by done. by exists ti. }
          assert (Hkcj : ∃ tj0, pmap_tlbs s !! j = Some tj0
                           ∧ ti_kcpuset tj = ti_kcpuset tj0).
          { destruct (decide (j = k)) as [->|Hne].
            - rewrite Hlkk in Hj. injection Hj as <-. by exists tk.
            - rewrite Hlk1 in Hj by done. by exists tj. }
          destruct Hkci as (ti0 & Hi0 & ->), Hkcj as (tj0 & Hj0 & ->).
          by apply (Hdis i j).
        - intros j tj Hj.
          destruct (decide (j = k)) as [->|Hne].
          + rewrite Hlkk in Hj. injection Hj as <-. subst tk'.
            case_bool_decide; [|by apply (Hready k)].
            destruct (merge_ti_fields p tk) as (Fkc & Flock & _).
            rewrite Flock, Fkc. split; [done|]. split; [|done].
            unfold merge_ti. repeat case_bool_decide; cbn; try done.
            destruct (TLBINV_USER_MAP (ti_tlbinvop tk) =? TLBINV_ONE) eqn:E;
              [|done]. intros _. by apply Z.eqb_eq.
          + rewrite Hlk1 in Hj by done. by apply (Hready j). }
      intros r s' (P1 & P2 & P3 & P4 & P5 & P6).
      rewrite (drop_S _ _ _ Htk).
      assert (Hdrop : drop (S k) (pmap_tlbs s1) = drop (S k) (pmap_tlbs s)).
      { rewrite Htlbs1. apply drop_insert_lt. lia. }
      assert (Homap : omap (ipi_target pm act1) (drop (S k) (pmap_tlbs s))
                      = omap (ipi_target pm act) (drop (S k) (pmap_tlbs s))).
      { apply omap_ext_in. intros tj Hin.
        apply list_elem_of_lookup in Hin as [n Hn].
        rewrite lookup_drop in Hn. eapply (Htgt (S k + n)%nat); [lia|done]. }
      rewrite Hdrop, Homap in P5, P6.
      split; [by rewrite P1|]. split; [by rewrite P2|].
      split; [rewrite P3, Htlbs1; apply length_insert|].
      split.
      { intros j tj Hlk. destruct (decide (j = k)) as [->|Hne].
        - rewrite Htk in Hlk. injection Hlk as <-.
          rewrite (P4 k tk' Hlkk).
          rewrite (bool_decide_eq_false_2 (_ ∧ _)) by (intros [? _]; lia).
          subst tk'. f_equal.
          destruct (ipi_target pm act tk) eqn:E.
          + rewrite !bool_decide_eq_true_2; [done|split; [lia|by eexists]|by eexists].
          + rewrite !bool_decide_eq_false_2;
              [done|intros [_ H]; by apply is_Some_None in H
              |by apply is_Some_None].
        - rewrite (P4 j tj) by (by rewrite Hlk1).
          rewrite (Htgt j tj Hne Hlk). f_equal.
          destruct (ipi_target pm act tj) eqn:E.
          + destruct (decide (k ≤ j)%nat).
            * rewrite !bool_decide_eq_true_2;
                [done|split; [lia|by eexists]|split; [lia|by eexists]].
            * rewrite !bool_decide_eq_false_2; [done|intros [? _]; lia|intros [? _]; lia].
          + rewrite !bool_decide_eq_false_2;
              [done|intros [_ H]; by apply is_Some_None in H
              |intros [_ H]; by apply is_Some_None in H]. }
      split.
      { rewrite P5, Hipis1. cbn [omap list_omap].
        destruct (ipi_target pm act tk); cbn; by rewrite <- app_assoc. }
      rewrite P6, Hr2. cbn [omap list_omap].
      destruct (ipi_target pm act tk) eqn:E.
      * rewrite bool_decide_eq_true_2 by (by eexists).
        rewrite (bool_decide_eq_true_2 (_ :: _ ≠ [])) by done.
        by rewrite !orb_true_r.
      * rewrite bool_decide_eq_false_2 by (by apply is_Some_None).
        by rewrite orb_false_r.
Qed.


Lemma ipi_target_lowest (pm : pmap) (act : gset nat)
    (ti : pmap_tlb_info) (c : nat) :
  ipi_target pm act ti = Some c →
  c ∈ pm_onproc pm ∧ c ∈ ti_kcpuset ti
  ∧ ∀ k, k ∈ pm_onproc pm → k ∈ ti_kcpuset ti → (c ≤ k)%nat.
Proof.
  unfold ipi_target.
  destruct (kcpuset_intersecting_p act (ti_kcpuset ti)); [|done]. cbv zeta.
  destruct (kcpuset_ffs_intersecting_spec (pm_onproc pm) (ti_kcpuset ti))
    as [Hz Hnz].
  destruct (decide (pm_onproc pm ∩ ti_kcpuset ti = ∅)) as [He|Hne].
  - by rewrite (Hz He).
  - destruct (Hnz Hne) as (c' & -> & H1 & H2 & H3). cbn [Nat.ltb Nat.leb].
    intros [= <-]. rewrite Nat.sub_0_r. split; [done|]. split; done.
Qed.

(** Which TLBs get an IPI: those, other than the TLB of the calling CPU,
    that have a CPU the pmap is onproc on. *)
Lemma ipi_target_is_Some (pm : pmap) (kcl : gset nat)
    (tj : pmap_tlb_info) :
  pm_onproc pm ⊆ pm_active pm →
  (kcl = ti_kcpuset tj ∨ kcl ## ti_kcpuset tj) →
  is_Some (ipi_target pm (pm_active pm ∖ kcl) tj)
  ↔ kcl ≠ ti_kcpuset tj ∧ pm_onproc pm ∩ ti_kcpuset tj ≠ ∅.
Proof.
  intros Hsub Hkc. unfold ipi_target, kcpuset_intersecting_p.
  destruct (kcpuset_ffs_intersecting_spec (pm_onproc pm) (ti_kcpuset tj))
    as [Hz Hnz].
  destruct (decide (pm_onproc pm ∩ ti_kcpuset tj = ∅)) as [He|Hne].
  - rewrite (Hz He). cbn [Nat.ltb Nat.leb].
    split; [|by intros [_ ?]].
    case_bool_decide; intros H'; by apply is_Some_None in H'.
  - destruct (Hnz Hne) as (c & Hc & Hon & Hin & _). rewrite Hc.
    cbn [Nat.ltb Nat.leb]. destruct Hkc as [->|Hd].
    + rewrite bool_decide_eq_false_2.
      * split; [intros H'; by apply is_Some_None in H'|by intros [? _]].
      * intros H'. apply H'. apply elem_of_equiv_empty_L. intros x Hx.
        apply elem_of_intersection in Hx as [Hx Hx'].
        by apply elem_of_difference in Hx as [_ Hx].
    + rewrite bool_decide_eq_true_2.
      * split; [|by eexists]. intros _. split; [|done]. intros ->.
        by apply (Hd c).
      * intros He. assert (Hx : c ∈ (pm_active pm ∖ kcl) ∩ ti_kcpuset tj).
        { apply elem_of_intersection. split; [|done].
          apply elem_of_difference. split; [by apply Hsub|].
          intros Hk. by apply (Hd c). }
        rewrite He in Hx. by apply elem_of_empty in Hx.
Qed.

(** The IPIs that go to CPUs of one TLB. *)
Lemma omap_ipi_target_filter (pm : pmap) (act : gset nat)
    (l : list pmap_tlb_info) (j : nat) (tj : pmap_tlb_info) :
  (∀ i i' ti ti', i ≠ i' → l !! i = Some ti → l !! i' = Some ti' →
     ti_kcpuset ti ## ti_kcpuset ti') →
  l !! j = Some tj →
  filter (λ x, x ∈ ti_kcpuset tj) (omap (ipi_target pm act) l)
  = match ipi_target pm act tj with Some c => [c] | None => [] end.
Proof.
  intros Hdis Hj.
  assert (Hother : ∀ l', (∀ t, t ∈ l' → ∃ i, i ≠ j ∧ l !! i = Some t) →
            filter (λ x, x ∈ ti_kcpuset tj) (omap (ipi_target pm act) l')
            = []).
  { intros l' Hl'. apply length_zero_iff_nil. apply filter_length_none.
    intros x Hx Hin. apply list_elem_of_omap in Hx as (t & Ht & Hc).
    destruct (Hl' t Ht) as (i & Hi & Hlk).
    destruct (ipi_target_lowest pm act t x Hc) as (_ & Hxt & _).
    by apply (Hdis i j t tj Hi Hlk Hj x). }
  rewrite <- (take_drop_middle l j tj Hj) at 1.
  rewrite omap_app, filter_app. cbn [omap list_omap].
  rewrite Hother.
  2:{ intros t Ht. apply list_elem_of_lookup in Ht as [n Hn].
      pose proof (lookup_lt_Some _ _ _ Hn) as Hlt.
      rewrite length_take in Hlt.
      rewrite lookup_take_lt in Hn by lia. exists n. split; [lia|done]. }
  cbn [app].
  destruct (ipi_target pm act tj) as [c|] eqn:E.
  - rewrite filter_cons, decide_True
      by (by destruct (ipi_target_lowest pm act tj c E) as (_ & ? & _)).
    f_equal. apply Hother.
    intros t Ht. apply list_elem_of_lookup in Ht as [n Hn].
    rewrite lookup_drop in Hn. exists (S j + n)%nat. split; [lia|done].
  - apply Hother.
    intros t Ht. apply list_elem_of_lookup in Ht as [n Hn].
    rewrite lookup_drop in Hn. exists (S j + n)%nat. split; [lia|done].
Qed.

(** C8: [pmap_tlb_shootdown_bystanders] returns.  For every TLB other
    than the one of the calling CPU that has a CPU the pmap is onproc on,
    the request is merged into the pending operation of the TLB and of the
    IPIs sent exactly one goes to a CPU of the TLB, the lowest of its CPUs
    the pmap is onproc on; the other TLBs are left alone and no IPI goes to
    their CPUs.  The value returned tells whether an IPI was sent. *)
Theorem bystanders_one_ipi_per_tlb (s : kstate) (ci : cpu_info)
    (p : pmap_t) (pm : pmap) (lti : pmap_tlb_info) :
  pmaps s !! p = Some pm → pmap_tlbs s !! ci_tlb ci = Some lti →
  tlbs_disjoint s → shootdown_ready s p pm →
  pm_onproc pm ⊆ pm_active pm →
  (∀ c, c ∈ pm_active pm →
     ∃ j tj, pmap_tlbs s !! j = Some tj ∧ c ∈ ti_kcpuset tj) →
  wp (pmap_tlb_shootdown_bystanders cfg ci p) s (λ r s',
    ∃ new,
      ipis s' = ipis s ++ new ∧ pmaps s' = pmaps s
      ∧ r = bool_decide (new ≠ [])
      ∧ ∀ j tj, pmap_tlbs s !! j = Some tj →
          if bool_decide (j ≠ ci_tlb ci
                          ∧ pm_onproc pm ∩ ti_kcpuset tj ≠ ∅)
          then
            r = true
            ∧ pmap_tlbs s' !! j = Some (merge_ti p tj)
            ∧ ∃ c, filter (λ x, x ∈ ti_kcpuset tj) new = [c]
                ∧ c ∈ pm_onproc pm
                ∧ ∀ k, k ∈ pm_onproc pm → k ∈ ti_kcpuset tj → (c ≤ k)%nat
          else
            pmap_tlbs s' !! j = Some tj
            ∧ filter (λ x, x ∈ ti_kcpuset tj) new = []).
Proof.
  intros Hpm Hlti Hdis Hready Hsub Hcov.
  unfold pmap_tlb_shootdown_bystanders. wp_steps.
  set (act := pm_active pm ∖ ti_kcpuset lti).
  eapply wp_mono.
  { apply (bystanders_loop_spec p pm (length (pmap_tlbs s)) 0 act false s);
      try done.
    - apply subseteq_difference_l. done.
    - intros c Hc. apply elem_of_difference in Hc as [Hc _].
      destruct (Hcov c Hc) as (j & tj & Hj & Hin).
      exists j, tj. split; [lia|done]. }
  intros r s' (P1 & P2 & P3 & P4 & P5 & P6). rewrite drop_0 in P5, P6.
  exists (omap (ipi_target pm act) (pmap_tlbs s)).
  split; [done|]. split; [done|]. split; [done|].
  intros j tj Hj.
  assert (Hkc : ti_kcpuset lti = ti_kcpuset tj ∧ j = ci_tlb ci
                ∨ ti_kcpuset lti ## ti_kcpuset tj ∧ j ≠ ci_tlb ci).
  { destruct (decide (j = ci_tlb ci)) as [->|Hne].
    - left. rewrite Hlti in Hj. by injection Hj as <-.
    - right. split; [|done]. by apply (Hdis (ci_tlb ci) j). }
  pose proof (omap_ipi_target_filter pm act (pmap_tlbs s) j tj Hdis Hj) as Hf.
  rewrite (P4 j tj Hj).
  assert (HS : is_Some (ipi_target pm act tj)
               ↔ j ≠ ci_tlb ci ∧ pm_onproc pm ∩ ti_kcpuset tj ≠ ∅).
  { unfold act. destruct Hkc as [[Hk ->]|[Hk Hne]].
    - split.
      + intros HS. apply ipi_target_is_Some in HS as [HS _]; [done|done|by left].
      + by intros [? _].
    - rewrite ipi_target_is_Some; [|done|by right]. split.
      + intros [_ ?]. done.
      + intros [_ Hon]. split; [|done]. intros He. rewrite He in Hk.
        apply Hon. apply elem_of_equiv_empty_L. intros x Hx.
        apply elem_of_intersection in Hx as [_ Hx]. by apply (Hk x). }
  destruct (ipi_target pm act tj) as [c|] eqn:E.
  - rewrite bool_decide_eq_true_2 by (apply HS; by eexists).
    rewrite bool_decide_eq_true_2 by (split; [lia|by eexists]).
    split.
    { rewrite P6. cbn [orb]. apply bool_decide_eq_true. intros He.
      rewrite He in Hf. done. }
    split; [done|]. exists c. split; [done|].
    destruct (ipi_target_lowest pm act tj c E) as (H1 & _ & H3). done.
  - rewrite (bool_decide_eq_false_2 (j ≠ _ ∧ _)).
    2:{ intros H'. apply HS in H'. by apply is_Some_None in H'. }
    rewrite bool_decide_eq_false_2
      by (intros [_ H']; by apply is_Some_None in H').
    done.
Qed.

End Bystanders.

Lemma ex_mp_disjoint (free hint : Z) (b : list Z) (op : Z)
    (victim : option pmap_t) :
  tlbs_disjoint (ex_mp_store free hint b op victim).
Proof.
  intros i j ti tj Hij Hi Hj.
  destruct i as [|[|i]], j as [|[|j]]; try done;
    injection Hi as <-; injection Hj as <-;
    by apply (bool_decide_unpack _).
Qed.

Lemma bystanders_one_ipi_per_tlb_witness :
  wp (pmap_tlb_shootdown_bystanders cfg_mp cpu0 1%nat) ex_mp (λ r s',
    r = true
    ∧ (pending <$> (pmap_tlbs s' !! 1%nat)) = Some (TLBINV_ONE, Some 1%nat)
    ∧ ∃ new c,
        ipis s' = ipis ex_mp ++ new
        ∧ filter (λ x, x ∈ ({[2%nat; 3%nat]} : gset nat)) new = [c]
        ∧ c ∈ ({[2%nat]} : gset nat)).
Proof.
  destruct (bystanders_one_ipi_per_tlb cfg_mp ex_mp cpu0 1%nat
              (ex_pmap [(1%nat, 1)] {[2%nat; 3%nat]} {[2%nat]})
              (ex_tlb 7 1 [1; 0] [] None {[0%nat; 1%nat]} TLBINV_NOBODY))
    as (r & s' & Hrun & new & H1 & _ & _ & H4).
  - reflexivity.
  - reflexivity.
  - apply ex_mp_disjoint.
  - intros i ti Hi. destruct i as [|[|i]]; try done; injection Hi as <-.
    + split; [reflexivity|]. split; [discriminate|].
      intros _ Hne. exfalso. apply Hne. by apply (bool_decide_unpack _).
    + split; [reflexivity|]. split; [discriminate|]. intros _ _. discriminate.
  - by apply (bool_decide_unpack _).
  - intros c Hc. exists 1%nat. eexists. split; [reflexivity|exact Hc].
  - specialize (H4 1%nat (ex_mp_tlb 5 3 [7; 0] TLBINV_NOBODY None) eq_refl).
    rewrite bool_decide_eq_true_2 in H4.
    2:{ split; [discriminate|]. by apply (bool_decide_unpack _). }
    destruct H4 as (Hr & Hti & c & Hf & Hc & _).
    exists r, s'. split; [exact Hrun|]. split; [exact Hr|].
    split; [rewrite Hti; reflexivity|].
    exists new, c. split; [exact H1|]. split; [exact Hf|exact Hc].
Defined.

(** C7: pmap 2 has ASID 2 of TLB 1 and is active on its CPUs, but runs on
    none of them.  A shootdown for it from CPU 0 returns false and sends no
    IPI, but it leaves the store as it was: pmap 2 is still linked to TLB 1
    and keeps ASID 2.  The test that guards the reset of the binding,
    [negb (pmap_tlb_intersecting_active_p pm ti)], is false for every TLB
    the loop gets to. *)
Theorem bystanders_keeps_idle_binding :
  tlb_inv cfg_mp [] ex_mp 1 (ex_mp_tlb 5 3 [7; 0] TLBINV_NOBODY None)
  ∧ pmaps ex_mp !! 2%nat = Some (ex_pmap [(1%nat, 2)] {[2%nat; 3%nat]} ∅)
  ∧ pmap_tlb_intersecting_active_p cfg_mp
      (ex_pmap [(1%nat, 2)] {[2%nat; 3%nat]} ∅)
      (ex_mp_tlb 5 3 [7; 0] TLBINV_NOBODY None) = true
  ∧ pmap_tlb_intersecting_onproc_p cfg_mp
      (ex_pmap [(1%nat, 2)] {[2%nat; 3%nat]} ∅)
      (ex_mp_tlb 5 3 [7; 0] TLBINV_NOBODY None) = false
  ∧ ∃ s', pmap_tlb_shootdown_bystanders cfg_mp cpu0 2%nat ex_mp
          = Some (false, s')
      ∧ ipis s' = []
      ∧ pmap_tlbs s' !! 1%nat
        = Some (ex_mp_tlb 5 3 [7; 0] TLBINV_NOBODY None)
      ∧ 2%nat ∈ ti_pais (ex_mp_tlb 5 3 [7; 0] TLBINV_NOBODY None)
      ∧ ((λ pm, pai_asid pm 1) <$> (pmaps s' !! 2%nat)) = Some 2.
Proof.
  split; [apply ex_mp_inv|]. split; [reflexivity|]. split; [reflexivity|].
  split; [reflexivity|]. eexists. split; [vm_compute; reflexivity|].
  split; [reflexivity|]. split; [reflexivity|].
  split; [apply list_elem_of_here|reflexivity].
Qed.

(** ** pmap_tlb_shootdown_process *)

Section Process.

Context (cfg : config) (Hcfg : cfg_ok cfg).

Lemma modify_ti_inv (i : nat) (f : pmap_tlb_info → pmap_tlb_info)
    (s s' : kstate) (u : unit) :
  modify_ti i f s = Some (u, s') →
  ∃ t, pmap_tlbs s !! i = Some t ∧ s' = upd_ti i (f t) s.
Proof.
  unfold modify_ti. destruct (pmap_tlbs s !! i) as [t|]; [|done].
  intros [= _ <-]. by exists t.
Qed.

Lemma bind_inv {A B} (m : M A) (k : A → M B) (s s' : kstate) (b : B) :
  bind m k s = Some (b, s') →
  ∃ a s1, m s = Some (a, s1) ∧ k a s1 = Some (b, s').
Proof.
  unfold bind. destruct (m s) as [[a s1]|]; [|done]. intros H.
  by exists a, s1.
Qed.

(** Whatever is pending, when [pmap_tlb_shootdown_process] returns nothing
    is pending any more and the lock is free. *)
Lemma shootdown_process_resets (ci : cpu_info) (s s' : kstate) (u : unit) :
  pmap_tlb_shootdown_process cfg ci s = Some (u, s') →
  ∃ ti', pmap_tlbs s' !! ci_tlb ci = Some ti'
    ∧ ti_tlbinvop ti' = TLBINV_NOBODY ∧ ti_victim ti' = None
    ∧ ti_lock ti' = false.
Proof.
  unfold pmap_tlb_shootdown_process. cbv zeta. intros H.
  apply bind_inv in H as (? & s1 & _ & H).
  apply bind_inv in H as (ti & s2 & _ & H).
  apply bind_inv in H as (? & s3 & _ & H).
  apply bind_inv in H as (? & s4 & H4 & H).
  apply bind_inv in H as (? & s5 & H5 & H).
  apply modify_ti_inv in H4 as (t4 & Ht4 & ->).
  apply modify_ti_inv in H5 as (t5 & Ht5 & ->).
  apply modify_ti_inv in H as (t6 & Ht6 & ->).
  pose proof (lookup_upd_ti_eq (ci_tlb ci) (set_victim None t4) t4 s3 Ht4)
    as L1.
  rewrite L1 in Ht5. injection Ht5 as <-.
  pose proof (lookup_upd_ti_eq (ci_tlb ci)
                (set_tlbinvop TLBINV_NOBODY (set_victim None t4)) _ _ L1)
    as L2.
  rewrite L2 in Ht6. injection Ht6 as <-.
  eexists. split; [by eapply lookup_upd_ti_eq|]. done.
Qed.

(** With nothing pending the routine leaves the store as it was. *)
Lemma shootdown_process_nobody (ci : cpu_info) (s : kstate)
    (ti : pmap_tlb_info) :
  pmap_tlbs s !! ci_tlb ci = Some ti → ti_lock ti = false →
  ti_tlbinvop ti = TLBINV_NOBODY → ti_victim ti = None →
  pmap_tlb_shootdown_process cfg ci s = Some (tt, s).
Proof.
  intros Hti Hl Hop Hv.
  assert (Hwp : wp (pmap_tlb_shootdown_process cfg ci) s (λ _ s', s' = s)).
  { unfold pmap_tlb_shootdown_process. cbv zeta. wp_steps.
    cbn [ti_tlbinvop set_lock]. rewrite Hop.
    change (TLBINV_NOBODY =? TLBINV_ONE) with false.
    change (TLBINV_NOBODY =? TLBINV_ALLUSER) with false.
    change (TLBINV_NOBODY =? TLBINV_ALLKERNEL) with false.
    change (TLBINV_NOBODY =? TLBINV_ALL) with false. cbv iota.
    wp_steps. rewrite !upd_ti_upd_ti.
    replace (set_lock false
      (set_tlbinvop TLBINV_NOBODY (set_victim None (set_lock true ti))))
      with ti; [by apply upd_ti_id|].
    destruct ti. cbn in *. by subst. }
  destruct Hwp as ([] & s' & Hrun & ->). done.
Qed.

(** When the pending operation is one of the five and a victim is named
    for TLBINV_ONE, the routine returns. *)
Lemma shootdown_process_total (ci : cpu_info) (s : kstate)
    (ti : pmap_tlb_info) :
  tlb_inv cfg [] s (ci_tlb ci) ti → ti_lock ti = false →
  has_shootdown cfg = true → diagnostic_ok cfg →
  valid_op (ti_tlbinvop ti) →
  (ti_tlbinvop ti = TLBINV_ONE →
   ∃ v pm, ti_victim ti = Some v ∧ v ≠ pmap_kernel
           ∧ pmaps s !! v = Some pm) →
  wp (pmap_tlb_shootdown_process cfg ci) s (λ _ s',
    ∃ ti', pmap_tlbs s' !! ci_tlb ci = Some ti'
      ∧ ti_tlbinvop ti' = TLBINV_NOBODY ∧ ti_victim ti' = None
      ∧ ti_lock ti' = false).
Proof.
  intros Hinv Hl Hsh Hdiag Hop Hone.
  pose proof Hcfg as [HK HN].
  assert (Hmp : MULTIPROCESSOR cfg = true).
  { unfold has_shootdown in Hsh. by apply andb_true_iff in Hsh as [? _]. }
  pose proof (inv_lookup _ _ _ _ _ Hinv) as Hti.
  pose proof (tlb_inv_lock cfg [] s (ci_tlb ci) ti true Hinv) as Hinv0.
  assert (Hend : ∀ s1 t1, pmap_tlbs s1 !! ci_tlb ci = Some t1 →
    wp (modify_ti (ci_tlb ci) (set_victim None) >>
        modify_ti (ci_tlb ci) (set_tlbinvop TLBINV_NOBODY) >>
        TLBINFO_UNLOCK (ci_tlb ci)) s1
      (λ _ s', ∃ ti', pmap_tlbs s' !! ci_tlb ci = Some ti'
         ∧ ti_tlbinvop ti' = TLBINV_NOBODY ∧ ti_victim ti' = None
         ∧ ti_lock ti' = false)).
  { intros s1 t1 Ht1. wp_steps. eexists. split; [solve_lookup|]. done. }
  unfold pmap_tlb_shootdown_process. cbv zeta. wp_steps.
  cbn [ti_tlbinvop ti_victim set_lock].
  destruct (ti_tlbinvop ti =? TLBINV_ONE) eqn:E1.
  { apply Z.eqb_eq in E1.
    destruct (Hone E1) as (v & pm & Hv & Hvk & Hpm). rewrite Hv.
    wp_steps. wp_assert; [by rewrite bool_decide_eq_false_2|].
    destruct (pmap_tlb_intersecting_onproc_p cfg pm (set_lock true ti))
      eqn:Hon.
    - assert (Hin : v ∈ ti_pais ti).
      { destruct (decide (v ∈ ti_pais ti)) as [|Hnin]; [done|].
        destruct (inv_unlinked _ _ _ _ _ Hinv0 v pm Hvk Hpm Hnin)
          as [_ Hun]. destruct (Hun Hmp) as [_ Hf]. congruence. }
      destruct (inv_linked _ _ _ _ _ Hinv v Hin) as (_ & pm' & Hpm' & Ha & _).
      rewrite Hpm in Hpm'. injection Hpm' as <-.
      wp_assert; [apply Z.ltb_lt; lia|]. wp_step.
      eapply Hend. solve_lookup.
    - destruct (pai_asid pm (ci_tlb ci) =? 0) eqn:E0; cbn [negb].
      + wp_step. eapply Hend. solve_lookup.
      + apply Z.eqb_neq in E0.
        assert (Hin : v ∈ ti_pais ti).
        { destruct (decide (v ∈ ti_pais ti)) as [|Hnin]; [done|].
          by destruct (inv_unlinked _ _ _ _ _ Hinv v pm Hvk Hpm Hnin). }
        eapply wp_mono.
        { apply (pai_reset_total cfg _ _ _ v pm Hinv0 Hin Hpm).
          intros _. exact Hon. }
        intros [] s1 ->.
        pose proof (pai_reset_inv cfg Hcfg [] _ _ _ v pm Hinv0 Hin Hpm
                      (λ _, Hon)) as Hinv1.
        eapply Hend. apply (inv_lookup _ _ _ _ _ Hinv1). }
  destruct (ti_tlbinvop ti =? TLBINV_ALLUSER) eqn:E2.
  { eapply wp_mono.
    { apply (reinitialize_spec cfg Hcfg _ _ _ TLBINV_ALLUSER Hinv0);
        [right; split; [done|by right]|done]. }
    intros [] s1 (ti1 & Hinv1 & _). eapply Hend.
    apply (inv_lookup _ _ _ _ _ Hinv1). }
  destruct (ti_tlbinvop ti =? TLBINV_ALLKERNEL) eqn:E3.
  { wp_step. eapply Hend. solve_lookup. }
  destruct (ti_tlbinvop ti =? TLBINV_ALL) eqn:E4.
  { eapply wp_mono.
    { apply (reinitialize_spec cfg Hcfg _ _ _ TLBINV_ALL Hinv0);
        [right; split; [done|by left]|done]. }
    intros [] s1 (ti1 & Hinv1 & _). eapply Hend.
    apply (inv_lookup _ _ _ _ _ Hinv1). }
  wp_step. eapply Hend. solve_lookup.
Qed.

End Process.

(** C6: pmap 2 runs on CPU 3 with ASID 2 of TLB 1.  A shootdown for it
    from CPU 0 leaves TLBINV_ONE pending on TLB 1 with pmap 2 as the
    victim, and sends an IPI to CPU 3.  Pmap 2 is deactivated on CPU 3 and
    released before the IPI is taken: [pmap_tlb_asid_release_all] clears
    the victim and leaves TLBINV_ONE pending.  From there
    [pmap_tlb_shootdown_process] does not return: it follows the victim,
    which is NULL, and nothing is reset. *)
Theorem shootdown_process_null_victim :
  tlb_inv cfg_mp [] ex_two_running 1
    (ex_mp_tlb 5 3 [7; 0] TLBINV_NOBODY None)
  ∧ ∃ s1 s2 s3,
      pmap_tlb_shootdown_bystanders cfg_mp cpu0 2%nat ex_two_running
      = Some (true, s1)
      ∧ (pending <$> (pmap_tlbs s1 !! 1%nat))
        = Some (TLBINV_ONE, Some 2%nat)
      ∧ ipis s1 = [3%nat]
      ∧ pmap_tlb_asid_deactivate cfg_mp cpu3 2%nat s1 = Some (tt, s2)
      ∧ pmap_tlb_asid_release_all cfg_mp cpu0 2%nat s2 = Some (tt, s3)
      ∧ (pending <$> (pmap_tlbs s3 !! 1%nat)) = Some (TLBINV_ONE, None)
      ∧ (ti_lock <$> (pmap_tlbs s3 !! 1%nat)) = Some false
      ∧ pmap_tlb_shootdown_process cfg_mp cpu3 s3 = None.
Proof.
  split; [ex_tlb_inv ex_below3|].
  eexists _, _, _. split; [vm_compute; reflexivity|].
  split; [reflexivity|]. split; [reflexivity|].
  split; [vm_compute; reflexivity|]. split; [vm_compute; reflexivity|].
  split; [reflexivity|]. split; [reflexivity|]. vm_compute. reflexivity.
Qed.

(** ** pmap_tlb_asid_release_all *)

Section ReleaseAll.

Context (cfg : config) (Hcfg : cfg_ok cfg).

(** The consistency of a TLB depends on a pmap through its ASID of the TLB
    and through the CPUs of the TLB it is active and onproc on. *)
Lemma tlb_inv_pmap_ext (X : list pmap_t) (s s' : kstate) (j : nat)
    (tj : pmap_tlb_info) (p : pmap_t) (pm pm' : pmap) :
  tlb_inv cfg X s j tj → pmap_tlbs s' !! j = Some tj →
  pmaps s !! p = Some pm → pmaps s' = <[p := pm']> (pmaps s) →
  pai_asid pm' j = pai_asid pm j →
  pmap_tlb_intersecting_active_p cfg pm' tj
  = pmap_tlb_intersecting_active_p cfg pm tj →
  pmap_tlb_intersecting_onproc_p cfg pm' tj
  = pmap_tlb_intersecting_onproc_p cfg pm tj →
  tlb_inv cfg X s' j tj.
Proof.
  intros [Hlk Hmax Hres Hcons Hhint Hbelow Hnd Hlinked Hdist Hunl]
    Hlk' Hpm Hpms Ha Hact Hon.
  assert (Hget : ∀ q qm', pmaps s' !! q = Some qm' →
            ∃ qm, pmaps s !! q = Some qm ∧ pai_asid qm' j = pai_asid qm j
              ∧ pmap_tlb_intersecting_active_p cfg qm' tj
                = pmap_tlb_intersecting_active_p cfg qm tj
              ∧ pmap_tlb_intersecting_onproc_p cfg qm' tj
                = pmap_tlb_intersecting_onproc_p cfg qm tj).
  { intros q qm' Hq. rewrite Hpms in Hq.
    destruct (decide (q = p)) as [Heq|Hne]; [subst q|].
    - rewrite lookup_insert_eq in Hq. injection Hq as <-. by exists pm.
    - rewrite lookup_insert_ne in Hq by done. by exists qm'. }
  assert (Hput : ∀ q qm, pmaps s !! q = Some qm →
            ∃ qm', pmaps s' !! q = Some qm'
              ∧ pai_asid qm' j = pai_asid qm j
              ∧ pmap_tlb_intersecting_active_p cfg qm' tj
                = pmap_tlb_intersecting_active_p cfg qm tj
              ∧ pmap_tlb_intersecting_onproc_p cfg qm' tj
                = pmap_tlb_intersecting_onproc_p cfg qm tj).
  { intros q qm Hq. rewrite Hpms.
    destruct (decide (q = p)) as [Heq|Hne]; [subst q|].
    - rewrite lookup_insert_eq. pose proof (eq_trans (eq_sym Hq) Hpm) as E.
      injection E as ->. by exists pm'.
    - rewrite lookup_insert_ne by done. by exists qm. }
  split; try done.
  - intros q Hq. destruct (Hlinked q Hq) as (Hqk & qm & Hqm & H1 & H2 & H3).
    split; [done|]. destruct (Hput q qm Hqm) as (qm' & Hqm' & E1 & E2 & E3).
    exists qm'. rewrite E1, E2. done.
  - intros q r qm' rm' Hq Hr Hqm' Hrm' He.
    destruct (Hget q qm' Hqm') as (qm & Hqm & E1 & _).
    destruct (Hget r rm' Hrm') as (rm & Hrm & E1' & _).
    apply (Hdist q r qm rm); try done. congruence.
  - intros q qm' Hqk Hqm' Hnin.
    destruct (Hget q qm' Hqm') as (qm & Hqm & E1 & E2 & E3).
    rewrite E1, E2, E3. by apply (Hunl q qm).
Qed.

(** What [pmap_tlb_asid_release_all] does under the lock of one TLB. *)
Lemma release_all_tlb_spec (s : kstate) (i : nat) (ti : pmap_tlb_info)
    (p : pmap_t) (pm : pmap) :
  tlb_inv cfg [] s i ti → ti_lock ti = false →
  p ≠ pmap_kernel → pmaps s !! p = Some pm →
  MULTIPROCESSOR cfg = true →
  pmap_tlb_intersecting_onproc_p cfg pm ti = false →
  wp (release_all_tlb cfg p i) s (λ _ s',
    ∃ ti',
      pmap_tlbs s' = <[i := ti']> (pmap_tlbs s)
      ∧ pmaps s'
        = <[p := if bool_decide (p ∈ ti_pais ti)
                 then pai_reset_pm cfg i ti pm else pm]> (pmaps s)
      ∧ tlb_inv cfg [] s' i ti' ∧ ti_lock ti' = false
      ∧ (p ∉ ti_pais ti')
      ∧ ti_victim ti'
        = (if bool_decide (p ∈ ti_pais ti ∧ ti_victim ti = Some p)
           then None else ti_victim ti)
      ∧ ti_tlbinvop ti' = ti_tlbinvop ti
      ∧ ti_kcpuset ti' = ti_kcpuset ti).
Proof.
  intros Hinv Hl Hpk Hpm Hmp Hon. pose proof Hcfg as [HK HN].
  pose proof (inv_lookup _ _ _ _ _ Hinv) as Hti.
  unfold release_all_tlb. wp_steps.
  unfold PMAP_PAI_ASIDVALID_P.
  destruct (decide (p ∈ ti_pais ti)) as [Hin|Hnin].
  - destruct (inv_linked _ _ _ _ _ Hinv p Hin) as (_ & pm0 & Hpm0 & Ha & _).
    rewrite Hpm in Hpm0. injection Hpm0 as <-.
    rewrite (proj2 (Z.eqb_neq _ 0)) by lia. cbn [negb when].
    wp_step.
    set (tv := if bool_decide (ti_victim ti = Some p)
               then set_victim None (set_lock true ti) else set_lock true ti).
    assert (Hinvv : tlb_inv cfg [] (upd_ti i tv s) i tv).
    { eapply tlb_inv_ext; [exact Hinv|by eapply lookup_upd_ti_eq|done|..];
        unfold tv; by case_bool_decide. }
    apply (wp_to _ _ tt (upd_ti i tv s)).
    { cbn [ti_victim set_lock]. unfold tv. case_bool_decide; cbn [when].
      - wp_step. split; [done|]. by rewrite upd_ti_upd_ti.
      - by apply wp_ret. }
    assert (Hinv1 := pai_reset_inv cfg Hcfg [] _ _ _ p pm Hinvv
                       ltac:(unfold tv; by case_bool_decide) Hpm
                       ltac:(intros _; unfold tv; by case_bool_decide)).
    eapply wp_mono.
    { apply (pai_reset_total cfg _ _ _ p pm Hinvv); [|done|].
      - unfold tv; by case_bool_decide.
      - intros _. unfold tv; by case_bool_decide. }
    intros [] s1 ->.
    pose proof (inv_lookup _ _ _ _ _ Hinv1) as Hlk1.
    pose proof (pai_reset_ti_fields cfg p (pai_asid pm i) tv)
      as (F1 & F2 & F3 & F4 & F5 & F6 & F7 & F8 & F9).
    wp_steps. wp_assert.
    { apply negb_true_iff, bool_decide_eq_false. rewrite F3.
      intros Hx. by apply list_elem_of_filter in Hx as [Hx _]. }
    wp_step.
    exists (set_lock false (pai_reset_ti cfg p (pai_asid pm i) tv)).
    split.
    { unfold pai_reset_store. st_simpl.
      by rewrite !list_insert_insert_eq. }
    split.
    { rewrite bool_decide_eq_true_2 by done. unfold pai_reset_store.
      st_simpl. f_equal. unfold pai_reset_pm, tv.
      by case_bool_decide. }
    split.
    { eapply tlb_inv_ext; [exact Hinv1|solve_lookup|done..]. }
    split; [done|]. split.
    { cbn [ti_pais set_lock]. rewrite F3. intros Hx.
      by apply list_elem_of_filter in Hx as [Hx _]. }
    split.
    { cbn [ti_victim set_lock]. rewrite F4. unfold tv.
      case_bool_decide as Hv.
      - by rewrite bool_decide_eq_true_2.
      - rewrite bool_decide_eq_false_2; [done|]. by intros [_ ?]. }
    split.
    { cbn [ti_tlbinvop set_lock]. rewrite F6. unfold tv.
      by case_bool_decide. }
    cbn [ti_kcpuset set_lock]. rewrite F5. unfold tv. by case_bool_decide.
  - destruct (inv_unlinked _ _ _ _ _ Hinv p pm Hpk Hpm Hnin) as [H0 _].
    rewrite H0. change (0 =? 0) with true. cbn [negb when].
    wp_steps. wp_assert.
    { apply negb_true_iff, bool_decide_eq_false. done. }
    wp_step. exists ti.
    pose proof (set_lock_set_lock false ti Hl) as E. cbn [negb] in E.
    rewrite upd_ti_upd_ti, E, (upd_ti_id _ _ _ Hti).
    split; [by rewrite list_insert_id|].
    rewrite (bool_decide_eq_false_2 (p ∈ _)) by done.
    split; [by rewrite insert_id|]. split; [done|]. split; [done|].
    split; [done|]. split; [|done].
    rewrite bool_decide_eq_false_2; [done|]. by intros [? _].
Qed.


(** A reset of the binding to one TLB is not seen by another TLB. *)
Lemma pai_reset_pm_other (i j : nat) (ti tj : pmap_tlb_info) (pm : pmap) :
  MULTIPROCESSOR cfg = true → PMAP_TLB_MAX cfg ≠ 1%nat → i ≠ j →
  ti_kcpuset ti ## ti_kcpuset tj →
  pai_asid (pai_reset_pm cfg i ti pm) j = pai_asid pm j
  ∧ pmap_tlb_intersecting_active_p cfg (pai_reset_pm cfg i ti pm) tj
    = pmap_tlb_intersecting_active_p cfg pm tj
  ∧ pmap_tlb_intersecting_onproc_p cfg (pai_reset_pm cfg i ti pm) tj
    = pmap_tlb_intersecting_onproc_p cfg pm tj.
Proof.
  intros Hmp Hmax Hij Hd.
  unfold pai_reset_pm, pmap_tlb_intersecting_active_p,
    pmap_tlb_intersecting_onproc_p.
  rewrite Hmp. apply Nat.eqb_neq in Hmax. rewrite Hmax.
  split; [by apply pai_asid_set_ne|]. split; [|done].
  cbn [pm_active set_active set_pai_asid]. unfold kcpuset_intersecting_p.
  assert (E : (pm_active pm ∖ ti_kcpuset ti) ∩ ti_kcpuset tj
              = pm_active pm ∩ ti_kcpuset tj).
  { apply set_eq. intros x. rewrite !elem_of_intersection, elem_of_difference.
    split; [tauto|]. intros [Hx Hj]. split; [|done]. split; [done|].
    intros Hk. by apply (Hd x). }
  by rewrite E.
Qed.

(** The loop over the TLBs from index [k] on, where there is more than
    one TLB. *)
Lemma release_all_loop_spec (p : pmap_t) (m : nat) :
  ∀ (k : nat) (s : kstate) (pm : pmap),
    (k + m = length (pmap_tlbs s))%nat →
    pmaps s !! p = Some pm → p ≠ pmap_kernel →
    MULTIPROCESSOR cfg = true → PMAP_TLB_MAX cfg ≠ 1%nat →
    pm_onproc pm = ∅ →
    (∀ j tj, pmap_tlbs s !! j = Some tj →
       tlb_inv cfg [] s j tj ∧ ti_lock tj = false) →
    tlbs_disjoint s →
    (∀ c, c ∈ pm_active pm →
       ∃ j tj, (k ≤ j)%nat ∧ pmap_tlbs s !! j = Some tj
               ∧ c ∈ ti_kcpuset tj) →
    wp (release_all_loop cfg p (seq k m)) s (λ _ s',
      ∃ pm', pmaps s' !! p = Some pm' ∧ pm_active pm' = ∅
        ∧ (∀ q, q ≠ p → pmaps s' !! q = pmaps s !! q)
        ∧ length (pmap_tlbs s') = length (pmap_tlbs s)
        ∧ (∀ j, (j < k)%nat → pai_asid pm' j = pai_asid pm j)
        ∧ ∀ j tj, pmap_tlbs s !! j = Some tj →
            ∃ tj', pmap_tlbs s' !! j = Some tj'
              ∧ tlb_inv cfg [] s' j tj' ∧ ti_lock tj' = false
              ∧ ti_tlbinvop tj' = ti_tlbinvop tj
              ∧ ti_kcpuset tj' = ti_kcpuset tj
              ∧ ((j < k)%nat → tj' = tj)
              ∧ ((k ≤ j)%nat →
                 pai_asid pm' j = 0 ∧ (p ∉ ti_pais tj')
                 ∧ ti_victim tj'
                   = if bool_decide (p ∈ ti_pais tj ∧ ti_victim tj = Some p)
                     then None else ti_victim tj)).
Proof.
  induction m as [|m IH];
    intros k s pm Hlen Hpm Hpk Hmp Hmax Hon Hall Hdis Hcov.
  - cbn [seq release_all_loop]. wp_steps.
    assert (He : pm_active pm = ∅).
    { apply elem_of_equiv_empty_L. intros c Hc.
      destruct (Hcov c Hc) as (j & tj & Hj & Hlk & _).
      apply lookup_lt_Some in Hlk. lia. }
    unfold kcpuset_iszero. rewrite bool_decide_eq_true_2 by done.
    apply wp_ret. exists pm. split; [done|]. split; [done|].
    split; [done|]. split; [done|]. split; [done|].
    intros j tj Hj. exists tj. destruct (Hall j tj Hj) as [Hi Hl].
    split; [done|]. split; [done|]. split; [done|]. split; [done|].
    split; [done|]. split; [done|].
    intros Hkj. apply lookup_lt_Some in Hj. lia.
  - assert (Hactp : ∀ tj pm0, pmap_tlb_intersecting_active_p cfg pm0 tj
              = kcpuset_intersecting_p (pm_active pm0) (ti_kcpuset tj)).
    { intros. unfold pmap_tlb_intersecting_active_p.
      by rewrite (proj2 (Nat.eqb_neq _ _) Hmax). }
    assert (Honp : ∀ tj pm0, pmap_tlb_intersecting_onproc_p cfg pm0 tj
              = kcpuset_intersecting_p (pm_onproc pm0) (ti_kcpuset tj)).
    { intros. unfold pmap_tlb_intersecting_onproc_p.
      by rewrite (proj2 (Nat.eqb_neq _ _) Hmax). }
    assert (Hempty : ∀ kc, kcpuset_intersecting_p ∅ kc = false).
    { intros kc. unfold kcpuset_intersecting_p.
      apply bool_decide_eq_false. intros H. apply H.
      apply elem_of_equiv_empty_L. intros x Hx.
      apply elem_of_intersection in Hx as [Hx _].
      by apply elem_of_empty in Hx. }
    cbn [seq release_all_loop]. wp_steps.
    destruct (kcpuset_iszero (pm_active pm)) eqn:Hz.
    + unfold kcpuset_iszero in Hz. apply bool_decide_eq_true in Hz.
      apply wp_ret. exists pm. split; [done|]. split; [done|].
      split; [done|]. split; [done|]. split; [done|].
      intros j tj Hj. exists tj. destruct (Hall j tj Hj) as [Hi Hl].
      split; [done|]. split; [done|]. split; [done|]. split; [done|].
      split; [done|]. split; [done|]. intros _.
      assert (Hnin : p ∉ ti_pais tj).
      { intros Hin.
        destruct (inv_linked _ _ _ _ _ Hi p Hin) as (_ & pm0 & Hpm0 & _ & _ & Ha).
        rewrite Hpm in Hpm0. injection Hpm0 as <-.
        specialize (Ha Hmp). rewrite Hactp, Hz, Hempty in Ha. done. }
      destruct (inv_unlinked _ _ _ _ _ Hi p pm Hpk Hpm Hnin) as [H0 _].
      split; [done|]. split; [done|].
      rewrite bool_decide_eq_false_2; [done|]. by intros [? _].
    + destruct (lookup_lt_is_Some_2 (pmap_tlbs s) k ltac:(lia)) as [tk Htk].
      destruct (Hall k tk Htk) as [Hik Hlk].
      apply wp_bind. eapply wp_mono.
      { apply (release_all_tlb_spec s k tk p pm Hik Hlk Hpk Hpm Hmp).
        by rewrite Honp, Hon, Hempty. }
      intros [] s1 (tk' & Htlbs1 & Hpms1 & Hik' & Hlk' & Hnin' & Hv' & Hop'
                    & Hkc').
      set (pm1 := if bool_decide (p ∈ ti_pais tk)
                  then pai_reset_pm cfg k tk pm else pm) in *.
      assert (Hpm1 : pmaps s1 !! p = Some pm1)
        by (rewrite Hpms1; apply lookup_insert_eq).
      assert (Hlk1 : ∀ j, j ≠ k → pmap_tlbs s1 !! j = pmap_tlbs s !! j).
      { intros j Hj. rewrite Htlbs1. by apply list_lookup_insert_ne. }
      assert (Hlkk : pmap_tlbs s1 !! k = Some tk').
      { rewrite Htlbs1. apply list_lookup_insert_eq.
        by eapply lookup_lt_Some. }
      assert (Hother : ∀ j tj, j ≠ k → pmap_tlbs s !! j = Some tj →
                pai_asid pm1 j = pai_asid pm j
                ∧ pmap_tlb_intersecting_active_p cfg pm1 tj
                  = pmap_tlb_intersecting_active_p cfg pm tj
                ∧ pmap_tlb_intersecting_onproc_p cfg pm1 tj
                  = pmap_tlb_intersecting_onproc_p cfg pm tj).
      { intros j tj Hj Htj. unfold pm1.
        destruct (bool_decide (p ∈ ti_pais tk)); [|done].
        apply pai_reset_pm_other; try done. by apply (Hdis k j). }
      assert (Hon1 : pm_onproc pm1 = ∅).
      { unfold pm1. destruct (bool_decide (p ∈ ti_pais tk)); [|done].
        by rewrite pai_reset_pm_onproc. }
      assert (Hk0 : pai_asid pm1 k = 0).
      { unfold pm1. destruct (decide (p ∈ ti_pais tk)) as [Hin|Hin].
        - rewrite bool_decide_eq_true_2 by done. apply pai_reset_pm_asid.
        - rewrite bool_decide_eq_false_2 by done.
          by destruct (inv_unlinked _ _ _ _ _ Hik p pm Hpk Hpm Hin). }
      assert (Hact1 : ∀ c, c ∈ pm_active pm1 →
                c ∈ pm_active pm ∧ c ∉ ti_kcpuset tk).
      { intros c Hc. unfold pm1 in Hc.
        destruct (decide (p ∈ ti_pais tk)) as [Hin|Hin];
          [rewrite bool_decide_eq_true_2 in Hc by done
          |rewrite bool_decide_eq_false_2 in Hc by done].
        - unfold pai_reset_pm in Hc. rewrite Hmp in Hc.
          rewrite (proj2 (Nat.eqb_neq _ _) Hmax) in Hc.
          cbn [pm_active set_active set_pai_asid] in Hc.
          by apply elem_of_difference in Hc.
        - split; [done|]. intros Hk.
          destruct (inv_unlinked _ _ _ _ _ Hik p pm Hpk Hpm Hin) as [_ Hun].
          destruct (Hun Hmp) as [Ha _]. rewrite Hactp in Ha.
          unfold kcpuset_intersecting_p in Ha.
          apply bool_decide_eq_false in Ha. apply Ha. intros He.
          assert (Hx : c ∈ pm_active pm ∩ ti_kcpuset tk)
            by (by apply elem_of_intersection).
          rewrite He in Hx. by apply elem_of_empty in Hx. }
      eapply wp_mono.
      { apply (IH (S k) s1 pm1); try done.
        - rewrite Htlbs1, length_insert. lia.
        - intros j tj1 Hj. destruct (decide (j = k)) as [Heq|Hne].
          + subst j. rewrite Hlkk in Hj. injection Hj as <-. done.
          + rewrite Hlk1 in Hj by done. destruct (Hall j tj1 Hj) as [Hi Hl].
            split; [|done].
            destruct (Hother j tj1 Hne Hj) as (E1 & E2 & E3).
            eapply (tlb_inv_pmap_ext [] s s1 j tj1 p pm pm1); try done.
            by rewrite Hlk1.
        - intros i j ti tj Hij Hi Hj.
          assert (Hkci : ∃ ti0, pmap_tlbs s !! i = Some ti0
                           ∧ ti_kcpuset ti = ti_kcpuset ti0).
          { destruct (decide (i = k)) as [Heq|Hne].
            - subst i. rewrite Hlkk in Hi. injection Hi as <-. by exists tk.
            - rewrite Hlk1 in Hi by done. by exists ti. }
          assert (Hkcj : ∃ tj0, pmap_tlbs s !! j = Some tj0
                           ∧ ti_kcpuset tj = ti_kcpuset tj0).
          { destruct (decide (j = k)) as [Heq|Hne].
            - subst j. rewrite Hlkk in Hj. injection Hj as <-. by exists tk.
            - rewrite Hlk1 in Hj by done. by exists tj. }
          destruct Hkci as (ti0 & Hi0 & ->), Hkcj as (tj0 & Hj0 & ->).
          by apply (Hdis i j).
        - intros c Hc. destruct (Hact1 c Hc) as [Hc1 Hc2].
          destruct (Hcov c Hc1) as (j & tj & Hj & Hlj & Hin).
          destruct (decide (j = k)) as [Heq|Hne].
          + subst j. rewrite Htk in Hlj. injection Hlj as <-. done.
          + exists j, tj. split; [lia|]. split; [by rewrite Hlk1|done]. }
      intros [] s' (pm' & P1 & P2 & P3 & P4 & P5 & P6).
      exists pm'. split; [done|]. split; [done|].
      split.
      { intros q Hq. rewrite (P3 q Hq), Hpms1. by apply lookup_insert_ne. }
      split; [rewrite P4, Htlbs1; apply length_insert|].
      split.
      { intros j Hj. rewrite (P5 j) by lia.
        destruct (lookup_lt_is_Some_2 (pmap_tlbs s) j ltac:(lia)) as [tj Htj].
        by destruct (Hother j tj ltac:(lia) Htj) as (E1 & _). }
      intros j tj Hj. destruct (decide (j = k)) as [Heq|Hne].
      * subst j. rewrite Htk in Hj. injection Hj as <-.
        destruct (P6 k tk' Hlkk) as (t & Q1 & Q2 & Q3 & Q4 & Q5 & Q6 & _).
        specialize (Q6 ltac:(lia)). subst t.
        exists tk'. split; [done|]. split; [done|]. split; [done|].
        split; [done|]. split; [done|]. split; [lia|]. intros _.
        split; [by rewrite (P5 k) by lia|]. done.
      * destruct (P6 j tj ltac:(by rewrite Hlk1))
          as (t & Q1 & Q2 & Q3 & Q4 & Q5 & Q6 & Q7).
        exists t. split; [done|]. split; [done|]. split; [done|].
        split; [done|]. split; [done|].
        split; [intros Hjk; apply Q6; lia|].
        intros Hkj. apply Q7. lia.
Qed.


Lemma release_all_check_spec (p : pmap_t) (pm : pmap) (s : kstate)
    (idx : list nat) :
  pmaps s !! p = Some pm → (∀ i, i ∈ idx → pai_asid pm i = 0) →
  wp (release_all_check cfg p idx) s (λ _ s', s' = s).
Proof.
  intros Hpm. induction idx as [|i idx IH]; intros H0;
    cbn [release_all_check]; [by apply wp_ret|].
  wp_steps. wp_assert; [apply Z.eqb_eq, H0; by left|].
  apply IH. intros j Hj. apply H0. by right.
Qed.

(** What [pmap_tlb_asid_release_all] does for the TLBs it visits.  For a
    pmap that is not the kernel's and is onproc nowhere, from a store
    whose TLBs are consistent and not locked, it returns.  On a multiprocessor the pmap ends with no
    ASID of any TLB and linked to none; the victim of a TLB that the pmap
    was linked to is cleared when it was the pmap, every other victim and
    every pending operation is left as it was.  On a uniprocessor the pmap
    ends with no ASID and not linked, unless its ASID is the current one of
    the CPU: then the binding is kept and the entries of the ASID are
    invalidated. *)
Theorem release_all_resets_bindings (s : kstate) (ci : cpu_info)
    (p : pmap_t) (pm : pmap) :
  pmaps s !! p = Some pm → p ≠ pmap_kernel →
  (∀ j tj, pmap_tlbs s !! j = Some tj →
     tlb_inv cfg [] s j tj ∧ ti_lock tj = false) →
  (0 < length (pmap_tlbs s))%nat →
  (MULTIPROCESSOR cfg = true →
   pm_onproc pm = ∅ → tlbs_disjoint s →
   (∀ c, c ∈ pm_active pm →
      ∃ j tj, pmap_tlbs s !! j = Some tj ∧ c ∈ ti_kcpuset tj) →
   wp (pmap_tlb_asid_release_all cfg ci p) s (λ _ s',
     ∃ pm', pmaps s' !! p = Some pm'
       ∧ ∀ j tj, pmap_tlbs s !! j = Some tj →
           ((1 <? PMAP_TLB_MAX cfg)%nat = true ∨ j = 0%nat) →
           ∃ tj', pmap_tlbs s' !! j = Some tj'
             ∧ pai_asid pm' j = 0 ∧ (p ∉ ti_pais tj')
             ∧ (p ∈ ti_pais tj → ti_victim tj = Some p →
                ti_victim tj' = None)
             ∧ (ti_victim tj ≠ Some p → ti_victim tj' = ti_victim tj)
             ∧ ti_tlbinvop tj' = ti_tlbinvop tj
             ∧ ti_lock tj' = false))
  ∧ (MULTIPROCESSOR cfg = false →
     ∀ t0, pmap_tlbs s !! 0%nat = Some t0 →
     wp (pmap_tlb_asid_release_all cfg ci p) s (λ _ s',
       ∃ t0' pm',
         pmap_tlbs s' !! 0%nat = Some t0' ∧ pmaps s' !! p = Some pm'
         ∧ ti_lock t0' = false
         ∧ if bool_decide (p ∈ ti_pais t0
                           ∧ ci_pmap_asid_cur s = pai_asid pm 0)
           then pm' = pm ∧ t0' = t0
                ∧ pai_asid pm 0 ∉ hw_entries (hw s')
           else pai_asid pm' 0 = 0 ∧ (p ∉ ti_pais t0'))).
Proof.
  intros Hpm Hpk Hall Hlen. pose proof Hcfg as [HK HN].
  assert (Hvic : ∀ tj tj' : pmap_tlb_info,
            ti_victim tj'
            = (if bool_decide (p ∈ ti_pais tj ∧ ti_victim tj = Some p)
               then None else ti_victim tj) →
            (p ∈ ti_pais tj → ti_victim tj = Some p → ti_victim tj' = None)
            ∧ (ti_victim tj ≠ Some p → ti_victim tj' = ti_victim tj)).
  { intros tj tj' ->. split.
    - intros H1 H2. by rewrite bool_decide_eq_true_2.
    - intros H1. rewrite bool_decide_eq_false_2; [done|]. by intros [_ ?]. }
  split.
  - intros Hmp Hon Hdis Hcov.
    unfold pmap_tlb_asid_release_all. rewrite Hmp.
    wp_assert; [by rewrite bool_decide_eq_false_2|]. wp_steps.
    wp_assert.
    { unfold kcpuset_isotherset. rewrite Hon.
      apply negb_true_iff, bool_decide_eq_false. intros H. apply H.
      apply elem_of_equiv_empty_L. intros x Hx.
      apply elem_of_difference in Hx as [Hx _]. by apply elem_of_empty in Hx. }
    wp_steps.
    destruct (1 <? PMAP_TLB_MAX cfg)%nat eqn:Hmax.
    + assert (Hne : PMAP_TLB_MAX cfg ≠ 1%nat)
        by (apply Nat.ltb_lt in Hmax; lia).
      eapply wp_mono.
      { apply (release_all_loop_spec p (length (pmap_tlbs s)) 0 s pm);
          try done.
        intros c Hc. destruct (Hcov c Hc) as (j & tj & Hj & Hin).
        exists j, tj. split; [lia|done]. }
      intros [] s' (pm' & P1 & P2 & P3 & P4 & P5 & P6).
      apply wp_when_same.
      { intros _. apply (release_all_check_spec p pm'); [done|].
        intros i Hi. apply elem_of_seq in Hi.
        destruct (lookup_lt_is_Some_2 (pmap_tlbs s) i ltac:(lia)) as [t Ht].
        destruct (P6 i t Ht) as (t' & _ & _ & _ & _ & _ & _ & Q).
        by destruct (Q ltac:(lia)) as [? _]. }
      exists pm'. split; [done|]. intros j tj Hj _.
      destruct (P6 j tj Hj) as (tj' & Q1 & Q2 & Q3 & Q4 & Q5 & _ & Q7).
      destruct (Q7 ltac:(lia)) as (R1 & R2 & R3).
      destruct (Hvic tj tj' R3) as [V1 V2].
      exists tj'. done.
    + destruct (lookup_lt_is_Some_2 (pmap_tlbs s) 0 Hlen) as [t0 Ht0].
      destruct (Hall 0%nat t0 Ht0) as [Hi0 Hl0].
      eapply wp_mono.
      { apply (release_all_tlb_spec s 0 t0 p pm Hi0 Hl0 Hpk Hpm Hmp).
        unfold pmap_tlb_intersecting_onproc_p. rewrite Hon.
        destruct (PMAP_TLB_MAX cfg =? 1)%nat.
        - unfold kcpuset_iszero. by rewrite bool_decide_eq_true_2.
        - unfold kcpuset_intersecting_p. apply bool_decide_eq_false.
          intros H. apply H. apply elem_of_equiv_empty_L. intros x Hx.
          apply elem_of_intersection in Hx as [Hx _].
          by apply elem_of_empty in Hx. }
      intros [] s' (t0' & Htl & Hpms & Hi' & Hl' & Hnin' & Hv' & Hop' & Hkc').
      set (pm' := if bool_decide (p ∈ ti_pais t0)
                  then pai_reset_pm cfg 0 t0 pm else pm) in *.
      assert (Hpm' : pmaps s' !! p = Some pm')
        by (rewrite Hpms; apply lookup_insert_eq).
      assert (H0 : pai_asid pm' 0 = 0).
      { unfold pm'. destruct (decide (p ∈ ti_pais t0)) as [Hin|Hin].
        - rewrite bool_decide_eq_true_2 by done. apply pai_reset_pm_asid.
        - rewrite bool_decide_eq_false_2 by done.
          by destruct (inv_unlinked _ _ _ _ _ Hi0 p pm Hpk Hpm Hin). }
      apply wp_when_same.
      { intros _. apply (release_all_check_spec p pm'); [done|].
        intros i Hi. apply elem_of_seq in Hi.
        replace i with 0%nat by lia. done. }
      exists pm'. split; [done|]. intros j tj Hj [Hf| ->]; [done|].
      rewrite Ht0 in Hj. injection Hj as <-.
      destruct (Hvic t0 t0' Hv') as [V1 V2].
      exists t0'. split.
      { rewrite Htl. apply list_lookup_insert_eq. by eapply lookup_lt_Some. }
      done.
  - intros Hup t0 Ht0. destruct (Hall 0%nat t0 Ht0) as [Hi0 Hl0].
    pose proof (tlb_inv_lock cfg [] s 0 t0 true Hi0) as Hinv0.
    pose proof (set_lock_set_lock false t0 Hl0) as E. cbn [negb] in E.
    unfold pmap_tlb_asid_release_all. rewrite Hup.
    wp_assert; [by rewrite bool_decide_eq_false_2|]. wp_steps.
    destruct (decide (p ∈ ti_pais t0)) as [Hin|Hnin].
    + destruct (inv_linked _ _ _ _ _ Hi0 p Hin) as (_ & pm0 & Hpm0 & Ha & _).
      rewrite Hpm in Hpm0. injection Hpm0 as <-.
      rewrite (proj2 (Z.ltb_lt _ _)) by lia. cbn [when].
      st_simpl.
      destruct (ci_pmap_asid_cur s =? pai_asid pm 0) eqn:Hc.
      * apply Z.eqb_eq in Hc. wp_steps.
        exists t0, pm. split.
        { st_simpl. rewrite list_insert_insert_eq, E.
          apply list_lookup_insert_eq. by eapply lookup_lt_Some. }
        split; [done|]. split; [done|].
        rewrite bool_decide_eq_true_2 by done.
        split; [done|]. split; [done|]. cbn.
        intros Hx. apply list_elem_of_filter in Hx as [Hx _]. apply Hx. lia.
      * apply Z.eqb_neq in Hc. eapply wp_mono.
        { apply (pai_reset_total cfg _ _ _ p pm Hinv0 Hin Hpm).
          intros Hmp. congruence. }
        intros [] s1 ->.
        pose proof (pai_reset_inv cfg Hcfg [] _ _ _ p pm Hinv0 Hin Hpm
                      ltac:(intros Hmp; congruence)) as Hinv1.
        pose proof (inv_lookup _ _ _ _ _ Hinv1) as Hlk1.
        pose proof (pai_reset_ti_fields cfg p (pai_asid pm 0)
                      (set_lock true t0)) as (_ & _ & F3 & _).
        wp_step. eexists _, _. split; [solve_lookup|].
        split; [unfold pai_reset_store; solve_lookup|]. split; [done|].
        rewrite bool_decide_eq_false_2 by (by intros [_ ?]).
        split; [apply pai_reset_pm_asid|].
        cbn [ti_pais set_lock]. rewrite F3. intros Hx.
        by apply list_elem_of_filter in Hx as [Hx _].
    + destruct (inv_unlinked _ _ _ _ _ Hi0 p pm Hpk Hpm Hnin) as [H0 _].
      rewrite H0. rewrite (proj2 (Z.ltb_ge _ _)) by lia. cbn [when].
      wp_steps. exists t0, pm. split.
      { st_simpl. rewrite list_insert_insert_eq, E.
        apply list_lookup_insert_eq. by eapply lookup_lt_Some. }
      split; [done|]. split; [done|].
      rewrite bool_decide_eq_false_2 by (by intros [? _]). done.
Qed.

End ReleaseAll.

Lemma ex_mp_inv0 (op : Z) (victim : option pmap_t) :
  tlb_inv cfg_mp [] (ex_mp_store 5 3 [7; 0] op victim) 0
    (ex_tlb 7 1 [1; 0] [] None {[0%nat; 1%nat]} TLBINV_NOBODY).
Proof.
  ex_tlb_inv ltac:(intros _ a Ha; cbn in Ha;
                   assert (a = 0) as -> by lia; reflexivity).
Qed.

Lemma ex_up_current_inv :
  tlb_inv cfg_up [] ex_up_current 0 (ex_up_tlb 5 3 [7; 0]).
Proof. ex_tlb_inv ex_below3. Qed.

Lemma release_all_resets_bindings_witness :
  wp (pmap_tlb_asid_release_all cfg_mp cpu0 2%nat)
    (ex_mp_store 5 3 [7; 0] TLBINV_ONE (Some 2%nat)) (λ _ s',
      ∃ pm' t1',
        pmaps s' !! 2%nat = Some pm' ∧ pmap_tlbs s' !! 1%nat = Some t1'
        ∧ pai_asid pm' 1 = 0 ∧ (2%nat ∉ ti_pais t1')
        ∧ ti_victim t1' = None ∧ ti_tlbinvop t1' = TLBINV_ONE)
  ∧ wp (pmap_tlb_asid_release_all cfg_up cpu0 2%nat) ex_up (λ _ s',
      ∃ t0' pm',
        pmap_tlbs s' !! 0%nat = Some t0' ∧ pmaps s' !! 2%nat = Some pm'
        ∧ pai_asid pm' 0 = 0 ∧ (2%nat ∉ ti_pais t0')).
Proof.
  split.
  - destruct (release_all_resets_bindings cfg_mp cfg_mp_ok
                (ex_mp_store 5 3 [7; 0] TLBINV_ONE (Some 2%nat)) cpu0 2%nat
                (ex_pmap [(1%nat, 2)] {[2%nat; 3%nat]} ∅))
      as [Hmp _].
    + reflexivity.
    + discriminate.
    + intros j tj Hj. destruct j as [|[|j]]; try done; injection Hj as <-.
      * split; [apply ex_mp_inv0|reflexivity].
      * split; [apply ex_mp_inv|reflexivity].
    + cbn. lia.
    + destruct Hmp as (u & s' & Hrun & pm' & Hpm' & Hall).
      * reflexivity.
      * reflexivity.
      * apply ex_mp_disjoint.
      * intros c Hc. exists 1%nat. eexists. split; [reflexivity|exact Hc].
      * destruct (Hall 1%nat (ex_mp_tlb 5 3 [7; 0] TLBINV_ONE (Some 2%nat))
                    eq_refl (or_introl eq_refl))
          as (t1' & H1 & H2 & H3 & H4 & _ & H6 & _).
        exists u, s'. split; [exact Hrun|]. exists pm', t1'.
        split; [exact Hpm'|]. split; [exact H1|]. split; [exact H2|].
        split; [exact H3|]. split; [|exact H6].
        apply H4; [apply list_elem_of_here|reflexivity].
  - destruct (release_all_resets_bindings cfg_up cfg_up_ok ex_up cpu0 2%nat
                (ex_pmap [(0%nat, 2)] ∅ ∅))
      as [_ Hup].
    + reflexivity.
    + discriminate.
    + intros j tj Hj. destruct j as [|j]; try done; injection Hj as <-.
      split; [apply ex_up_inv|reflexivity].
    + cbn. lia.
    + destruct (Hup eq_refl (ex_up_tlb 5 3 [7; 0]) eq_refl)
        as (u & s' & Hrun & t0' & pm' & H1 & H2 & _ & H4).
      rewrite bool_decide_eq_false_2 in H4 by (intros [_ ?]; discriminate).
      exists u, s'. split; [exact Hrun|]. exists t0', pm'.
      split; [exact H1|]. split; [exact H2|]. exact H4.
Defined.

(** On a uniprocessor, when ASID 2, the ASID of pmap 2, is the current one
    of the CPU, [pmap_tlb_asid_release_all] for pmap 2 invalidates the
    entries of ASID 2 and returns with pmap 2 still linked and still
    holding ASID 2. *)
Lemma release_all_keeps_current_binding :
  tlb_inv cfg_up [] ex_up_current 0 (ex_up_tlb 5 3 [7; 0])
  ∧ ∃ s',
      pmap_tlb_asid_release_all cfg_up cpu0 2%nat ex_up_current
      = Some (tt, s')
      ∧ ((λ pm, pai_asid pm 0) <$> (pmaps s' !! 2%nat)) = Some 2
      ∧ (ti_pais <$> (pmap_tlbs s' !! 0%nat)) = Some [2%nat; 1%nat].
Proof.
  split; [apply ex_up_current_inv|].
  eexists. split; [vm_compute; reflexivity|]. split; reflexivity.
Qed.

(** C10: pmap 2 runs on CPU 3 with ASID 3 of TLB 1, whose ASIDs are all
    marked.  A shootdown for it from CPU 0 leaves TLBINV_ONE pending on
    TLB 1 with pmap 2 as the victim.  Pmap 2 is deactivated on CPU 3 and
    pmap 3 acquires an ASID on CPU 1: the reinitialisation of TLB 1 resets
    the binding of pmap 2, which is left with ASID 0, unlinked and active
    on no CPU, and leaves the victim alone.  [pmap_tlb_asid_release_all]
    for pmap 2 then finds [pm_active] empty, visits no TLB and returns
    with the store as it was: the victim of TLB 1 is still pmap 2. *)
Theorem release_all_leaves_victim :
  tlb_inv cfg_mp [] ex_busy 1 ex_busy_tlb
  ∧ ∃ s1 s2 s3 s4,
      pmap_tlb_shootdown_bystanders cfg_mp cpu0 2%nat ex_busy
      = Some (true, s1)
      ∧ (pending <$> (pmap_tlbs s1 !! 1%nat))
        = Some (TLBINV_ONE, Some 2%nat)
      ∧ pmap_tlb_asid_deactivate cfg_mp cpu3 2%nat s1 = Some (tt, s2)
      ∧ pmap_tlb_asid_acquire cfg_mp 3%nat cpu1 true s2 = Some (tt, s3)
      ∧ (pending <$> (pmap_tlbs s3 !! 1%nat))
        = Some (TLBINV_ONE, Some 2%nat)
      ∧ (ti_pais <$> (pmap_tlbs s3 !! 1%nat)) = Some [3%nat; 1%nat]
      ∧ pmaps s3 !! 2%nat = Some (ex_pmap [(1%nat, 0)] ∅ ∅)
      ∧ pmap_tlb_asid_release_all cfg_mp cpu0 2%nat s3 = Some (tt, s4)
      ∧ s4 = s3
      ∧ (ti_victim <$> (pmap_tlbs s4 !! 1%nat)) = Some (Some 2%nat)
      ∧ (ti_lock <$> (pmap_tlbs s4 !! 1%nat)) = Some false.
Proof.
  split; [apply ex_busy_inv|].
  eexists _, _, _, _. split; [vm_compute; reflexivity|].
  split; [reflexivity|]. split; [vm_compute; reflexivity|].
  split; [vm_compute; reflexivity|]. split; [reflexivity|].
  split; [reflexivity|]. split; [vm_compute; reflexivity|].
  split; [vm_compute; reflexivity|]. split; [reflexivity|].
  split; reflexivity.
Qed.

(** ** Rules for what a routine leaves alone *)

(** The relation [R h h'] is kept by a routine that starts holding the lock
    of the TLB [h], or none, and ends holding that of [h']; [ok_tlb] and
    [ok_cpu] are the TLBs and the CPUs the routines may work for. *)
Section Keeps.

Context (cfg : config).
Context (R : option nat → option nat → kstate → kstate → Prop).
Context (ok_tlb ok_cpu : nat → Prop).
Context (R_refl : ∀ h s, R h h s s).
Context (R_trans :
  ∀ h1 h2 h3 s1 s2 s3, R h1 h2 s1 s2 → R h2 h3 s2 s3 → R h1 h3 s1 s3).
Context (R_ti :
  ∀ h i s t t', ok_tlb i → pmap_tlbs s !! i = Some t →
    ti_fixed t' = ti_fixed t → ti_lock t' = ti_lock t →
    R h h s (upd_ti i t' s)).
Context (R_lock : ∀ i, ok_tlb i → keeps (R None (Some i)) (TLBINFO_LOCK i)).
Context (R_unlock :
  ∀ i, ok_tlb i → keeps (R (Some i) None) (TLBINFO_UNLOCK i)).
Context (R_pai :
  ∀ h i p v, ok_tlb i → keeps (R h h) (modify_pm p (set_pai_asid i v))).
Context (R_active :
  ∀ h p (g : pmap → gset nat),
    keeps (R h h) (modify_pm p (λ m, set_active (g m) m))).
Context (R_onproc :
  ∀ h c p (g : pmap → gset nat),
    ok_cpu c → (∀ m, g m ∖ {[c]} = pm_onproc m ∖ {[c]}) →
    keeps (R h h) (modify_pm p (λ m, set_onproc (g m) m))).
Context (R_hw :
  ∀ h f, (∀ x, hw_asid (f x) = hw_asid x) → keeps (R h h) (modify_hw f)).
Context (R_cur :
  ∀ h a,
    keeps (R h h) ((λ s, Some (tt, set_asid_cur a s)) >> tlb_set_asid a)).
Context (R_ipi : ∀ h j, keeps (R h h) (cpu_send_ipi j)).

Lemma keeps_ret {A} (h : option nat) (a : A) : keeps (R h h) (ret a).
Proof. intros s a' s' [= _ <-]. apply R_refl. Qed.

Lemma keeps_panic {A} (h h' : option nat) : keeps (R h h') (@panic A).
Proof. intros s a s' [=]. Qed.

Lemma keeps_bind {A B} (h1 h2 h3 : option nat) (m : M A) (k : A → M B) :
  keeps (R h1 h2) m → (∀ a, keeps (R h2 h3) (k a)) →
  keeps (R h1 h3) (bind m k).
Proof.
  intros Hm Hk s b s' Hrun. unfold bind in Hrun.
  destruct (m s) as [[a s1]|] eqn:E; [|done].
  eapply R_trans; [by eapply Hm|by eapply Hk].
Qed.

Lemma keeps_when (h : option nat) (b : bool) (m : M unit) :
  keeps (R h h) m → keeps (R h h) (when b m).
Proof. destruct b; [done|]. intros _. apply keeps_ret. Qed.

Lemma keeps_KASSERT (h : option nat) (b : bool) :
  keeps (R h h) (KASSERT cfg b).
Proof.
  unfold KASSERT. destruct (DIAGNOSTIC cfg && negb b);
    [apply keeps_panic|apply keeps_ret].
Qed.

Lemma keeps_get_ti (h : option nat) (i : nat) : keeps (R h h) (get_ti i).
Proof.
  intros s a s' Hrun. unfold get_ti in Hrun.
  destruct (pmap_tlbs s !! i); [|done]. injection Hrun as _ <-. apply R_refl.
Qed.

Lemma keeps_get_pm (h : option nat) (p : pmap_t) : keeps (R h h) (get_pm p).
Proof.
  intros s a s' Hrun. unfold get_pm in Hrun.
  destruct (pmaps s !! p); [|done]. injection Hrun as _ <-. apply R_refl.
Qed.

Lemma keeps_get_state (h : option nat) : keeps (R h h) get_state.
Proof. intros s a s' [= _ <-]. apply R_refl. Qed.

Lemma keeps_modify_ti (h : option nat) (i : nat)
    (f : pmap_tlb_info → pmap_tlb_info) :
  ok_tlb i → ti_update_ok f → keeps (R h h) (modify_ti i f).
Proof.
  intros Hi Hf s a s' Hrun. unfold modify_ti in Hrun.
  destruct (pmap_tlbs s !! i) as [t|] eqn:E; [|done].
  injection Hrun as _ <-. destruct (Hf t) as [H1 H2].
  by apply (R_ti h i s t (f t)).
Qed.

Lemma length_tlb_record_asids (entries b : list Z) (asid_max : Z) :
  length (tlb_record_asids cfg entries b asid_max).2 = length b.
Proof.
  unfold tlb_record_asids. generalize 0.
  revert b. induction entries as [|e entries IH]; intros b c; [done|].
  cbn [foldl]. unfold tlb_record_asids_step at 2. cbn [fst snd].
  destruct (_ && _); rewrite IH; [apply length_BITMAP_SET|done].
Qed.

(** The ASIDs found in the TLB are recorded in the bitmap that was read
    from the TLB just before. *)
Lemma keeps_record (h h' : option nat) (i : nat)
    (k : pmap_tlb_info → kstate → M unit) :
  ok_tlb i → (∀ ti s, keeps (R h h') (k ti s)) →
  keeps (R h h')
    (let! ti := get_ti i in
     let! s := get_state in
     modify_ti i
       (set_asid_bitmap
          (tlb_record_asids cfg (hw_entries (hw s)) (ti_asid_bitmap ti)
             (ti_asid_max ti)).2) >>
     k ti s).
Proof.
  intros Hi Hk s a s' Hrun. unfold bind, get_ti, get_state, modify_ti in Hrun.
  destruct (pmap_tlbs s !! i) as [t|] eqn:E; [|done].
  rewrite E in Hrun.
  eapply R_trans; [|by eapply Hk].
  apply (R_ti h i s t); [done|done| |done].
  unfold ti_fixed. cbn. by rewrite length_tlb_record_asids.
Qed.

Lemma keeps_cur_then {B} (h h' : option nat) (a : Z) (k : unit → M B) :
  (∀ u, keeps (R h h') (k u)) →
  keeps (R h h')
    ((λ s, Some (tt, set_asid_cur a s)) >>
     let! u := tlb_set_asid a in k u).
Proof.
  intros Hk s b s' Hrun.
  eapply R_trans; [by eapply (R_cur h a)|].
  by eapply (Hk tt).
Qed.

Lemma RESET_fixed (t : pmap_tlb_info) :
  ti_fixed (TLBINFO_ASID_RESET cfg t) = ti_fixed t
  ∧ ti_lock (TLBINFO_ASID_RESET cfg t) = ti_lock t.
Proof.
  destruct (TLBINFO_ASID_RESET_fields cfg t)
    as (_ & _ & H3 & _ & _ & H6 & _ & H8 & _ & H10).
  unfold ti_fixed. by rewrite H3, H6, H10, H8.
Qed.

Ltac ti_ok :=
  let t := fresh "t" in
  intros t; unfold ti_fixed;
  repeat match goal with
         | |- context [TLBINFO_ASID_RESET cfg ?x] =>
           let H1 := fresh "H" in let H2 := fresh "H" in
           destruct (RESET_fixed x) as [H1 H2];
           unfold ti_fixed in H1; injection H1 as ? ? ?;
           generalize dependent (TLBINFO_ASID_RESET cfg x); intros
         end;
  cbn in *; rewrite ?length_BITMAP_SET, ?length_BITMAP_CLR; split; congruence.

Create HintDb keeps.

Ltac keeps_go :=
  repeat (cbv beta zeta; cbn [when negb];
    lazymatch goal with
    | |- keeps _ (bind (λ s, Some (tt, set_asid_cur _ s))
                    (λ _, bind (tlb_set_asid _) _)) =>
      apply keeps_cur_then; intros ?
    | |- keeps _ (bind (λ s, Some (tt, set_asid_cur _ s))
                    (λ _, tlb_set_asid _)) => apply R_cur
    | |- keeps _ (bind (get_ti _)
                    (λ ti, bind get_state
                      (λ s, bind (modify_ti _ (set_asid_bitmap _)) _))) =>
      refine (keeps_record _ _ _ (λ ti s, _) _ _); [assumption|intros ? ?]
    | |- keeps _ (bind _ _) => eapply keeps_bind; [|intros ?]
    | |- keeps _ (ret _) => apply keeps_ret
    | |- keeps _ panic => apply keeps_panic
    | |- keeps _ (when _ _) => apply keeps_when
    | |- keeps _ (KASSERT _ _) => apply keeps_KASSERT
    | |- keeps _ (get_ti _) => apply keeps_get_ti
    | |- keeps _ (get_pm _) => apply keeps_get_pm
    | |- keeps _ get_state => apply keeps_get_state
    | |- keeps _ (TLBINFO_LOCK _) => apply R_lock; assumption
    | |- keeps _ (TLBINFO_UNLOCK _) => apply R_unlock; assumption
    | |- keeps _ (modify_ti _ _) => apply keeps_modify_ti; [assumption|ti_ok]
    | |- keeps _ (modify_pm _ (set_pai_asid _ _)) => apply R_pai; assumption
    | |- keeps _ (modify_pm _ (λ m, set_active _ m)) =>
      refine (R_active _ _ (λ m, _))
    | |- keeps _ (tlb_invalidate_asids _ _) => apply R_hw; reflexivity
    | |- keeps _ tlb_invalidate_all => apply R_hw; reflexivity
    | |- keeps _ tlb_invalidate_globals => apply R_hw; reflexivity
    | |- keeps _ (cpu_send_ipi _) => apply R_ipi
    | |- keeps _ (if ?b then _ else _) => destruct b
    | |- keeps _ (match ?x with _ => _ end) => destruct x
    | |- keeps _ _ => solve [eauto with keeps]
    end).

Lemma keeps_pai_check_list (h : option nat) (i : nat) (l : list pmap_t) :
  keeps (R h h) (pai_check_list cfg i l).
Proof.
  induction l as [|p l IH]; cbn [pai_check_list]; keeps_go.
  unfold pai_check_one. keeps_go.
Qed.

Local Hint Resolve keeps_pai_check_list : keeps.

(** The check of the list, called with the lock held, and without. *)
Lemma keeps_pai_check_locked (h : option nat) (i : nat) :
  keeps (R h h) (pmap_tlb_pai_check cfg i true).
Proof. unfold pmap_tlb_pai_check. keeps_go. Qed.

Lemma keeps_pai_check (i : nat) :
  ok_tlb i → keeps (R None None) (pmap_tlb_pai_check cfg i false).
Proof.
  intros Hi. unfold pmap_tlb_pai_check.
  destruct (DIAGNOSTIC cfg); keeps_go.
Qed.

Local Hint Resolve keeps_pai_check_locked keeps_pai_check : keeps.

Lemma keeps_pai_reset (h : option nat) (i : nat) (p : pmap_t) :
  ok_tlb i → keeps (R h h) (pmap_tlb_pai_reset cfg i p).
Proof.
  intros Hi. unfold pmap_tlb_pai_reset, LIST_REMOVE.
  destruct (PMAP_TLB_MAX cfg =? 1)%nat; keeps_go.
Qed.

Local Hint Resolve keeps_pai_reset : keeps.

Lemma keeps_reinitialize_walk (h : option nat) (i : nat) (op : Z)
    (l : list pmap_t) :
  ok_tlb i → keeps (R h h) (reinitialize_walk cfg i op l).
Proof.
  intros Hi.
  induction l as [|p l IH]; cbn [reinitialize_walk]; keeps_go.
  unfold reinitialize_pai. keeps_go.
Qed.

Local Hint Resolve keeps_reinitialize_walk : keeps.

Lemma keeps_reinitialize (h : option nat) (i : nat) (op : Z) :
  ok_tlb i → keeps (R h h) (pmap_tlb_asid_reinitialize cfg i op).
Proof.
  intros Hi.
  unfold pmap_tlb_asid_reinitialize, reinitialize_reset, reinitialize_flush.
  keeps_go.
Qed.

Local Hint Resolve keeps_reinitialize : keeps.

Lemma keeps_alloc (h : option nat) (i : nat) (p : pmap_t) :
  ok_tlb i → keeps (R h h) (pmap_tlb_asid_alloc cfg i p).
Proof.
  intros Hi. unfold pmap_tlb_asid_alloc.
  destruct (PMAP_TLB_MAX cfg =? 1)%nat; keeps_go.
Qed.

Local Hint Resolve keeps_alloc : keeps.

Lemma keeps_acquire (p : pmap_t) (ci : cpu_info) (curlwp_p : bool) :
  ok_tlb (ci_tlb ci) → ok_cpu (ci_index ci) →
  keeps (R None None) (pmap_tlb_asid_acquire cfg p ci curlwp_p).
Proof.
  intros Hi Hc. unfold pmap_tlb_asid_acquire. keeps_go.
  refine (R_onproc _ (ci_index ci) _ (λ m, _) Hc _). intros m.
  apply set_eq. intros x.
  rewrite ?elem_of_difference, ?elem_of_union, ?elem_of_difference. tauto.
Qed.

Lemma keeps_deactivate (ci : cpu_info) (p : pmap_t) :
  ok_tlb (ci_tlb ci) → ok_cpu (ci_index ci) →
  keeps (R None None) (pmap_tlb_asid_deactivate cfg ci p).
Proof.
  intros Hi Hc. unfold pmap_tlb_asid_deactivate. keeps_go.
  refine (R_onproc _ (ci_index ci) _ (λ m, _) Hc _). intros m.
  apply set_eq. intros x.
  rewrite ?elem_of_difference, ?elem_of_union, ?elem_of_difference. tauto.
Qed.

Lemma keeps_shootdown_process (ci : cpu_info) :
  ok_tlb (ci_tlb ci) → keeps (R None None) (pmap_tlb_shootdown_process cfg ci).
Proof. intros Hi. unfold pmap_tlb_shootdown_process. keeps_go. Qed.

Lemma keeps_shootdown_merge (h : option nat) (i : nat) (p : pmap_t) :
  ok_tlb i → keeps (R h h) (shootdown_merge cfg i p).
Proof. intros Hi. unfold shootdown_merge. keeps_go. Qed.

Local Hint Resolve keeps_shootdown_merge : keeps.

Lemma keeps_shootdown_bystanders_loop (p : pmap_t) (idx : list nat) :
  (∀ i, ok_tlb i) →
  ∀ act sent,
    keeps (R None None) (shootdown_bystanders_loop cfg p idx act sent).
Proof.
  intros Hi. induction idx as [|i idx IH]; intros act sent;
    cbn [shootdown_bystanders_loop]; keeps_go.
  unfold shootdown_bystanders_tlb. pose proof (Hi i). keeps_go.
Qed.

Local Hint Resolve keeps_shootdown_bystanders_loop : keeps.

Lemma keeps_shootdown_bystanders (ci : cpu_info) (p : pmap_t) :
  (∀ i, ok_tlb i) →
  keeps (R None None) (pmap_tlb_shootdown_bystanders cfg ci p).
Proof. intros Hi. unfold pmap_tlb_shootdown_bystanders. keeps_go. Qed.

Lemma keeps_release_all_tlb (p : pmap_t) (i : nat) :
  ok_tlb i → keeps (R None None) (release_all_tlb cfg p i).
Proof. intros Hi. unfold release_all_tlb. keeps_go. Qed.

Local Hint Resolve keeps_release_all_tlb : keeps.

Lemma keeps_release_all_loop (p : pmap_t) (idx : list nat) :
  (∀ i, ok_tlb i) → keeps (R None None) (release_all_loop cfg p idx).
Proof.
  intros Hi. induction idx as [|i idx IH]; cbn [release_all_loop]; keeps_go.
Qed.

Lemma keeps_release_all_check (h : option nat) (p : pmap_t)
    (idx : list nat) :
  keeps (R h h) (release_all_check cfg p idx).
Proof. induction idx as [|i idx IH]; cbn [release_all_check]; keeps_go. Qed.

Local Hint Resolve keeps_release_all_loop keeps_release_all_check : keeps.

Lemma keeps_release_all (ci : cpu_info) (p : pmap_t) :
  (∀ i, ok_tlb i) →
  keeps (R None None) (pmap_tlb_asid_release_all cfg ci p).
Proof.
  intros Hi. pose proof (Hi 0%nat). unfold pmap_tlb_asid_release_all.
  keeps_go.
Qed.

End Keeps.

(** ** No reuse of a reclaimed ASID before a reinitialisation *)

Section Quiet.

Context (cfg : config).
Hypothesis Hcfg : cfg_ok cfg.

Lemma held_before_refl (i : nat) (s : kstate) (q : pmap_t) (qm : pmap) :
  pmaps s !! q = Some qm → held_before i s q qm.
Proof. intros Hq. right. by exists qm. Qed.

Lemma quiet_refl (b : bool) (i : nat) (s : kstate) : quiet cfg b i s s.
Proof.
  split; [done|]. intros ti Hti. exists ti. split; [done|]. split; [lia|].
  split.
  - intros _ q qm Hq. left. by apply held_before_refl.
  - intros _ _ _. split; [done|]. intros q qm Hq. left.
    by apply held_before_refl.
Qed.

Lemma quiet_trans (b : bool) (i : nat) (s1 s2 s3 : kstate) :
  quiet cfg b i s1 s2 → quiet cfg b i s2 s3 → quiet cfg b i s1 s3.
Proof.
  intros [Hw1 H1] [Hw2 H2]. split; [by auto|]. intros t1 Ht1.
  destruct (H1 t1 Ht1) as (t2 & Ht2 & Hc1 & Hf1 & Hs1).
  destruct (H2 t2 Ht2) as (t3 & Ht3 & Hc2 & Hf2 & Hs2).
  exists t3. split; [done|]. split; [lia|]. split.
  - intros Hfl q qm3 Hq3.
    destruct (Hf2 Hfl q qm3 Hq3) as [[H0|(qm2 & Hq2 & He)]|Hr];
      [by left; left| |by right].
    destruct (Hf1 Hfl q qm2 Hq2) as [[H0|(qm1 & Hq1 & He1)]|Hr].
    + left. left. congruence.
    + left. right. exists qm1. split; [done|congruence].
    + right. intros Hmp Hin. apply (Hr Hmp). rewrite He. by apply Hw2.
  - intros Hb Hfl Hcnt.
    destruct (Hs1 Hb Hfl ltac:(lia)) as [Hm1 Hp1].
    destruct (Hs2 Hb Hfl ltac:(lia)) as [Hm2 Hp2].
    split; [by auto|]. intros q qm3 Hq3.
    destruct (Hp2 q qm3 Hq3) as [[H0|(qm2 & Hq2 & He)]|Hr].
    + by left; left.
    + destruct (Hp1 q qm2 Hq2) as [[H0|(qm1 & Hq1 & He1)]|Hr].
      * left. left. congruence.
      * left. right. exists qm1. split; [done|congruence].
      * right. by rewrite <- He.
    + right.
      destruct (TLBINFO_ASID_INUSE_P cfg t1 (pai_asid qm3 i)) eqn:E;
        [|done].
      apply Hm1 in E. congruence.
Qed.

(** A step that hands out no ASID of TLB [i]. *)
Lemma quiet_frame (b : bool) (i : nat) (s s' : kstate) :
  (∀ x, x ∈ hw_entries (hw s') → x ∈ hw_entries (hw s)) →
  (∀ ti, pmap_tlbs s !! i = Some ti →
     ∃ ti', pmap_tlbs s' !! i = Some ti'
       ∧ ti_evcnt_asid_reinits ti ≤ ti_evcnt_asid_reinits ti'
       ∧ (b = true → PMAP_TLB_FLUSH_ASID_ON_RESET cfg = false →
          ti_evcnt_asid_reinits ti' = ti_evcnt_asid_reinits ti →
          ∀ a, TLBINFO_ASID_INUSE_P cfg ti a = true →
               TLBINFO_ASID_INUSE_P cfg ti' a = true)) →
  (∀ q qm', pmaps s' !! q = Some qm' → held_before i s q qm') →
  quiet cfg b i s s'.
Proof.
  intros Hw Ht Hp. split; [done|]. intros ti Hti.
  destruct (Ht ti Hti) as (ti' & Hti' & Hc & Hm).
  exists ti'. split; [done|]. split; [done|]. split.
  - intros _ q qm' Hq. left. by apply Hp.
  - intros Hb Hfl Hcnt. split; [by apply Hm|]. intros q qm' Hq. left.
    by apply Hp.
Qed.

Lemma quiet_modify_ti (b : bool) (i j : nat)
    (f : pmap_tlb_info → pmap_tlb_info) :
  j ≠ i ∨ ti_quiet cfg b f → keeps (quiet cfg b i) (modify_ti j f).
Proof.
  intros Hf s u s' Hrun. apply modify_ti_inv in Hrun as (t & Ht & ->).
  apply quiet_frame; [done| |intros q qm Hq; by apply held_before_refl].
  intros ti Hti. destruct (decide (j = i)) as [->|Hne].
  - destruct Hf as [Hf|Hf]; [done|].
    assert (ti = t) as -> by congruence. exists (f t).
    split; [by eapply lookup_upd_ti_eq|]. apply Hf.
  - exists ti. split; [by rewrite lookup_upd_ti_ne|]. split; [lia|done].
Qed.

Lemma quiet_modify_pm (b : bool) (i : nat) (p : pmap_t) (f : pmap → pmap) :
  (∀ m, pai_asid (f m) i = pai_asid m i ∨ pai_asid (f m) i = 0) →
  keeps (quiet cfg b i) (modify_pm p f).
Proof.
  intros Hf s u s' Hrun. unfold modify_pm in Hrun.
  destruct (pmaps s !! p) as [pm|] eqn:E; [|done].
  injection Hrun as _ <-. apply quiet_frame; [done| |].
  - intros ti Hti. exists ti. split; [done|]. split; [lia|done].
  - intros q qm' Hq. cbn in Hq. destruct (decide (q = p)) as [->|Hne].
    + rewrite lookup_insert_eq in Hq. injection Hq as <-.
      destruct (Hf pm) as [H|H]; [|by left].
      right. by exists pm.
    + rewrite lookup_insert_ne in Hq by done. by apply held_before_refl.
Qed.

Lemma quiet_modify_hw (b : bool) (i : nat) (f : hardware → hardware) :
  (∀ h x, x ∈ hw_entries (f h) → x ∈ hw_entries h) →
  keeps (quiet cfg b i) (modify_hw f).
Proof.
  intros Hf s u s' [= _ <-].
  apply quiet_frame; [by apply Hf| |intros q qm Hq; by apply held_before_refl].
  intros ti Hti. exists ti. split; [done|]. split; [lia|done].
Qed.

Lemma quiet_asid_cur (b : bool) (i : nat) (a : Z) :
  keeps (quiet cfg b i) (λ s, Some (tt, set_asid_cur a s)).
Proof.
  intros s u s' [= _ <-].
  apply quiet_frame; [done| |intros q qm Hq; by apply held_before_refl].
  intros ti Hti. exists ti. split; [done|]. split; [lia|done].
Qed.

Lemma quiet_cpu_send_ipi (b : bool) (i j : nat) :
  keeps (quiet cfg b i) (cpu_send_ipi j).
Proof.
  intros s u s' [= _ <-].
  apply quiet_frame; [done| |intros q qm Hq; by apply held_before_refl].
  intros ti Hti. exists ti. split; [done|]. split; [lia|done].
Qed.

(** Marking an ASID leaves the marked ASIDs marked. *)
Lemma BITMAP_SET_keeps (n a : Z) (bm : list Z) :
  BITMAP_ISSET cfg a bm = true → BITMAP_ISSET cfg a (BITMAP_SET cfg n bm) = true.
Proof.
  unfold BITMAP_ISSET, BITMAP_SET. intros H.
  set (w := Z.to_nat (n `div` NBPW cfg)).
  set (v := Z.to_nat (a `div` NBPW cfg)) in *.
  destruct (decide (v = w)) as [->|Hne].
  - destruct (bm !! w) as [x|] eqn:E.
    + rewrite list_lookup_insert_eq by (by eapply lookup_lt_Some).
      cbn in *. rewrite Z.lor_spec, H. done.
    + cbn in H. by rewrite Z.bits_0 in H.
  - by rewrite list_lookup_insert_ne.
Qed.

Lemma RESET_evcnt (t : pmap_tlb_info) :
  ti_evcnt_asid_reinits (TLBINFO_ASID_RESET cfg t) = ti_evcnt_asid_reinits t.
Proof.
  by destruct (TLBINFO_ASID_RESET_fields cfg t)
    as (_ & _ & _ & _ & _ & _ & _ & _ & H & _).
Qed.

Lemma pai_asid_cleared (i j : nat) (m : pmap) :
  pai_asid (set_pai_asid j 0 m) i = pai_asid m i
  ∨ pai_asid (set_pai_asid j 0 m) i = 0.
Proof.
  destruct (decide (j = i)) as [->|Hne].
  - right. apply pai_asid_set.
  - left. by apply pai_asid_set_ne.
Qed.

Lemma filter_entries_sub (P : Z → Prop) `{∀ x, Decision (P x)}
    (l : list Z) (x : Z) :
  x ∈ filter P l → x ∈ l.
Proof. intros Hx. by apply list_elem_of_filter in Hx as [_ ?]. Qed.

Create HintDb quiet.

Ltac quiet_ti :=
  first
    [ left; assumption
    | right; intros ?; split;
      [ cbn; rewrite ?RESET_evcnt; cbn; lia
      | intros; first
          [ congruence
          | exfalso; cbn in *; lia
          | unfold TLBINFO_ASID_INUSE_P, TLBINFO_ASID_MARK_USED in *; cbn;
            first [assumption | by apply BITMAP_SET_keeps] ] ] ].

Ltac quiet_go b i :=
  repeat (cbv beta zeta; cbn [when negb];
    lazymatch goal with
    | |- keeps _ (bind _ _) =>
      eapply (keeps_bind (λ _ _, quiet cfg b i)
                (λ _ _ _ s1 s2 s3, quiet_trans b i s1 s2 s3) None None None);
      [|intros ?]
    | |- keeps _ (ret _) =>
      apply (keeps_ret (λ _ _, quiet cfg b i) (λ _, quiet_refl b i) None)
    | |- keeps _ panic =>
      apply (keeps_panic (λ _ _, quiet cfg b i) None None)
    | |- keeps _ (when ?c _) => destruct c eqn:?
    | |- keeps _ (KASSERT _ _) =>
      apply (keeps_KASSERT cfg (λ _ _, quiet cfg b i)
               (λ _, quiet_refl b i) None)
    | |- keeps _ (get_ti _) =>
      apply (keeps_get_ti (λ _ _, quiet cfg b i) (λ _, quiet_refl b i) None)
    | |- keeps _ (get_pm _) =>
      apply (keeps_get_pm (λ _ _, quiet cfg b i) (λ _, quiet_refl b i) None)
    | |- keeps _ get_state =>
      apply (keeps_get_state (λ _ _, quiet cfg b i)
               (λ _, quiet_refl b i) None)
    | |- keeps _ (TLBINFO_LOCK _) => unfold TLBINFO_LOCK
    | |- keeps _ (TLBINFO_UNLOCK _) => unfold TLBINFO_UNLOCK
    | |- keeps _ (modify_ti _ _) => apply quiet_modify_ti; quiet_ti
    | |- keeps _ (modify_pm _ (set_pai_asid _ 0)) =>
      apply quiet_modify_pm; intros ?; apply pai_asid_cleared
    | |- keeps _ (modify_pm _ _) =>
      apply quiet_modify_pm; intros ?; left;
      first [reflexivity | by repeat case_match]
    | |- keeps _ (tlb_invalidate_asids _ _) =>
      apply quiet_modify_hw; intros ? ?; apply filter_entries_sub
    | |- keeps _ tlb_invalidate_all =>
      apply quiet_modify_hw; intros ? ? H; by apply elem_of_nil in H
    | |- keeps _ tlb_invalidate_globals =>
      apply quiet_modify_hw; intros ? ? H; exact H
    | |- keeps _ (tlb_set_asid _) =>
      apply quiet_modify_hw; intros ? ? H; exact H
    | |- keeps _ (cpu_send_ipi _) => apply quiet_cpu_send_ipi
    | |- keeps _ (λ s, Some (tt, set_asid_cur _ s)) => apply quiet_asid_cur
    | |- keeps _ (if ?c then _ else _) => destruct c eqn:?
    | |- keeps _ (match ?x with _ => _ end) => destruct x eqn:?
    | |- keeps _ _ => solve [eauto with quiet]
    end).

Lemma quiet_pai_check_list (b : bool) (i j : nat) (l : list pmap_t) :
  keeps (quiet cfg b i) (pai_check_list cfg j l).
Proof.
  induction l as [|p l IH]; cbn [pai_check_list]; quiet_go b i.
  unfold pai_check_one. quiet_go b i.
Qed.

Local Hint Resolve quiet_pai_check_list : quiet.

Lemma quiet_pai_check (b : bool) (i j : nat) (locked_p : bool) :
  keeps (quiet cfg b i) (pmap_tlb_pai_check cfg j locked_p).
Proof. unfold pmap_tlb_pai_check. destruct locked_p; quiet_go b i. Qed.

Local Hint Resolve quiet_pai_check : quiet.

Lemma quiet_pai_reset (b : bool) (i j : nat) (p : pmap_t) :
  keeps (quiet cfg b i) (pmap_tlb_pai_reset cfg j p).
Proof. unfold pmap_tlb_pai_reset, LIST_REMOVE. quiet_go b i. Qed.

Local Hint Resolve quiet_pai_reset : quiet.

(** ** A reinitialisation *)

Lemma quiet_reinitialize_flush (b : bool) (i j : nat) (op : Z) :
  j ≠ i ∨ b = false → keeps (quiet cfg b i) (reinitialize_flush cfg j op).
Proof.
  intros [Hne| ->]; unfold reinitialize_flush;
    [quiet_go b i|quiet_go false i].
Qed.

Lemma quiet_reinitialize_walk (b : bool) (i j : nat) (op : Z)
    (l : list pmap_t) :
  j ≠ i ∨ b = false → keeps (quiet cfg b i) (reinitialize_walk cfg j op l).
Proof.
  intros Hs. induction l as [|p l IH]; cbn [reinitialize_walk].
  - quiet_go b i.
  - eapply (keeps_bind (λ _ _, quiet cfg b i)
              (λ _ _ _ s1 s2 s3, quiet_trans b i s1 s2 s3) None None None);
      [|intros ?; exact IH].
    unfold reinitialize_pai.
    destruct Hs as [Hne| ->]; [quiet_go b i|quiet_go false i].
Qed.

(** The routine after the count of reinitialisations has gone up. *)
Lemma quiet_reinitialize_rest (b : bool) (i j : nat) (op : Z) :
  j ≠ i ∨ b = false →
  keeps (quiet cfg b i)
    ((modify_ti j (λ t,
        TLBINFO_ASID_RESET cfg
          (set_asid_hint (KERNEL_PID cfg + 1)
             (set_asids_free
                (TLBINFO_ASID_INITIAL_FREE cfg (ti_asid_max t)) t))) >>
      reinitialize_flush cfg j op) >>
     let! ti := get_ti j in
     reinitialize_walk cfg j op (ti_pais ti) >>
     when (DIAGNOSTIC cfg)
       (let! ti := get_ti j in
        KASSERT cfg
          (ti_asid_max ti - pmap_tlb_asid_count cfg ti
           =? ti_asids_free ti))).
Proof.
  intros Hs.
  pose proof (quiet_reinitialize_flush b i j op Hs) as Hflush.
  pose proof (λ l, quiet_reinitialize_walk b i j op l Hs) as Hwalk.
  destruct Hs as [Hne| ->]; [quiet_go b i|quiet_go false i].
Qed.

Lemma quiet_bumped (i : nat) (s s' : kstate) :
  quiet cfg false i s s' →
  (∀ ti ti', pmap_tlbs s !! i = Some ti → pmap_tlbs s' !! i = Some ti' →
     ti_evcnt_asid_reinits ti < ti_evcnt_asid_reinits ti') →
  quiet cfg true i s s'.
Proof.
  intros [Hw H] Hlt. split; [done|]. intros ti Hti.
  destruct (H ti Hti) as (ti' & Hti' & Hc & Hf & _).
  exists ti'. split; [done|]. split; [done|]. split; [done|].
  intros _ _ Heq. specialize (Hlt ti ti' Hti Hti'). lia.
Qed.

(** A reinitialisation of a TLB that returns has taken its count of
    reinitialisations up. *)
Lemma reinitialize_counted (i : nat) (op : Z) (s s' : kstate) (u : unit) :
  pmap_tlb_asid_reinitialize cfg i op s = Some (u, s') →
  quiet cfg false i s s'
  ∧ ∀ ti ti', pmap_tlbs s !! i = Some ti → pmap_tlbs s' !! i = Some ti' →
      ti_evcnt_asid_reinits ti < ti_evcnt_asid_reinits ti'.
Proof.
  intros Hrun.
  unfold pmap_tlb_asid_reinitialize, reinitialize_reset in Hrun.
  apply bind_inv in Hrun as ([] & s3 & Hreset & Hrest).
  apply bind_inv in Hreset as ([] & s1 & Hchk & Hreset).
  apply bind_inv in Hreset as ([] & s2 & Hcnt & Hreset).
  apply (quiet_pai_check false i i true) in Hchk.
  assert (Hq12 : quiet cfg false i s1 s2).
  { revert Hcnt. apply quiet_modify_ti. quiet_ti. }
  apply modify_ti_inv in Hcnt as (t1 & Ht1 & ->).
  assert (Hq2 : quiet cfg false i (upd_ti i
                  (set_evcnt_asid_reinits (ti_evcnt_asid_reinits t1 + 1)
                     t1) s1) s').
  { apply (quiet_reinitialize_rest false i i op (or_intror eq_refl)
             _ u s').
    unfold bind in *. rewrite Hreset. exact Hrest. }
  split.
  - eapply quiet_trans; [exact Hchk|].
    eapply quiet_trans; [exact Hq12|exact Hq2].
  - intros ti ti' Hti Hti'.
    destruct Hchk as [_ Hchk].
    destruct (Hchk ti Hti) as (t1' & Ht1' & Hc1 & _).
    assert (t1' = t1) as -> by congruence.
    destruct Hq2 as [_ Hq2].
    destruct (Hq2 _ (lookup_upd_ti_eq _ _ _ _ Ht1))
      as (t' & Ht' & Hc2 & _).
    assert (t' = ti') as -> by congruence. cbn in Hc2. lia.
Qed.

Lemma quiet_reinitialize (i j : nat) (op : Z) :
  keeps (quiet cfg true i) (pmap_tlb_asid_reinitialize cfg j op).
Proof.
  destruct (decide (j = i)) as [->|Hne].
  - intros s u s' Hrun.
    destruct (reinitialize_counted i op s s' u Hrun) as [Hq Hlt].
    by apply quiet_bumped.
  - pose proof (quiet_reinitialize_rest true i j op (or_introl Hne))
      as Hrest.
    unfold pmap_tlb_asid_reinitialize, reinitialize_reset.
    intros s u s' Hrun.
    apply bind_inv in Hrun as ([] & s3 & Hreset & Hrun).
    apply bind_inv in Hreset as ([] & s1 & Hchk & Hreset).
    apply bind_inv in Hreset as ([] & s2 & Hcnt & Hreset).
    apply (quiet_pai_check true i j true) in Hchk.
    apply (quiet_modify_ti true i j _ (or_introl Hne)) in Hcnt.
    eapply quiet_trans; [exact Hchk|]. eapply quiet_trans; [exact Hcnt|].
    apply (Hrest s2 u s'). unfold bind in *. rewrite Hreset. exact Hrun.
Qed.

Local Hint Resolve quiet_reinitialize : quiet.

(** ** An allocation *)

Lemma KASSERT_inv (c : bool) (s s' : kstate) (u : unit) :
  KASSERT cfg c s = Some (u, s') → s' = s.
Proof.
  unfold KASSERT. destruct (DIAGNOSTIC cfg && negb c); [done|].
  by intros [= _ <-].
Qed.

Lemma get_ti_inv (j : nat) (s s' : kstate) (t : pmap_tlb_info) :
  get_ti j s = Some (t, s') → s' = s ∧ pmap_tlbs s !! j = Some t.
Proof.
  unfold get_ti. destruct (pmap_tlbs s !! j) as [t'|]; [|done].
  by intros [= <- <-].
Qed.

(** The hint after the look for a free ASID is not marked. *)
Lemma alloc_pick_inv (j : nat) (ti : pmap_tlb_info) (s s' : kstate)
    (u : unit) :
  pmap_tlbs s !! j = Some ti →
  when (TLBINFO_ASID_INUSE_P cfg ti (ti_asid_hint ti))
    (match alloc_scan cfg (ti_asid_bitmap ti) 0 with
     | None => panic
     | Some (w, bits) =>
       let n := ffsl bits - 1 in
       KASSERT cfg (wrap_ulong cfg (Z.shiftl bits (NBPW cfg - (n + 1)))
                    =? Z.shiftl 1 (NBPW cfg - 1)) >>
       KASSERT cfg (n <? NBPW cfg) >>
       modify_ti j (set_asid_hint (n + w * NBPW cfg))
     end) s = Some (u, s') →
  ∃ h, s' = upd_ti j (set_asid_hint h ti) s
    ∧ TLBINFO_ASID_INUSE_P cfg ti h = false.
Proof.
  intros Hti Hrun.
  destruct (TLBINFO_ASID_INUSE_P cfg ti (ti_asid_hint ti)) eqn:E;
    cbn [when] in Hrun.
  - destruct (alloc_scan cfg (ti_asid_bitmap ti) 0) as [[w bits]|] eqn:Hs;
      [|done].
    cbv zeta in Hrun.
    apply bind_inv in Hrun as ([] & s1 & H1 & Hrun).
    apply KASSERT_inv in H1 as ->.
    apply bind_inv in Hrun as ([] & s1 & H1 & Hrun).
    apply KASSERT_inv in H1 as ->.
    apply modify_ti_inv in Hrun as (t & Ht & ->).
    assert (t = ti) as -> by congruence.
    eexists. split; [done|].
    by destruct (alloc_scan_spec cfg Hcfg _ _ _ Hs) as (_ & _ & _ & _ & H & _).
  - injection Hrun as <-. exists (ti_asid_hint ti). split; [|done].
    rewrite set_asid_hint_id by done. by rewrite upd_ti_id.
Qed.

Lemma quiet_alloc (i j : nat) (p : pmap_t) :
  keeps (quiet cfg true i) (pmap_tlb_asid_alloc cfg j p).
Proof.
  unfold pmap_tlb_asid_alloc.
  do 9 (eapply (keeps_bind (λ _ _, quiet cfg true i)
                  (λ _ _ _ s1 s2 s3, quiet_trans true i s1 s2 s3)
                  None None None);
        [quiet_go true i|intros ?]).
  intros s u s' Hrun.
  apply bind_inv in Hrun as (ti & s0 & Hti & Hrun).
  apply get_ti_inv in Hti as [-> Hti].
  apply bind_inv in Hrun as ([] & s0 & H1 & Hrun).
  apply KASSERT_inv in H1 as ->.
  apply bind_inv in Hrun as ([] & sb & Hpick & Hrun).
  destruct (alloc_pick_inv j ti s sb tt Hti Hpick) as (h & -> & Hh).
  set (tb := set_asid_hint h ti) in *.
  assert (Htb : pmap_tlbs (upd_ti j tb s) !! j = Some tb)
    by (by eapply lookup_upd_ti_eq).
  apply bind_inv in Hrun as (t & s0 & Ht & Hrun).
  apply get_ti_inv in Ht as [-> Ht].
  assert (t = tb) as -> by congruence.
  do 4 (apply bind_inv in Hrun as ([] & s0 & H1 & Hrun);
        apply KASSERT_inv in H1 as ->).
  cbv zeta in Hrun. change (ti_asid_hint tb) with h in Hrun.
  apply bind_inv in Hrun as ([] & s1 & Hpm & Hrun).
  apply bind_inv in Hrun as ([] & s2 & Hhint & Hrun).
  apply bind_inv in Hrun as ([] & s3 & Hinv & Hrun).
  apply (quiet_trans true i s (upd_ti j tb s) s');
    [|apply (quiet_trans true i _ s3 s')].
  - (* the look for a free ASID *)
    apply quiet_frame; [done| |intros q qm Hq; by apply held_before_refl].
    intros t Ht'. destruct (decide (j = i)) as [->|Hne].
    + assert (t = ti) as -> by congruence. exists tb.
      split; [done|]. split; [cbn; lia|]. intros _ _ _ x Hx. exact Hx.
    + exists t. split; [by rewrite lookup_upd_ti_ne|]. split; [lia|done].
  - (* the ASID is handed out *)
    unfold modify_pm in Hpm.
    destruct (pmaps (upd_ti j tb s) !! p) as [pm|] eqn:Ep; [|done].
    injection Hpm as <-.
    apply modify_ti_inv in Hhint as (t & Ht' & ->).
    assert (t = tb) as ->.
    { change (pmap_tlbs (upd_ti j tb s) !! j = Some t) in Ht'. congruence. }
    assert (Hhw : ∀ x, x ∈ hw_entries (hw s3) → x ∈ hw_entries (hw s)).
    { destruct (MULTIPROCESSOR cfg && PMAP_TLB_FLUSH_ASID_ON_RESET cfg);
        cbn [when] in Hinv; injection Hinv as <-; [|done].
      intros x. apply filter_entries_sub. }
    assert (Htl : pmap_tlbs s3
                  = <[j := set_asid_hint (h + 1) tb]>
                      (pmap_tlbs (upd_ti j tb s))).
    { destruct (MULTIPROCESSOR cfg && PMAP_TLB_FLUSH_ASID_ON_RESET cfg);
        cbn [when] in Hinv; by injection Hinv as <-. }
    assert (Hpms : pmaps s3 = <[p := set_pai_asid j h pm]> (pmaps s)).
    { destruct (MULTIPROCESSOR cfg && PMAP_TLB_FLUSH_ASID_ON_RESET cfg);
        cbn [when] in Hinv; by injection Hinv as <-. }
    assert (Hflushed :
              MULTIPROCESSOR cfg = true →
              PMAP_TLB_FLUSH_ASID_ON_RESET cfg = true →
              h ∉ hw_entries (hw s3)).
    { intros Hmp Hfl. rewrite Hmp, Hfl in Hinv.
      cbn [when andb] in Hinv. injection Hinv as <-. cbn.
      intros Hx. apply list_elem_of_filter in Hx as [Hx _]. apply Hx. lia. }
    split; [exact Hhw|]. intros t Ht''.
    destruct (decide (j = i)) as [->|Hne].
    + assert (t = tb) as -> by congruence.
      exists (set_asid_hint (h + 1) tb).
      split.
      { rewrite Htl. apply list_lookup_insert_eq. by eapply lookup_lt_Some. }
      split; [cbn; lia|]. split.
      * intros Hfl q qm' Hq. rewrite Hpms in Hq.
        destruct (decide (q = p)) as [->|Hqp].
        -- rewrite lookup_insert_eq in Hq. injection Hq as <-.
           right. intros Hmp. rewrite pai_asid_set. by apply Hflushed.
        -- rewrite lookup_insert_ne in Hq by done. left.
           by apply held_before_refl.
      * intros _ Hfl _. split; [done|]. intros q qm' Hq. rewrite Hpms in Hq.
        destruct (decide (q = p)) as [->|Hqp].
        -- rewrite lookup_insert_eq in Hq. injection Hq as <-.
           right. by rewrite pai_asid_set.
        -- rewrite lookup_insert_ne in Hq by done. left.
           by apply held_before_refl.
    + exists t. split.
      { rewrite Htl. rewrite list_lookup_insert_ne by done. done. }
      split; [lia|].
      assert (Hall : ∀ q qm', pmaps s3 !! q = Some qm' →
                held_before i (upd_ti j tb s) q qm').
      { intros q qm' Hq. rewrite Hpms in Hq.
        destruct (decide (q = p)) as [->|Hqp].
        - rewrite lookup_insert_eq in Hq. injection Hq as <-.
          right. exists pm. split; [done|].
          by rewrite pai_asid_set_ne.
        - rewrite lookup_insert_ne in Hq by done.
          by apply held_before_refl. }
      split; [intros _ q qm' Hq; left; by apply Hall|].
      intros _ _ _. split; [done|]. intros q qm' Hq. left. by apply Hall.
  - (* the ASID is marked and the pmap is linked *)
    revert Hrun. generalize s'. generalize u. generalize s3.
    change (keeps (quiet cfg true i)
      (modify_ti j (TLBINFO_ASID_MARK_USED cfg h) >>
       modify_ti j (λ t, set_pais (p :: ti_pais t) t) >>
       modify_ti j (λ t, set_asids_free (wrap32 (ti_asids_free t - 1)) t) >>
       when (MULTIPROCESSOR cfg)
         (let! s := get_state in
          modify_pm p (λ m,
            if (PMAP_TLB_MAX cfg =? 1)%nat
            then set_active (kcpuset_running s) m
            else set_active (pm_active m ∪ ti_kcpuset tb) m)))).
    quiet_go true i.
Qed.

Local Hint Resolve quiet_alloc : quiet.

(** ** The routines *)

Lemma quiet_acquire (i : nat) (p : pmap_t) (ci : cpu_info)
    (curlwp_p : bool) :
  keeps (quiet cfg true i) (pmap_tlb_asid_acquire cfg p ci curlwp_p).
Proof. unfold pmap_tlb_asid_acquire. quiet_go true i. Qed.

Lemma quiet_deactivate (i : nat) (ci : cpu_info) (p : pmap_t) :
  keeps (quiet cfg true i) (pmap_tlb_asid_deactivate cfg ci p).
Proof. unfold pmap_tlb_asid_deactivate. quiet_go true i. Qed.

Lemma quiet_release_all_tlb (i j : nat) (p : pmap_t) :
  keeps (quiet cfg true i) (release_all_tlb cfg p j).
Proof. unfold release_all_tlb. quiet_go true i. Qed.

Local Hint Resolve quiet_release_all_tlb : quiet.

Lemma quiet_release_all_loop (i : nat) (p : pmap_t) (idx : list nat) :
  keeps (quiet cfg true i) (release_all_loop cfg p idx).
Proof.
  induction idx as [|j idx IH]; cbn [release_all_loop]; quiet_go true i.
Qed.

Lemma quiet_release_all_check (i : nat) (p : pmap_t) (idx : list nat) :
  keeps (quiet cfg true i) (release_all_check cfg p idx).
Proof.
  induction idx as [|j idx IH]; cbn [release_all_check]; quiet_go true i.
Qed.

Local Hint Resolve quiet_release_all_loop quiet_release_all_check : quiet.

Lemma quiet_release_all (i : nat) (ci : cpu_info) (p : pmap_t) :
  keeps (quiet cfg true i) (pmap_tlb_asid_release_all cfg ci p).
Proof. unfold pmap_tlb_asid_release_all. quiet_go true i. Qed.

Lemma quiet_shootdown_merge (i j : nat) (p : pmap_t) :
  keeps (quiet cfg true i) (shootdown_merge cfg j p).
Proof. unfold shootdown_merge. quiet_go true i. Qed.

Local Hint Resolve quiet_shootdown_merge : quiet.

Lemma quiet_shootdown_bystanders_loop (i : nat) (p : pmap_t)
    (idx : list nat) :
  ∀ act sent,
    keeps (quiet cfg true i) (shootdown_bystanders_loop cfg p idx act sent).
Proof.
  induction idx as [|j idx IH]; intros act sent;
    cbn [shootdown_bystanders_loop]; quiet_go true i.
  unfold shootdown_bystanders_tlb. quiet_go true i.
Qed.

Local Hint Resolve quiet_shootdown_bystanders_loop : quiet.

Lemma quiet_shootdown_bystanders (i : nat) (ci : cpu_info) (p : pmap_t) :
  keeps (quiet cfg true i) (pmap_tlb_shootdown_bystanders cfg ci p).
Proof. unfold pmap_tlb_shootdown_bystanders. quiet_go true i. Qed.

Lemma quiet_shootdown_process (i : nat) (ci : cpu_info) :
  keeps (quiet cfg true i) (pmap_tlb_shootdown_process cfg ci).
Proof. unfold pmap_tlb_shootdown_process. quiet_go true i. Qed.

Local Hint Resolve quiet_acquire quiet_deactivate quiet_release_all
  quiet_shootdown_bystanders quiet_shootdown_process : quiet.

Lemma quiet_run_call (i : nat) (c : call) :
  keeps (quiet cfg true i) (run_call cfg c).
Proof. destruct c; cbn [run_call]; quiet_go true i. Qed.

Lemma quiet_run_calls (i : nat) (l : list call) :
  keeps (quiet cfg true i) (run_calls cfg l).
Proof.
  pose proof (quiet_run_call i) as Hc.
  induction l as [|c l IH]; cbn [run_calls]; quiet_go true i.
Qed.

(** After the reset of the binding of a pmap, no user pmap has the ASID
    the pmap had. *)
Lemma pai_reset_asid_gone (s : kstate) (i : nat) (ti : pmap_tlb_info)
    (p : pmap_t) (pm : pmap) :
  tlb_inv cfg [] s i ti → p ∈ ti_pais ti → pmaps s !! p = Some pm →
  (MULTIPROCESSOR cfg = true →
   pmap_tlb_intersecting_onproc_p cfg pm ti = false) →
  ∀ q qm, q ≠ pmap_kernel →
    pmaps (pai_reset_store cfg i p ti pm s) !! q = Some qm →
    pai_asid qm i ≠ pai_asid pm i.
Proof.
  intros Hinv Hin Hpm Hon q qm Hqk Hqm. pose proof Hcfg as [HK HN].
  destruct (inv_linked _ _ _ _ _ Hinv p Hin) as (_ & pm' & Hpm' & Ha & _).
  rewrite Hpm in Hpm'. injection Hpm' as <-.
  pose proof (pai_reset_inv cfg Hcfg [] s i ti p pm Hinv Hin Hpm Hon)
    as Hinv1.
  pose proof (pai_reset_ti_fields cfg p (pai_asid pm i) ti) as
    (_ & _ & Fpais & _).
  destruct (decide (q ∈ ti_pais (pai_reset_ti cfg p (pai_asid pm i) ti)))
    as [Hl|Hnl].
  - rewrite Fpais in Hl. apply list_elem_of_filter in Hl as [Hqp Hl].
    unfold pai_reset_store in Hqm. rewrite lookup_upd_pm_ne in Hqm by done.
    intros He. apply Hqp.
    by apply (inv_distinct _ _ _ _ _ Hinv q p qm pm).
  - destruct (inv_unlinked _ _ _ _ _ Hinv1 q qm Hqk Hqm Hnl) as [H0 _].
    lia.
Qed.

(** C3, amended: a reset of a linked pmap that is not onproc returns; it
    unlinks the pmap and sets its ASID to 0.  Where freed ASIDs stay
    marked, the bit of the ASID stays set and the free count is the same;
    after any calls of the routines that return, the count of
    reinitialisations of the TLB ([ti_evcnt_asid_reinits], which
    [pmap_tlb_asid_reinitialize] takes up first thing) has not gone down,
    and as long as it is what it was after the reset the bit is still set
    and no user pmap has the ASID: no allocation has handed it out.  Where
    ASIDs are freed on reset, the bit is cleared and the free count goes
    up by one, on a uniprocessor the TLB holds no entry of the ASID after
    the reset, and after any calls of the routines that return the TLB
    holds no entry of the ASID whenever a user pmap has it. *)
Theorem reclaim_no_premature_reuse (s : kstate) (i : nat)
    (ti : pmap_tlb_info) (p : pmap_t) (pm : pmap) :
  tlb_inv cfg [] s i ti → p ∈ ti_pais ti → pmaps s !! p = Some pm →
  (MULTIPROCESSOR cfg = true →
   pmap_tlb_intersecting_onproc_p cfg pm ti = false) →
  wp (pmap_tlb_pai_reset cfg i p) s (λ _ s1,
    ∃ ti1 pm1,
      pmap_tlbs s1 !! i = Some ti1 ∧ pmaps s1 !! p = Some pm1
      ∧ (p ∉ ti_pais ti1) ∧ pai_asid pm1 i = 0
      ∧ (if PMAP_TLB_FLUSH_ASID_ON_RESET cfg
         then TLBINFO_ASID_INUSE_P cfg ti1 (pai_asid pm i) = false
              ∧ ti_asids_free ti1 = ti_asids_free ti + 1
              ∧ (MULTIPROCESSOR cfg = false →
                 pai_asid pm i ∉ hw_entries (hw s1))
         else TLBINFO_ASID_INUSE_P cfg ti1 (pai_asid pm i) = true
              ∧ ti_asids_free ti1 = ti_asids_free ti)
      ∧ ∀ (l : list call) (s2 : kstate),
          run_calls cfg l s1 = Some (tt, s2) →
          ∃ ti2, pmap_tlbs s2 !! i = Some ti2
            ∧ ti_evcnt_asid_reinits ti1 ≤ ti_evcnt_asid_reinits ti2
            ∧ (PMAP_TLB_FLUSH_ASID_ON_RESET cfg = false →
               ti_evcnt_asid_reinits ti2 = ti_evcnt_asid_reinits ti1 →
               TLBINFO_ASID_INUSE_P cfg ti2 (pai_asid pm i) = true
               ∧ ∀ q qm, q ≠ pmap_kernel → pmaps s2 !! q = Some qm →
                   pai_asid qm i ≠ pai_asid pm i)
            ∧ (PMAP_TLB_FLUSH_ASID_ON_RESET cfg = true →
               ∀ q qm, q ≠ pmap_kernel → pmaps s2 !! q = Some qm →
                 pai_asid qm i = pai_asid pm i →
                 pai_asid pm i ∉ hw_entries (hw s2))).
Proof.
  intros Hinv Hin Hpm Hon.
  eapply wp_mono; [by apply pai_reset_total|]. intros [] s1 ->.
  pose proof (pai_reset_asid_gone s i ti p pm Hinv Hin Hpm Hon) as Hgone.
  destruct (inv_linked _ _ _ _ _ Hinv p Hin)
    as (Hpk & pm' & Hpm' & Ha & Hmarked & _).
  rewrite Hpm in Hpm'. injection Hpm' as <-.
  specialize (Hmarked ltac:(apply not_elem_of_nil)).
  pose proof (inv_max _ _ _ _ _ Hinv) as (Hm1 & Hm2 & Hm3).
  pose proof (inv_free _ _ _ _ _ Hinv) as Hcons.
  pose proof (pai_reset_inv cfg Hcfg [] s i ti p pm Hinv Hin Hpm Hon) as Hinv1.
  pose proof (pai_reset_ti_fields cfg p (pai_asid pm i) ti) as
    (_ & _ & Fpais & _).
  destruct (pai_reset_ti_free cfg Hcfg p (pai_asid pm i) ti Ha Hm2 Hm3 Hcons)
    as [_ Ffree].
  pose proof Hcfg as [HK HN].
  assert (Hbit : TLBINFO_ASID_INUSE_P cfg
                   (pai_reset_ti cfg p (pai_asid pm i) ti) (pai_asid pm i)
                 = negb (PMAP_TLB_FLUSH_ASID_ON_RESET cfg)).
  { rewrite pai_reset_ti_inuse by (done || lia).
    rewrite Hmarked, bool_decide_eq_true_2 by done.
    by destruct (PMAP_TLB_FLUSH_ASID_ON_RESET cfg). }
  assert (Hhw : PMAP_TLB_FLUSH_ASID_ON_RESET cfg = true →
                MULTIPROCESSOR cfg = false →
                pai_asid pm i
                ∉ hw_entries (hw (pai_reset_store cfg i p ti pm s))).
  { intros Hfl Hup. cbn. unfold pai_reset_hw. rewrite Hfl, Hup. cbn.
    intros Hx. apply list_elem_of_filter in Hx as [Hn _]. apply Hn. lia. }
  pose proof (inv_lookup _ _ _ _ _ Hinv1) as Hti1.
  exists (pai_reset_ti cfg p (pai_asid pm i) ti), (pai_reset_pm cfg i ti pm).
  split; [exact Hti1|].
  split; [unfold pai_reset_store; apply lookup_upd_pm_eq|].
  split.
  { rewrite Fpais. intros Hx. apply list_elem_of_filter in Hx as [Hx _]. done. }
  split; [apply pai_reset_pm_asid|].
  split.
  { rewrite Hbit, Ffree, Hmarked.
    destruct (PMAP_TLB_FLUSH_ASID_ON_RESET cfg) eqn:Hfl; cbn; [|done].
    split; [done|]. split; [done|]. by apply Hhw. }
  intros l s2 Hrun.
  destruct (quiet_run_calls i l _ _ _ Hrun) as [Hw Hq].
  destruct (Hq _ Hti1) as (ti2 & Hti2 & Hc & Hf & Hs).
  exists ti2. split; [done|]. split; [done|]. split.
  - intros Hfl Hcnt. destruct (Hs eq_refl Hfl Hcnt) as [Hm Hp].
    rewrite Hfl in Hbit. split; [by apply Hm|].
    intros q qm Hqk Hqm He.
    destruct (Hp q qm Hqm) as [[H0|(qm1 & Hq1 & He1)]|Hr].
    + lia.
    + apply (Hgone q qm1 Hqk Hq1). congruence.
    + rewrite He in Hr. cbn in Hbit. congruence.
  - intros Hfl q qm Hqk Hqm He.
    destruct (Hf Hfl q qm Hqm) as [[H0|(qm1 & Hq1 & He1)]|Hr].
    + lia.
    + exfalso. apply (Hgone q qm1 Hqk Hq1). congruence.
    + destruct (MULTIPROCESSOR cfg) eqn:Hmp.
      * rewrite <- He. by apply Hr.
      * intros Hx. apply (Hhw Hfl eq_refl). by apply Hw.
Qed.

End Quiet.

Lemma reclaim_no_premature_reuse_witness :
  wp (pmap_tlb_pai_reset cfg_mp 1 2%nat) ex_mp (λ _ s1,
    ∃ ti1 pm1,
      pmap_tlbs s1 !! 1%nat = Some ti1 ∧ pmaps s1 !! 2%nat = Some pm1
      ∧ (2%nat ∉ ti_pais ti1) ∧ pai_asid pm1 1 = 0
      ∧ TLBINFO_ASID_INUSE_P cfg_mp ti1 2 = true
      ∧ ∃ s2 ti2 pm2 pm3,
          run_calls cfg_mp
            [call_acquire 3%nat cpu2 true; call_deactivate cpu2 3%nat;
             call_shootdown_bystanders cpu0 1%nat;
             call_acquire 2%nat cpu2 true] s1 = Some (tt, s2)
          ∧ pmap_tlbs s2 !! 1%nat = Some ti2
          ∧ ti_evcnt_asid_reinits ti2 = ti_evcnt_asid_reinits ti1
          ∧ TLBINFO_ASID_INUSE_P cfg_mp ti2 2 = true
          ∧ pmaps s2 !! 2%nat = Some pm2 ∧ pai_asid pm2 1 = 4
          ∧ pmaps s2 !! 3%nat = Some pm3 ∧ pai_asid pm3 1 = 3
          ∧ ∀ q qm, q ≠ pmap_kernel → pmaps s2 !! q = Some qm →
              pai_asid qm 1 ≠ 2).
Proof.
  destruct (reclaim_no_premature_reuse cfg_mp cfg_mp_ok ex_mp 1%nat
              (ex_mp_tlb 5 3 [7; 0] TLBINV_NOBODY None) 2%nat
              (ex_pmap [(1%nat, 2)] {[2%nat; 3%nat]} ∅)
              (ex_mp_inv TLBINV_NOBODY None))
    as (u & s1 & Hrun & ti1 & pm1 & H1 & H2 & H3 & H4 & H5 & H6).
  - apply list_elem_of_here.
  - reflexivity.
  - intros _. reflexivity.
  - exists u, s1. split; [exact Hrun|]. exists ti1, pm1.
    split; [exact H1|]. split; [exact H2|]. split; [exact H3|].
    split; [exact H4|]. split; [exact (proj1 H5)|].
    vm_compute in Hrun. injection Hrun as _ <-.
    vm_compute in H1. injection H1 as <-.
    destruct (H6 [call_acquire 3%nat cpu2 true; call_deactivate cpu2 3%nat;
                  call_shootdown_bystanders cpu0 1%nat;
                  call_acquire 2%nat cpu2 true] _
                ltac:(vm_compute; reflexivity))
      as (ti2 & Hti2 & _ & Hkeep & _).
    vm_compute in Hti2. injection Hti2 as <-.
    destruct (Hkeep eq_refl eq_refl) as [Hb Hno].
    eexists _, _, _, _. split; [vm_compute; reflexivity|].
    split; [vm_compute; reflexivity|]. split; [reflexivity|].
    split; [exact Hb|]. split; [vm_compute; reflexivity|].
    split; [reflexivity|]. split; [vm_compute; reflexivity|].
    split; [reflexivity|]. exact Hno.
Defined.

(** ** The shape of the store is kept *)

Section Shape.

Context (cfg : config).

Lemma same_shape_refl (s : kstate) : same_shape s s.
Proof. by split. Qed.

Lemma same_shape_eq (s s' : kstate) :
  pmap_tlbs s' = pmap_tlbs s → kcpuset_running s' = kcpuset_running s →
  pmaps s' = pmaps s → ipis s' = ipis s → same_shape s s'.
Proof. intros H1 H2 H3 H4. split; [by rewrite H1|done|by rewrite H3|by rewrite H4]. Qed.

Lemma same_shape_trans (s1 s2 s3 : kstate) :
  same_shape s1 s2 → same_shape s2 s3 → same_shape s1 s3.
Proof.
  intros [A1 A2 A3 A4] [B1 B2 B3 B4]. split.
  - intros j. by rewrite B1.
  - by rewrite B2.
  - by rewrite B3.
  - by etrans.
Qed.

Lemma same_shape_upd_ti (i : nat) (s : kstate) (t t' : pmap_tlb_info) :
  pmap_tlbs s !! i = Some t → ti_fixed t' = ti_fixed t →
  same_shape s (upd_ti i t' s).
Proof.
  intros Hi Ht. split; [|done..]. intros j. cbn.
  destruct (decide (i = j)) as [<-|Hne].
  - rewrite list_lookup_insert_eq by (by eapply lookup_lt_Some).
    rewrite Hi. cbn. by rewrite Ht.
  - by rewrite list_lookup_insert_ne.
Qed.

Lemma same_shape_modify_ti (i : nat) (f : pmap_tlb_info → pmap_tlb_info) :
  (∀ t, ti_fixed (f t) = ti_fixed t) →
  keeps same_shape_no_ipi (modify_ti i f).
Proof.
  intros Hf s a s' Hrun. unfold modify_ti in Hrun.
  destruct (pmap_tlbs s !! i) as [t|] eqn:E; [|done]. injection Hrun as _ <-.
  split; [|done]. by apply (same_shape_upd_ti i s t).
Qed.

Lemma same_shape_modify_pm (p : pmap_t) (f : pmap → pmap) :
  keeps same_shape_no_ipi (modify_pm p f).
Proof.
  intros s a s' Hrun. unfold modify_pm in Hrun.
  destruct (pmaps s !! p) as [pm|] eqn:E; [|done]. injection Hrun as _ <-.
  split; [|done]. split; [done|done| |done]. cbn.
  apply dom_insert_lookup_L. by rewrite E.
Qed.

Lemma same_shape_LOCK (i : nat) : keeps same_shape_no_ipi (TLBINFO_LOCK i).
Proof.
  intros s a s' Hrun. unfold TLBINFO_LOCK, bind, get_ti in Hrun.
  destruct (pmap_tlbs s !! i) as [t|] eqn:E; [|done].
  destruct (ti_lock t); [done|].
  by apply (same_shape_modify_ti i (set_lock true)) in Hrun.
Qed.

Lemma same_shape_cur (a : Z) :
  keeps same_shape_no_ipi
    ((λ s, Some (tt, set_asid_cur a s)) >> tlb_set_asid a).
Proof. intros s u s' [= _ <-]. split; [by apply same_shape_eq|done]. Qed.

(** [keeps], for a relation that is weaker. *)
Lemma keeps_weaken {A} (R R' : kstate → kstate → Prop) (m : M A) :
  (∀ s s', R s s' → R' s s') → keeps R m → keeps R' m.
Proof. intros HR Hm s a s' Hrun. by eapply HR, Hm. Qed.

Ltac shape_prims :=
  cbv beta;
  lazymatch goal with
  | |- ∀ h s, same_shape_no_ipi s s =>
    intros _ ?; split; [apply same_shape_refl|done]
  | |- ∀ h1 h2 h3 s1 s2 s3, same_shape_no_ipi _ _ → _ =>
    intros _ _ _ ? ? ? [? ?] [? ?];
    split; [by eapply same_shape_trans|congruence]
  | |- ∀ h i s t t', _ → _ → _ → _ → same_shape_no_ipi _ _ =>
    intros _ ? ? ? ? _ ? ? _; split; [by eapply same_shape_upd_ti|done]
  | |- ∀ i, _ → keeps _ (TLBINFO_LOCK _) => intros; apply same_shape_LOCK
  | |- ∀ i, _ → keeps _ (TLBINFO_UNLOCK _) =>
    intros; by apply same_shape_modify_ti
  | |- ∀ h f, _ → keeps _ (modify_hw _) =>
    intros _ ? _ ? ? ? [= _ <-]; split; [by apply same_shape_eq|done]
  | |- ∀ h a, keeps _ (bind _ _) => intros; apply same_shape_cur
  | |- context [modify_pm] => intros; apply same_shape_modify_pm
  | |- _ => done
  end.

(** X1: none of the routines a kernel calls changes the number of TLBs,
    the last ASID of a TLB, the CPUs it serves or the size of its bitmap,
    the set of the running CPUs, or which pmaps there are; and only
    [pmap_tlb_shootdown_bystanders] sends IPIs, which it adds to the ones
    sent before. *)
Theorem routines_keep_shape (ci : cpu_info) (p : pmap_t) (curlwp_p : bool) :
  keeps same_shape_no_ipi (pmap_tlb_asid_acquire cfg p ci curlwp_p)
  ∧ keeps same_shape_no_ipi (pmap_tlb_asid_deactivate cfg ci p)
  ∧ keeps same_shape_no_ipi (pmap_tlb_asid_release_all cfg ci p)
  ∧ keeps same_shape_no_ipi (pmap_tlb_shootdown_process cfg ci)
  ∧ keeps same_shape (pmap_tlb_shootdown_bystanders cfg ci p).
Proof.
  split; [|split; [|split; [|split]]].
  - apply (keeps_acquire cfg (λ _ _, same_shape_no_ipi)
             (λ _, True) (λ _, True)); shape_prims.
  - apply (keeps_deactivate cfg (λ _ _, same_shape_no_ipi)
             (λ _, True) (λ _, True)); shape_prims.
  - apply (keeps_release_all cfg (λ _ _, same_shape_no_ipi) (λ _, True));
      shape_prims.
  - apply (keeps_shootdown_process cfg (λ _ _, same_shape_no_ipi)
             (λ _, True)); shape_prims.
  - apply (keeps_shootdown_bystanders cfg (λ _ _, same_shape) (λ _, True));
      cbv beta.
    + intros _. apply same_shape_refl.
    + intros _ _ _. apply same_shape_trans.
    + intros _ i s t t' _ Hi Ht _. by eapply same_shape_upd_ti.
    + intros i _. eapply keeps_weaken; [|apply same_shape_LOCK].
      by intros ?? [].
    + intros i _. eapply keeps_weaken; [|by apply same_shape_modify_ti].
      by intros ?? [].
    + intros. eapply keeps_weaken; [|apply same_shape_modify_pm].
      by intros ?? [].
    + intros. eapply keeps_weaken; [|apply same_shape_modify_pm].
      by intros ?? [].
    + intros _ f _ s u s' [= _ <-]. by apply same_shape_eq.
    + intros _ j s u s' [= _ <-]. split; [done..|]. cbn.
      by apply prefix_app_r.
    + done.
Qed.

End Shape.

Lemma routines_keep_shape_witness :
  ∃ s', pmap_tlb_asid_acquire cfg_mp 3%nat cpu2 true ex_mp = Some (tt, s')
        ∧ same_shape_no_ipi ex_mp s'.
Proof.
  eexists. split; [vm_compute; reflexivity|].
  apply (proj1 (routines_keep_shape cfg_mp cpu2 3%nat true) _ tt).
  vm_compute. reflexivity.
Defined.

(** ** A routine works for the TLB of its CPU *)

Section Local.

Context (cfg : config).

Lemma local_to_refl (i c : nat) (s : kstate) : local_to i c s s.
Proof. by split. Qed.

Lemma local_to_trans (i c : nat) (s1 s2 s3 : kstate) :
  local_to i c s1 s2 → local_to i c s2 s3 → local_to i c s1 s3.
Proof.
  intros [A1 A2 A3] [B1 B2 B3]. split.
  - intros j Hj. by rewrite B1, A1.
  - intros p j Hj. by rewrite B2, A2.
  - intros p. by rewrite B3, A3.
Qed.

Lemma local_to_modify_ti (i c : nat) (f : pmap_tlb_info → pmap_tlb_info) :
  keeps (local_to i c) (modify_ti i f).
Proof.
  intros s a s' Hrun. unfold modify_ti in Hrun.
  destruct (pmap_tlbs s !! i) as [t|] eqn:E; [|done]. injection Hrun as _ <-.
  split; [|done..]. intros j Hj. cbn. by rewrite list_lookup_insert_ne.
Qed.

Lemma local_to_modify_pm (i c : nat) (p : pmap_t) (f : pmap → pmap) :
  (∀ m j, j ≠ i → pai_asid (f m) j = pai_asid m j) →
  (∀ m, pm_onproc (f m) ∖ {[c]} = pm_onproc m ∖ {[c]}) →
  keeps (local_to i c) (modify_pm p f).
Proof.
  intros Hf1 Hf2 s a s' Hrun. unfold modify_pm in Hrun.
  destruct (pmaps s !! p) as [pm|] eqn:E; [|done]. injection Hrun as _ <-.
  split; [done| |].
  - intros q j Hj. cbn. destruct (decide (q = p)) as [->|Hne].
    + rewrite lookup_insert_eq.
      transitivity ((λ pm, pai_asid pm j) <$> Some pm);
        [cbn; by rewrite Hf1|f_equal; symmetry; exact E].
    + by rewrite lookup_insert_ne.
  - intros q. cbn. destruct (decide (q = p)) as [->|Hne].
    + rewrite lookup_insert_eq.
      transitivity ((λ pm, pm_onproc pm ∖ {[c]}) <$> Some pm);
        [cbn; by rewrite Hf2|f_equal; symmetry; exact E].
    + by rewrite lookup_insert_ne.
Qed.

Lemma local_to_LOCK (i c : nat) : keeps (local_to i c) (TLBINFO_LOCK i).
Proof.
  intros s a s' Hrun. unfold TLBINFO_LOCK, bind, get_ti in Hrun.
  destruct (pmap_tlbs s !! i) as [t|] eqn:E; [|done].
  destruct (ti_lock t); [done|].
  by apply (local_to_modify_ti i c (set_lock true)) in Hrun.
Qed.

Lemma local_to_pai (i c : nat) (p : pmap_t) (v : Z) :
  keeps (local_to i c) (modify_pm p (set_pai_asid i v)).
Proof.
  apply local_to_modify_pm; [|done].
  intros m j Hj. unfold pai_asid. cbn. by rewrite lookup_insert_ne.
Qed.

Lemma local_to_active (i c : nat) (p : pmap_t) (g : pmap → gset nat) :
  keeps (local_to i c) (modify_pm p (λ m, set_active (g m) m)).
Proof. by apply local_to_modify_pm. Qed.

Lemma local_to_onproc (i c : nat) (p : pmap_t) (g : pmap → gset nat) :
  (∀ m, g m ∖ {[c]} = pm_onproc m ∖ {[c]}) →
  keeps (local_to i c) (modify_pm p (λ m, set_onproc (g m) m)).
Proof. intros Hg. by apply local_to_modify_pm. Qed.

Ltac local_prims :=
  cbv beta;
  lazymatch goal with
  | |- ∀ h s, local_to _ _ s s => intros _; apply local_to_refl
  | |- ∀ h1 h2 h3 s1 s2 s3, local_to _ _ _ _ → _ =>
    intros _ _ _; apply local_to_trans
  | |- ∀ h i s t t', _ → _ → _ → _ → local_to _ _ _ _ =>
    let Hj := fresh "Hj" in
    intros _ ? ? ? t' -> Hj _ _;
    by apply (local_to_modify_ti _ _ (λ _, t') _ tt);
      unfold modify_ti; rewrite Hj
  | |- ∀ i, _ → keeps _ (TLBINFO_LOCK _) => intros ? ->; apply local_to_LOCK
  | |- ∀ i, _ → keeps _ (TLBINFO_UNLOCK _) =>
    intros ? ->; apply local_to_modify_ti
  | |- ∀ h i p v, _ → keeps _ (modify_pm _ (set_pai_asid _ _)) =>
    intros _ ? ? ? ->; apply local_to_pai
  | |- ∀ h p g, keeps _ (modify_pm _ _) => intros _ ? ?; apply local_to_active
  | |- ∀ h c p g, _ → _ → keeps _ (modify_pm _ _) =>
    intros _ ? ? ? -> ?; by apply local_to_onproc
  | |- ∀ h f, _ → keeps _ (modify_hw _) =>
    intros _ ? _ ? ? ? [= _ <-]; by split
  | |- ∀ h a, keeps _ (bind _ _) => intros _ ? ? ? ? [= _ <-]; by split
  | |- _ => done
  end.

(** X2: [pmap_tlb_asid_acquire], [pmap_tlb_asid_deactivate] and
    [pmap_tlb_shootdown_process] work for the TLB of the CPU they are
    called for: the other TLBs are left as they are with their bitmaps,
    lists, counters, locks and pending shootdowns, no pmap has its ASID of
    another TLB changed, and no pmap is put onproc on, or taken off,
    another CPU. *)
Theorem routines_local_to_tlb (ci : cpu_info) (p : pmap_t)
    (curlwp_p : bool) :
  keeps (local_to (ci_tlb ci) (ci_index ci))
    (pmap_tlb_asid_acquire cfg p ci curlwp_p)
  ∧ keeps (local_to (ci_tlb ci) (ci_index ci))
      (pmap_tlb_asid_deactivate cfg ci p)
  ∧ keeps (local_to (ci_tlb ci) (ci_index ci))
      (pmap_tlb_shootdown_process cfg ci).
Proof.
  split; [|split].
  - apply (keeps_acquire cfg (λ _ _, local_to (ci_tlb ci) (ci_index ci))
             (λ j, j = ci_tlb ci) (λ k, k = ci_index ci)); local_prims.
  - apply (keeps_deactivate cfg (λ _ _, local_to (ci_tlb ci) (ci_index ci))
             (λ j, j = ci_tlb ci) (λ k, k = ci_index ci)); local_prims.
  - apply (keeps_shootdown_process cfg (λ _ _, local_to (ci_tlb ci) (ci_index ci))
             (λ j, j = ci_tlb ci)); local_prims.
Qed.

End Local.

Lemma routines_local_to_tlb_witness :
  ∃ s', pmap_tlb_asid_acquire cfg_mp 3%nat cpu2 true ex_mp = Some (tt, s')
        ∧ local_to 1 2 ex_mp s'.
Proof.
  eexists. split; [vm_compute; reflexivity|].
  apply (proj1 (routines_local_to_tlb cfg_mp cpu2 3%nat true) _ tt).
  vm_compute. reflexivity.
Defined.

(** ** The ASID register and the current ASID of the CPU *)

Section Synced.

Context (cfg : config).

Lemma ends_bind_skip {A B} (P : kstate → Prop) (m : M A) (k : A → M B) :
  (∀ a, ends P (k a)) → ends P (bind m k).
Proof.
  intros Hk s b s' Hrun. unfold bind in Hrun.
  destruct (m s) as [[a s1]|]; [|done]. by eapply Hk.
Qed.

Lemma ends_bind_keeps {A B} (P : kstate → Prop) (m : M A) (k : A → M B) :
  ends P m → (∀ a, keeps (λ s s', P s → P s') (k a)) → ends P (bind m k).
Proof.
  intros Hm Hk s b s' Hrun. unfold bind in Hrun.
  destruct (m s) as [[a s1]|] eqn:E; [|done].
  eapply Hk; [done|]. by eapply Hm.
Qed.

Lemma ends_synced_cur (a : Z) :
  ends asid_synced ((λ s, Some (tt, set_asid_cur a s)) >> tlb_set_asid a).
Proof. by intros s u s' [= _ <-]. Qed.

Lemma asid_check_synced (debug : bool) (s : kstate) :
  pmap_tlb_asid_check debug s
  = if debug && negb (bool_decide (asid_synced s)) then None
    else Some (tt, s).
Proof.
  unfold pmap_tlb_asid_check, asid_synced. destruct debug; [|done].
  cbn. destruct (Z.eqb_spec (hw_asid (hw s)) (ci_pmap_asid_cur s)) as [E|E].
  - by rewrite bool_decide_eq_true_2.
  - by rewrite bool_decide_eq_false_2.
Qed.

Ltac synced_prims :=
  cbv beta;
  lazymatch goal with
  | |- ∀ h s, stays_synced s s => by intros _ ? ?
  | |- ∀ h1 h2 h3 s1 s2 s3, stays_synced _ _ → _ =>
    let H1 := fresh "H" in let H2 := fresh "H" in
    intros _ _ _ ? ? ? H1 H2 ?; by apply H2, H1
  | |- ∀ h i s t t', _ → _ → _ → _ → stays_synced _ _ =>
    let H := fresh "H" in intros _ ? ? ? ? _ _ _ _ H; exact H
  | |- ∀ i, _ → keeps _ (TLBINFO_LOCK _) =>
    let j := fresh "j" in let s := fresh "st" in let Hrun := fresh "Hrun" in
    let t := fresh "t" in let E := fresh "E" in
    intros j _ s ? ? Hrun ?; unfold TLBINFO_LOCK, bind, get_ti in Hrun;
    destruct (pmap_tlbs s !! j) as [t|] eqn:E; [|done];
    destruct (ti_lock t); [done|];
    unfold modify_ti in Hrun; rewrite E in Hrun; by injection Hrun as _ <-
  | |- ∀ i, _ → keeps _ (TLBINFO_UNLOCK _) =>
    let j := fresh "j" in let s := fresh "st" in let Hrun := fresh "Hrun" in
    intros j _ s ? ? Hrun ?; unfold TLBINFO_UNLOCK, modify_ti in Hrun;
    destruct (pmap_tlbs s !! j); [|done];
    by injection Hrun as _ <-
  | |- ∀ h f, _ → keeps _ (modify_hw _) =>
    let Hf := fresh "Hf" in
    intros _ ? Hf ? ? ? [= _ <-] ?; unfold asid_synced in *; cbn;
    by rewrite Hf
  | |- ∀ h a, keeps _ (bind _ _) => by intros _ ? ? ? ? [= _ <-] _
  | |- ∀ h j, keeps _ (cpu_send_ipi _) => by intros _ ? ? ? ? [= _ <-] ?
  | |- context [modify_pm] =>
    let s := fresh "st" in let Hrun := fresh "Hrun" in
    intros; intros s ? ? Hrun ?; unfold modify_pm in Hrun;
    destruct (pmaps s !! _); [|done]; by injection Hrun as _ <-
  | |- _ => done
  end.

Lemma synced_acquire (p : pmap_t) (ci : cpu_info) (curlwp_p : bool) :
  keeps stays_synced (pmap_tlb_asid_acquire cfg p ci curlwp_p).
Proof.
  apply (keeps_acquire cfg (λ _ _, stays_synced) (λ _, True) (λ _, True));
    synced_prims.
Qed.

Lemma synced_pai_check (i : nat) :
  keeps stays_synced (pmap_tlb_pai_check cfg i false).
Proof.
  apply (keeps_pai_check cfg (λ _ _, stays_synced) (λ _, True));
    synced_prims.
Qed.

(** X3: the routines keep the ASID register of the TLB and the current
    ASID of the CPU in agreement, and [pmap_tlb_asid_deactivate], and
    [pmap_tlb_asid_acquire] when it is called for the running lwp with a
    pmap that is not the kernel's, leave them in agreement whatever they
    start from; [pmap_tlb_asid_check] stops a DEBUG kernel exactly when the
    two differ, and leaves the store alone. *)
Theorem routines_keep_asid_synced (ci : cpu_info) (p : pmap_t)
    (curlwp_p : bool) :
  (∀ debug s,
     pmap_tlb_asid_check debug s
     = if debug && negb (bool_decide (asid_synced s)) then None
       else Some (tt, s))
  ∧ keeps stays_synced (pmap_tlb_asid_acquire cfg p ci curlwp_p)
  ∧ keeps stays_synced (pmap_tlb_asid_deactivate cfg ci p)
  ∧ keeps stays_synced (pmap_tlb_asid_release_all cfg ci p)
  ∧ keeps stays_synced (pmap_tlb_shootdown_process cfg ci)
  ∧ keeps stays_synced (pmap_tlb_shootdown_bystanders cfg ci p)
  ∧ ends asid_synced (pmap_tlb_asid_deactivate cfg ci p)
  ∧ (p ≠ pmap_kernel →
     ends asid_synced (pmap_tlb_asid_acquire cfg p ci true)).
Proof.
  split; [apply asid_check_synced|].
  split; [apply synced_acquire|].
  split.
  { apply (keeps_deactivate cfg (λ _ _, stays_synced) (λ _, True) (λ _, True));
      synced_prims. }
  split.
  { apply (keeps_release_all cfg (λ _ _, stays_synced) (λ _, True)); synced_prims. }
  split.
  { apply (keeps_shootdown_process cfg (λ _ _, stays_synced) (λ _, True));
      synced_prims. }
  split.
  { apply (keeps_shootdown_bystanders cfg (λ _ _, stays_synced) (λ _, True));
      synced_prims. }
  split.
  - unfold pmap_tlb_asid_deactivate. apply ends_bind_skip. intros _.
    intros s u s' Hrun. unfold bind at 1 in Hrun. cbn beta iota in Hrun.
    unfold bind at 1 in Hrun.
    change (tlb_set_asid (KERNEL_PID cfg) (set_asid_cur (KERNEL_PID cfg) s))
      with (Some (tt, set_hw {| hw_asid := KERNEL_PID cfg;
                               hw_entries := hw_entries (hw s);
                               hw_globals := hw_globals (hw s) |}
                        (set_asid_cur (KERNEL_PID cfg) s))) in Hrun.
    cbn beta iota in Hrun.
    by apply (synced_pai_check (ci_tlb ci) _ _ _ Hrun).
  - intros Hp. unfold pmap_tlb_asid_acquire.
    rewrite bool_decide_eq_false_2 by done.
    repeat (cbv beta;
            lazymatch goal with
            | |- ends _ (bind (when true _) _) => fail
            | |- ends _ (bind _ _) => apply ends_bind_skip; intros ?
            end).
    apply ends_bind_keeps.
    + cbn [when]. apply ends_bind_skip. intros _. apply ends_synced_cur.
    + intros _ s u s' Hrun Hs. unfold TLBINFO_UNLOCK, modify_ti in Hrun.
      destruct (pmap_tlbs s !! _); [|done]. by injection Hrun as _ <-.
Qed.

End Synced.

Lemma routines_keep_asid_synced_witness :
  ∃ s1 s2,
    pmap_tlb_asid_acquire cfg_mp 3%nat cpu2 true ex_mp = Some (tt, s1)
    ∧ pmap_tlb_asid_deactivate cfg_mp cpu2 3%nat s1 = Some (tt, s2)
    ∧ asid_synced s1 ∧ hw_asid (hw s1) = 3
    ∧ asid_synced s2 ∧ hw_asid (hw s2) = 0
    ∧ pmap_tlb_asid_check true s2 = Some (tt, s2).
Proof.
  pose proof (routines_keep_asid_synced cfg_mp cpu2 3%nat true)
    as (Hc & _ & _ & _ & _ & _ & Hd & Ha).
  eexists _, _. split; [vm_compute; reflexivity|].
  lazymatch goal with
  | |- pmap_tlb_asid_deactivate _ _ _ ?x = _ ∧ _ => set (st1 := x)
  end.
  split; [vm_compute; reflexivity|].
  split.
  { apply (Ha ltac:(discriminate) ex_mp tt). vm_compute. reflexivity. }
  split; [reflexivity|].
  split.
  { apply (Hd st1 tt). vm_compute. reflexivity. }
  split; [reflexivity|]. rewrite Hc. reflexivity.
Defined.

(** ** The locks of the TLBs *)

Section Locks.

Context (cfg : config).

Lemma lock_step_refl (h : option nat) (s : kstate) : lock_step h h s s.
Proof. intros Hh. split; [done|]. intros j. by split; [|split]. Qed.

Lemma lock_step_trans (h1 h2 h3 : option nat) (s1 s2 s3 : kstate) :
  lock_step h1 h2 s1 s2 → lock_step h2 h3 s2 s3 → lock_step h1 h3 s1 s3.
Proof.
  intros H12 H23 Hh. destruct (H12 Hh) as [Hh2 F12].
  destruct (H23 Hh2) as [Hh3 F23]. split; [done|]. intros j.
  destruct (F12 j) as (A1 & A2 & A3). destruct (F23 j) as (B1 & B2 & B3).
  destruct (decide (h2 = Some j)) as [E2|E2].
  - split; [|split].
    + intros N1 N3. by rewrite B2, A3.
    + intros _ N3. by apply B2.
    + intros N1 _. by apply A3.
  - split; [|split].
    + intros N1 N3. by rewrite B1, A1.
    + intros E1 N3. by rewrite B1, A2.
    + intros N1 E3. by rewrite <- A1, B3.
Qed.

Lemma lock_step_same (h : option nat) (s s' : kstate) :
  (∀ j, lock_of s' j = lock_of s j) → lock_step h h s s'.
Proof.
  intros Hs Hh. split.
  - intros j Hj. rewrite Hs. by apply Hh.
  - intros j. split; [by intros|split; by intros].
Qed.

Lemma lock_of_upd_ti (i j : nat) (s : kstate) (t t' : pmap_tlb_info) :
  pmap_tlbs s !! i = Some t →
  lock_of (upd_ti i t' s) j
  = if decide (i = j) then Some (ti_lock t') else lock_of s j.
Proof.
  intros Hi. unfold lock_of. cbn. destruct (decide (i = j)) as [<-|Hne].
  - by rewrite list_lookup_insert_eq by (by eapply lookup_lt_Some).
  - by rewrite list_lookup_insert_ne.
Qed.

Lemma lock_step_modify_pm (h : option nat) (p : pmap_t) (f : pmap → pmap) :
  keeps (lock_step h h) (modify_pm p f).
Proof.
  intros s a s' Hrun. unfold modify_pm in Hrun.
  destruct (pmaps s !! p); [|done]. injection Hrun as _ <-.
  by apply lock_step_same.
Qed.

Lemma lock_step_LOCK (i : nat) :
  keeps (lock_step None (Some i)) (TLBINFO_LOCK i).
Proof.
  intros s a s' Hrun. unfold TLBINFO_LOCK, bind, get_ti in Hrun.
  destruct (pmap_tlbs s !! i) as [t|] eqn:E; [|done].
  destruct (ti_lock t) eqn:El; [done|].
  unfold modify_ti in Hrun. rewrite E in Hrun. injection Hrun as _ <-.
  fold (upd_ti i (set_lock true t) s). intros _. split.
  - intros j [= <-]. rewrite (lock_of_upd_ti i i s t) by done.
    by rewrite decide_True.
  - intros j. split; [|split].
    + intros _ Hj. rewrite (lock_of_upd_ti i j s t) by done.
      rewrite decide_False; [done|congruence].
    + done.
    + intros _ [= <-]. unfold lock_of. rewrite E. cbn. by rewrite El.
Qed.

Lemma lock_step_UNLOCK (i : nat) :
  keeps (lock_step (Some i) None) (TLBINFO_UNLOCK i).
Proof.
  intros s a s' Hrun. unfold TLBINFO_UNLOCK, modify_ti in Hrun.
  destruct (pmap_tlbs s !! i) as [t|] eqn:E; [|done].
  injection Hrun as _ <-. fold (upd_ti i (set_lock false t) s).
  intros _. split; [done|].
  intros j. split; [|split].
  - intros Hj _. rewrite (lock_of_upd_ti i j s t) by done.
    rewrite decide_False; [done|congruence].
  - intros [= <-] _. rewrite (lock_of_upd_ti i i s t) by done.
    by rewrite decide_True.
  - done.
Qed.

Ltac lock_prims :=
  lazymatch goal with
  | |- ∀ h s, lock_step _ _ s s => apply lock_step_refl
  | |- ∀ h1 h2 h3 s1 s2 s3, lock_step _ _ _ _ → _ => apply lock_step_trans
  | |- ∀ h i s t t', _ → _ → _ → _ → lock_step _ _ _ _ =>
    let Hi := fresh "Hi" in let Hl := fresh "Hl" in
    let j := fresh "j" in
    intros ? ? ? ? ? _ Hi _ Hl; apply lock_step_same; intros j;
    rewrite (lock_of_upd_ti _ j _ _ _ Hi);
    destruct (decide _) as [<-|]; [|done];
    unfold lock_of; rewrite Hi; cbn; by rewrite Hl
  | |- ∀ i, _ → keeps _ (TLBINFO_LOCK _) => intros; apply lock_step_LOCK
  | |- ∀ i, _ → keeps _ (TLBINFO_UNLOCK _) => intros; apply lock_step_UNLOCK
  | |- ∀ h f, _ → keeps _ (modify_hw _) =>
    intros ? ? _ ? ? ? [= _ <-]; by apply lock_step_same
  | |- ∀ h a, keeps _ (bind _ _) =>
    intros ? ? ? ? ? [= _ <-]; by apply lock_step_same
  | |- ∀ h j, keeps _ (cpu_send_ipi _) =>
    intros ? ? ? ? ? [= _ <-]; by apply lock_step_same
  | |- context [modify_pm] => intros; apply lock_step_modify_pm
  | |- _ => done
  end.

Lemma lock_step_same_locks {A} (m : M A) :
  keeps (lock_step None None) m → keeps same_locks m.
Proof.
  intros Hm s a s' Hrun j.
  destruct (Hm s a s' Hrun) as [_ H]; [done|]. by apply (H j).
Qed.

(** X4: each routine that returns has given back every lock it took: the
    locks of all the TLBs are in the state they were in when it was
    called. *)
Theorem routines_balance_locks (ci : cpu_info) (p : pmap_t)
    (curlwp_p : bool) :
  keeps same_locks (pmap_tlb_asid_acquire cfg p ci curlwp_p)
  ∧ keeps same_locks (pmap_tlb_asid_deactivate cfg ci p)
  ∧ keeps same_locks (pmap_tlb_asid_release_all cfg ci p)
  ∧ keeps same_locks (pmap_tlb_shootdown_process cfg ci)
  ∧ keeps same_locks (pmap_tlb_shootdown_bystanders cfg ci p).
Proof.
  split; [|split; [|split; [|split]]]; apply lock_step_same_locks.
  - apply (keeps_acquire cfg lock_step (λ _, True) (λ _, True)); lock_prims.
  - apply (keeps_deactivate cfg lock_step (λ _, True) (λ _, True));
      lock_prims.
  - apply (keeps_release_all cfg lock_step (λ _, True)); lock_prims.
  - apply (keeps_shootdown_process cfg lock_step (λ _, True)); lock_prims.
  - apply (keeps_shootdown_bystanders cfg lock_step (λ _, True));
      lock_prims.
Qed.

End Locks.

Lemma routines_balance_locks_witness :
  ∃ r s',
    pmap_tlb_shootdown_bystanders cfg_mp cpu0 1%nat ex_mp = Some (r, s')
    ∧ same_locks ex_mp s'.
Proof.
  eexists _, _. split; [vm_compute; reflexivity|].
  pose proof (routines_balance_locks cfg_mp cpu0 1%nat true)
    as (_ & _ & _ & _ & H).
  eapply H. vm_compute. reflexivity.
Defined.

(** ** The order of the requests merged into a TLB *)

Section MergeOrder2.

Context (cfg : config).

(** The pending operation and victim after a merge, from those before. *)
Lemma merge_ti_pending (p : pmap_t) (ti : pmap_tlb_info) :
  merge_ti p ti
  = set_victim (pending (merge_ti p ti)).2
      (set_tlbinvop (pending (merge_ti p ti)).1 ti).
Proof.
  destruct ti as [f h m b l v k op lk e]. unfold merge_ti, pending.
  repeat case_bool_decide; reflexivity.
Qed.

Lemma merge_pending_cases (p : pmap_t) (ti : pmap_tlb_info) :
  scope_wf (pending ti) →
  pending (merge_ti p ti)
  = if bool_decide (p = pmap_kernel) then
      (if bool_decide (ti_tlbinvop ti = TLBINV_NOBODY
                       ∨ ti_tlbinvop ti = TLBINV_ALLKERNEL)
       then TLBINV_ALLKERNEL else TLBINV_ALL, None)
    else if bool_decide (ti_tlbinvop ti = TLBINV_NOBODY)
    then (TLBINV_ONE, Some p)
    else if bool_decide (ti_tlbinvop ti = TLBINV_ONE ∧ ti_victim ti = Some p)
    then (TLBINV_ONE, Some p)
    else if bool_decide (ti_tlbinvop ti = TLBINV_ONE
                         ∨ ti_tlbinvop ti = TLBINV_ALLUSER)
    then (TLBINV_ALLUSER, None)
    else (TLBINV_ALL, None).
Proof.
  intros [Hv Hn]. cbn in Hv, Hn. unfold pending, merge_ti.
  destruct TLBINV_USER_MAP_table as (U0 & U1 & U2 & U3 & U4).
  destruct TLBINV_KERNEL_MAP_table as (K0 & K1 & K2 & K3 & K4).
  destruct (decide (p = pmap_kernel)) as [Hp|Hp].
  - rewrite !(bool_decide_eq_true_2 _ Hp). cbn.
    destruct (valid_op_cases _ Hv) as [E|[E|[E|[E|E]]]]; rewrite E;
      rewrite ?K0, ?K1, ?K2, ?K3, ?K4; by case_bool_decide as H;
      [|try (exfalso; apply H; tauto)];
      try (destruct H as [H|H]; discriminate H).
  - rewrite !(bool_decide_eq_false_2 _ Hp).
    destruct (valid_op_cases _ Hv) as [E|[E|[E|[E|E]]]].
    + rewrite (bool_decide_eq_true_2 (_ = TLBINV_NOBODY)) by done.
      rewrite Hn by (rewrite E; discriminate).
      rewrite bool_decide_eq_false_2 by discriminate. cbn.
      by rewrite E, U0.
    + rewrite (bool_decide_eq_false_2 (_ = TLBINV_NOBODY))
        by (rewrite E; discriminate).
      destruct (decide (ti_victim ti = Some p)) as [Hvp|Hvp].
      * rewrite (bool_decide_eq_true_2 _ Hvp).
        rewrite bool_decide_eq_true_2 by done. by rewrite E, Hvp.
      * rewrite (bool_decide_eq_false_2 _ Hvp).
        rewrite bool_decide_eq_false_2 by tauto.
        rewrite bool_decide_eq_true_2 by tauto. cbn. by rewrite E, U1.
    + rewrite (bool_decide_eq_false_2 (_ = TLBINV_NOBODY))
        by (rewrite E; discriminate).
      rewrite Hn by (rewrite E; discriminate).
      rewrite bool_decide_eq_false_2 by discriminate.
      rewrite bool_decide_eq_false_2 by (rewrite E; intros [? _]; done).
      rewrite bool_decide_eq_true_2 by tauto. cbn. by rewrite E, U2.
    + rewrite (bool_decide_eq_false_2 (_ = TLBINV_NOBODY))
        by (rewrite E; discriminate).
      rewrite Hn by (rewrite E; discriminate).
      rewrite bool_decide_eq_false_2 by discriminate.
      rewrite bool_decide_eq_false_2 by (rewrite E; intros [? _]; done).
      rewrite bool_decide_eq_false_2 by (rewrite E; intros [?|?]; done).
      cbn. by rewrite E, U3.
    + rewrite (bool_decide_eq_false_2 (_ = TLBINV_NOBODY))
        by (rewrite E; discriminate).
      rewrite Hn by (rewrite E; discriminate).
      rewrite bool_decide_eq_false_2 by discriminate.
      rewrite bool_decide_eq_false_2 by (rewrite E; intros [? _]; done).
      rewrite bool_decide_eq_false_2 by (rewrite E; intros [?|?]; done).
      cbn. by rewrite E, U4.
Qed.

Lemma merge_ti_wf (p : pmap_t) (ti : pmap_tlb_info) :
  scope_wf (pending ti) → scope_wf (pending (merge_ti p ti)).
Proof.
  intros Hwf. rewrite (merge_pending_cases p ti Hwf).
  repeat case_bool_decide; split; cbn; try done;
    unfold TLBINV_NOBODY, TLBINV_ONE, TLBINV_ALLUSER, TLBINV_ALLKERNEL,
      TLBINV_ALL; lia.
Qed.

Ltac merge_cases :=
  repeat (case_bool_decide; cbn [fst snd] in *; try done);
  try congruence;
  repeat match goal with
         | H : _ ∧ _ |- _ => destruct H
         | H : ¬ (_ ∨ _) |- _ => apply Decidable.not_or in H
         | H : ¬ (_ ∧ _) |- _ =>
           apply Decidable.not_and in H; [|unfold Decidable.decidable; lia]
         | H : _ ∨ _ |- _ => destruct H
         end;
  try congruence; try discriminate.

Lemma merge_ti_pending_idem (p : pmap_t) (ti : pmap_tlb_info) :
  scope_wf (pending ti) →
  pending (merge_ti p (merge_ti p ti)) = pending (merge_ti p ti).
Proof.
  intros Hwf. pose proof (merge_ti_wf p ti Hwf) as Hwf1.
  rewrite (merge_pending_cases p _ Hwf1).
  change (ti_tlbinvop (merge_ti p ti)) with (pending (merge_ti p ti)).1.
  change (ti_victim (merge_ti p ti)) with (pending (merge_ti p ti)).2.
  rewrite (merge_pending_cases p ti Hwf).
  unfold TLBINV_NOBODY, TLBINV_ONE, TLBINV_ALLUSER, TLBINV_ALLKERNEL,
    TLBINV_ALL in *.
  merge_cases.
Qed.

Lemma merge_ti_pending_comm (p q : pmap_t) (ti : pmap_tlb_info) :
  scope_wf (pending ti) →
  pending (merge_ti q (merge_ti p ti)) = pending (merge_ti p (merge_ti q ti)).
Proof.
  intros Hwf. pose proof (merge_ti_wf p ti Hwf) as Hwf1.
  pose proof (merge_ti_wf q ti Hwf) as Hwf2.
  rewrite (merge_pending_cases q _ Hwf1), (merge_pending_cases p _ Hwf2).
  change (ti_tlbinvop (merge_ti p ti)) with (pending (merge_ti p ti)).1.
  change (ti_victim (merge_ti p ti)) with (pending (merge_ti p ti)).2.
  change (ti_tlbinvop (merge_ti q ti)) with (pending (merge_ti q ti)).1.
  change (ti_victim (merge_ti q ti)) with (pending (merge_ti q ti)).2.
  rewrite (merge_pending_cases p ti Hwf), (merge_pending_cases q ti Hwf).
  destruct Hwf as [Hv Hn]. cbn in Hv, Hn.
  unfold TLBINV_NOBODY, TLBINV_ONE, TLBINV_ALLUSER, TLBINV_ALLKERNEL,
    TLBINV_ALL in *.
  merge_cases.
Qed.

Lemma merge_ti_twice (p q : pmap_t) (ti : pmap_tlb_info) :
  merge_ti q (merge_ti p ti)
  = set_victim (pending (merge_ti q (merge_ti p ti))).2
      (set_tlbinvop (pending (merge_ti q (merge_ti p ti))).1 ti).
Proof.
  rewrite (merge_ti_pending q (merge_ti p ti)) at 1.
  rewrite (merge_ti_pending p ti) at 3. by destruct ti.
Qed.

Lemma shootdown_merge_run (i : nat) (p : pmap_t) (s : kstate)
    (ti : pmap_tlb_info) (pm : pmap) :
  pmap_tlbs s !! i = Some ti → pmaps s !! p = Some pm →
  scope_wf (pending ti) → (p ≠ pmap_kernel → pai_asid pm i ≠ 0) →
  shootdown_merge cfg i p s = Some (tt, upd_ti i (merge_ti p ti) s).
Proof.
  intros Hti Hpm Hwf Hp.
  destruct (shootdown_merge_spec cfg i p s ti pm Hti Hpm Hp
              (scope_wf_victim ti p Hwf)) as ([] & s' & Hrun & ->).
  exact Hrun.
Qed.

Lemma shootdown_merge_run2 (i : nat) (p q : pmap_t) (s : kstate)
    (ti : pmap_tlb_info) (pm qm : pmap) :
  pmap_tlbs s !! i = Some ti → pmaps s !! p = Some pm →
  pmaps s !! q = Some qm → scope_wf (pending ti) →
  (p ≠ pmap_kernel → pai_asid pm i ≠ 0) →
  (q ≠ pmap_kernel → pai_asid qm i ≠ 0) →
  (shootdown_merge cfg i p >> shootdown_merge cfg i q) s
  = Some (tt, upd_ti i (merge_ti q (merge_ti p ti)) s).
Proof.
  intros Hti Hpm Hqm Hwf Hp Hq. unfold bind.
  rewrite (shootdown_merge_run i p s ti pm) by done.
  rewrite (shootdown_merge_run i q _ (merge_ti p ti) qm); try done.
  - by rewrite upd_ti_upd_ti.
  - by eapply lookup_upd_ti_eq.
  - by apply merge_ti_wf.
Qed.

(** X5: the requests of two pmaps are merged into the pending shootdown of
    a TLB to the same effect in either order, and a request merged twice
    is merged once: whatever is pending (one of the five operations, with
    a victim only for TLBINV_ONE), [shootdown_merge] for [p] then [q] and
    for [q] then [p] return and end in the same store, and a second merge
    for [p] changes nothing. *)
Theorem shootdown_merge_any_order (i : nat) (p q : pmap_t) (s : kstate)
    (ti : pmap_tlb_info) (pm qm : pmap) :
  pmap_tlbs s !! i = Some ti → pmaps s !! p = Some pm →
  pmaps s !! q = Some qm → scope_wf (pending ti) →
  (p ≠ pmap_kernel → pai_asid pm i ≠ 0) →
  (q ≠ pmap_kernel → pai_asid qm i ≠ 0) →
  ∃ s1 s2,
    (shootdown_merge cfg i p >> shootdown_merge cfg i q) s = Some (tt, s2)
    ∧ (shootdown_merge cfg i q >> shootdown_merge cfg i p) s
      = Some (tt, s2)
    ∧ shootdown_merge cfg i p s = Some (tt, s1)
    ∧ shootdown_merge cfg i p s1 = Some (tt, s1).
Proof.
  intros Hti Hpm Hqm Hwf Hp Hq.
  exists (upd_ti i (merge_ti p ti) s),
    (upd_ti i (merge_ti q (merge_ti p ti)) s).
  split; [by eapply shootdown_merge_run2|].
  split.
  { rewrite (shootdown_merge_run2 i q p s ti qm pm) by done.
    do 3 f_equal. rewrite (merge_ti_twice q p), (merge_ti_twice p q).
    by rewrite merge_ti_pending_comm. }
  split; [by eapply shootdown_merge_run|].
  rewrite (shootdown_merge_run i p _ (merge_ti p ti) pm); try done.
  - rewrite upd_ti_upd_ti. do 3 f_equal.
    rewrite (merge_ti_twice p p), merge_ti_pending_idem by done.
    symmetry. apply merge_ti_pending.
  - by eapply lookup_upd_ti_eq.
  - by apply merge_ti_wf.
Qed.

End MergeOrder2.

Lemma shootdown_merge_any_order_witness :
  ∃ s1 s2,
    (shootdown_merge cfg_mp 1 1%nat >> shootdown_merge cfg_mp 1 0%nat)
      ex_shoot_one = Some (tt, s2)
    ∧ (shootdown_merge cfg_mp 1 0%nat >> shootdown_merge cfg_mp 1 1%nat)
        ex_shoot_one = Some (tt, s2)
    ∧ shootdown_merge cfg_mp 1 1%nat ex_shoot_one = Some (tt, s1)
    ∧ shootdown_merge cfg_mp 1 1%nat s1 = Some (tt, s1).
Proof.
  apply (shootdown_merge_any_order cfg_mp 1 1%nat 0%nat ex_shoot_one
           (ex_mp_tlb 5 3 [7; 0] TLBINV_ONE (Some 1%nat))
           (ex_pmap [(1%nat, 1)] {[2%nat; 3%nat]} {[2%nat]}) ex_kernel).
  - reflexivity.
  - reflexivity.
  - reflexivity.
  - split; [cbn; unfold TLBINV_NOBODY, TLBINV_ONE, TLBINV_ALL; lia|].
    intros H. by destruct H.
  - intros _. discriminate.
  - intros H. by destruct H.
Defined.

(** ** The operations a reinitialisation takes *)

Section ReinitOps.

Context (cfg : config) (Hcfg : cfg_ok cfg).




End ReinitOps.


(** ** What pmap_tlb_pai_check accepts *)

Section PaiCheckSound.

Context (cfg : config).

Lemma bind_Some {A B} (m : M A) (k : A → M B) (s s1 : kstate) (a : A) :
  m s = Some (a, s1) → bind m k s = k a s1.
Proof. intros E. unfold bind. by rewrite E. Qed.

Lemma bind_fail {A B} (m : M A) (k : A → M B) (s : kstate) :
  m s = None → bind m k s = None.
Proof. intros E. unfold bind. by rewrite E. Qed.

Lemma get_ti_run (i : nat) (ti : pmap_tlb_info) (s : kstate) :
  pmap_tlbs s !! i = Some ti → get_ti i s = Some (ti, s).
Proof. intros E. unfold get_ti. by rewrite E. Qed.

Lemma get_pm_run (p : pmap_t) (pm : pmap) (s : kstate) :
  pmaps s !! p = Some pm → get_pm p s = Some (pm, s).
Proof. intros E. unfold get_pm. by rewrite E. Qed.

Lemma modify_ti_run (i : nat) (f : pmap_tlb_info → pmap_tlb_info)
    (ti : pmap_tlb_info) (s : kstate) :
  pmap_tlbs s !! i = Some ti →
  modify_ti i f s = Some (tt, upd_ti i (f ti) s).
Proof. intros E. unfold modify_ti. by rewrite E. Qed.

Lemma modify_pm_run (p : pmap_t) (f : pmap → pmap) (pm : pmap)
    (s : kstate) :
  pmaps s !! p = Some pm → modify_pm p f s = Some (tt, upd_pm p (f pm) s).
Proof. intros E. unfold modify_pm. by rewrite E. Qed.

Lemma TLBINFO_LOCK_run (i : nat) (ti : pmap_tlb_info) (s : kstate) :
  pmap_tlbs s !! i = Some ti →
  TLBINFO_LOCK i s
  = if ti_lock ti then None else Some (tt, upd_ti i (set_lock true ti) s).
Proof.
  intros E. unfold TLBINFO_LOCK. rewrite (bind_Some _ _ _ _ _ (get_ti_run _ _ _ E)).
  destruct (ti_lock ti); [done|]. by apply modify_ti_run.
Qed.

Lemma KASSERT_run (b : bool) (s : kstate) :
  DIAGNOSTIC cfg = true →
  KASSERT cfg b s = if b then Some (tt, s) else None.
Proof. intros Hd. unfold KASSERT. rewrite Hd. by destruct b. Qed.

Lemma pai_check_one_run (s : kstate) (i : nat) (ti : pmap_tlb_info)
    (p : pmap_t) :
  DIAGNOSTIC cfg = true → pmap_tlbs s !! i = Some ti →
  (pai_ok cfg s i ti p ∧ pai_check_one cfg i p s = Some (tt, s))
  ∨ (¬ pai_ok cfg s i ti p ∧ pai_check_one cfg i p s = None).
Proof.
  intros Hd Hti. unfold pai_check_one, pai_ok, bind, get_ti, get_pm.
  rewrite Hti. destruct (pmaps s !! p) as [pm|] eqn:Hpm.
  2:{ right. split; [by intros (_ & pm & [=] & _)|done]. }
  rewrite KASSERT_run by done.
  destruct (decide (p = pmap_kernel)) as [->|Hp].
  { rewrite bool_decide_eq_true_2 by done. cbn. right.
    split; [by intros []|done]. }
  rewrite bool_decide_eq_false_2 by done. cbn [negb].
  rewrite KASSERT_run by done.
  destruct (Z.ltb_spec (KERNEL_PID cfg) (pai_asid pm i)) as [H1|H1].
  2:{ right. split; [|done]. intros (_ & pm' & [= <-] & ? & _). lia. }
  rewrite KASSERT_run by done.
  destruct (Z.leb_spec (pai_asid pm i) (ti_asid_max ti)) as [H2|H2].
  2:{ right. split; [|done]. intros (_ & pm' & [= <-] & ? & _). lia. }
  rewrite KASSERT_run by done.
  destruct (TLBINFO_ASID_INUSE_P cfg ti (pai_asid pm i)) eqn:H3.
  2:{ right. split; [|done].
      intros (_ & pm' & [= <-] & _ & ? & _). congruence. }
  destruct (MULTIPROCESSOR cfg) eqn:Hmp; cbn [when].
  - rewrite KASSERT_run by done.
    destruct (pmap_tlb_intersecting_active_p cfg pm ti) eqn:H4.
    + left. split; [|done]. split; [done|].
      exists pm. split; [done|]. split; [lia|]. done.
    + right. split; [|done]. intros (_ & pm' & [= <-] & _ & _ & H).
      specialize (H eq_refl). congruence.
  - left. split; [|done]. split; [done|].
    exists pm. split; [done|]. split; [lia|]. done.
Qed.

Lemma pai_check_list_run (s : kstate) (i : nat) (ti : pmap_tlb_info)
    (l : list pmap_t) :
  DIAGNOSTIC cfg = true → pmap_tlbs s !! i = Some ti →
  ((∀ p, p ∈ l → pai_ok cfg s i ti p)
   ∧ pai_check_list cfg i l s = Some (tt, s))
  ∨ (¬ (∀ p, p ∈ l → pai_ok cfg s i ti p)
     ∧ pai_check_list cfg i l s = None).
Proof.
  intros Hd Hti. induction l as [|p l IH]; cbn [pai_check_list].
  { left. split; [|done]. intros p Hp. by apply elem_of_nil in Hp. }
  unfold bind.
  destruct (pai_check_one_run s i ti p Hd Hti) as [[Hok ->]|[Hno ->]].
  - destruct IH as [[Hall ->]|[Hn ->]].
    + left. split; [|done].
      intros q [->|Hq]%elem_of_cons; [done|by apply Hall].
    + right. split; [|done]. intros Hall. apply Hn. intros q Hq.
      apply Hall. by right.
  - right. split; [|done]. intros Hall. apply Hno, Hall. by left.
Qed.

Lemma pai_ok_lock (s : kstate) (i : nat) (ti : pmap_tlb_info) (b : bool)
    (p : pmap_t) :
  pai_ok cfg (upd_ti i (set_lock b ti) s) i (set_lock b ti) p
  ↔ pai_ok cfg s i ti p.
Proof. done. Qed.

(** What the check does on a DIAGNOSTIC kernel. *)
Lemma pai_check_run_diag (s : kstate) (i : nat) (ti : pmap_tlb_info)
    (locked_p : bool) :
  pmap_tlbs s !! i = Some ti → DIAGNOSTIC cfg = true →
  (((locked_p = false → ti_lock ti = false)
    ∧ ∀ p, p ∈ ti_pais ti → pai_ok cfg s i ti p)
   ∧ pmap_tlb_pai_check cfg i locked_p s = Some (tt, s))
  ∨ (¬ ((locked_p = false → ti_lock ti = false)
        ∧ ∀ p, p ∈ ti_pais ti → pai_ok cfg s i ti p)
     ∧ pmap_tlb_pai_check cfg i locked_p s = None).
Proof.
  intros Hti Hd. unfold pmap_tlb_pai_check. rewrite Hd.
  cbn [when]. destruct locked_p; cbn [negb when].
  - rewrite (bind_Some _ _ _ _ _ (eq_refl : ret tt s = Some (tt, s))).
    rewrite (bind_Some _ _ _ _ _ (get_ti_run _ _ _ Hti)).
    destruct (pai_check_list_run s i ti (ti_pais ti) Hd Hti)
      as [[Hall E]|[Hn E]].
    + rewrite (bind_Some _ _ _ _ _ E). left. done.
    + rewrite (bind_fail _ _ _ E). right. split; [|done]. by intros [_ Hall].
  - pose proof (TLBINFO_LOCK_run i ti s Hti) as El.
    destruct (ti_lock ti) eqn:Hl.
    { rewrite (bind_fail _ _ _ El). right. split; [|done].
      intros [H _]. by specialize (H eq_refl). }
    rewrite (bind_Some _ _ _ _ _ El).
    assert (Hti1 : pmap_tlbs (upd_ti i (set_lock true ti) s) !! i
                   = Some (set_lock true ti)) by (by eapply lookup_upd_ti_eq).
    rewrite (bind_Some _ _ _ _ _ (get_ti_run _ _ _ Hti1)).
    destruct (pai_check_list_run _ i _ (ti_pais ti) Hd Hti1)
      as [[Hall E]|[Hn E]]; cbn [set_lock ti_pais].
    + rewrite (bind_Some _ _ _ _ _ E). left. split; [done|].
      unfold TLBINFO_UNLOCK. rewrite (modify_ti_run _ _ _ _ Hti1).
      do 2 f_equal. rewrite upd_ti_upd_ti.
      replace (set_lock false (set_lock true ti)) with ti
        by (destruct ti; cbn in Hl; by subst).
      by apply upd_ti_id.
    + rewrite (bind_fail _ _ _ E). right. split; [|done].
      by intros [_ Hall].
Qed.

(** The check of a consistent TLB whose lock is free, or held by the
    caller, returns and leaves the store as it is. *)
Lemma pai_check_run (s : kstate) (i : nat) (ti : pmap_tlb_info)
    (locked_p : bool) :
  tlb_inv cfg [] s i ti → (locked_p = false → ti_lock ti = false) →
  pmap_tlb_pai_check cfg i locked_p s = Some (tt, s).
Proof.
  intros Hinv Hl. pose proof (inv_lookup _ _ _ _ _ Hinv) as Hti.
  destruct (DIAGNOSTIC cfg) eqn:Hd.
  2:{ unfold pmap_tlb_pai_check. by rewrite Hd. }
  destruct (pai_check_run_diag s i ti locked_p Hti Hd) as [[_ E]|[Hn _]];
    [done|].
  exfalso. apply Hn. split; [done|]. intros p Hp.
  destruct (inv_linked _ _ _ _ _ Hinv p Hp) as (Hpk & pm & Hpm & Ha & Hu & Hact).
  split; [done|]. exists pm. split; [done|]. split; [done|].
  split; [apply Hu, not_elem_of_nil|done].
Qed.

(** X7: on a DIAGNOSTIC kernel [pmap_tlb_pai_check] returns exactly when
    every pmap on the list of the TLB is in the store, is not the kernel's,
    has an ASID beyond the reserved ones and not past [ti_asid_max] that is
    marked in the bitmap, and, on a multiprocessor, is active on a CPU of
    the TLB; called without the lock it also needs the lock to be free.
    When it returns the store is as it was; on other kernels it does
    nothing. *)
Theorem pai_check_accepts (s : kstate) (i : nat) (ti : pmap_tlb_info)
    (locked_p : bool) :
  pmap_tlbs s !! i = Some ti →
  (DIAGNOSTIC cfg = false →
   pmap_tlb_pai_check cfg i locked_p s = Some (tt, s))
  ∧ (DIAGNOSTIC cfg = true →
     (((locked_p = false → ti_lock ti = false)
       ∧ ∀ p, p ∈ ti_pais ti → pai_ok cfg s i ti p)
      ∧ pmap_tlb_pai_check cfg i locked_p s = Some (tt, s))
     ∨ (¬ ((locked_p = false → ti_lock ti = false)
           ∧ ∀ p, p ∈ ti_pais ti → pai_ok cfg s i ti p)
        ∧ pmap_tlb_pai_check cfg i locked_p s = None)).
Proof.
  intros Hti. split; intros Hd.
  - unfold pmap_tlb_pai_check. by rewrite Hd.
  - by apply pai_check_run_diag.
Qed.

End PaiCheckSound.

Lemma pai_check_accepts_witness :
  pmap_tlb_pai_check cfg_mp 1 false ex_mp = Some (tt, ex_mp)
  ∧ ∀ p, p ∈ [2%nat; 1%nat] →
      pai_ok cfg_mp ex_mp 1 (ex_mp_tlb 5 3 [7; 0] TLBINV_NOBODY None) p.
Proof.
  destruct (pai_check_accepts cfg_mp ex_mp 1
              (ex_mp_tlb 5 3 [7; 0] TLBINV_NOBODY None) false eq_refl)
    as [_ H].
  destruct (H eq_refl) as [[[_ Hall] Hrun]|[_ Hrun]].
  - split; [exact Hrun|exact Hall].
  - exfalso. vm_compute in Hrun. discriminate Hrun.
Defined.

(** ** pmap_tlb_asid_deactivate *)

Section Deactivate.

Context (cfg : config) (Hcfg : cfg_ok cfg).

(** The consistency of a TLB does not depend on the CPUs a pmap on its
    list is onproc on. *)
Lemma tlb_inv_onproc_ext (X : list pmap_t) (s s' : kstate) (j : nat)
    (tj : pmap_tlb_info) (p : pmap_t) (pm pm' : pmap) :
  tlb_inv cfg X s j tj → pmap_tlbs s' !! j = Some tj →
  pmaps s !! p = Some pm → pmaps s' = <[p := pm']> (pmaps s) →
  pai_asid pm' j = pai_asid pm j →
  pmap_tlb_intersecting_active_p cfg pm' tj
  = pmap_tlb_intersecting_active_p cfg pm tj →
  (p ∉ ti_pais tj →
   pmap_tlb_intersecting_onproc_p cfg pm' tj
   = pmap_tlb_intersecting_onproc_p cfg pm tj) →
  tlb_inv cfg X s' j tj.
Proof.
  intros [Hlk Hmax Hres Hcons Hhint Hbelow Hnd Hlinked Hdist Hunl]
    Hlk' Hpm Hpms Ha Hact Hon.
  assert (Hget : ∀ q qm', pmaps s' !! q = Some qm' →
            ∃ qm, pmaps s !! q = Some qm ∧ pai_asid qm' j = pai_asid qm j
              ∧ pmap_tlb_intersecting_active_p cfg qm' tj
                = pmap_tlb_intersecting_active_p cfg qm tj
              ∧ (q ∉ ti_pais tj →
                 pmap_tlb_intersecting_onproc_p cfg qm' tj
                 = pmap_tlb_intersecting_onproc_p cfg qm tj)).
  { intros q qm' Hq. rewrite Hpms in Hq.
    destruct (decide (q = p)) as [Heq|Hne]; [subst q|].
    - rewrite lookup_insert_eq in Hq. injection Hq as <-. by exists pm.
    - rewrite lookup_insert_ne in Hq by done. by exists qm'. }
  assert (Hput : ∀ q qm, pmaps s !! q = Some qm →
            ∃ qm', pmaps s' !! q = Some qm'
              ∧ pai_asid qm' j = pai_asid qm j
              ∧ pmap_tlb_intersecting_active_p cfg qm' tj
                = pmap_tlb_intersecting_active_p cfg qm tj).
  { intros q qm Hq. rewrite Hpms.
    destruct (decide (q = p)) as [Heq|Hne]; [subst q|].
    - rewrite lookup_insert_eq. pose proof (eq_trans (eq_sym Hq) Hpm) as E.
      injection E as ->. by exists pm'.
    - rewrite lookup_insert_ne by done. by exists qm. }
  split; try done.
  - intros q Hq. destruct (Hlinked q Hq) as (Hqk & qm & Hqm & H1 & H2 & H3).
    split; [done|]. destruct (Hput q qm Hqm) as (qm' & Hqm' & E1 & E2).
    exists qm'. rewrite E1, E2. done.
  - intros q r qm' rm' Hq Hr Hqm' Hrm' He.
    destruct (Hget q qm' Hqm') as (qm & Hqm & E1 & _).
    destruct (Hget r rm' Hrm') as (rm & Hrm & E1' & _).
    apply (Hdist q r qm rm); try done. congruence.
  - intros q qm' Hqk Hqm' Hnin.
    destruct (Hget q qm' Hqm') as (qm & Hqm & E1 & E2 & E3).
    rewrite E1, E2, (E3 Hnin). by apply (Hunl q qm).
Qed.

(** A pmap that is onproc on no CPU of a TLB stays so when CPUs are taken
    out of [pm_onproc]. *)
Lemma onproc_p_remove (pm : pmap) (ti : pmap_tlb_info) (c : nat) :
  pmap_tlb_intersecting_onproc_p cfg pm ti = false →
  pmap_tlb_intersecting_onproc_p cfg
    (set_onproc (pm_onproc pm ∖ {[c]}) pm) ti = false.
Proof.
  unfold pmap_tlb_intersecting_onproc_p, kcpuset_iszero,
    kcpuset_intersecting_p. cbn [pm_onproc set_onproc].
  destruct (PMAP_TLB_MAX cfg =? 1)%nat.
  - intros H%negb_false_iff%bool_decide_eq_true. rewrite H.
    apply negb_false_iff, bool_decide_eq_true.
    apply set_eq. intros x. rewrite elem_of_difference.
    split; [intros [H' _]; by apply elem_of_empty in H'|].
    intros H'. by apply elem_of_empty in H'.
  - intros H%bool_decide_eq_false. apply bool_decide_eq_false.
    intros Hne. apply H. intros He. apply Hne.
    apply set_eq. intros x. split.
    + intros [[Hx _]%elem_of_difference Hk]%elem_of_intersection.
      assert (Hin : x ∈ pm_onproc pm ∩ ti_kcpuset ti)
        by (by apply elem_of_intersection).
      by rewrite He in Hin.
    + intros H'. by apply elem_of_empty in H'.
Qed.

(** [pmap_tlb_asid_deactivate] returns, and the store it leaves. *)
Lemma deactivate_run (s : kstate) (ci : cpu_info) (p : pmap_t)
    (pm : pmap) (ti : pmap_tlb_info) :
  tlb_inv cfg [] s (ci_tlb ci) ti → ti_lock ti = false →
  pmaps s !! p = Some pm →
  (DIAGNOSTIC cfg = true → MULTIPROCESSOR cfg = true → p ≠ pmap_kernel →
   pm_onproc pm ≠ ∅ → ci_index ci ∈ pm_onproc pm) →
  tlb_inv cfg [] (deactivate_store cfg ci p pm s) (ci_tlb ci) ti
  ∧ pmap_tlb_asid_deactivate cfg ci p s
    = Some (tt, deactivate_store cfg ci p pm s).
Proof.
  intros Hinv Hl Hpm Hon.
  pose proof (inv_lookup _ _ _ _ _ Hinv) as Hti.
  set (pm' := deactivate_pm cfg ci p pm).
  set (s1 := upd_pm p pm' s).
  assert (H1 : when (MULTIPROCESSOR cfg)
                 (let! pm := get_pm p in
                  when (negb (bool_decide (p = pmap_kernel))
                        && negb (kcpuset_iszero (pm_onproc pm)))
                    (KASSERT cfg (kcpuset_isset (pm_onproc pm) (ci_index ci)) >>
                     modify_pm p (λ m,
                       set_onproc (pm_onproc m ∖ {[ci_index ci]}) m))) s
               = Some (tt, s1)).
  { unfold s1, pm', deactivate_pm.
    destruct (MULTIPROCESSOR cfg) eqn:Hmp; cbn [when andb].
    2:{ by rewrite upd_pm_id. }
    rewrite (bind_Some _ _ _ _ _ (get_pm_run _ _ _ Hpm)).
    destruct (negb (bool_decide (p = pmap_kernel))
              && negb (kcpuset_iszero (pm_onproc pm))) eqn:Hc; cbn [when].
    2:{ by rewrite upd_pm_id. }
    apply andb_true_iff in Hc as [Hc1 Hc2].
    apply negb_true_iff, bool_decide_eq_false in Hc1.
    apply negb_true_iff, bool_decide_eq_false in Hc2.
    assert (Hk : KASSERT cfg (kcpuset_isset (pm_onproc pm) (ci_index ci)) s
                 = Some (tt, s)).
    { unfold KASSERT. destruct (DIAGNOSTIC cfg) eqn:Hd; [|done].
      unfold kcpuset_isset. by rewrite bool_decide_eq_true_2 by auto. }
    rewrite (bind_Some _ _ _ _ _ Hk).
    exact (modify_pm_run p
             (λ m, set_onproc (pm_onproc m ∖ {[ci_index ci]}) m) pm s Hpm). }
  set (s2 := deactivate_store cfg ci p pm s).
  assert (Hpm' : pmaps s2 !! p = Some pm') by apply lookup_upd_pm_eq.
  assert (Hinv2 : tlb_inv cfg [] s2 (ci_tlb ci) ti).
  { apply (tlb_inv_onproc_ext [] s s2 (ci_tlb ci) ti p pm pm' Hinv);
      try done.
    - unfold pm', deactivate_pm. by destruct (_ && _).
    - unfold pm', deactivate_pm. by destruct (_ && _).
    - intros Hnin. unfold pm', deactivate_pm. destruct (_ && _) eqn:Hc; [|done].
      apply andb_true_iff in Hc as [[Hmp Hc1]%andb_true_iff Hc2].
      apply negb_true_iff, bool_decide_eq_false in Hc1.
      destruct (inv_unlinked _ _ _ _ _ Hinv p pm Hc1 Hpm Hnin) as [_ Hu].
      destruct (Hu Hmp) as [_ Hf]. by rewrite Hf, onproc_p_remove. }
  split; [done|].
  unfold pmap_tlb_asid_deactivate. rewrite (bind_Some _ _ _ _ _ H1).
  rewrite (bind_Some _ _ s1 (set_asid_cur (KERNEL_PID cfg) s1) tt)
    by done.
  rewrite (bind_Some _ _ _ s2 tt) by done.
  by apply (pai_check_run cfg s2 (ci_tlb ci) ti false).
Qed.

(** X8: [pmap_tlb_asid_deactivate], from a store where the TLB of the CPU
    is consistent and not locked (and, on a DIAGNOSTIC multiprocessor, the
    pmap is onproc on the CPU if it is onproc anywhere), returns.  It
    makes KERNEL_PID the current ASID of the CPU and of the ASID register,
    and on a multiprocessor takes the CPU out of [pm_onproc] unless the
    pmap is the kernel's.  It keeps the binding: the ASIDs of the pmap, the
    CPUs it is active on, the TLBs with their bitmaps and lists, the other
    pmaps and the entries of the TLB are as they were, and the TLB is
    still consistent. *)
Theorem deactivate_keeps_binding (s : kstate) (ci : cpu_info) (p : pmap_t)
    (pm : pmap) (ti : pmap_tlb_info) :
  tlb_inv cfg [] s (ci_tlb ci) ti → ti_lock ti = false →
  pmaps s !! p = Some pm →
  (DIAGNOSTIC cfg = true → MULTIPROCESSOR cfg = true → p ≠ pmap_kernel →
   pm_onproc pm ≠ ∅ → ci_index ci ∈ pm_onproc pm) →
  ∃ s' pm',
    pmap_tlb_asid_deactivate cfg ci p s = Some (tt, s')
    ∧ pmaps s' !! p = Some pm'
    ∧ pm_pai pm' = pm_pai pm ∧ pm_active pm' = pm_active pm
    ∧ pm_onproc pm'
      = (if MULTIPROCESSOR cfg && negb (bool_decide (p = pmap_kernel))
         then pm_onproc pm ∖ {[ci_index ci]} else pm_onproc pm)
    ∧ (∀ q, q ≠ p → pmaps s' !! q = pmaps s !! q)
    ∧ pmap_tlbs s' = pmap_tlbs s
    ∧ ci_pmap_asid_cur s' = KERNEL_PID cfg
    ∧ hw s' = {| hw_asid := KERNEL_PID cfg;
                 hw_entries := hw_entries (hw s);
                 hw_globals := hw_globals (hw s) |}
    ∧ tlb_inv cfg [] s' (ci_tlb ci) ti.
Proof.
  intros Hinv Hl Hpm Hon.
  destruct (deactivate_run s ci p pm ti Hinv Hl Hpm Hon) as [Hinv2 Hrun].
  exists (deactivate_store cfg ci p pm s), (deactivate_pm cfg ci p pm).
  split; [done|].
  split; [apply lookup_upd_pm_eq|].
  split; [unfold deactivate_pm; by destruct (_ && _)|].
  split; [unfold deactivate_pm; by destruct (_ && _)|].
  split.
  { unfold deactivate_pm. destruct (MULTIPROCESSOR cfg); cbn [andb]; [|done].
    destruct (negb (bool_decide (p = pmap_kernel))); cbn [andb]; [|done].
    destruct (kcpuset_iszero (pm_onproc pm)) eqn:Hz; cbn [negb]; [|done].
    apply bool_decide_eq_true in Hz. rewrite Hz.
    apply set_eq. intros x. rewrite elem_of_difference.
    split; [done|]. intros [H _]. by apply elem_of_empty in H. }
  split; [intros q Hq; by apply lookup_upd_pm_ne|].
  done.
Qed.

End Deactivate.

Lemma deactivate_keeps_binding_witness :
  ∃ s' pm',
    pmap_tlb_asid_deactivate cfg_mp cpu2 1%nat ex_mp = Some (tt, s')
    ∧ pmaps s' !! 1%nat = Some pm'
    ∧ pai_asid pm' 1 = 1 ∧ pm_onproc pm' = ∅
    ∧ pmap_tlbs s' = pmap_tlbs ex_mp.
Proof.
  destruct (deactivate_keeps_binding cfg_mp ex_mp cpu2 1%nat
              (ex_pmap [(1%nat, 1)] {[2%nat; 3%nat]} {[2%nat]})
              (ex_mp_tlb 5 3 [7; 0] TLBINV_NOBODY None))
    as (s' & pm' & H1 & H2 & H3 & _ & H5 & _ & H7 & _).
  - apply ex_mp_inv.
  - reflexivity.
  - reflexivity.
  - intros _ _ _ _. by apply (bool_decide_unpack _).
  - exists s', pm'. split; [exact H1|]. split; [exact H2|].
    split; [unfold pai_asid; by rewrite H3|]. split; [|exact H7].
    rewrite H5. by apply (bool_decide_unpack _).
Defined.

(** * An allocation undone by a reset *)

Section AllocReset.

Context (cfg : config).
Hypothesis Hcfg : cfg_ok cfg.

(** Clearing a bit that was set a moment ago gives the bitmap back when
    the bit was clear before. *)
Lemma BITMAP_CLR_SET (n : Z) (b : list Z) :
  0 ≤ n → BITMAP_ISSET cfg n b = false →
  BITMAP_CLR cfg n (BITMAP_SET cfg n b) = b.
Proof.
  intros Hn Hb. destruct Hcfg as [_ HW].
  unfold BITMAP_CLR, BITMAP_SET, BITMAP_ISSET in *. cbv zeta.
  set (w := Z.to_nat (n `div` NBPW cfg)) in *.
  set (k := n `mod` NBPW cfg) in *.
  assert (0 ≤ k) by (apply Z.mod_pos_bound; lia).
  rewrite list_insert_insert_eq.
  destruct (b !! w) as [x|] eqn:E.
  - rewrite list_lookup_insert_eq by (by eapply lookup_lt_Some).
    simpl in *.
    apply list_insert_id. rewrite E. f_equal.
    apply Z.bits_inj'. intros m Hm.
    rewrite Z.ldiff_spec, Z.lor_spec, testbit_bit by done.
    case_bool_decide as Hmk; [subst m; rewrite Hb; done|].
    by rewrite orb_false_r, andb_true_r.
  - apply lookup_ge_None in E. by rewrite list_insert_ge by done.
Qed.

(** Unlinking an entry that was put at the head of the list gives the list
    back. *)
Lemma unlink_head (p : pmap_t) (l : list pmap_t) :
  p ∉ l → filter (λ q, q ≠ p) (p :: l) = l.
Proof.
  intros Hp. rewrite filter_cons_False by (intros H; by apply H).
  induction l as [|q l IH]; [done|].
  apply not_elem_of_cons in Hp as [Hq Hp].
  rewrite filter_cons_True by done. f_equal. by apply IH.
Qed.

(** X9: An allocation followed by a reset of the same pmap: both return; the
    list, every ASID of the pmap, its active and onproc sets and all the
    other pmaps and TLBs are as before the allocation, the hint is one past
    the ASID that was taken, and the TLB is consistent.  Where
    PMAP_TLB_FLUSH_ASID_ON_RESET is set the bitmap and the free count are
    restored as well and the entries of the ASID are gone from the TLB;
    where it is not set the ASID stays marked, the free count is one less
    and the TLB is not touched. *)
Theorem alloc_then_reset (s : kstate) (i : nat) (ti : pmap_tlb_info)
    (p : pmap_t) (pm : pmap) :
  tlb_inv cfg [] s i ti → p ≠ pmap_kernel → pmaps s !! p = Some pm →
  p ∉ ti_pais ti → 0 < ti_asids_free ti →
  (MULTIPROCESSOR cfg = true → cpus_ok cfg s ti) →
  ∃ asid s1 s2 ti2 pm2,
    alloc_asid cfg ti = Some asid
    ∧ pmap_tlb_asid_alloc cfg i p s = Some (tt, s1)
    ∧ pmap_tlb_pai_reset cfg i p s1 = Some (tt, s2)
    ∧ pmap_tlbs s2 = <[i := ti2]> (pmap_tlbs s)
    ∧ pmaps s2 = <[p := pm2]> (pmaps s)
    ∧ (∀ j, pai_asid pm2 j = pai_asid pm j)
    ∧ pm_active pm2 = pm_active pm ∧ pm_onproc pm2 = pm_onproc pm
    ∧ ti_pais ti2 = ti_pais ti ∧ ti_asid_hint ti2 = asid + 1
    ∧ tlb_inv cfg [] s2 i ti2
    ∧ (if PMAP_TLB_FLUSH_ASID_ON_RESET cfg
       then ti_asid_bitmap ti2 = ti_asid_bitmap ti
            ∧ ti_asids_free ti2 = ti_asids_free ti
            ∧ hw s2 = hw_invalidate_asids asid asid (hw s)
       else ti_asid_bitmap ti2 = BITMAP_SET cfg asid (ti_asid_bitmap ti)
            ∧ ti_asids_free ti2 = ti_asids_free ti - 1
            ∧ hw s2 = hw s).
Proof.
  intros Hinv Hk Hpm Hnp Hfree Hcpus. pose proof Hcfg as [HK HW].
  destruct (alloc_exec cfg Hcfg s i ti p pm Hinv Hk Hpm Hnp Hfree)
    as (asid & Ha & u & s1 & Hrun1 & ->).
  destruct u.
  pose proof (alloc_inv cfg Hcfg s i ti p pm asid Hinv Hk Hpm Hnp Hfree Ha
                Hcpus) as Hinv1.
  destruct (alloc_asid_spec cfg Hcfg [] s i ti Hinv Hfree)
    as (asid' & Ha' & Hrange & Hunused & _).
  assert (asid' = asid) as -> by congruence.
  destruct (inv_unlinked _ _ _ _ _ Hinv p pm Hk Hpm Hnp) as [Hzero Hoff].
  destruct (inv_max _ _ _ _ _ Hinv) as (Hm1 & Hm2 & Hm3).
  set (ti1 := alloc_ti cfg p asid ti) in *.
  set (pm1 := alloc_pm cfg i asid ti s pm).
  set (s1 := alloc_store cfg i p asid ti pm s) in *.
  assert (pmaps s1 !! p = Some pm1) as Hpm1.
  { unfold s1, alloc_store, upd_pm. simpl. by rewrite lookup_insert_eq. }
  assert (pai_asid pm1 i = asid) as Hasid1 by apply alloc_pm_asid.
  assert (p ∈ ti_pais ti1) as Hin1 by (simpl; left).
  assert (pm_onproc pm1 = pm_onproc pm) as Hon1.
  { unfold pm1, alloc_pm.
    by destruct (MULTIPROCESSOR cfg), (PMAP_TLB_MAX cfg =? 1)%nat. }
  assert (ti_kcpuset ti1 = ti_kcpuset ti) as Hk1 by done.
  assert (MULTIPROCESSOR cfg = true →
          pmap_tlb_intersecting_onproc_p cfg pm1 ti1 = false) as Hon.
  { intros HMP. destruct (Hoff HMP) as [_ <-].
    unfold pmap_tlb_intersecting_onproc_p. by rewrite Hon1, Hk1. }
  destruct (pai_reset_exec cfg i p s1 ti1 pm1 (inv_lookup _ _ _ _ _ Hinv1)
              Hpm1 Hin1) as (u & s2 & Hrun2 & ->).
  { intros _. rewrite Hasid1. split; [done|]. intros HMP. split; [|auto].
    by apply alloc_pm_active_p; auto. }
  destruct u.
  pose proof (pai_reset_inv cfg Hcfg [] s1 i ti1 p pm1 Hinv1 Hin1 Hpm1 Hon)
    as Hinv2.
  rewrite Hasid1 in Hinv2.
  exists asid, s1, (pai_reset_store cfg i p ti1 pm1 s1),
    (pai_reset_ti cfg p asid ti1), (pai_reset_pm cfg i ti1 pm1).
  assert (TLBINFO_ASID_INUSE_P cfg ti1 asid = true) as Hused1.
  { unfold ti1, alloc_ti, TLBINFO_ASID_INUSE_P. simpl.
    rewrite BITMAP_ISSET_SET by (first [exact Hcfg|lia]).
    by rewrite bool_decide_eq_true_2. }
  assert (0 ≤ asids_beyond cfg ti) as Hbeyond
    by (unfold asids_beyond, count_inuse; lia).
  pose proof (inv_free _ _ _ _ _ Hinv) as Hcons. unfold conservation in Hcons.
  split; [done|]. split; [done|]. split; [done|].
  split.
  { unfold pai_reset_store, upd_pm, upd_ti, s1, alloc_store, upd_pm, upd_ti.
    simpl. by rewrite Hasid1, list_insert_insert_eq. }
  split.
  { unfold pai_reset_store, upd_pm, upd_ti, s1, alloc_store, upd_pm, upd_ti.
    simpl. by rewrite insert_insert_eq. }
  split.
  { intros j. unfold pai_reset_pm, pm1, alloc_pm, pai_asid.
    assert (∀ m : pmap,
      pm_pai (if MULTIPROCESSOR cfg
              then if (PMAP_TLB_MAX cfg =? 1)%nat
                   then set_active ∅ (set_pai_asid i 0 m)
                   else set_active (pm_active (set_pai_asid i 0 m)
                                    ∖ ti_kcpuset ti1) (set_pai_asid i 0 m)
              else set_pai_asid i 0 m) = <[i := 0]> (pm_pai m)) as ->
      by (intros m; by destruct (MULTIPROCESSOR cfg),
                         (PMAP_TLB_MAX cfg =? 1)%nat).
    destruct (decide (j = i)) as [->|Hj].
    - rewrite lookup_insert_eq. simpl. symmetry. exact Hzero.
    - rewrite lookup_insert_ne by done.
      destruct (MULTIPROCESSOR cfg), (PMAP_TLB_MAX cfg =? 1)%nat; simpl;
        by rewrite lookup_insert_ne by done. }
  split.
  { unfold pai_reset_pm, pm1, alloc_pm.
    destruct (MULTIPROCESSOR cfg) eqn:HMP; [|done].
    destruct (Hoff eq_refl) as [Hact _].
    unfold pmap_tlb_intersecting_active_p in Hact.
    destruct (PMAP_TLB_MAX cfg =? 1)%nat; simpl.
    - apply negb_false_iff, bool_decide_eq_true in Hact. by rewrite Hact.
    - unfold kcpuset_intersecting_p in Hact.
      apply bool_decide_eq_false in Hact.
      assert (pm_active pm ∩ ti_kcpuset ti = ∅) as Hdisj
        by (destruct (decide (pm_active pm ∩ ti_kcpuset ti = ∅)); tauto).
      apply set_eq. intros x. rewrite elem_of_difference, elem_of_union.
      assert (x ∈ pm_active pm → x ∈ ti_kcpuset ti → False).
      { intros H1 H2.
        assert (x ∈ pm_active pm ∩ ti_kcpuset ti) as Hx
          by (apply elem_of_intersection; done).
        rewrite Hdisj in Hx. by apply not_elem_of_empty in Hx. }
      tauto. }
  split; [by rewrite pai_reset_pm_onproc|].
  destruct (pai_reset_ti_fields cfg p asid ti1)
    as (Hh & _ & Hl & _).
  split.
  { rewrite Hl. by apply unlink_head. }
  split; [by rewrite Hh|].
  split; [done|].
  unfold pai_reset_ti, pai_reset_hw, s1, alloc_store, alloc_hw. 
  rewrite Hused1, andb_true_r.
  destruct (PMAP_TLB_FLUSH_ASID_ON_RESET cfg) eqn:HF.
  - split; [|split].
    + simpl. apply BITMAP_CLR_SET; [lia|done].
    + simpl. rewrite (wrap32_small (ti_asids_free ti - 1)) by lia.
      rewrite wrap32_small by lia. lia.
    + simpl. rewrite Hasid1.
      destruct (MULTIPROCESSOR cfg) eqn:HMP; simpl;
        unfold pai_reset_hw; rewrite HF, HMP; done.
  - split; [done|]. split.
    + simpl. rewrite wrap32_small; lia.
    + simpl. unfold pai_reset_hw. rewrite Hasid1, HF, andb_false_r. done.
Qed.

End AllocReset.

Lemma alloc_then_reset_witness :
  ∃ s1 s2,
    pmap_tlb_asid_alloc cfg_mp_flush 1 3%nat ex_mp = Some (tt, s1)
    ∧ pmap_tlb_pai_reset cfg_mp_flush 1 3%nat s1 = Some (tt, s2)
    ∧ ti_asid_bitmap <$> pmap_tlbs s2 !! 1%nat = Some [7; 0]
    ∧ ti_asids_free <$> pmap_tlbs s2 !! 1%nat = Some 5
    ∧ ti_asid_hint <$> pmap_tlbs s2 !! 1%nat = Some 4.
Proof.
  destruct (alloc_then_reset cfg_mp_flush cfg_mp_flush_ok ex_mp 1
              (ex_mp_tlb 5 3 [7; 0] TLBINV_NOBODY None) 3%nat
              (ex_pmap [] ∅ ∅))
    as (asid & s1 & s2 & ti2 & pm2 & Ha & H1 & H2 & Ht & _ & _ & _ & _ & _
        & Hh & _ & Hb & Hf & _).
  - apply ex_mp_flush_inv.
  - discriminate.
  - reflexivity.
  - by apply (bool_decide_unpack _).
  - reflexivity.
  - intros _. by apply (bool_decide_unpack _).
  - exists s1, s2. split; [exact H1|]. split; [exact H2|].
    rewrite Ht. change (pmap_tlbs ex_mp) with
      [ex_tlb 7 1 [1; 0] [] None {[0%nat; 1%nat]} TLBINV_NOBODY;
       ex_mp_tlb 5 3 [7; 0] TLBINV_NOBODY None].
    cbn [list_insert insert lookup list_lookup fmap option_fmap option_map].
    rewrite Hb, Hf, Hh. injection Ha as <-. done.
Defined.

(** * pmap_tlb_asid_acquire keeps the TLB consistent *)

Section AcquireInv.

Context (cfg : config).
Hypothesis Hcfg : cfg_ok cfg.






End AcquireInv.


(** * pmap_tlb_asid_reinitialize for TLBINV_ALL and TLBINV_ALLUSER *)

Section ReinitFlush.

Context (cfg : config).
Hypothesis Hcfg : cfg_ok cfg.
Hypothesis Hmp : MULTIPROCESSOR cfg = true.












End ReinitFlush.


(** * What pmap_tlb_shootdown_process does to the TLB *)

Section ProcessEffect.

Context (cfg : config).
Hypothesis Hcfg : cfg_ok cfg.


Lemma process_done_lock (ti : pmap_tlb_info) :
  ti_lock ti = false →
  process_done (set_lock true ti)
  = set_tlbinvop TLBINV_NOBODY (set_victim None ti).
Proof. unfold process_done. destruct ti. cbn. by intros ->. Qed.


(** The end of the routine. *)
Lemma process_end (i : nat) (s1 : kstate) (t1 : pmap_tlb_info) :
  pmap_tlbs s1 !! i = Some t1 →
  wp (modify_ti i (set_victim None) >>
      modify_ti i (set_tlbinvop TLBINV_NOBODY) >>
      TLBINFO_UNLOCK i) s1
    (λ _ s', s' = upd_ti i (process_done t1) s1).
Proof.
  intros Ht1. wp_steps. unfold process_done. st_done.
Qed.


Lemma pai_reset_ti_lock (p : pmap_t) (a : Z) (ti : pmap_tlb_info) :
  ti_lock ti = false →
  process_done (pai_reset_ti cfg p a (set_lock true ti))
  = set_tlbinvop TLBINV_NOBODY (set_victim None (pai_reset_ti cfg p a ti)).
Proof.
  intros Hl. unfold process_done, pai_reset_ti, TLBINFO_ASID_INUSE_P.
  cbn [set_lock ti_asid_bitmap ti_pais set_pais].
  destruct (PMAP_TLB_FLUSH_ASID_ON_RESET cfg
            && BITMAP_ISSET cfg a (ti_asid_bitmap ti));
    destruct ti; cbn in *; by subst.
Qed.

(** X13: What a pending TLBINV_ALLKERNEL and a pending TLBINV_ONE cost.  For
    TLBINV_ALLKERNEL the global entries are taken out of the TLB of the
    CPU.  For TLBINV_ONE, a victim that is onproc on a CPU of the TLB keeps
    its binding and loses the entries of its ASID; a victim that is not
    and that has an ASID has its binding reset, as by
    [pmap_tlb_pai_reset]; a victim without an ASID is left alone.  In each
    case nothing else of the store changes, but that nothing is pending
    any more. *)
Theorem shootdown_process_one (ci : cpu_info) (s : kstate)
    (ti : pmap_tlb_info) :
  tlb_inv cfg [] s (ci_tlb ci) ti → ti_lock ti = false →
  MULTIPROCESSOR cfg = true →
  let i := ci_tlb ci in
  let fin := set_tlbinvop TLBINV_NOBODY (set_victim None ti) in
  (ti_tlbinvop ti = TLBINV_ALLKERNEL →
   pmap_tlb_shootdown_process cfg ci s
   = Some (tt, upd_ti i fin
                 (set_hw {| hw_asid := hw_asid (hw s);
                            hw_entries := hw_entries (hw s);
                            hw_globals := 0 |} s)))
  ∧ (ti_tlbinvop ti = TLBINV_ONE →
     ∀ v pm, ti_victim ti = Some v → v ≠ pmap_kernel →
       pmaps s !! v = Some pm →
       let a := pai_asid pm i in
       pmap_tlb_shootdown_process cfg ci s
       = Some (tt,
           if pmap_tlb_intersecting_onproc_p cfg pm ti
           then upd_ti i fin (set_hw (hw_invalidate_asids a a (hw s)) s)
           else if a =? 0 then upd_ti i fin s
           else upd_ti i
                  (set_tlbinvop TLBINV_NOBODY
                     (set_victim None (pai_reset_ti cfg v a ti)))
                  (pai_reset_store cfg i v ti pm s))).
Proof.
  intros Hinv Hl Hmp i fin. subst i fin. pose proof Hcfg as [HK HN].
  pose proof (inv_lookup _ _ _ _ _ Hinv) as Hti.
  pose proof (tlb_inv_lock cfg [] s (ci_tlb ci) ti true Hinv) as Hinv0.
  assert (Hrun : ∀ s1, wp (pmap_tlb_shootdown_process cfg ci) s
                         (λ _ s', s' = s1) →
    pmap_tlb_shootdown_process cfg ci s = Some (tt, s1)).
  { intros s1 ([] & s' & Hr & ->). done. }
  split.
  - intros Hop. apply Hrun.
    unfold pmap_tlb_shootdown_process. cbv zeta. wp_steps.
    cbn [ti_tlbinvop ti_victim set_lock]. rewrite Hop.
    change (TLBINV_ALLKERNEL =? TLBINV_ONE) with false.
    change (TLBINV_ALLKERNEL =? TLBINV_ALLUSER) with false.
    change (TLBINV_ALLKERNEL =? TLBINV_ALLKERNEL) with true. cbv iota.
    wp_step. eapply wp_mono; [apply process_end; solve_lookup|].
    intros [] s' ->. rewrite process_done_lock by done. st_done.
  - intros Hop v pm Hv Hvk Hpm a. subst a. apply Hrun.
    unfold pmap_tlb_shootdown_process. cbv zeta. wp_steps.
    cbn [ti_tlbinvop ti_victim set_lock]. rewrite Hop, Hv.
    change (TLBINV_ONE =? TLBINV_ONE) with true. cbv iota.
    wp_steps. wp_assert; [by rewrite bool_decide_eq_false_2|].
    rewrite (onproc_p_kcpuset cfg pm ti (set_lock true ti)) by done.
    destruct (pmap_tlb_intersecting_onproc_p cfg pm ti) eqn:Hon.
    + assert (Hin : v ∈ ti_pais ti).
      { destruct (decide (v ∈ ti_pais ti)) as [|Hnin]; [done|].
        destruct (inv_unlinked _ _ _ _ _ Hinv v pm Hvk Hpm Hnin)
          as [_ Hun]. destruct (Hun Hmp) as [_ Hf]. congruence. }
      destruct (inv_linked _ _ _ _ _ Hinv v Hin)
        as (_ & pm' & Hpm' & Ha & _).
      rewrite Hpm in Hpm'. injection Hpm' as <-.
      wp_assert; [apply Z.ltb_lt; lia|]. wp_step.
      eapply wp_mono; [apply process_end; solve_lookup|].
      intros [] s' ->. rewrite process_done_lock by done.
      unfold hw_invalidate_asids. st_done.
    + destruct (pai_asid pm (ci_tlb ci) =? 0) eqn:E0; cbn [negb].
      * wp_step. eapply wp_mono; [apply process_end; solve_lookup|].
        intros [] s' ->. rewrite process_done_lock by done. st_done.
      * apply Z.eqb_neq in E0.
        assert (Hin : v ∈ ti_pais ti).
        { destruct (decide (v ∈ ti_pais ti)) as [|Hnin]; [done|].
          by destruct (inv_unlinked _ _ _ _ _ Hinv v pm Hvk Hpm Hnin). }
        eapply wp_mono.
        { apply (pai_reset_total cfg _ _ _ v pm Hinv0 Hin Hpm).
          intros _. by rewrite (onproc_p_kcpuset cfg pm ti). }
        intros [] s1 ->.
        eapply wp_mono.
        { apply process_end. unfold pai_reset_store. solve_lookup. }
        intros [] s' ->. rewrite pai_reset_ti_lock by done.
        unfold pai_reset_store, upd_pm, upd_ti. st_simpl.
        rewrite !list_insert_insert_eq. reflexivity.
Qed.

End ProcessEffect.


Lemma shootdown_process_one_witness :
  ∃ s',
    pmap_tlb_shootdown_process cfg_mp cpu2 ex_shoot_one = Some (tt, s')
    ∧ pmaps s' = pmaps ex_shoot_one
    ∧ pending <$> pmap_tlbs s' !! 1%nat = Some (TLBINV_NOBODY, None).
Proof.
  eexists. split.
  - apply (proj2 (shootdown_process_one cfg_mp cfg_mp_ok cpu2 ex_shoot_one
                    (ex_mp_tlb 5 3 [7; 0] TLBINV_ONE (Some 1%nat))
                    (ex_mp_inv TLBINV_ONE (Some 1%nat)) eq_refl eq_refl)
             eq_refl 1%nat
             (ex_pmap [(1%nat, 1)] {[2%nat; 3%nat]} {[2%nat]}) eq_refl).
    + discriminate.
    + reflexivity.
  - split; reflexivity.
Defined.

(** * A shootdown request reaches the TLB it is for *)

Section ShootdownReaches.

Context (cfg : config).
Hypothesis Hcfg : cfg_ok cfg.
Hypothesis Hsh : has_shootdown cfg = true.



(** What [pmap_tlb_shootdown_bystanders] leaves in the store. *)
Lemma bystanders_run (s : kstate) (ci : cpu_info) (p : pmap_t) (pm : pmap)
    (lti : pmap_tlb_info) :
  pmaps s !! p = Some pm → pmap_tlbs s !! ci_tlb ci = Some lti →
  tlbs_disjoint s → shootdown_ready s p pm →
  pm_onproc pm ⊆ pm_active pm →
  (∀ c, c ∈ pm_active pm →
     ∃ j tj, pmap_tlbs s !! j = Some tj ∧ c ∈ ti_kcpuset tj) →
  ∃ r s1,
    pmap_tlb_shootdown_bystanders cfg ci p s = Some (r, s1)
    ∧ pmaps s1 = pmaps s ∧ hw s1 = hw s
    ∧ ∀ j tj, pmap_tlbs s !! j = Some tj →
        if bool_decide (j ≠ ci_tlb ci ∧ pm_onproc pm ∩ ti_kcpuset tj ≠ ∅)
        then r = true ∧ pmap_tlbs s1 !! j = Some (merge_ti p tj)
        else pmap_tlbs s1 !! j = Some tj.
Proof.
  intros Hpm Hlti Hdis Hready Hsub Hcov.
  set (act := pm_active pm ∖ ti_kcpuset lti).
  assert (Hwp : wp (pmap_tlb_shootdown_bystanders cfg ci p) s (λ r s',
    pmaps s' = pmaps s ∧ hw s' = hw s
    ∧ (∀ j tj, pmap_tlbs s !! j = Some tj →
         pmap_tlbs s' !! j
         = Some (if bool_decide ((0 ≤ j)%nat
                                 ∧ is_Some (ipi_target pm act tj))
                 then merge_ti p tj else tj))
    ∧ r = false
          || bool_decide
               (omap (ipi_target pm act) (drop 0 (pmap_tlbs s)) ≠ []))).
  { unfold pmap_tlb_shootdown_bystanders. wp_steps. fold act.
    eapply wp_mono.
    { apply (bystanders_loop_spec cfg p pm (length (pmap_tlbs s)) 0 act
               false s); try done.
      - apply subseteq_difference_l. done.
      - intros c Hc. apply elem_of_difference in Hc as [Hc _].
        destruct (Hcov c Hc) as (j & tj & Hj & Hin).
        exists j, tj. split; [lia|done]. }
    intros r s' (P1 & P2 & P3 & P4 & P5 & P6). done. }
  destruct Hwp as (r & s1 & Hrun & P1 & P2 & P4 & P6).
  rewrite drop_0 in P6. cbn [orb] in P6.
  exists r, s1. split; [done|]. split; [done|]. split; [done|].
  intros j tj Hj. rewrite (P4 j tj Hj).
  assert (Hkc : ti_kcpuset lti = ti_kcpuset tj ∧ j = ci_tlb ci
                ∨ ti_kcpuset lti ## ti_kcpuset tj ∧ j ≠ ci_tlb ci).
  { destruct (decide (j = ci_tlb ci)) as [->|Hne].
    - left. rewrite Hlti in Hj. by injection Hj as <-.
    - right. split; [|done]. by apply (Hdis (ci_tlb ci) j). }
  assert (HS : is_Some (ipi_target pm act tj)
               ↔ j ≠ ci_tlb ci ∧ pm_onproc pm ∩ ti_kcpuset tj ≠ ∅).
  { unfold act. destruct Hkc as [[Hk ->]|[Hk Hne]].
    - split.
      + intros HS. apply ipi_target_is_Some in HS as [HS _]; [done|done|by left].
      + by intros [? _].
    - rewrite ipi_target_is_Some; [|done|by right]. split.
      + intros [_ ?]. done.
      + intros [_ Hon]. split; [|done]. intros He. rewrite He in Hk.
        apply Hon. apply elem_of_equiv_empty_L. intros x Hx.
        apply elem_of_intersection in Hx as [_ Hx]. by apply (Hk x). }
  destruct (decide (j ≠ ci_tlb ci ∧ pm_onproc pm ∩ ti_kcpuset tj ≠ ∅))
    as [Hc|Hc];
    [rewrite (bool_decide_eq_true_2 _ Hc)
    |rewrite (bool_decide_eq_false_2 _ Hc)].
  - rewrite bool_decide_eq_true_2 by (split; [lia|by apply HS]).
    split; [|done]. rewrite P6. apply bool_decide_eq_true. intros He.
    apply HS in Hc as [c Hc].
    assert (c ∈ omap (ipi_target pm act) (pmap_tlbs s)) as Hin.
    { apply list_elem_of_omap. exists tj. split; [|done].
      by eapply list_elem_of_lookup_2. }
    rewrite He in Hin. by apply elem_of_nil in Hin.
  - rewrite bool_decide_eq_false_2; [done|].
    intros [_ H']. by apply Hc, HS.
Qed.




End ShootdownReaches.


(** * pmap_tlb_info_init and pmap_tlb_info_attach *)

Section InfoInit.

Context (cfg : config).
Hypothesis Hcfg : cfg_ok cfg.

(** A TLB with the reserved ASIDs marked and no others, an empty list, the
    free count of a new TLB and the hint at the first ASID after the
    reserved ones is consistent when no user pmap has an ASID for it or is
    active or onproc on its CPUs. *)
Lemma fresh_tlb_inv (s : kstate) (i : nat) (ti : pmap_tlb_info) :
  pmap_tlbs s !! i = Some ti →
  KERNEL_PID cfg ≤ ti_asid_max ti → ti_asid_max ti + 1 < 2 ^ 32 →
  ti_asid_max ti < NBPW cfg * Z.of_nat (length (ti_asid_bitmap ti)) →
  (∀ a, 0 ≤ a →
     TLBINFO_ASID_INUSE_P cfg ti a = bool_decide (a ≤ KERNEL_PID cfg)) →
  ti_asids_free ti = ti_asid_max ti - KERNEL_PID cfg →
  ti_asid_hint ti = KERNEL_PID cfg + 1 → ti_pais ti = [] →
  (∀ p pm, p ≠ pmap_kernel → pmaps s !! p = Some pm →
     pai_asid pm i = 0
     ∧ (MULTIPROCESSOR cfg = true →
        pmap_tlb_intersecting_active_p cfg pm ti = false
        ∧ pmap_tlb_intersecting_onproc_p cfg pm ti = false)) →
  tlb_inv cfg [] s i ti.
Proof.
  intros Hlk Hm1 Hm2 Hm3 Hbits Hfree Hhint Hpais Hpm.
  pose proof Hcfg as [HK HN].
  split.
  - done.
  - done.
  - intros a Ha. rewrite Hbits by lia. apply bool_decide_eq_true. lia.
  - unfold conservation, asids_beyond. rewrite Hfree.
    rewrite count_inuse_none; [lia|]. intros a Ha.
    change (TLBINFO_ASID_INUSE_P cfg ti a = false). rewrite Hbits by lia.
    apply bool_decide_eq_false. lia.
  - rewrite Hhint. lia.
  - intros _ a Ha. rewrite Hhint in Ha. rewrite Hbits by lia.
    apply bool_decide_eq_true. lia.
  - rewrite Hpais. apply NoDup_nil_2.
  - intros p Hp. rewrite Hpais in Hp. by apply elem_of_nil in Hp.
  - intros p q pm qm Hp. rewrite Hpais in Hp. by apply elem_of_nil in Hp.
  - intros p pm Hpk Hp _. by apply (Hpm p pm).
Qed.


Lemma secondary_ti_fields (tlb0 t0 : pmap_tlb_info) :
  let t := secondary_ti cfg tlb0 t0 in
  ti_asids_free t = TLBINFO_ASID_INITIAL_FREE cfg (ti_asid_max tlb0)
  ∧ ti_asid_hint t = KERNEL_PID cfg + 1
  ∧ ti_asid_max t = ti_asid_max tlb0 ∧ ti_pais t = ti_pais t0
  ∧ pending t = (TLBINV_NOBODY, None) ∧ ti_kcpuset t = ∅
  ∧ ti_lock t = false
  ∧ ti_evcnt_asid_reinits t = ti_evcnt_asid_reinits t0
  ∧ length (ti_asid_bitmap t) = length (ti_asid_bitmap t0).
Proof.
  destruct (TLBINFO_ASID_RESET_fields cfg (set_lock false t0))
    as (_ & _ & _ & H4 & _ & _ & _ & H8 & H9 & H10).
  unfold secondary_ti. cbn. by rewrite H4, H8, H9, H10.
Qed.

(** The branch for another TLB, when there is room in [pmap_tlbs]. *)
Lemma info_init_secondary_run (s : kstate) (tlb0 t0 : pmap_tlb_info)
    (md_max asid_t_max bitmap_length : Z) (cpu : nat) :
  MULTIPROCESSOR cfg = true → PMAP_TLB_MAX cfg ≠ 1%nat →
  pmap_tlbs s !! 0%nat = Some tlb0 →
  (length (pmap_tlbs s) < PMAP_TLB_MAX cfg)%nat →
  (DIAGNOSTIC cfg = true → ti_asid_max tlb0 < bitmap_length) →
  pmap_tlb_info_init_at cfg md_max asid_t_max bitmap_length cpu (Some t0) s
  = Some (tt, set_pmap_tlbs (pmap_tlbs s ++ [secondary_ti cfg tlb0 t0]) s).
Proof.
  intros Hmp Hmax Htlb0 Hroom Hlen.
  assert (Hmulti : MULTIPROCESSOR cfg && negb (PMAP_TLB_MAX cfg =? 1)%nat
                   = true).
  { rewrite Hmp. cbn. apply negb_true_iff. by apply Nat.eqb_neq. }
  unfold pmap_tlb_info_init_at. rewrite Hmulti.
  assert (Hlt : (length (pmap_tlbs s) <? PMAP_TLB_MAX cfg)%nat = true)
    by (apply Nat.ltb_lt; exact Hroom).
  set (ti := secondary_ti cfg tlb0 t0).
  set (s' := set_pmap_tlbs (pmap_tlbs s ++ [ti]) s).
  assert (Hwp : wp (info_init_secondary cfg bitmap_length t0) s
                  (λ _ s1, s1 = s')).
  { unfold info_init_secondary. wp_steps. rewrite Hlt.
    wp_assert; [done|]. wp_steps.
    exists tt, s'. split; [reflexivity|].
    apply wp_KASSERT_diag; [|done]. intros Hd. cbn [ti_asid_max
      set_kcpuset set_victim set_tlbinvop set_asids_free set_asid_max].
    apply Z.ltb_lt. by apply Hlen. }
  destruct Hwp as ([] & s1 & Hrun & ->). exact Hrun.
Qed.

(** The new TLB is consistent when the structure came with an empty list
    and no user pmap has an ASID for the new index. *)
Lemma secondary_ti_inv (s : kstate) (tlb0 t0 : pmap_tlb_info) :
  PMAP_TLB_MAX cfg ≠ 1%nat →
  KERNEL_PID cfg ≤ ti_asid_max tlb0 → ti_asid_max tlb0 + 1 < 2 ^ 32 →
  ti_asid_max tlb0 < NBPW cfg * Z.of_nat (length (ti_asid_bitmap t0)) →
  ti_pais t0 = [] →
  (∀ p pm, p ≠ pmap_kernel → pmaps s !! p = Some pm →
     pai_asid pm (length (pmap_tlbs s)) = 0) →
  let ti := secondary_ti cfg tlb0 t0 in
  tlb_inv cfg [] (set_pmap_tlbs (pmap_tlbs s ++ [ti]) s)
    (length (pmap_tlbs s)) ti
  ∧ ti_asids_free ti = ti_asid_max tlb0 - KERNEL_PID cfg.
Proof.
  intros Hmax Hm1 Hm2 Hm3 Hpais Hpm ti. pose proof Hcfg as [HK HN].
  destruct (secondary_ti_fields tlb0 t0)
    as (F1 & F2 & F3 & F4 & F5 & F6 & F7 & F8 & F9).
  fold ti in F1, F2, F3, F4, F5, F6, F7, F8, F9.
  assert (Hfree : ti_asids_free ti = ti_asid_max tlb0 - KERNEL_PID cfg)
    by (rewrite F1; by apply INITIAL_FREE_eq).
  split; [|done].
  apply fresh_tlb_inv.
  - cbn. by apply list_lookup_middle.
  - by rewrite F3.
  - by rewrite F3.
  - by rewrite F3, F9.
  - intros a Ha. unfold ti, secondary_ti.
    change (TLBINFO_ASID_INUSE_P cfg
              (TLBINFO_ASID_RESET cfg (set_lock false t0)) a
            = bool_decide (a ≤ KERNEL_PID cfg)).
    apply TLBINFO_ASID_RESET_isset; [done|done|]. cbn. lia.
  - by rewrite F3.
  - done.
  - by rewrite F4.
  - intros p pm Hpk Hp. split; [by apply (Hpm p pm)|].
    intros _. unfold pmap_tlb_intersecting_active_p,
      pmap_tlb_intersecting_onproc_p, kcpuset_intersecting_p.
    rewrite (proj2 (Nat.eqb_neq _ _) Hmax), F6.
    split; apply bool_decide_eq_false; intros H; apply H;
      apply intersection_empty_r_L.
Qed.


Lemma primary_ti_fields (md_max : Z) (cpu : nat) (t : pmap_tlb_info) :
  let t' := primary_ti cfg md_max cpu t in
  let clamp := (ti_asid_max t =? 0) || (md_max <? ti_asid_max t) in
  ti_asid_max t' = (if clamp then md_max else ti_asid_max t)
  ∧ ti_asids_free t'
    = (if clamp then TLBINFO_ASID_INITIAL_FREE cfg md_max
       else ti_asids_free t)
  ∧ ti_kcpuset t'
    = (if MULTIPROCESSOR cfg && (1 <? PMAP_TLB_MAX cfg)%nat
       then {[cpu]} else ti_kcpuset t)
  ∧ ti_lock t' = false ∧ ti_asid_hint t' = ti_asid_hint t
  ∧ ti_asid_bitmap t' = ti_asid_bitmap t ∧ ti_pais t' = ti_pais t
  ∧ pending t' = pending t.
Proof.
  unfold primary_ti. cbv zeta.
  destruct (MULTIPROCESSOR cfg && (1 <? PMAP_TLB_MAX cfg)%nat);
    cbn [ti_asid_max set_kcpuset set_lock];
    destruct ((ti_asid_max t =? 0) || (md_max <? ti_asid_max t)); cbn;
    rewrite ?union_empty_l_L; done.
Qed.

(** The branch for [pmap_tlb0_info] leaves TLB 0 as [primary_ti] has it,
    when the checks at its end hold. *)
Lemma info_init_primary_run (s : kstate) (t : pmap_tlb_info)
    (md_max asid_t_max bitmap_length : Z) (cpu : nat) :
  pmap_tlbs s !! 0%nat = Some t →
  let t' := primary_ti cfg md_max cpu t in
  info_init_primary cfg md_max asid_t_max bitmap_length cpu s
  = if DIAGNOSTIC cfg
       && negb ((ti_asid_max t' + 1 <=? asid_t_max)
                && (ti_asid_max t' <? bitmap_length))
    then None else Some (tt, upd_ti 0 t' s).
Proof.
  intros Ht t'.
  assert (Hwp : wp (modify_ti 0 (set_lock false) >>
      when (MULTIPROCESSOR cfg && (1 <? PMAP_TLB_MAX cfg)%nat)
        (modify_ti 0 (set_kcpuset ∅) >>
         modify_ti 0 (λ t, set_kcpuset (ti_kcpuset t ∪ {[cpu]}) t)) >>
      let! ti := get_ti 0 in
      when ((ti_asid_max ti =? 0) || (md_max <? ti_asid_max ti))
        (modify_ti 0 (set_asid_max md_max) >>
         modify_ti 0 (λ t,
           set_asids_free (TLBINFO_ASID_INITIAL_FREE cfg (ti_asid_max t)) t)))
     s (λ _ s1, s1 = upd_ti 0 t' s)).
  { unfold t', primary_ti. cbv zeta. wp_steps.
    destruct (MULTIPROCESSOR cfg && (1 <? PMAP_TLB_MAX cfg)%nat);
      cbn [when]; wp_steps; cbn [ti_asid_max set_kcpuset set_lock];
      destruct ((ti_asid_max t =? 0) || (md_max <? ti_asid_max t));
      cbn [when]; wp_steps; st_done. }
  destruct Hwp as ([] & s1 & Hrun & ->).
  unfold info_init_primary. cbv zeta.
  rewrite (bind_Some _ _ s (upd_ti 0 t' s) tt) by exact Hrun.
  rewrite (bind_Some _ _ _ (upd_ti 0 t' s) t')
    by (apply get_ti_run; by eapply lookup_upd_ti_eq).
  unfold bind, KASSERT.
  destruct (DIAGNOSTIC cfg); cbn [andb negb]; [|done].
  destruct (ti_asid_max t' + 1 <=? asid_t_max); cbn [andb negb]; [|done].
  by destruct (ti_asid_max t' <? bitmap_length).
Qed.

(** The static initialiser marks the reserved ASIDs and no others. *)
Lemma pmap_tlb0_info_isset (nwords : nat) (num_pids : option Z) (a : Z) :
  0 ≤ a → KERNEL_PID cfg < NBPW cfg → (0 < nwords)%nat →
  TLBINFO_ASID_INUSE_P cfg (pmap_tlb0_info cfg nwords num_pids) a
  = bool_decide (a ≤ KERNEL_PID cfg).
Proof.
  intros Ha Hk Hn. pose proof Hcfg as [HK HN].
  unfold TLBINFO_ASID_INUSE_P, BITMAP_ISSET. cbn [ti_asid_bitmap pmap_tlb0_info].
  pose proof (Z.mod_pos_bound a (NBPW cfg) HN) as Hmod.
  destruct (decide (a < NBPW cfg)) as [Hlt|Hge].
  - rewrite Z.div_small, Z.mod_small by lia. cbn [Z.to_nat].
    rewrite list_lookup_insert_eq by (rewrite length_replicate; lia).
    cbn [default from_option id].
    destruct (decide (a ≤ KERNEL_PID cfg)) as [Hle|Hgt].
    + rewrite bool_decide_eq_true_2 by done.
      apply Z.ones_spec_low. lia.
    + rewrite bool_decide_eq_false_2 by done.
      apply Z.ones_spec_high. lia.
  - rewrite bool_decide_eq_false_2 by lia.
    assert (0 < a `div` NBPW cfg) by (apply Z.div_str_pos; lia).
    rewrite list_lookup_insert_ne by lia.
    destruct (replicate nwords 0 !! Z.to_nat (a `div` NBPW cfg)) as [w|] eqn:E.
    + apply lookup_replicate in E as [-> _]. apply Z.testbit_0_l.
    + apply Z.testbit_0_l.
Qed.

(** X16: [pmap_tlb_info_init] for [pmap_tlb0_info], from its static
    initialiser.  [ti_asid_max] becomes what the platform reports when the
    initialiser left it at zero or above that, and stays as the
    initialiser has it otherwise.  A DIAGNOSTIC kernel stops when this
    value plus one does not fit the type of an ASID or the value is not
    below the length of the bitmap; otherwise the routine returns and
    writes to TLB 0 only.  The TLB serves the calling CPU alone where
    there is more than one TLB and no CPU otherwise, nothing is pending,
    the lock is free and the list is empty; when no user pmap has an ASID
    for TLB 0 or is active or onproc anywhere the TLB is consistent, with
    every ASID beyond the reserved ones free. *)
Theorem info_init_primary_establishes (s : kstate) (nwords : nat)
    (num_pids : option Z) (md_max asid_t_max bitmap_length : Z)
    (cpu : nat) :
  pmap_tlbs s !! 0%nat = Some (pmap_tlb0_info cfg nwords num_pids) →
  let static_max := match num_pids with Some n => n - 1 | None => 0 end in
  let max' :=
    if (static_max =? 0) || (md_max <? static_max) then md_max
    else static_max in
  ∃ ti,
    ti_asid_max ti = max'
    ∧ pmap_tlb_info_init_at cfg md_max asid_t_max bitmap_length cpu None s
      = (if DIAGNOSTIC cfg
            && negb ((max' + 1 <=? asid_t_max) && (max' <? bitmap_length))
         then None else Some (tt, upd_ti 0 ti s))
    ∧ ti_kcpuset ti
      = (if MULTIPROCESSOR cfg && (1 <? PMAP_TLB_MAX cfg)%nat
         then {[cpu]} else ∅)
    ∧ ti_lock ti = false ∧ pending ti = (TLBINV_NOBODY, None)
    ∧ ti_pais ti = []
    ∧ (KERNEL_PID cfg ≤ max' → max' + 1 < 2 ^ 32 →
       max' < NBPW cfg * Z.of_nat nwords → KERNEL_PID cfg < NBPW cfg →
       (∀ p pm, p ≠ pmap_kernel → pmaps s !! p = Some pm →
          pai_asid pm 0 = 0 ∧ pm_active pm = ∅ ∧ pm_onproc pm = ∅) →
       tlb_inv cfg [] (upd_ti 0 ti s) 0 ti
       ∧ ti_asids_free ti = max' - KERNEL_PID cfg).
Proof.
  intros Ht static_max max'. pose proof Hcfg as [HK HN].
  set (t := pmap_tlb0_info cfg nwords num_pids) in *.
  destruct (primary_ti_fields md_max cpu t)
    as (F1 & F2 & F3 & F4 & F5 & F6 & F7 & F8).
  change (ti_asid_max t) with static_max in F1, F2. fold max' in F1.
  exists (primary_ti cfg md_max cpu t).
  split; [exact F1|]. split.
  { unfold pmap_tlb_info_init_at.
    rewrite (info_init_primary_run s t) by done. cbv zeta. by rewrite F1. }
  split; [exact F3|]. split; [exact F4|]. split; [by rewrite F8|].
  split; [by rewrite F7|].
  intros Hm1 Hm2 Hm3 Hkw Hpm.
  assert (Hn : (0 < nwords)%nat) by (destruct nwords; [lia|lia]).
  assert (Hfree : ti_asids_free (primary_ti cfg md_max cpu t)
                  = max' - KERNEL_PID cfg).
  { rewrite F2. unfold max' in *.
    destruct ((static_max =? 0) || (md_max <? static_max)) eqn:E.
    - by apply INITIAL_FREE_eq.
    - unfold t, static_max in *. destruct num_pids as [n|]; [|done].
      cbn. by apply INITIAL_FREE_eq. }
  split; [|done].
  apply fresh_tlb_inv.
  - by eapply lookup_upd_ti_eq.
  - by rewrite F1.
  - by rewrite F1.
  - rewrite F1, F6. unfold t. cbn [ti_asid_bitmap pmap_tlb0_info].
    by rewrite length_insert, length_replicate.
  - intros a Ha. unfold TLBINFO_ASID_INUSE_P. rewrite F6.
    by apply (pmap_tlb0_info_isset nwords num_pids a).
  - by rewrite F1.
  - by rewrite F5.
  - by rewrite F7.
  - intros p pm Hpk Hp. destruct (Hpm p pm Hpk Hp) as (H0 & Hact & Hon).
    split; [done|]. intros _.
    unfold pmap_tlb_intersecting_active_p, pmap_tlb_intersecting_onproc_p,
      kcpuset_intersecting_p, kcpuset_iszero.
    rewrite Hact, Hon.
    destruct (PMAP_TLB_MAX cfg =? 1)%nat.
    + split; apply negb_false_iff; by apply bool_decide_eq_true.
    + split; apply bool_decide_eq_false; intros H; apply H;
        apply intersection_empty_l_L.
Qed.

Lemma intersecting_p_add (a kc : gset nat) (c : nat) :
  kcpuset_intersecting_p a (kc ∪ {[c]})
  = kcpuset_intersecting_p a kc || bool_decide (c ∈ a).
Proof.
  unfold kcpuset_intersecting_p.
  destruct (decide (c ∈ a)) as [Hc|Hc].
  - rewrite (bool_decide_eq_true_2 (c ∈ a)) by done. rewrite orb_true_r.
    apply bool_decide_eq_true. intros He.
    apply (not_elem_of_empty (C := gset nat) c). rewrite <- He.
    apply elem_of_intersection. split; [done|].
    apply elem_of_union. right. by apply elem_of_singleton.
  - rewrite (bool_decide_eq_false_2 (c ∈ a)) by done. rewrite orb_false_r.
    apply bool_decide_ext.
    assert (a ∩ (kc ∪ {[c]}) = a ∩ kc) as ->; [|done].
    apply set_eq. intros x.
    rewrite !elem_of_intersection, elem_of_union, elem_of_singleton.
    split; [|tauto]. intros [Hx [Hk| ->]]; [done|]. by destruct Hc.
Qed.

(** A CPU no user pmap is active or onproc on can be added to the CPUs of
    a consistent TLB. *)
Lemma tlb_inv_add_cpu (s : kstate) (i : nat) (ti : pmap_tlb_info)
    (c : nat) :
  tlb_inv cfg [] s i ti →
  (∀ p pm, p ≠ pmap_kernel → pmaps s !! p = Some pm →
     (c ∉ pm_active pm) ∧ c ∉ pm_onproc pm) →
  let ti' := set_kcpuset (ti_kcpuset ti ∪ {[c]}) ti in
  tlb_inv cfg [] (upd_ti i ti' s) i ti'.
Proof.
  intros [Hlk Hmax Hres Hcons Hhint Hbelow Hnd Hlinked Hdist Hunl] Hfresh ti'.
  assert (Hact : ∀ p pm, p ≠ pmap_kernel → pmaps s !! p = Some pm →
    pmap_tlb_intersecting_active_p cfg pm ti'
    = pmap_tlb_intersecting_active_p cfg pm ti
    ∧ pmap_tlb_intersecting_onproc_p cfg pm ti'
      = pmap_tlb_intersecting_onproc_p cfg pm ti).
  { intros p pm Hpk Hp. destruct (Hfresh p pm Hpk Hp) as [H1 H2].
    unfold pmap_tlb_intersecting_active_p, pmap_tlb_intersecting_onproc_p.
    destruct (PMAP_TLB_MAX cfg =? 1)%nat; [done|].
    cbn [ti' ti_kcpuset set_kcpuset]. rewrite !intersecting_p_add.
    rewrite (bool_decide_eq_false_2 _ H1), (bool_decide_eq_false_2 _ H2).
    by rewrite !orb_false_r. }
  split; try done.
  - by eapply lookup_upd_ti_eq.
  - intros p Hp. destruct (Hlinked p Hp) as (Hpk & pm & Hpm & H1 & H2 & H3).
    split; [done|]. exists pm. split; [done|]. split; [done|].
    split; [done|]. intros Hmp. destruct (Hact p pm Hpk Hpm) as [-> _].
    by apply H3.
  - intros p pm Hpk Hpm Hnin. destruct (Hunl p pm Hpk Hpm Hnin) as [H0 Hun].
    split; [done|]. intros Hmp. destruct (Hact p pm Hpk Hpm) as [-> ->].
    by apply Hun.
Qed.

(** Whether [pmap_tlb_info_attach] returns, and what it leaves. *)
Lemma info_attach_run (s : kstate) (i : nat) (ti : pmap_tlb_info)
    (ci : cpu_info) (md_attach : M unit) (primary_p idle_p cold : bool) :
  pmap_tlbs s !! i = Some ti → (∀ s0, md_attach s0 = Some (tt, s0)) →
  let multi := (1 <? PMAP_TLB_MAX cfg)%nat in
  let ti' :=
    if multi then set_kcpuset (ti_kcpuset ti ∪ {[ci_index ci]}) ti else ti in
  let ci' := if multi then {| ci_index := ci_index ci; ci_tlb := i |} else ci in
  let s' := upd_ti i ti' s in
  pmap_tlb_info_attach cfg md_attach i ci primary_p idle_p cold s
  = (if (DIAGNOSTIC cfg && negb (negb primary_p && idle_p && cold))
        || ti_lock ti
     then None else Some (ci', s')).
Proof.
  intros Hti Hmd multi ti' ci' s'. unfold pmap_tlb_info_attach.
  assert (Hk : ∀ k : M cpu_info,
    (KASSERT cfg (negb primary_p) >> KASSERT cfg idle_p >>
     KASSERT cfg cold >> k) s
    = if DIAGNOSTIC cfg && negb (negb primary_p && idle_p && cold)
      then None else k s).
  { intros k. unfold bind, KASSERT.
    destruct (DIAGNOSTIC cfg), primary_p, idle_p, cold; reflexivity. }
  rewrite Hk.
  destruct (DIAGNOSTIC cfg && negb (negb primary_p && idle_p && cold));
    [done|]. cbn [orb].
  destruct (ti_lock ti) eqn:Hl.
  { apply bind_fail. by rewrite (TLBINFO_LOCK_run i ti s Hti), Hl. }
  rewrite (bind_Some _ _ s (upd_ti i (set_lock true ti) s) tt)
    by (by rewrite (TLBINFO_LOCK_run i ti s Hti), Hl).
  assert (Hwp : wp
    (let! ci' :=
       (if (1 <? PMAP_TLB_MAX cfg)%nat then
          modify_ti i (λ t, set_kcpuset (ti_kcpuset t ∪ {[ci_index ci]}) t) >>
          ret {| ci_index := ci_index ci; ci_tlb := i |}
        else ret ci) in
     md_attach >> TLBINFO_UNLOCK i >> ret ci')
    (upd_ti i (set_lock true ti) s) (λ r s1, r = ci' ∧ s1 = s')).
  { unfold ci', s', ti', multi.
    destruct (1 <? PMAP_TLB_MAX cfg)%nat; wp_steps.
    - exists tt, (upd_ti i
        (set_kcpuset (ti_kcpuset (set_lock true ti) ∪ {[ci_index ci]})
           (set_lock true ti)) (upd_ti i (set_lock true ti) s)).
      split; [apply Hmd|]. wp_steps. split; [done|].
      rewrite !upd_ti_upd_ti. f_equal. destruct ti. cbn in *. by subst.
    - exists tt, (upd_ti i (set_lock true ti) s).
      split; [apply Hmd|]. wp_steps. split; [done|].
      rewrite !upd_ti_upd_ti. f_equal. destruct ti. cbn in *. by subst. }
  destruct Hwp as (r & s1 & Hrun & -> & ->). exact Hrun.
Qed.

(** X17: [pmap_tlb_info_attach] on a multiprocessor kernel, for a
    consistent TLB whose lock is free, when the machine-dependent hook
    leaves the store alone.  A DIAGNOSTIC kernel stops unless the CPU is
    not the primary one, has an idle lwp and the system is cold, and the
    routine does not return when the lock is held.  Otherwise it returns:
    where there is more than one TLB the CPU is added to the CPUs of the
    TLB and the TLB is made the TLB of the CPU, so that the CPU is one
    [pmap_tlb_asid_acquire] can be called for; where there is one TLB
    nothing changes.  The lock is free again and, when no user pmap is
    active or onproc on the CPU, the TLB is consistent; TLBs that served
    disjoint sets of CPUs still do when the CPU was served by no other. *)
Theorem info_attach_adds_cpu (s : kstate) (i : nat) (ti : pmap_tlb_info)
    (ci : cpu_info) (md_attach : M unit) (primary_p idle_p cold : bool) :
  pmap_tlbs s !! i = Some ti → (∀ s0, md_attach s0 = Some (tt, s0)) →
  let attach :=
    pmap_tlb_info_attach cfg md_attach i ci primary_p idle_p cold in
  let multi := (1 <? PMAP_TLB_MAX cfg)%nat in
  let ti' :=
    if multi then set_kcpuset (ti_kcpuset ti ∪ {[ci_index ci]}) ti else ti in
  let ci' := if multi then {| ci_index := ci_index ci; ci_tlb := i |} else ci in
  let s' := upd_ti i ti' s in
  attach s
  = (if (DIAGNOSTIC cfg && negb (negb primary_p && idle_p && cold))
        || ti_lock ti
     then None else Some (ci', s'))
  ∧ (ti_lock ti = false → tlb_inv cfg [] s i ti →
     (∀ p pm, p ≠ pmap_kernel → pmaps s !! p = Some pm →
        (ci_index ci ∉ pm_active pm) ∧ ci_index ci ∉ pm_onproc pm) →
     tlb_inv cfg [] s' i ti'
     ∧ (multi = true → PMAP_TLB_MAX cfg ≠ 1%nat ∧ cpu_served cfg s' ci' ti')
     ∧ (tlbs_disjoint s →
        (∀ j tj, j ≠ i → pmap_tlbs s !! j = Some tj →
           ci_index ci ∉ ti_kcpuset tj) →
        tlbs_disjoint s')).
Proof.
  intros Hti Hmd attach multi ti' ci' s'. split.
  - by apply info_attach_run.
  - intros Hl Hinv Hfresh. unfold s', ti', ci', multi.
    destruct (1 <? PMAP_TLB_MAX cfg)%nat eqn:Hm.
    + split; [by apply tlb_inv_add_cpu|]. split.
      * intros _. apply Nat.ltb_lt in Hm. split; [lia|].
        unfold cpu_served. rewrite (proj2 (Nat.eqb_neq _ 1)) by lia.
        cbn. apply elem_of_union. right. by apply elem_of_singleton.
      * intros Hdis Hother j k tj tk Hjk Hj Hk.
        assert (Hcase : ∀ a ta tb, a ≠ i →
          pmap_tlbs (upd_ti i (set_kcpuset (ti_kcpuset ti ∪ {[ci_index ci]}) ti) s)
            !! a = Some ta →
          pmap_tlbs (upd_ti i (set_kcpuset (ti_kcpuset ti ∪ {[ci_index ci]}) ti) s)
            !! i = Some tb →
          ti_kcpuset ta ## ti_kcpuset tb).
        { intros a ta tb Ha Hta Htb. cbn in Hta, Htb.
          rewrite list_lookup_insert_ne in Hta by done.
          rewrite list_lookup_insert_eq in Htb
            by (by eapply lookup_lt_Some).
          injection Htb as <-. cbn.
          intros x Hx1 Hx2. apply elem_of_union in Hx2 as [Hx2|Hx2].
          - by apply (Hdis a i ta ti Ha Hta Hti x).
          - apply elem_of_singleton in Hx2 as ->.
            by apply (Hother a ta Ha Hta). }
        destruct (decide (j = i)) as [->|Hji];
          [|destruct (decide (k = i)) as [->|Hki]].
        -- symmetry. apply (Hcase k tk tj); [done|done|done].
        -- by apply (Hcase j tj tk).
        -- cbn in Hj, Hk. rewrite list_lookup_insert_ne in Hj by done.
           rewrite list_lookup_insert_ne in Hk by done.
           by apply (Hdis j k).
    + assert (upd_ti i ti s = s) as -> by (by apply upd_ti_id).
      split; [done|]. split; [done|]. by intros Hdis _.
Qed.

(** X18: The first ASID of a new TLB.  On a multiprocessor kernel with
    room in [pmap_tlbs], [pmap_tlb_info_init] for a zeroed structure,
    [pmap_tlb_info_attach] of a CPU to the new TLB and
    [pmap_tlb_asid_acquire] for a user pmap on that CPU all return; the
    pmap gets the first ASID after the reserved ones, the hint is left at
    the ASID after it, and for the running lwp that ASID is the current
    one of the CPU and of its TLB. *)
Theorem first_asid_after_boot (s : kstate) (tlb0 : pmap_tlb_info)
    (nwords : nat) (md_max asid_t_max bitmap_length : Z) (cpu : nat)
    (md_attach : M unit) (ci : cpu_info) (curlwp_p : bool) (p : pmap_t)
    (pm : pmap) :
  MULTIPROCESSOR cfg = true → PMAP_TLB_MAX cfg ≠ 1%nat →
  pmap_tlbs s !! 0%nat = Some tlb0 →
  (length (pmap_tlbs s) < PMAP_TLB_MAX cfg)%nat →
  KERNEL_PID cfg < ti_asid_max tlb0 → ti_asid_max tlb0 + 1 < 2 ^ 32 →
  ti_asid_max tlb0 < NBPW cfg * Z.of_nat nwords →
  (DIAGNOSTIC cfg = true → ti_asid_max tlb0 < bitmap_length) →
  (∀ s0, md_attach s0 = Some (tt, s0)) →
  (∀ q qm, q ≠ pmap_kernel → pmaps s !! q = Some qm →
     pai_asid qm (length (pmap_tlbs s)) = 0
     ∧ (ci_index ci ∉ pm_active qm) ∧ ci_index ci ∉ pm_onproc qm) →
  p ≠ pmap_kernel → pmaps s !! p = Some pm →
  let n := length (pmap_tlbs s) in
  let t0 :=
    {| ti_asids_free := 0; ti_asid_hint := 0; ti_asid_max := 0;
       ti_asid_bitmap := replicate nwords 0; ti_pais := [];
       ti_victim := None; ti_kcpuset := ∅; ti_tlbinvop := 0;
       ti_lock := false; ti_evcnt_asid_reinits := 0 |} in
  ∃ s1 s2 s3 ci' ti3 pm3,
    pmap_tlb_info_init_at cfg md_max asid_t_max bitmap_length cpu (Some t0) s
    = Some (tt, s1)
    ∧ pmap_tlb_info_attach cfg md_attach n ci false true true s1
      = Some (ci', s2)
    ∧ ci' = {| ci_index := ci_index ci; ci_tlb := n |}
    ∧ pmap_tlb_asid_acquire cfg p ci' curlwp_p s2 = Some (tt, s3)
    ∧ pmap_tlbs s3 !! n = Some ti3 ∧ pmaps s3 !! p = Some pm3
    ∧ pai_asid pm3 n = KERNEL_PID cfg + 1
    ∧ ti_asid_hint ti3 = KERNEL_PID cfg + 2
    ∧ TLBINFO_ASID_INUSE_P cfg ti3 (KERNEL_PID cfg + 1) = true
    ∧ (curlwp_p = true →
       ci_pmap_asid_cur s3 = KERNEL_PID cfg + 1
       ∧ hw_asid (hw s3) = KERNEL_PID cfg + 1).
Proof.
  intros Hmp Hmax Htlb0 Hroom Hm1 Hm2 Hm3 Hlen Hmd Hfresh Hpk Hpm n t0.
  pose proof Hcfg as [HK HN].
  set (ti1 := secondary_ti cfg tlb0 t0).
  set (s1 := set_pmap_tlbs (pmap_tlbs s ++ [ti1]) s).
  pose proof (info_init_secondary_run s tlb0 t0 md_max asid_t_max
                bitmap_length cpu Hmp Hmax Htlb0 Hroom Hlen) as Hrun1.
  destruct (secondary_ti_inv s tlb0 t0 Hmax) as [Hinv1 Hfree1]; try done.
  { lia. }
  { cbn. by rewrite length_replicate. }
  { intros q qm Hqk Hq. by destruct (Hfresh q qm Hqk Hq). }
  fold ti1 in Hinv1, Hfree1. fold s1 in Hinv1. fold n in Hinv1.
  destruct (secondary_ti_fields tlb0 t0)
    as (F1 & F2 & F3 & F4 & F5 & F6 & F7 & F8 & F9).
  fold ti1 in F1, F2, F3, F4, F5, F6, F7, F8, F9.
  assert (Hmulti : (1 <? PMAP_TLB_MAX cfg)%nat = true).
  { apply Nat.ltb_lt. pose proof (lookup_lt_Some _ _ _ Htlb0). lia. }
  pose proof (info_attach_run s1 n ti1 ci md_attach false true true
                (inv_lookup _ _ _ _ _ Hinv1) Hmd) as Hrun2.
  cbv zeta in Hrun2. rewrite Hmulti, F7 in Hrun2.
  cbn [negb andb] in Hrun2. rewrite andb_false_r in Hrun2.
  cbn [orb] in Hrun2.
  set (ti2 := set_kcpuset (ti_kcpuset ti1 ∪ {[ci_index ci]}) ti1) in *.
  set (s2 := upd_ti n ti2 s1) in *.
  set (ci' := {| ci_index := ci_index ci; ci_tlb := n |}) in *.
  assert (Hinv2 : tlb_inv cfg [] s2 n ti2).
  { apply tlb_inv_add_cpu; [done|].
    intros q qm Hqk Hq. by destruct (Hfresh q qm Hqk Hq) as (_ & ? & ?). }
  assert (Hbit : TLBINFO_ASID_INUSE_P cfg ti2 (KERNEL_PID cfg + 1) = false).
  { change (TLBINFO_ASID_INUSE_P cfg
              (TLBINFO_ASID_RESET cfg (set_lock false t0))
              (KERNEL_PID cfg + 1) = false).
    rewrite TLBINFO_ASID_RESET_isset; [|done|lia|].
    - apply bool_decide_eq_false. lia.
    - cbn. rewrite length_replicate. lia. }
  assert (Halloc : alloc_asid cfg ti2 = Some (KERNEL_PID cfg + 1)).
  { unfold alloc_asid.
    assert (alloc_hint cfg ti2 = KERNEL_PID cfg + 1) as ->.
    { unfold alloc_hint. change (ti_asid_hint ti2) with (KERNEL_PID cfg + 1).
      by destruct (PMAP_TLB_FLUSH_ASID_ON_RESET cfg && _). }
    by rewrite Hbit. }
  destruct (acquire_alloc cfg Hcfg s2 ci' curlwp_p p ti2 pm Hinv2)
    as ([] & s3 & Hrun3 & ti3 & pm3 & asid & G1 & G2 & G3 & G4 & G5 & G6 & G7
        & G8 & G9 & G10); try done.
  { change (ti_pais ti2) with (ti_pais ti1). rewrite F4.
    by intros ?%elem_of_nil. }
  { change (ti_asids_free ti2) with (ti_asids_free ti1). lia. }
  { intros _. unfold cpu_served. rewrite (proj2 (Nat.eqb_neq _ _) Hmax).
    cbn. apply elem_of_union. right. by apply elem_of_singleton. }
  assert (asid = KERNEL_PID cfg + 1) as -> by congruence.
  exists s1, s2, s3, ci', ti3, pm3.
  split; [done|]. split; [done|]. split; [done|]. split; [done|].
  split; [done|]. split; [done|]. split; [done|].
  split; [rewrite G8; lia|]. split; [done|].
  intros Hc. destruct (G10 Hc) as (? & ? & _). done.
Qed.

End InfoInit.


Lemma info_init_primary_establishes_witness :
  ∃ ti,
    pmap_tlb_info_init_at cfg_mp 7 255 64 0 None ex_static
    = Some (tt, upd_ti 0 ti ex_static)
    ∧ tlb_inv cfg_mp [] (upd_ti 0 ti ex_static) 0 ti
    ∧ ti_asid_max ti = 7 ∧ ti_asids_free ti = 7.
Proof.
  destruct (info_init_primary_establishes cfg_mp cfg_mp_ok ex_static 2 None
              7 255 64 0%nat eq_refl)
    as (ti & H1 & H2 & _ & _ & _ & _ & H7).
  exists ti. split; [exact H2|].
  destruct H7 as [H7 H8].
  - discriminate.
  - reflexivity.
  - reflexivity.
  - reflexivity.
  - intros p pm Hpk Hp. ex_pmap_cases Hp; [by destruct Hpk|].
    split; [reflexivity|]. split; reflexivity.
  - split; [exact H7|]. split; [exact H1|exact H8].
Defined.

Lemma info_attach_adds_cpu_witness :
  pmap_tlb_info_attach cfg_mp (ret tt) 1
    {| ci_index := 5; ci_tlb := 0 |} false true true ex_mp
  = Some ({| ci_index := 5; ci_tlb := 1 |},
          upd_ti 1
            (set_kcpuset ({[2%nat; 3%nat]} ∪ {[5%nat]})
               (ex_mp_tlb 5 3 [7; 0] TLBINV_NOBODY None)) ex_mp).
Proof.
  exact (proj1 (info_attach_adds_cpu cfg_mp ex_mp 1
                  (ex_mp_tlb 5 3 [7; 0] TLBINV_NOBODY None)
                  {| ci_index := 5; ci_tlb := 0 |} (ret tt) false true true
                  eq_refl (λ _, eq_refl))).
Defined.

Lemma first_asid_after_boot_witness :
  ∃ s1 s2 s3 pm3,
    pmap_tlb_info_init_at cfg_mp 7 255 64 0 (Some ex_zero_tlb) ex_boot
    = Some (tt, s1)
    ∧ pmap_tlb_info_attach cfg_mp (ret tt) 1
        {| ci_index := 2; ci_tlb := 0 |} false true true s1
      = Some (cpu2, s2)
    ∧ pmap_tlb_asid_acquire cfg_mp 3%nat cpu2 true s2 = Some (tt, s3)
    ∧ pmaps s3 !! 3%nat = Some pm3 ∧ pai_asid pm3 1 = 1
    ∧ ci_pmap_asid_cur s3 = 1.
Proof.
  destruct (first_asid_after_boot cfg_mp cfg_mp_ok ex_boot
              (ex_tlb 7 1 [1; 0] [] None {[0%nat]} TLBINV_NOBODY) 2
              7 255 64 0%nat (ret tt) {| ci_index := 2; ci_tlb := 0 |}
              true 3%nat (ex_pmap [] ∅ ∅) eq_refl)
    as (s1 & s2 & s3 & ci' & ti3 & pm3 & H1 & H2 & -> & H4 & _ & H6 & H7 & _
        & _ & H10).
  - discriminate.
  - reflexivity.
  - cbn. lia.
  - reflexivity.
  - reflexivity.
  - reflexivity.
  - intros _. reflexivity.
  - intros s0. reflexivity.
  - intros q qm Hqk Hq. ex_pmap_cases Hq; [by destruct Hqk|].
    split; [reflexivity|]. split; by apply (bool_decide_unpack _).
  - discriminate.
  - reflexivity.
  - exists s1, s2, s3, pm3. split; [exact H1|]. split; [exact H2|].
    split; [exact H4|]. split; [exact H6|]. split; [exact H7|].
    exact (proj1 (H10 eq_refl)).
Defined.

(** * A binding outlives a context switch *)

Section Switch.

Context (cfg : config).
Hypothesis Hcfg : cfg_ok cfg.


End Switch.


(** * A release leaves the TLBs consistent *)

Section ReleaseInv.

Context (cfg : config).
Hypothesis Hcfg : cfg_ok cfg.

(** X20: [pmap_tlb_asid_release_all] keeps the TLBs consistent.  For a
    pmap that is not the kernel's and, on a multiprocessor, is onproc
    nowhere, from a store whose TLBs are consistent and not locked, the
    routine returns; every TLB it visits is consistent again, not locked
    and serves the CPUs it served; no TLB is added or removed and every
    other pmap is as it was. *)
Theorem release_all_keeps_inv (s : kstate) (ci : cpu_info) (p : pmap_t)
    (pm : pmap) :
  pmaps s !! p = Some pm → p ≠ pmap_kernel →
  (∀ j tj, pmap_tlbs s !! j = Some tj →
     tlb_inv cfg [] s j tj ∧ ti_lock tj = false) →
  (0 < length (pmap_tlbs s))%nat →
  (MULTIPROCESSOR cfg = true →
   pm_onproc pm = ∅ ∧ tlbs_disjoint s
   ∧ ∀ c, c ∈ pm_active pm →
       ∃ j tj, pmap_tlbs s !! j = Some tj ∧ c ∈ ti_kcpuset tj) →
  ∃ s',
    pmap_tlb_asid_release_all cfg ci p s = Some (tt, s')
    ∧ length (pmap_tlbs s') = length (pmap_tlbs s)
    ∧ (∀ q, q ≠ p → pmaps s' !! q = pmaps s !! q)
    ∧ ∀ j tj, pmap_tlbs s !! j = Some tj → release_visits cfg j →
        ∃ tj', pmap_tlbs s' !! j = Some tj'
          ∧ tlb_inv cfg [] s' j tj' ∧ ti_lock tj' = false
          ∧ ti_kcpuset tj' = ti_kcpuset tj.
Proof.
  intros Hpm Hpk Hall Hlen Hmpc. pose proof Hcfg as [HK HN].
  cut (wp (pmap_tlb_asid_release_all cfg ci p) s (λ _ s',
         length (pmap_tlbs s') = length (pmap_tlbs s)
         ∧ (∀ q, q ≠ p → pmaps s' !! q = pmaps s !! q)
         ∧ ∀ j tj, pmap_tlbs s !! j = Some tj → release_visits cfg j →
             ∃ tj', pmap_tlbs s' !! j = Some tj'
               ∧ tlb_inv cfg [] s' j tj' ∧ ti_lock tj' = false
               ∧ ti_kcpuset tj' = ti_kcpuset tj)).
  { intros ([] & s' & Hrun & Hpost). by exists s'. }
  destruct (MULTIPROCESSOR cfg) eqn:Hmp.
  - destruct (Hmpc eq_refl) as (Hon & Hdis & Hcov).
    unfold pmap_tlb_asid_release_all. rewrite Hmp.
    wp_assert; [by rewrite bool_decide_eq_false_2|]. wp_steps.
    wp_assert.
    { unfold kcpuset_isotherset. rewrite Hon.
      apply negb_true_iff, bool_decide_eq_false. intros H. apply H.
      apply elem_of_equiv_empty_L. intros x Hx.
      apply elem_of_difference in Hx as [Hx _]. by apply elem_of_empty in Hx. }
    wp_steps.
    destruct (1 <? PMAP_TLB_MAX cfg)%nat eqn:Hmax.
    + assert (Hne : PMAP_TLB_MAX cfg ≠ 1%nat)
        by (apply Nat.ltb_lt in Hmax; lia).
      eapply wp_mono.
      { apply (release_all_loop_spec cfg Hcfg p (length (pmap_tlbs s)) 0 s pm);
          try done.
        intros c Hc. destruct (Hcov c Hc) as (j & tj & Hj & Hin).
        exists j, tj. split; [lia|done]. }
      intros [] s' (pm' & P1 & P2 & P3 & P4 & P5 & P6).
      apply wp_when_same.
      { intros _. apply (release_all_check_spec cfg p pm'); [done|].
        intros i Hi. apply elem_of_seq in Hi.
        destruct (lookup_lt_is_Some_2 (pmap_tlbs s) i ltac:(lia)) as [t Ht].
        destruct (P6 i t Ht) as (t' & _ & _ & _ & _ & _ & _ & Q).
        by destruct (Q ltac:(lia)) as [? _]. }
      split; [done|]. split; [done|]. intros j tj Hj _.
      destruct (P6 j tj Hj) as (tj' & Q1 & Q2 & Q3 & Q4 & Q5 & _).
      by exists tj'.
    + destruct (lookup_lt_is_Some_2 (pmap_tlbs s) 0 Hlen) as [t0 Ht0].
      destruct (Hall 0%nat t0 Ht0) as [Hi0 Hl0].
      eapply wp_mono.
      { apply (release_all_tlb_spec cfg Hcfg s 0 t0 p pm Hi0 Hl0 Hpk Hpm Hmp).
        unfold pmap_tlb_intersecting_onproc_p. rewrite Hon.
        destruct (PMAP_TLB_MAX cfg =? 1)%nat.
        - unfold kcpuset_iszero. by rewrite bool_decide_eq_true_2.
        - unfold kcpuset_intersecting_p. apply bool_decide_eq_false.
          intros H. apply H. apply elem_of_equiv_empty_L. intros x Hx.
          apply elem_of_intersection in Hx as [Hx _].
          by apply elem_of_empty in Hx. }
      intros [] s' (t0' & Htl & Hpms & Hi' & Hl' & Hnin' & Hv' & Hop' & Hkc').
      set (pm' := if bool_decide (p ∈ ti_pais t0)
                  then pai_reset_pm cfg 0 t0 pm else pm) in *.
      assert (Hpm' : pmaps s' !! p = Some pm')
        by (rewrite Hpms; apply lookup_insert_eq).
      assert (H0 : pai_asid pm' 0 = 0).
      { unfold pm'. destruct (decide (p ∈ ti_pais t0)) as [Hin|Hin].
        - rewrite bool_decide_eq_true_2 by done. apply pai_reset_pm_asid.
        - rewrite bool_decide_eq_false_2 by done.
          by destruct (inv_unlinked _ _ _ _ _ Hi0 p pm Hpk Hpm Hin). }
      apply wp_when_same.
      { intros _. apply (release_all_check_spec cfg p pm'); [done|].
        intros i Hi. apply elem_of_seq in Hi.
        replace i with 0%nat by lia. done. }
      split; [by rewrite Htl, length_insert|].
      split; [intros q Hq; rewrite Hpms; by apply lookup_insert_ne|].
      intros j tj Hj [[_ Hf]| ->]; [congruence|].
      rewrite Ht0 in Hj. injection Hj as <-.
      exists t0'. split; [|done].
      rewrite Htl. apply list_lookup_insert_eq. by eapply lookup_lt_Some.
  - destruct (lookup_lt_is_Some_2 (pmap_tlbs s) 0 Hlen) as [t0 Ht0].
    destruct (Hall 0%nat t0 Ht0) as [Hi0 Hl0].
    pose proof (tlb_inv_lock cfg [] s 0 t0 true Hi0) as Hinv0.
    pose proof (set_lock_set_lock false t0 Hl0) as E. cbn [negb] in E.
    assert (Hvis : ∀ j tj (Q : nat → pmap_tlb_info → Prop),
              pmap_tlbs s !! j = Some tj → release_visits cfg j →
              Q 0%nat t0 → Q j tj).
    { intros j tj Q Hj [[? _]| ->] HQ; [congruence|].
      rewrite Ht0 in Hj. by injection Hj as <-. }
    unfold pmap_tlb_asid_release_all. rewrite Hmp.
    wp_assert; [by rewrite bool_decide_eq_false_2|]. wp_steps.
    destruct (decide (p ∈ ti_pais t0)) as [Hin|Hnin].
    + destruct (inv_linked _ _ _ _ _ Hi0 p Hin) as (_ & pm0 & Hpm0 & Ha & _).
      rewrite Hpm in Hpm0. injection Hpm0 as <-.
      rewrite (proj2 (Z.ltb_lt _ _)) by lia. cbn [when].
      st_simpl.
      destruct (ci_pmap_asid_cur s =? pai_asid pm 0) eqn:Hc.
      * wp_steps. split; [st_simpl; by rewrite !length_insert|].
        split; [done|]. intros j tj Hj Hv.
        apply (Hvis j tj (λ j tj, ∃ tj', _ !! j = Some tj' ∧ _ ∧ _
                                   ∧ ti_kcpuset tj' = ti_kcpuset tj) Hj Hv).
        exists t0.
        assert (Hlk : ∀ h, pmap_tlbs
                  (upd_ti 0 (set_lock false (set_lock true t0))
                     (set_hw h (upd_ti 0 (set_lock true t0) s))) !! 0%nat
                = Some t0).
        { intros h. st_simpl. rewrite list_insert_insert_eq, E.
          apply list_lookup_insert_eq. by eapply lookup_lt_Some. }
        split; [apply Hlk|]. split; [|done].
        by eapply (tlb_inv_ext cfg [] s _ 0 t0 t0 Hi0); [apply Hlk|..].
      * eapply wp_mono.
        { apply (pai_reset_total cfg _ _ _ p pm Hinv0 Hin Hpm).
          intros Hmp'. congruence. }
        intros [] s1 ->.
        pose proof (pai_reset_inv cfg Hcfg [] _ _ _ p pm Hinv0 Hin Hpm
                      ltac:(intros Hmp'; congruence)) as Hinv1.
        pose proof (inv_lookup _ _ _ _ _ Hinv1) as Hlk1.
        pose proof (pai_reset_ti_fields cfg p (pai_asid pm 0)
                      (set_lock true t0)) as (_ & _ & _ & _ & F4 & _).
        pose proof (tlb_inv_lock cfg [] _ 0 _ false Hinv1) as Hinv2.
        wp_step.
        split.
        { unfold pai_reset_store. st_simpl. by rewrite !length_insert. }
        split.
        { intros q Hq. unfold pai_reset_store. st_simpl.
          by apply lookup_insert_ne. }
        intros j tj Hj Hv.
        apply (Hvis j tj (λ j tj, ∃ tj', _ !! j = Some tj' ∧ _ ∧ _
                                   ∧ ti_kcpuset tj' = ti_kcpuset tj) Hj Hv).
        eexists. split; [solve_lookup|]. split; [exact Hinv2|].
        split; [done|]. cbn [ti_kcpuset set_lock]. by rewrite F4.
    + destruct (inv_unlinked _ _ _ _ _ Hi0 p pm Hpk Hpm Hnin) as [H0 _].
      rewrite H0. rewrite (proj2 (Z.ltb_ge _ _)) by lia. cbn [when].
      wp_steps. split; [st_simpl; by rewrite !length_insert|].
      split; [done|]. intros j tj Hj Hv.
      apply (Hvis j tj (λ j tj, ∃ tj', _ !! j = Some tj' ∧ _ ∧ _
                                 ∧ ti_kcpuset tj' = ti_kcpuset tj) Hj Hv).
      exists t0.
      assert (Hlk : pmap_tlbs
                (upd_ti 0 (set_lock false (set_lock true t0))
                   (upd_ti 0 (set_lock true t0) s)) !! 0%nat = Some t0).
      { st_simpl. rewrite list_insert_insert_eq, E.
        apply list_lookup_insert_eq. by eapply lookup_lt_Some. }
      split; [apply Hlk|]. split; [|done].
      by eapply (tlb_inv_ext cfg [] s _ 0 t0 t0 Hi0); [apply Hlk|..].
Qed.

End ReleaseInv.

Lemma release_all_keeps_inv_witness :
  ∃ s' t1',
    pmap_tlb_asid_release_all cfg_mp cpu0 2%nat
      (ex_mp_store 5 3 [7; 0] TLBINV_ONE (Some 2%nat)) = Some (tt, s')
    ∧ pmap_tlbs s' !! 1%nat = Some t1'
    ∧ tlb_inv cfg_mp [] s' 1 t1' ∧ ti_lock t1' = false
    ∧ pmaps s' !! 1%nat
      = Some (ex_pmap [(1%nat, 1)] {[2%nat; 3%nat]} {[2%nat]}).
Proof.
  destruct (release_all_keeps_inv cfg_mp cfg_mp_ok
              (ex_mp_store 5 3 [7; 0] TLBINV_ONE (Some 2%nat)) cpu0 2%nat
              (ex_pmap [(1%nat, 2)] {[2%nat; 3%nat]} ∅))
    as (s' & Hrun & _ & Hq & Hall).
  - reflexivity.
  - discriminate.
  - intros j tj Hj. destruct j as [|[|j]]; try done; injection Hj as <-.
    + split; [apply ex_mp_inv0|reflexivity].
    + split; [apply ex_mp_inv|reflexivity].
  - cbn. lia.
  - intros _. split; [reflexivity|]. split; [apply ex_mp_disjoint|].
    intros c Hc. exists 1%nat. eexists. split; [reflexivity|exact Hc].
  - destruct (Hall 1%nat (ex_mp_tlb 5 3 [7; 0] TLBINV_ONE (Some 2%nat))
                eq_refl (or_introl (conj eq_refl eq_refl)))
      as (t1' & H1 & H2 & H3 & _).
    exists s', t1'. split; [exact Hrun|]. split; [exact H1|].
    split; [exact H2|]. split; [exact H3|].
    exact (Hq 1%nat ltac:(discriminate)).
Defined.

(** * A shootdown request leaves the TLBs consistent *)

Section BystandersInv.

Context (cfg : config).

(** X21: [pmap_tlb_shootdown_bystanders] takes no ASID from anybody.
    From a store whose TLBs are consistent and not locked it returns; the pmaps and the hardware are
    as they were, and every TLB is consistent again, not locked, and has
    the free count, the hint, the bitmap and the list of pmaps it had: a
    request changes the pending operation and the victim of a TLB, nothing
    else of it. *)
Theorem bystanders_keeps_inv (s : kstate) (ci : cpu_info) (p : pmap_t)
    (pm : pmap) (lti : pmap_tlb_info) :
  pmaps s !! p = Some pm → pmap_tlbs s !! ci_tlb ci = Some lti →
  tlbs_disjoint s → shootdown_ready s p pm →
  pm_onproc pm ⊆ pm_active pm →
  (∀ c, c ∈ pm_active pm →
     ∃ j tj, pmap_tlbs s !! j = Some tj ∧ c ∈ ti_kcpuset tj) →
  (∀ j tj, pmap_tlbs s !! j = Some tj → tlb_inv cfg [] s j tj) →
  ∃ r s',
    pmap_tlb_shootdown_bystanders cfg ci p s = Some (r, s')
    ∧ pmaps s' = pmaps s ∧ hw s' = hw s
    ∧ ∀ j tj, pmap_tlbs s !! j = Some tj →
        ∃ tj', pmap_tlbs s' !! j = Some tj'
          ∧ tlb_inv cfg [] s' j tj' ∧ ti_lock tj' = false
          ∧ ti_asids_free tj' = ti_asids_free tj
          ∧ ti_asid_hint tj' = ti_asid_hint tj
          ∧ ti_asid_bitmap tj' = ti_asid_bitmap tj
          ∧ ti_pais tj' = ti_pais tj
          ∧ ti_kcpuset tj' = ti_kcpuset tj.
Proof.
  intros Hpm Hlti Hdis Hready Hsub Hcov Hall.
  destruct (bystanders_run cfg s ci p pm lti Hpm Hlti Hdis Hready
              Hsub Hcov) as (r & s' & Hrun & Hpms & Hhw & Htl).
  exists r, s'. split; [done|]. split; [done|]. split; [done|].
  intros j tj Hj. destruct (Hready j tj Hj) as (Hl & _).
  pose proof (merge_ti_fields p tj) as (F1 & F2 & F3 & F4 & F5 & F6 & F7).
  specialize (Htl j tj Hj).
  assert (∃ tj', pmap_tlbs s' !! j = Some tj'
            ∧ (tj' = tj ∨ tj' = merge_ti p tj)) as (tj' & Hj' & Hc).
  { destruct (bool_decide _).
    - destruct Htl as [_ Htl]. exists (merge_ti p tj). by split; [|right].
    - exists tj. by split; [|left]. }
  exists tj'. split; [done|].
  split.
  { apply (tlb_inv_ext cfg [] s s' j tj tj' (Hall j tj Hj) Hj' Hpms);
      by destruct Hc as [-> | ->]. }
  destruct Hc as [-> | ->]; [done|]. rewrite F1, F2, F3, F4, F5, F7. done.
Qed.

End BystandersInv.

Lemma bystanders_keeps_inv_witness :
  ∃ s' t1',
    pmap_tlb_shootdown_bystanders cfg_mp cpu0 1%nat ex_shoot_alluser
    = Some (true, s')
    ∧ pmap_tlbs s' !! 1%nat = Some t1' ∧ tlb_inv cfg_mp [] s' 1 t1'
    ∧ ti_pais t1' = [2%nat; 1%nat] ∧ ti_asids_free t1' = 5.
Proof.
  destruct (bystanders_keeps_inv cfg_mp ex_shoot_alluser
              cpu0 1%nat
              (ex_pmap [(1%nat, 1)] {[2%nat; 3%nat]} {[2%nat]})
              (ex_tlb 7 1 [1; 0] [] None {[0%nat; 1%nat]} TLBINV_NOBODY))
    as (r & s' & Hrun & _ & _ & Hall).
  - reflexivity.
  - reflexivity.
  - apply ex_mp_disjoint.
  - intros i ti Hi. destruct i as [|[|i]]; [| |done];
      injection Hi as <-; (split; [reflexivity|]);
      (split; [discriminate|]); intros _ Hx; [|discriminate].
    exfalso. apply Hx. by apply (bool_decide_unpack _).
  - by apply (bool_decide_unpack _).
  - intros c Hc. exists 1%nat, (ex_mp_tlb 5 3 [7; 0] TLBINV_ALLUSER None).
    split; [reflexivity|exact Hc].
  - intros j tj Hj. destruct j as [|[|j]]; try done; injection Hj as <-.
    + apply ex_mp_inv0.
    + apply ex_mp_inv.
  - destruct (Hall 1%nat (ex_mp_tlb 5 3 [7; 0] TLBINV_ALLUSER None) eq_refl)
      as (t1' & H1 & H2 & _ & H4 & _ & _ & H7 & _).
    assert (r = true) as ->.
    { revert Hrun. by vm_compute; intros [= <- _]. }
    exists s', t1'. split; [exact Hrun|]. split; [exact H1|].
    split; [exact H2|]. split; [exact H7|exact H4].
Defined.
